(** * Langfuse seed script and SCIM Users route: a shallow embedding

    The development follows two source files of the repository:

    - [packages/shared/prisma/seed.ts]: the seed orchestrator [main], the
      entity generators ([createObjects], [generatePrompts],
      [generateConfigs], [generateQueues], ...) and the bulk uploader;
    - the SCIM [handler] for [/api/public/scim/Users].

    Modelling conventions.

    - [Math.random()], [v4()]/[randomUUID()], [Date.now()], the ids the
      database generates and the salts of bcrypt are read from an [Oracle]
      (one infinite stream each); a [Cursor] in the state records how many
      values of each stream were consumed.  Every call in the source is one
      read, in the source's evaluation order.
    - A value of [Math.random()] is an exact rational in the interval
      [0, 1); JavaScript numbers that are integers are [Z].
    - The ORM is modelled by its documented behaviour on tables that are
      lists of rows (in storage order): [upsert] looks the row up with its
      [where] filter and creates or updates, [create] appends, and a write
      that would break a primary key or a unique key raises.  The state
      reached before an exception stays (the script uses no transaction).
    - JavaScript builtins and repository helpers that are not part of the
      two files ([bcrypt], [JSON.parse], [toLowerCase], the API-key service,
      ...) are fields of [Builtins]. *)

From Stdlib Require Import Ascii String NArith QArith Qround.
From stdpp Require Import base option gmap strings list pretty.

#[local] Open Scope string_scope.
#[local] Open Scope list_scope.
#[local] Open Scope Z_scope.

(** ** Random numbers *)

(** A result of [Math.random()]: a rational [r] with [0 <= r < 1]. *)
Record Rand01 := mkRand01 {
  rval : Q;
  rval_range : Qle_bool 0 rval && negb (Qle_bool 1 rval) = true
}.

(** [Math.random() > q] and [Math.random() < q]. *)
Definition rand_gt (r : Rand01) (q : Q) : bool := negb (Qle_bool (rval r) q).
Definition rand_lt (r : Rand01) (q : Q) : bool := negb (Qle_bool q (rval r)).

(** [Math.floor(Math.random() * n)]. *)
Definition floor_mul (r : Rand01) (n : Z) : Z := Qfloor (rval r * inject_Z n).

(** ** Enumerations of the database schema *)

Inductive ScoreDataType := NUMERIC | CATEGORICAL | BOOLEAN.
Inductive AnnotationQueueObjectType := TRACE | OBSERVATION.
Inductive Role := OWNER | ADMIN | MEMBER | VIEWER | NONE.
Inductive ObservationType := SPAN | GENERATION | EVENT.

#[global] Instance ScoreDataType_eq_dec : EqDecision ScoreDataType.
Proof. solve_decision. Defined.
#[global] Instance AnnotationQueueObjectType_eq_dec :
  EqDecision AnnotationQueueObjectType.
Proof. solve_decision. Defined.
#[global] Instance Role_eq_dec : EqDecision Role.
Proof. solve_decision. Defined.
#[global] Instance ObservationType_eq_dec : EqDecision ObservationType.
Proof. solve_decision. Defined.

(** ** Objects built in memory by the generators *)

(** [type ConfigCategory = { label: string; value: number }] *)
Record ConfigCategory := mkCategory {
  cat_label : string;
  cat_value : Z
}.

(** An element of the arrays held by [configParams]. *)
Record ConfigParam := mkConfigParam {
  cp_name : string;
  cp_id : string;
  cp_dataType : ScoreDataType;
  cp_categories : option (list ConfigCategory)
}.

(** The columns of [Project] the script reads. *)
Record Project := mkProject {
  pj_id : string;
  pj_name : string;
  pj_orgId : string
}.

(** [Prisma.TraceSessionCreateManyInput] as the script fills it. *)
Record Session := mkSession {
  se_id : string;
  se_projectId : string
}.

(** A string that may be [undefined] (an absent key) is an [option]. *)
Record Trace := mkTrace {
  tr_id : string;
  tr_timestamp : Z;
  tr_createdAt : Z;
  tr_projectId : string;
  tr_name : string;
  tr_metadata_user : string;
  tr_metadata_more : string;
  tr_tags : list (option string);
  tr_userId : option string;
  tr_input : option string;
  tr_output : option string;
  tr_sessionId : option string
}.

(** The three payloads [getGenerationInputOutput] chooses from. *)
Inductive GenerationIO := ImageQuestion | SystemUserChat | RetrievalInput.

Record ModelParameters := mkModelParameters {
  mp_temperature : option string;
  mp_topP : option string;
  mp_maxTokens : option Z
}.

(** The fields a generation has on top of those of every observation. *)
Record GenerationFields := mkGenerationFields {
  gf_completionStartTime : option Z;
  gf_promptId : option string;
  gf_io : GenerationIO;
  gf_model : option string;
  gf_internalModel : option string;
  gf_modelParameters : ModelParameters;
  gf_promptTokens : Z;
  gf_completionTokens : Z;
  gf_totalTokens : Z
}.

(** Spans, generations and events; [ob_endTime] is absent on events and
    [ob_generation] is present on generations only. *)
Record Observation := mkObservation {
  ob_type : ObservationType;
  ob_id : string;
  ob_startTime : Z;
  ob_createdAt : Z;
  ob_endTime : option Z;
  ob_name : string;
  ob_metadata_user : string;
  ob_projectId : string;
  ob_traceId : string;
  ob_parentObservationId : option string;
  ob_generation : option GenerationFields
}.

Record Score := mkScore {
  sc_traceId : string;
  sc_observationId : option string;
  sc_name : string;
  sc_timestamp : Z;
  sc_createdAt : Z;
  sc_source : string;
  sc_projectId : string;
  sc_authorUserId : option string;
  sc_dataType : option ScoreDataType;
  sc_value : option Q;
  sc_stringValue : option string;
  sc_configId : option string;
  sc_metadata : bool
}.

Record Comment := mkComment {
  cm_projectId : string;
  cm_objectId : string;
  cm_objectType : string;
  cm_content : string;
  cm_authorUserId : option string
}.

Record QueueItem := mkQueueItem {
  qi_queueId : string;
  qi_objectId : string;
  qi_objectType : AnnotationQueueObjectType;
  qi_projectId : string
}.

(** The arrays [createObjects] fills by [push]. *)
Record Arrays := mkArrays {
  a_traces : list Trace;
  a_observations : list Observation;
  a_scores : list Score;
  a_sessions : list Session;
  a_events : list Observation;
  a_comments : list Comment;
  a_queueItems : list QueueItem
}.

(** What [createObjects] returns ([configs] is returned empty). *)
Record CreatedObjects := mkCreatedObjects {
  co_traces : list Trace;
  co_observations : list Observation;
  co_scores : list Score;
  co_configs : list ConfigParam;
  co_queueItems : list QueueItem;
  co_sessions : list Session;
  co_events : list Observation;
  co_comments : list Comment
}.

(** ** Rows of the relational database *)

(** Only the columns the two source files name are kept; columns the
    database fills on its own ([createdAt], [updatedAt]) are left out. *)

Record User := mkUser {
  us_id : string;
  us_name : option string;
  us_email : option string;
  us_password : option string;
  us_image : option string
}.

Record Organization := mkOrganization {
  og_id : string;
  og_name : string;
  og_plan : option string
}.

Record OrganizationMembership := mkOrganizationMembership {
  om_id : string;
  om_orgId : string;
  om_userId : string;
  om_role : Role
}.

Record ProjectMembership := mkProjectMembership {
  pm_projectId : string;
  pm_userId : string;
  pm_role : Role;
  pm_orgMembershipId : string
}.

Record Prompt := mkPrompt {
  pr_id : string;
  pr_projectId : string;
  pr_createdBy : string;
  pr_prompt : string;
  pr_name : string;
  pr_version : Z;
  pr_labels : list string;
  pr_tags : list string;
  pr_config : list (string * Q)
}.

Record ApiKey := mkApiKey {
  ak_id : string;
  ak_note : string;
  ak_publicKey : string;
  ak_hashedSecretKey : string;
  ak_displaySecretKey : string;
  ak_scope : string;
  ak_projectId : string
}.

Record ScoreConfig := mkScoreConfig {
  cf_id : string;
  cf_projectId : string;
  cf_name : string;
  cf_dataType : ScoreDataType;
  cf_categories : option (list ConfigCategory);
  cf_isArchived : bool
}.

Record AnnotationQueue := mkAnnotationQueue {
  aq_id : string;
  aq_name : string;
  aq_description : string;
  aq_scoreConfigIds : list string;
  aq_projectId : string
}.

Record CommentRow := mkCommentRow {
  cr_id : string;
  cr_data : Comment
}.

Record AnnotationQueueItemRow := mkAnnotationQueueItemRow {
  qr_id : string;
  qr_data : QueueItem
}.

Record LlmApiKey := mkLlmApiKey {
  lk_id : string;
  lk_projectId : string;
  lk_secretKey : string;
  lk_displaySecretKey : string;
  lk_provider : string;
  lk_adapter : string
}.

Record EvalTemplate := mkEvalTemplate {
  et_id : string;
  et_projectId : string;
  et_name : string;
  et_version : Z;
  et_prompt : string;
  et_model : string;
  et_vars : list string;
  et_provider : string
}.

Record JobConfiguration := mkJobConfiguration {
  jc_id : string;
  jc_evalTemplateId : string;
  jc_projectId : string;
  jc_jobType : string;
  jc_status : string;
  jc_scoreName : string;
  jc_targetObject : string;
  jc_sampling : Z;
  jc_delay : Z
}.

Record Dataset := mkDataset {
  ds_id : string;
  ds_name : string;
  ds_description : option string;
  ds_projectId : string;
  ds_metadata : bool
}.

Record DatasetItem := mkDatasetItem {
  di_id : string;
  di_projectId : string;
  di_datasetId : string;
  di_sourceTraceId : option string;
  di_sourceObservationId : option string;
  di_input : bool;
  di_expectedOutput : bool;
  di_metadata : bool
}.

(** [dr_metadata] is the index into the five-element array of the source. *)
Record DatasetRun := mkDatasetRun {
  dr_id : string;
  dr_projectId : string;
  dr_name : string;
  dr_description : string;
  dr_datasetId : string;
  dr_metadata : nat
}.

Record DatasetRunItem := mkDatasetRunItem {
  ri_id : string;
  ri_projectId : string;
  ri_datasetItemId : string;
  ri_traceId : string;
  ri_observationId : option string;
  ri_datasetRunId : string
}.

Record DashboardWidget := mkDashboardWidget {
  dw_id : string;
  dw_projectId : string;
  dw_name : string;
  dw_description : string;
  dw_view : string;
  dw_chartType : string
}.

(** [da_widgets]: the placements of [definition.widgets], each with its
    own uuid, the widget it shows and its [x] offset. *)
Record Dashboard := mkDashboard {
  da_id : string;
  da_projectId : string;
  da_name : string;
  da_description : string;
  da_widgets : list (string * string * Z)
}.

Record LlmSchema := mkLlmSchema {
  ls_id : string;
  ls_projectId : string;
  ls_name : string;
  ls_description : string
}.

(** The database: one list of rows per table. *)
Record DB := mkDB {
  users : list User;
  organizations : list Organization;
  projects : list Project;
  organizationMemberships : list OrganizationMembership;
  projectMemberships : list ProjectMembership;
  prompts : list Prompt;
  apiKeys : list ApiKey;
  scoreConfigs : list ScoreConfig;
  annotationQueues : list AnnotationQueue;
  traceSessions : list Session;
  comments : list CommentRow;
  annotationQueueItems : list AnnotationQueueItemRow;
  llmApiKeys : list LlmApiKey;
  evalTemplates : list EvalTemplate;
  jobConfigurations : list JobConfiguration;
  datasets : list Dataset;
  datasetItems : list DatasetItem;
  datasetRuns : list DatasetRun;
  datasetRunItems : list DatasetRunItem;
  dashboardWidgets : list DashboardWidget;
  dashboards : list Dashboard;
  llmSchemas : list LlmSchema
}.

Definition emptyDB : DB :=
  mkDB [] [] [] [] [] [] [] [] [] [] [] [] [] [] [] [] [] [] [] [] [] [].

(** A table of the database: how to read it and how to replace it. *)
Record Table (R : Type) := mkTable {
  rows : DB -> list R;
  with_rows : list R -> DB -> DB
}.
Arguments rows {R} _ _.
Arguments with_rows {R} _ _ _.

Definition T_users : Table User :=
  mkTable User users
    (fun l d =>
       mkDB l (organizations d) (projects d) (organizationMemberships d)
         (projectMemberships d) (prompts d) (apiKeys d) (scoreConfigs d)
         (annotationQueues d) (traceSessions d) (comments d)
         (annotationQueueItems d) (llmApiKeys d) (evalTemplates d)
         (jobConfigurations d) (datasets d) (datasetItems d) (datasetRuns d)
         (datasetRunItems d) (dashboardWidgets d) (dashboards d)
         (llmSchemas d)).

Definition T_organizations : Table Organization :=
  mkTable Organization organizations
    (fun l d =>
       mkDB (users d) l (projects d) (organizationMemberships d)
         (projectMemberships d) (prompts d) (apiKeys d) (scoreConfigs d)
         (annotationQueues d) (traceSessions d) (comments d)
         (annotationQueueItems d) (llmApiKeys d) (evalTemplates d)
         (jobConfigurations d) (datasets d) (datasetItems d) (datasetRuns d)
         (datasetRunItems d) (dashboardWidgets d) (dashboards d)
         (llmSchemas d)).

Definition T_projects : Table Project :=
  mkTable Project projects
    (fun l d =>
       mkDB (users d) (organizations d) l (organizationMemberships d)
         (projectMemberships d) (prompts d) (apiKeys d) (scoreConfigs d)
         (annotationQueues d) (traceSessions d) (comments d)
         (annotationQueueItems d) (llmApiKeys d) (evalTemplates d)
         (jobConfigurations d) (datasets d) (datasetItems d) (datasetRuns d)
         (datasetRunItems d) (dashboardWidgets d) (dashboards d)
         (llmSchemas d)).

Definition T_organizationMemberships : Table OrganizationMembership :=
  mkTable OrganizationMembership organizationMemberships
    (fun l d =>
       mkDB (users d) (organizations d) (projects d) l
         (projectMemberships d) (prompts d) (apiKeys d) (scoreConfigs d)
         (annotationQueues d) (traceSessions d) (comments d)
         (annotationQueueItems d) (llmApiKeys d) (evalTemplates d)
         (jobConfigurations d) (datasets d) (datasetItems d) (datasetRuns d)
         (datasetRunItems d) (dashboardWidgets d) (dashboards d)
         (llmSchemas d)).

Definition T_projectMemberships : Table ProjectMembership :=
  mkTable ProjectMembership projectMemberships
    (fun l d =>
       mkDB (users d) (organizations d) (projects d)
         (organizationMemberships d) l (prompts d) (apiKeys d)
         (scoreConfigs d) (annotationQueues d) (traceSessions d)
         (comments d) (annotationQueueItems d) (llmApiKeys d)
         (evalTemplates d) (jobConfigurations d) (datasets d)
         (datasetItems d) (datasetRuns d) (datasetRunItems d)
         (dashboardWidgets d) (dashboards d) (llmSchemas d)).

Definition T_prompts : Table Prompt :=
  mkTable Prompt prompts
    (fun l d =>
       mkDB (users d) (organizations d) (projects d)
         (organizationMemberships d) (projectMemberships d) l (apiKeys d)
         (scoreConfigs d) (annotationQueues d) (traceSessions d)
         (comments d) (annotationQueueItems d) (llmApiKeys d)
         (evalTemplates d) (jobConfigurations d) (datasets d)
         (datasetItems d) (datasetRuns d) (datasetRunItems d)
         (dashboardWidgets d) (dashboards d) (llmSchemas d)).

Definition T_apiKeys : Table ApiKey :=
  mkTable ApiKey apiKeys
    (fun l d =>
       mkDB (users d) (organizations d) (projects d)
         (organizationMemberships d) (projectMemberships d) (prompts d) l
         (scoreConfigs d) (annotationQueues d) (traceSessions d)
         (comments d) (annotationQueueItems d) (llmApiKeys d)
         (evalTemplates d) (jobConfigurations d) (datasets d)
         (datasetItems d) (datasetRuns d) (datasetRunItems d)
         (dashboardWidgets d) (dashboards d) (llmSchemas d)).

Definition T_scoreConfigs : Table ScoreConfig :=
  mkTable ScoreConfig scoreConfigs
    (fun l d =>
       mkDB (users d) (organizations d) (projects d)
         (organizationMemberships d) (projectMemberships d) (prompts d)
         (apiKeys d) l (annotationQueues d) (traceSessions d) (comments d)
         (annotationQueueItems d) (llmApiKeys d) (evalTemplates d)
         (jobConfigurations d) (datasets d) (datasetItems d) (datasetRuns d)
         (datasetRunItems d) (dashboardWidgets d) (dashboards d)
         (llmSchemas d)).

Definition T_annotationQueues : Table AnnotationQueue :=
  mkTable AnnotationQueue annotationQueues
    (fun l d =>
       mkDB (users d) (organizations d) (projects d)
         (organizationMemberships d) (projectMemberships d) (prompts d)
         (apiKeys d) (scoreConfigs d) l (traceSessions d) (comments d)
         (annotationQueueItems d) (llmApiKeys d) (evalTemplates d)
         (jobConfigurations d) (datasets d) (datasetItems d) (datasetRuns d)
         (datasetRunItems d) (dashboardWidgets d) (dashboards d)
         (llmSchemas d)).

Definition T_traceSessions : Table Session :=
  mkTable Session traceSessions
    (fun l d =>
       mkDB (users d) (organizations d) (projects d)
         (organizationMemberships d) (projectMemberships d) (prompts d)
         (apiKeys d) (scoreConfigs d) (annotationQueues d) l (comments d)
         (annotationQueueItems d) (llmApiKeys d) (evalTemplates d)
         (jobConfigurations d) (datasets d) (datasetItems d) (datasetRuns d)
         (datasetRunItems d) (dashboardWidgets d) (dashboards d)
         (llmSchemas d)).

Definition T_comments : Table CommentRow :=
  mkTable CommentRow comments
    (fun l d =>
       mkDB (users d) (organizations d) (projects d)
         (organizationMemberships d) (projectMemberships d) (prompts d)
         (apiKeys d) (scoreConfigs d) (annotationQueues d) (traceSessions d)
         l (annotationQueueItems d) (llmApiKeys d) (evalTemplates d)
         (jobConfigurations d) (datasets d) (datasetItems d) (datasetRuns d)
         (datasetRunItems d) (dashboardWidgets d) (dashboards d)
         (llmSchemas d)).

Definition T_annotationQueueItems : Table AnnotationQueueItemRow :=
  mkTable AnnotationQueueItemRow annotationQueueItems
    (fun l d =>
       mkDB (users d) (organizations d) (projects d)
         (organizationMemberships d) (projectMemberships d) (prompts d)
         (apiKeys d) (scoreConfigs d) (annotationQueues d) (traceSessions d)
         (comments d) l (llmApiKeys d) (evalTemplates d)
         (jobConfigurations d) (datasets d) (datasetItems d) (datasetRuns d)
         (datasetRunItems d) (dashboardWidgets d) (dashboards d)
         (llmSchemas d)).

Definition T_llmApiKeys : Table LlmApiKey :=
  mkTable LlmApiKey llmApiKeys
    (fun l d =>
       mkDB (users d) (organizations d) (projects d)
         (organizationMemberships d) (projectMemberships d) (prompts d)
         (apiKeys d) (scoreConfigs d) (annotationQueues d) (traceSessions d)
         (comments d) (annotationQueueItems d) l (evalTemplates d)
         (jobConfigurations d) (datasets d) (datasetItems d) (datasetRuns d)
         (datasetRunItems d) (dashboardWidgets d) (dashboards d)
         (llmSchemas d)).

Definition T_evalTemplates : Table EvalTemplate :=
  mkTable EvalTemplate evalTemplates
    (fun l d =>
       mkDB (users d) (organizations d) (projects d)
         (organizationMemberships d) (projectMemberships d) (prompts d)
         (apiKeys d) (scoreConfigs d) (annotationQueues d) (traceSessions d)
         (comments d) (annotationQueueItems d) (llmApiKeys d) l
         (jobConfigurations d) (datasets d) (datasetItems d) (datasetRuns d)
         (datasetRunItems d) (dashboardWidgets d) (dashboards d)
         (llmSchemas d)).

Definition T_jobConfigurations : Table JobConfiguration :=
  mkTable JobConfiguration jobConfigurations
    (fun l d =>
       mkDB (users d) (organizations d) (projects d)
         (organizationMemberships d) (projectMemberships d) (prompts d)
         (apiKeys d) (scoreConfigs d) (annotationQueues d) (traceSessions d)
         (comments d) (annotationQueueItems d) (llmApiKeys d)
         (evalTemplates d) l (datasets d) (datasetItems d) (datasetRuns d)
         (datasetRunItems d) (dashboardWidgets d) (dashboards d)
         (llmSchemas d)).

Definition T_datasets : Table Dataset :=
  mkTable Dataset datasets
    (fun l d =>
       mkDB (users d) (organizations d) (projects d)
         (organizationMemberships d) (projectMemberships d) (prompts d)
         (apiKeys d) (scoreConfigs d) (annotationQueues d) (traceSessions d)
         (comments d) (annotationQueueItems d) (llmApiKeys d)
         (evalTemplates d) (jobConfigurations d) l (datasetItems d)
         (datasetRuns d) (datasetRunItems d) (dashboardWidgets d)
         (dashboards d) (llmSchemas d)).

Definition T_datasetItems : Table DatasetItem :=
  mkTable DatasetItem datasetItems
    (fun l d =>
       mkDB (users d) (organizations d) (projects d)
         (organizationMemberships d) (projectMemberships d) (prompts d)
         (apiKeys d) (scoreConfigs d) (annotationQueues d) (traceSessions d)
         (comments d) (annotationQueueItems d) (llmApiKeys d)
         (evalTemplates d) (jobConfigurations d) (datasets d) l
         (datasetRuns d) (datasetRunItems d) (dashboardWidgets d)
         (dashboards d) (llmSchemas d)).

Definition T_datasetRuns : Table DatasetRun :=
  mkTable DatasetRun datasetRuns
    (fun l d =>
       mkDB (users d) (organizations d) (projects d)
         (organizationMemberships d) (projectMemberships d) (prompts d)
         (apiKeys d) (scoreConfigs d) (annotationQueues d) (traceSessions d)
         (comments d) (annotationQueueItems d) (llmApiKeys d)
         (evalTemplates d) (jobConfigurations d) (datasets d)
         (datasetItems d) l (datasetRunItems d) (dashboardWidgets d)
         (dashboards d) (llmSchemas d)).

Definition T_datasetRunItems : Table DatasetRunItem :=
  mkTable DatasetRunItem datasetRunItems
    (fun l d =>
       mkDB (users d) (organizations d) (projects d)
         (organizationMemberships d) (projectMemberships d) (prompts d)
         (apiKeys d) (scoreConfigs d) (annotationQueues d) (traceSessions d)
         (comments d) (annotationQueueItems d) (llmApiKeys d)
         (evalTemplates d) (jobConfigurations d) (datasets d)
         (datasetItems d) (datasetRuns d) l (dashboardWidgets d)
         (dashboards d) (llmSchemas d)).

Definition T_dashboardWidgets : Table DashboardWidget :=
  mkTable DashboardWidget dashboardWidgets
    (fun l d =>
       mkDB (users d) (organizations d) (projects d)
         (organizationMemberships d) (projectMemberships d) (prompts d)
         (apiKeys d) (scoreConfigs d) (annotationQueues d) (traceSessions d)
         (comments d) (annotationQueueItems d) (llmApiKeys d)
         (evalTemplates d) (jobConfigurations d) (datasets d)
         (datasetItems d) (datasetRuns d) (datasetRunItems d) l
         (dashboards d) (llmSchemas d)).

Definition T_dashboards : Table Dashboard :=
  mkTable Dashboard dashboards
    (fun l d =>
       mkDB (users d) (organizations d) (projects d)
         (organizationMemberships d) (projectMemberships d) (prompts d)
         (apiKeys d) (scoreConfigs d) (annotationQueues d) (traceSessions d)
         (comments d) (annotationQueueItems d) (llmApiKeys d)
         (evalTemplates d) (jobConfigurations d) (datasets d)
         (datasetItems d) (datasetRuns d) (datasetRunItems d)
         (dashboardWidgets d) l (llmSchemas d)).

Definition T_llmSchemas : Table LlmSchema :=
  mkTable LlmSchema llmSchemas
    (fun l d =>
       mkDB (users d) (organizations d) (projects d)
         (organizationMemberships d) (projectMemberships d) (prompts d)
         (apiKeys d) (scoreConfigs d) (annotationQueues d) (traceSessions d)
         (comments d) (annotationQueueItems d) (llmApiKeys d)
         (evalTemplates d) (jobConfigurations d) (datasets d)
         (datasetItems d) (datasetRuns d) (datasetRunItems d)
         (dashboardWidgets d) (dashboards d) l).

(** [a === b] on strings. *)
Notation "a === b" := (String.eqb a b) (at level 70, no associativity).

(** [o === s] where [o] may be [undefined] or [null]. *)
Definition is_string (o : option string) (s : string) : bool :=
  match o with
  | Some x => x === s
  | None => false
  end.

(** ** The world: database, oracle cursor, log *)

(** The streams the program reads from its surroundings. *)
Record Oracle := mkOracle {
  Math_random : nat -> Rand01;
  uuid_v4 : nat -> string;
  Date_now : nat -> Z;
  db_cuid : nat -> string;
  bcrypt_salt : nat -> string
}.

Record Cursor := mkCursor {
  c_random : nat;
  c_uuid : nat;
  c_now : nat;
  c_cuid : nat;
  c_salt : nat
}.

Record World := mkWorld {
  w_db : DB;
  w_cur : Cursor;
  w_log : list string
}.

Inductive Exn :=
| TypeError (msg : string)
| SyntaxError (msg : string)
| UniqueConstraintViolation (model : string)
| ValidationError (msg : string).

Inductive Res (A : Type) :=
| Ok (a : A)
| Throw (e : Exn).
Arguments Ok {A} _.
Arguments Throw {A} _.

(** A computation: it reads and writes the world and returns or raises. *)
Definition M (A : Type) : Type := World -> Res A * World.

Definition ret {A} (a : A) : M A := fun w => (Ok a, w).

Definition bind {A B} (m : M A) (k : A -> M B) : M B :=
  fun w => match m w with
           | (Ok a, w') => k a w'
           | (Throw e, w') => (Throw e, w')
           end.

Definition throw {A} (e : Exn) : M A := fun w => (Throw e, w).

(** [try { m } catch (error) { h }] *)
Definition try_catch {A} (m : M A) (h : Exn -> M A) : M A :=
  fun w => match m w with
           | (Ok a, w') => (Ok a, w')
           | (Throw e, w') => h e w'
           end.

Notation "x <- m ;; k" := (bind m (fun x => k))
  (at level 100, m at next level, right associativity,
   format "'[v' x  <-  m ;;  '/' k ']'").
Notation "m ;;; k" := (bind m (fun _ => k))
  (at level 100, right associativity,
   format "'[v' m ;;;  '/' k ']'").

Definition get_db : M DB := fun w => (Ok (w_db w), w).

Definition put_db (d : DB) : M unit :=
  fun w => (Ok tt, mkWorld d (w_cur w) (w_log w)).

(** [logger.info], [logger.warn] and [logger.error]: one line each. *)
Definition logger (line : string) : M unit :=
  fun w => (Ok tt, mkWorld (w_db w) (w_cur w) (w_log w ++ [line])).

(** [for (let i = from; i < from + n; i++) body], the state passed along. *)
Fixpoint for_range {St} (n : nat) (i : nat) (body : nat -> St -> M St)
    (s : St) : M St :=
  match n with
  | O => ret s
  | S n' => s' <- body i s ;; for_range n' (S i) body s'
  end.

(** [for (const x of xs) body]. *)
Fixpoint for_of {A St} (xs : list A) (body : A -> St -> M St) (s : St)
  : M St :=
  match xs with
  | [] => ret s
  | x :: xs' => s' <- body x s ;; for_of xs' body s'
  end.

(** JavaScript builtins and helpers of the repository that the seed script
    calls and does not define.  The hashing helpers take the salt (or the
    initialisation vector) they would draw as an argument. *)
Record Builtins := mkBuiltins {
  Math_pow : Q -> Q -> Q;
  toFixed : Q -> Z -> string;
  Number_toString : Q -> string;
  bcrypt_hash : string -> Z -> string -> string;
  hashSecretKey : string -> string -> string;
  getDisplaySecretKey : string -> string;
  encrypt : string -> string -> string
}.

(** [process.env] as the script reads it. *)
Record ProcessEnv := mkProcessEnv {
  SEED_SECRET_KEY : option string;
  OPENAI_API_KEY : option string
}.

Section Program.

Variable B : Builtins.

Variable orc : Oracle.

Definition random : M Rand01 :=
  fun w => let c := w_cur w in
    (Ok (Math_random orc (c_random c)),
     mkWorld (w_db w)
       (mkCursor (S (c_random c)) (c_uuid c) (c_now c) (c_cuid c) (c_salt c))
       (w_log w)).

Definition v4 : M string :=
  fun w => let c := w_cur w in
    (Ok (uuid_v4 orc (c_uuid c)),
     mkWorld (w_db w)
       (mkCursor (c_random c) (S (c_uuid c)) (c_now c) (c_cuid c) (c_salt c))
       (w_log w)).

Definition now : M Z :=
  fun w => let c := w_cur w in
    (Ok (Date_now orc (c_now c)),
     mkWorld (w_db w)
       (mkCursor (c_random c) (c_uuid c) (S (c_now c)) (c_cuid c) (c_salt c))
       (w_log w)).

Definition cuid : M string :=
  fun w => let c := w_cur w in
    (Ok (db_cuid orc (c_cuid c)),
     mkWorld (w_db w)
       (mkCursor (c_random c) (c_uuid c) (c_now c) (S (c_cuid c)) (c_salt c))
       (w_log w)).

Definition salt : M string :=
  fun w => let c := w_cur w in
    (Ok (bcrypt_salt orc (c_salt c)),
     mkWorld (w_db w)
       (mkCursor (c_random c) (c_uuid c) (c_now c) (c_cuid c) (S (c_salt c)))
       (w_log w)).

(** [for (let j = from; j < bound(Math.random()); j++) body]: the bound is
    drawn anew before every iteration.  [fuel] is the largest value the
    bound can take minus [from]; once it is used up the test has
    been drawn and is false (see [floor_mul_bound]). *)
Fixpoint for_random {St} (fuel : nat) (j : nat) (bound : Rand01 -> Z)
    (body : nat -> St -> M St) (s : St) : M St :=
  r <- random ;;
  if Z.of_nat j <? bound r then
    match fuel with
    | O => ret s
    | S fuel' => s' <- body j s ;; for_random fuel' (S j) bound body s'
    end
  else ret s.

(** ** JavaScript helpers *)

(** [xs[i]] for a number [i]: [undefined] ([None]) out of range. *)
Definition index {A} (xs : list A) (i : Z) : option A :=
  if i <? 0 then None else xs !! Z.to_nat i.

(** A string used as a condition: the empty string is falsy. *)
Definition truthy (s : string) : bool := negb (String.eqb s "").

(** [[a, b].filter((tag) => tag !== null)] on elements read by index from
    an array of [string | null]: [Some None] is [null] and is dropped, [None]
    is [undefined] and stays. *)
Definition filter_not_null (xs : list (option (option string)))
  : list (option string) :=
  flat_map (fun x => match x with
                     | Some None => []
                     | Some (Some tag) => [Some tag]
                     | None => [None]
                     end) xs.

(** *** [JSON.stringify] and [JSON.parse] on session objects *)

Definition dquote : ascii := "034"%char.
Definition backslash : ascii := "092"%char.

Definition hex_digit (n : N) : ascii :=
  if (n <? 10)%N then ascii_of_N (48 + n) else ascii_of_N (87 + n).

Definition hex_value (c : ascii) : option N :=
  let n := N_of_ascii c in
  if (48 <=? n)%N && (n <=? 57)%N then Some (n - 48)%N
  else if (97 <=? n)%N && (n <=? 102)%N then Some (n - 87)%N
  else if (65 <=? n)%N && (n <=? 70)%N then Some (n - 55)%N
  else None.

(** How [JSON.stringify] writes one character inside a string. *)
Definition json_escape_char (c : ascii) : string :=
  let n := N_of_ascii c in
  if (n =? 34)%N then String backslash (String dquote "")
  else if (n =? 92)%N then String backslash (String backslash "")
  else if (n =? 8)%N then String backslash "b"
  else if (n =? 12)%N then String backslash "f"
  else if (n =? 10)%N then String backslash "n"
  else if (n =? 13)%N then String backslash "r"
  else if (n =? 9)%N then String backslash "t"
  else if (n <? 32)%N then
    String backslash
      (String "u" (String "0" (String "0"
        (String (hex_digit (n / 16)) (String (hex_digit (n mod 16)) "")))))
  else String c "".

Fixpoint json_escape (s : string) : string :=
  match s with
  | EmptyString => ""
  | String c rest => json_escape_char c +:+ json_escape rest
  end.

Definition json_quote (s : string) : string :=
  String dquote (json_escape s +:+ String dquote "").

(** [JSON.stringify({ id, projectId })] *)
Definition JSON_stringify_session (x : Session) : string :=
  "{" +:+ json_quote "id" +:+ ":" +:+ json_quote (se_id x) +:+ ","
  +:+ json_quote "projectId" +:+ ":" +:+ json_quote (se_projectId x) +:+ "}".

(** Reads the characters of a JSON string up to its closing quote. *)
Fixpoint json_read_string (s : string) : option (string * string) :=
  match s with
  | EmptyString => None
  | String c rest =>
      if Ascii.eqb c dquote then Some ("", rest)
      else if Ascii.eqb c backslash then
        match rest with
        | String e rest1 =>
            if Ascii.eqb e "u" then
              match rest1 with
              | String h1 (String h2 (String h3 (String h4 rest2))) =>
                  match hex_value h1, hex_value h2, hex_value h3, hex_value h4
                  with
                  | Some 0%N, Some 0%N, Some a, Some b =>
                      match json_read_string rest2 with
                      | Some (t, r) =>
                          Some (String (ascii_of_N (16 * a + b)) t, r)
                      | None => None
                      end
                  | _, _, _, _ => None
                  end
              | _ => None
              end
            else
              let decoded :=
                if Ascii.eqb e dquote then Some dquote
                else if Ascii.eqb e backslash then Some backslash
                else if Ascii.eqb e "b" then Some "008"%char
                else if Ascii.eqb e "f" then Some "012"%char
                else if Ascii.eqb e "n" then Some "010"%char
                else if Ascii.eqb e "r" then Some "013"%char
                else if Ascii.eqb e "t" then Some "009"%char
                else None in
              match decoded, json_read_string rest1 with
              | Some d, Some (t, r) => Some (String d t, r)
              | _, _ => None
              end
        | EmptyString => None
        end
      else
        match json_read_string rest with
        | Some (t, r) => Some (String c t, r)
        | None => None
        end
  end.

(** Drops [p] from the front of [s]. *)
Fixpoint strip_prefix (p s : string) : option string :=
  match p, s with
  | EmptyString, _ => Some s
  | String a p', String b s' =>
      if Ascii.eqb a b then strip_prefix p' s' else None
  | String _ _, EmptyString => None
  end.

(** [JSON.parse] on the texts [JSON_stringify_session] writes. *)
Definition JSON_parse_session (s : string) : option Session :=
  s1 ← strip_prefix ("{" +:+ json_quote "id" +:+ ":" +:+ String dquote "") s;
  p1 ← json_read_string s1;
  s2 ← strip_prefix
         ("," +:+ json_quote "projectId" +:+ ":" +:+ String dquote "") p1.2;
  p2 ← json_read_string s2;
  if String.eqb p2.2 "}" then Some (mkSession p1.1 p2.1) else None.

(** [new Set(xs)] then [Array.from]: the distinct strings in the order of
    their first occurrence. *)
Fixpoint set_from (seen : list string) (xs : list string) : list string :=
  match xs with
  | [] => seen
  | x :: xs' =>
      if existsb (String.eqb x) seen then set_from seen xs'
      else set_from (seen ++ [x])%list xs'
  end.

(** [Array.from(new Set(sessions.map(JSON.stringify))).map(JSON.parse)] *)
Definition uniqueSessions (sessions : list Session) : list Session :=
  omap JSON_parse_session (set_from [] (map JSON_stringify_session sessions)).

(** ** [createObjects] *)

Definition push_trace (x : Trace) (a : Arrays) : Arrays :=
  mkArrays (a_traces a ++ [x]) (a_observations a) (a_scores a)
    (a_sessions a) (a_events a) (a_comments a) (a_queueItems a).

Definition push_observation (x : Observation) (a : Arrays) : Arrays :=
  mkArrays (a_traces a) (a_observations a ++ [x]) (a_scores a)
    (a_sessions a) (a_events a) (a_comments a) (a_queueItems a).

Definition push_scores (xs : list Score) (a : Arrays) : Arrays :=
  mkArrays (a_traces a) (a_observations a) (a_scores a ++ xs)
    (a_sessions a) (a_events a) (a_comments a) (a_queueItems a).

Definition push_session (x : Session) (a : Arrays) : Arrays :=
  mkArrays (a_traces a) (a_observations a) (a_scores a)
    (a_sessions a ++ [x]) (a_events a) (a_comments a) (a_queueItems a).

Definition push_event (x : Observation) (a : Arrays) : Arrays :=
  mkArrays (a_traces a) (a_observations a) (a_scores a)
    (a_sessions a) (a_events a ++ [x]) (a_comments a) (a_queueItems a).

Definition push_comment (x : Comment) (a : Arrays) : Arrays :=
  mkArrays (a_traces a) (a_observations a) (a_scores a)
    (a_sessions a) (a_events a) (a_comments a ++ [x]) (a_queueItems a).

Definition push_queueItems (xs : list QueueItem) (a : Arrays) : Arrays :=
  mkArrays (a_traces a) (a_observations a) (a_scores a)
    (a_sessions a) (a_events a) (a_comments a) (a_queueItems a ++ xs).

Definition models : list string :=
  ["gpt-3.5-turbo"; "gpt-4"; "gpt-4-32k-0613"; "gpt-3.5-turbo-16k-0613";
   "claude-instant-1"; "claude-2.1"; "gpt-4-vision-preview"; "MIXTRAL-8X7B"].

Definition getGenerationInputOutput : M GenerationIO :=
  r <- random ;;
  if rand_gt r (9 # 10) then ret ImageQuestion
  else
    r' <- random ;;
    ret (if rand_gt r' (1 # 2) then SystemUserChat else RetrievalInput).

(** [categories?.find((category) => category.value === value)?.label] *)
Definition category_label (categories : option (list ConfigCategory))
    (value : Z) : option string :=
  match categories with
  | None => None
  | Some cs => cat_label <$> find (fun c => cat_value c =? value) cs
  end.

(** [scoreNumericAndStringValue]: the [value] and the [stringValue] keys
    spread into the annotation score. *)
Definition scoreNumericAndStringValue (dataType : ScoreDataType)
    (categories : option (list ConfigCategory)) (value : Z)
  : option Q * option string :=
  match dataType with
  | NUMERIC => (Some (inject_Z value), None)
  | CATEGORICAL => (Some (inject_Z value), category_label categories value)
  | BOOLEAN =>
      (Some (inject_Z value), Some (if value =? 1 then "True" else "False"))
  end.

(** The body of the innermost loop (over [l]): one event. *)
Definition createEvent (i j k : nat) (trace : Trace)
    (spanId : string) (spanTsStart spanTsEnd : Z)
    (l : nat) (a : Arrays) : M Arrays :=
  r <- random ;;
  let eventTs := spanTsStart + floor_mul r (spanTsEnd - spanTsStart) in
  u <- v4 ;;
  ret (push_event
         {| ob_type := EVENT;
            ob_id := "event-" +:+ u;
            ob_startTime := eventTs;
            ob_createdAt := eventTs;
            ob_endTime := None;
            ob_name := "event-" +:+ pretty i +:+ "-" +:+ pretty j +:+ "-"
                       +:+ pretty k +:+ "-" +:+ pretty l;
            ob_metadata_user := "user-" +:+ pretty i +:+ "@langfuse.com";
            ob_projectId := tr_projectId trace;
            ob_traceId := tr_id trace;
            ob_parentObservationId := Some spanId;
            ob_generation := None |} a).

(** [Math.random() > 0.9 ? undefined : f(Math.random())] *)
Definition optional_parameter {A} (f : Rand01 -> A) : M (option A) :=
  r <- random ;;
  if rand_gt r (9 # 10) then ret None
  else r' <- random ;; ret (Some (f r')).

(** The body of the loop over [k]: one generation, its scores, its comment
    and its events. *)
Definition createGeneration (i j : nat) (trace : Trace) (traceTs : Z)
    (projectId : string) (promptIds : gmap string (list string))
    (spanId : string) (spanTsStart spanTsEnd : Z)
    (k : nat) (a : Arrays) : M Arrays :=
  r1 <- random ;;
  let generationTsStart :=
    spanTsStart + floor_mul r1 (spanTsEnd - spanTsStart) in
  r2 <- random ;;
  let generationTsEnd :=
    generationTsStart + floor_mul r2 (spanTsEnd - generationTsStart) in
  let generationTsCompletionStart :=
    generationTsStart + (generationTsEnd - generationTsStart) / 3 in
  r3 <- random ;;
  let promptTokens := floor_mul r3 1000 + 300 in
  r4 <- random ;;
  let completionTokens := floor_mul r4 500 + 100 in
  r5 <- random ;;
  let model := index models (floor_mul r5 (Z.of_nat (length models))) in
  r6 <- random ;;
  promptId <- match promptIds !! projectId with
              | Some ids =>
                  ret (index ids (floor_mul r6 (Z.of_nat (length ids) / 2)))
              | None =>
                  throw (TypeError
                           "Cannot read properties of undefined (reading 'length')")
              end ;;
  io <- getGenerationInputOutput ;;
  u <- v4 ;;
  r7 <- random ;;
  temperature <- optional_parameter (fun r => toFixed B (rval r) 2) ;;
  topP <- optional_parameter (fun r => toFixed B (rval r) 2) ;;
  maxTokens <- optional_parameter (fun r => floor_mul r 1000) ;;
  (* [...(Math.random() > 0.5 ? { promptId: promptId } : {})]: one more
     draw; the key is written with the value it already has *)
  r8 <- random ;;
  let generation :=
    {| ob_type := GENERATION;
       ob_id := "generation-" +:+ u;
       ob_startTime := generationTsStart;
       ob_createdAt := generationTsStart;
       ob_endTime := Some generationTsEnd;
       ob_name := "generation-" +:+ pretty i +:+ "-" +:+ pretty j +:+ "-"
                  +:+ pretty k;
       ob_metadata_user := "user-" +:+ pretty i +:+ "@langfuse.com";
       ob_projectId := tr_projectId trace;
       ob_traceId := tr_id trace;
       ob_parentObservationId := Some spanId;
       ob_generation :=
         Some {| gf_completionStartTime :=
                   if rand_gt r7 (1 # 2)
                   then Some generationTsCompletionStart else None;
                 gf_promptId := promptId;
                 gf_io := io;
                 gf_model := model;
                 gf_internalModel := model;
                 gf_modelParameters :=
                   mkModelParameters temperature topP maxTokens;
                 gf_promptTokens := promptTokens;
                 gf_completionTokens := completionTokens;
                 gf_totalTokens := promptTokens + completionTokens |} |} in
  let a := push_observation generation a in
  let apiScore (name : string) (r : Rand01) :=
    {| sc_traceId := tr_id trace;
       sc_observationId := Some (ob_id generation);
       sc_name := name;
       sc_timestamp := generationTsEnd;
       sc_createdAt := traceTs;
       sc_source := "API";
       sc_projectId := tr_projectId trace;
       sc_authorUserId := None;
       sc_dataType := None;
       sc_value := Some (rval r * 2 - 1)%Q;
       sc_stringValue := None;
       sc_configId := None;
       sc_metadata := false |} in
  r9 <- random ;;
  a <- (if rand_gt r9 (6 # 10)
        then r <- random ;; ret (push_scores [apiScore "quality" r] a)
        else ret a) ;;
  r10 <- random ;;
  a <- (if rand_gt r10 (6 # 10)
        then r <- random ;; ret (push_scores [apiScore "conciseness" r] a)
        else ret a) ;;
  r11 <- random ;;
  let a :=
    if rand_gt r11 (8 # 10)
    then push_comment
           {| cm_projectId := tr_projectId trace;
              cm_objectId := ob_id generation;
              cm_objectType := "OBSERVATION";
              cm_content := "Observation comment content";
              cm_authorUserId := None |} a
    else a in
  for_random 1 0 (fun r => floor_mul r 2)
    (createEvent i j k trace spanId spanTsStart spanTsEnd) a.

(** The body of the loop over [j]: one span and its generations.  The
    state is the arrays together with [existingSpanIds]. *)
Definition createSpan (i : nat) (trace : Trace) (traceTs : Z)
    (projectId : string) (promptIds : gmap string (list string))
    (j : nat) (s : Arrays * list string) : M (Arrays * list string) :=
  let a := fst s in
  let existingSpanIds := snd s in
  r1 <- random ;;
  let spanTsStart := traceTs + floor_mul r1 30 in
  r2 <- random ;;
  let spanTsEnd := spanTsStart + floor_mul r2 5000 in
  u <- v4 ;;
  parentObservationId <-
    (if (length existingSpanIds =? 0)%nat then ret None
     else
       r <- random ;;
       if rand_gt r (1 # 2) then ret None
       else
         r' <- random ;;
         ret (index existingSpanIds
                (floor_mul r' (Z.of_nat (length existingSpanIds))))) ;;
  let span :=
    {| ob_type := SPAN;
       ob_id := "span-" +:+ u;
       ob_startTime := spanTsStart;
       ob_createdAt := spanTsStart;
       ob_endTime := Some spanTsEnd;
       ob_name := "span-" +:+ pretty i +:+ "-" +:+ pretty j;
       ob_metadata_user := "user-" +:+ pretty i +:+ "@langfuse.com";
       ob_projectId := tr_projectId trace;
       ob_traceId := tr_id trace;
       ob_parentObservationId := parentObservationId;
       ob_generation := None |} in
  let a := push_observation span a in
  let existingSpanIds := (existingSpanIds ++ [ob_id span])%list in
  a <- for_random 2 0 (fun r => floor_mul r 2 + 1)
         (createGeneration i j trace traceTs projectId promptIds
            (ob_id span) spanTsStart spanTsEnd) a ;;
  ret (a, existingSpanIds).

(** The body of the loop over [i]: one trace with its session, scores,
    queue item, comment and spans. *)
Definition createTrace (envTags colorTags : list (option string))
    (project1 project2 : Project)
    (promptIds queueIds : gmap string (list string))
    (configParams : gmap string (list ConfigParam))
    (i : nat) (a : Arrays) : M Arrays :=
  t <- now ;;
  r0 <- random ;;
  let traceTs :=
    t - Qfloor (Math_pow B (rval r0) (3 # 2) * 90 * 24 * 60 * 60 * 1000)%Q in
  r1 <- random ;;
  let envTag := index envTags (floor_mul r1 (Z.of_nat (length envTags))) in
  r2 <- random ;;
  let colorTag :=
    index colorTags (floor_mul r2 (Z.of_nat (length colorTags))) in
  let tags := filter_not_null [envTag; colorTag] in
  let projectId := nth (i mod 2) [pj_id project1; pj_id project2] "" in
  r3 <- random ;;
  let session :=
    if rand_gt r3 (3 # 10)
    then Some (mkSession ("session-" +:+ pretty (i mod 3)%nat) projectId)
    else None in
  let a := match session with
           | Some x => push_session x a
           | None => a
           end in
  u <- v4 ;;
  r4 <- random ;;
  r5 <- random ;;
  r6 <- random ;;
  let trace :=
    {| tr_id := "trace-" +:+ u;
       tr_timestamp := traceTs;
       tr_createdAt := traceTs;
       tr_projectId := projectId;
       tr_name := nth (i mod 3)
                    ["generate-outreach"; "label-inbound"; "draft-response"]
                    "";
       tr_metadata_user := "user-" +:+ pretty i +:+ "@langfuse.com";
       tr_metadata_more := "1,2,3;4?6";
       tr_tags := tags;
       tr_userId :=
         if rand_gt r4 (3 # 10)
         then Some ("user-" +:+ pretty (i mod 60)%nat) else None;
       tr_input :=
         if rand_gt r5 (3 # 10)
         then Some "I'm looking for a React component" else None;
       tr_output :=
         if rand_gt r6 (3 # 10)
         then Some "What kind of component are you looking for?" else None;
       tr_sessionId := se_id <$> session |} in
  let a := push_trace trace a in
  let configArray := default [] (configParams !! projectId) in
  r7 <- random ;;
  let randomIndex := floor_mul r7 3 in
  (* [configArray.length >= randomIndex - 1 && configArray[randomIndex]] *)
  let config :=
    if Z.of_nat (length configArray) >=? randomIndex - 1
    then index configArray randomIndex else None in
  (* [config || { name: "manual-score", id: undefined, ... }] *)
  let annotationScoreName := from_option cp_name "manual-score" config in
  let configId := cp_id <$> config in
  let dataType := from_option cp_dataType NUMERIC config in
  let categories := config ≫= cp_categories in
  r8 <- random ;;
  let value := floor_mul r8 2 in
  let numericAndString :=
    scoreNumericAndStringValue dataType categories value in
  r9 <- random ;;
  let queueItem :=
    if rand_gt r9 (9 # 10) then
      match queueIds !! projectId ≫= head with
      | Some queueId =>
          if truthy queueId then
            [ {| qi_queueId := queueId;
                 qi_objectId := tr_id trace;
                 qi_objectType := TRACE;
                 qi_projectId := projectId |} ]
          else []
      | None => []
      end
    else [] in
  let a := push_queueItems queueItem a in
  r10 <- random ;;
  let annotation :=
    if rand_gt r10 (1 # 2) then
      [ {| sc_traceId := tr_id trace;
           sc_observationId := None;
           sc_name := annotationScoreName;
           sc_timestamp := traceTs;
           sc_createdAt := traceTs;
           sc_source := "ANNOTATION";
           sc_projectId := projectId;
           sc_authorUserId := Some ("user-" +:+ pretty i);
           sc_dataType := Some dataType;
           sc_value := fst numericAndString;
           sc_stringValue := snd numericAndString;
           sc_configId :=
             match configId with
             | Some c => if truthy c then Some c else None
             | None => None
             end;
           sc_metadata := false |} ]
    else [] in
  r11 <- random ;;
  sentiment <-
    (if rand_gt r11 (7 # 10) then
       r <- random ;;
       ret [ {| sc_traceId := tr_id trace;
                sc_observationId := None;
                sc_name := "sentiment";
                sc_timestamp := traceTs;
                sc_createdAt := traceTs;
                sc_source := "API";
                sc_projectId := projectId;
                sc_authorUserId := None;
                sc_dataType := Some NUMERIC;
                sc_value := Some (inject_Z (floor_mul r 10 - 5));
                sc_stringValue := None;
                sc_configId := None;
                sc_metadata := true |} ]
     else ret []) ;;
  r12 <- random ;;
  completeness <-
    (if rand_lt r12 (8 # 10) then
       r <- random ;;
       ret [ {| sc_traceId := tr_id trace;
                sc_observationId := None;
                sc_name := "Completeness";
                sc_timestamp := traceTs;
                sc_createdAt := traceTs;
                sc_source := "API";
                sc_projectId := projectId;
                sc_authorUserId := None;
                sc_dataType := Some CATEGORICAL;
                sc_value := None;
                sc_stringValue :=
                  Some (if floor_mul r 2 =? 1 then "Fully" else "Partially");
                sc_configId := None;
                sc_metadata := true |} ]
     else ret []) ;;
  let traceScores := (annotation ++ sentiment ++ completeness)%list in
  r13 <- random ;;
  a <- (if rand_gt r13 (9 # 10) then
          r <- random ;;
          ret (push_comment
                 {| cm_projectId := tr_projectId trace;
                    cm_objectId := tr_id trace;
                    cm_objectType := "TRACE";
                    cm_content := "Trace comment content";
                    cm_authorUserId :=
                      if rand_gt r (1 # 2)
                      then Some ("user-" +:+ pretty i) else None |} a)
        else ret a) ;;
  let a := push_scores traceScores a in
  s <- for_random 10 0 (fun r => floor_mul r 10 + 1)
         (createSpan i trace traceTs projectId promptIds) (a, []) ;;
  ret (fst s).

Definition createObjects (traceVolume : Z)
    (envTags colorTags : list (option string))
    (project1 project2 : Project)
    (promptIds queueIds : gmap string (list string))
    (configParams : gmap string (list ConfigParam)) : M CreatedObjects :=
  a <- for_range (Z.to_nat traceVolume) 0
         (createTrace envTags colorTags project1 project2 promptIds queueIds
            configParams)
         (mkArrays [] [] [] [] [] [] []) ;;
  ret {| co_traces := a_traces a;
         co_observations := a_observations a;
         co_scores := a_scores a;
         co_configs := [];
         co_queueItems := a_queueItems a;
         co_sessions := uniqueSessions (a_sessions a);
         co_events := a_events a;
         co_comments := a_comments a |}.

(** ** The ORM *)

(** [prisma.<model>.findFirst] and [findUnique]: the first row that matches
    the filter. *)
Definition findFirst {R} (T : Table R) (where_ : R -> bool) : M (option R) :=
  d <- get_db ;; ret (find where_ (rows T d)).

(** [prisma.<model>.create]: [conflicts new old] tells whether the two rows
    agree on a primary or unique key; a conflict raises and writes nothing. *)
Definition create {R} (T : Table R) (model : string)
    (conflicts : R -> R -> bool) (row : R) : M R :=
  d <- get_db ;;
  if existsb (conflicts row) (rows T d)
  then throw (UniqueConstraintViolation model)
  else put_db (with_rows T (rows T d ++ [row])%list d) ;;; ret row.

(** Whether some row of [xs] conflicts with a later one. *)
Fixpoint self_conflict {R} (conflicts : R -> R -> bool) (xs : list R) : bool :=
  match xs with
  | [] => false
  | x :: xs' => existsb (conflicts x) xs' || self_conflict conflicts xs'
  end.

(** [prisma.<model>.createMany]: one statement, all rows or none. *)
Definition createMany {R} (T : Table R) (model : string)
    (conflicts : R -> R -> bool) (data : list R) : M unit :=
  d <- get_db ;;
  if existsb (fun row => existsb (conflicts row) (rows T d)) data
     || self_conflict conflicts data
  then throw (UniqueConstraintViolation model)
  else put_db (with_rows T (rows T d ++ data)%list d).

Fixpoint replace_first {R} (p : R -> bool) (r' : R) (xs : list R) : list R :=
  match xs with
  | [] => []
  | x :: xs' => if p x then r' :: xs' else x :: replace_first p r' xs'
  end.

Fixpoint remove_first {R} (p : R -> bool) (xs : list R) : list R :=
  match xs with
  | [] => []
  | x :: xs' => if p x then xs' else x :: remove_first p xs'
  end.

(** [prisma.<model>.upsert({ where, create, update })].  The row is looked
    up with all the conditions of [where]; when found it is updated
    ([update: {}], here [None], writes nothing), otherwise [create] is
    inserted.  [create_] is a computation because the database draws the
    default id of the new row only when it inserts. *)
Definition upsert {R} (T : Table R) (model : string)
    (conflicts : R -> R -> bool) (where_ : R -> bool)
    (create_ : M R) (update : option (R -> R)) : M R :=
  d <- get_db ;;
  match find where_ (rows T d) with
  | Some r =>
      match update with
      | None => ret r
      | Some f =>
          let r' := f r in
          if existsb (conflicts r') (remove_first where_ (rows T d))
          then throw (UniqueConstraintViolation model)
          else put_db (with_rows T (replace_first where_ r' (rows T d)) d) ;;;
               ret r'
      end
  | None => row <- create_ ;; create T model conflicts row
  end.

(** *** Primary and unique keys

    The keys are the ones the source names: the [where] of an [upsert] or a
    [findUnique] must be a primary or unique key of the model. *)

Definition same_nonnull (a b : option string) : bool :=
  match a, b with
  | Some x, Some y => x === y
  | _, _ => false
  end.

Definition User_keys (a b : User) : bool :=
  (us_id a === us_id b) || same_nonnull (us_email a) (us_email b).

Definition Organization_keys (a b : Organization) : bool :=
  og_id a === og_id b.

Definition Project_keys (a b : Project) : bool :=
  pj_id a === pj_id b.

Definition OrganizationMembership_keys (a b : OrganizationMembership) : bool :=
  (om_id a === om_id b)
  || ((om_orgId a === om_orgId b) && (om_userId a === om_userId b)).

Definition ProjectMembership_keys (a b : ProjectMembership) : bool :=
  (pm_projectId a === pm_projectId b) && (pm_userId a === pm_userId b).

Definition Prompt_keys (a b : Prompt) : bool :=
  (pr_id a === pr_id b)
  || ((pr_projectId a === pr_projectId b) && (pr_name a === pr_name b)
      && (pr_version a =? pr_version b)).

Definition ApiKey_keys (a b : ApiKey) : bool :=
  ak_id a === ak_id b.

Definition ScoreConfig_keys (a b : ScoreConfig) : bool :=
  (cf_id a === cf_id b) && (cf_projectId a === cf_projectId b).

Definition AnnotationQueue_keys (a b : AnnotationQueue) : bool :=
  (aq_id a === aq_id b)
  || ((aq_projectId a === aq_projectId b) && (aq_name a === aq_name b)).

Definition TraceSession_keys (a b : Session) : bool :=
  (se_id a === se_id b) && (se_projectId a === se_projectId b).

Definition Comment_keys (a b : CommentRow) : bool :=
  cr_id a === cr_id b.

Definition AnnotationQueueItem_keys (a b : AnnotationQueueItemRow) : bool :=
  qr_id a === qr_id b.

Definition LlmApiKeys_keys (a b : LlmApiKey) : bool :=
  lk_id a === lk_id b.

Definition EvalTemplate_keys (a b : EvalTemplate) : bool :=
  (et_id a === et_id b)
  || ((et_projectId a === et_projectId b) && (et_name a === et_name b)
      && (et_version a =? et_version b)).

Definition JobConfiguration_keys (a b : JobConfiguration) : bool :=
  jc_id a === jc_id b.

Definition Dataset_keys (a b : Dataset) : bool :=
  ds_id a === ds_id b.

Definition DatasetItem_keys (a b : DatasetItem) : bool :=
  di_id a === di_id b.

Definition DatasetRuns_keys (a b : DatasetRun) : bool :=
  (dr_id a === dr_id b)
  || ((dr_datasetId a === dr_datasetId b)
      && (dr_projectId a === dr_projectId b) && (dr_name a === dr_name b)).

Definition DatasetRunItems_keys (a b : DatasetRunItem) : bool :=
  ri_id a === ri_id b.

Definition DashboardWidget_keys (a b : DashboardWidget) : bool :=
  dw_id a === dw_id b.

Definition Dashboard_keys (a b : Dashboard) : bool :=
  da_id a === da_id b.

Definition LlmSchema_keys (a b : LlmSchema) : bool :=
  ls_id a === ls_id b.

(** ** Generators that write to the database *)

(** [Promise.all(projects.map(async (project) => { ... map.set(...) }))]:
    the projects are taken one after the other.  The generators of two
    projects touch different rows, so running them interleaved changes only
    which oracle values each of them reads and the order of the rows. *)
Definition for_each_project {V} (projects : list Project)
    (generate : Project -> M V) : M (gmap string V) :=
  for_of projects
    (fun project m => v <- generate project ;; ret (<[pj_id project := v]> m))
    ∅.

(** *** [generateConfigs] *)

Definition generateConfigs (project : Project) : M (list ConfigParam) :=
  u1 <- v4 ;;
  u2 <- v4 ;;
  u3 <- v4 ;;
  let configs : list ScoreConfig :=
    [ {| cf_id := "config-" +:+ u1;
         cf_projectId := pj_id project;
         cf_name := "manual-score";
         cf_dataType := NUMERIC;
         cf_categories := None;
         cf_isArchived := false |};
      {| cf_id := "config-" +:+ u2;
         cf_projectId := pj_id project;
         cf_name := "Accuracy";
         cf_dataType := CATEGORICAL;
         cf_categories :=
           Some [ mkCategory "Incorrect" 0;
                  mkCategory "Partially Correct" 1;
                  mkCategory "Correct" 2 ];
         cf_isArchived := false |};
      {| cf_id := "config-" +:+ u3;
         cf_projectId := pj_id project;
         cf_name := "Toxicity";
         cf_dataType := BOOLEAN;
         cf_categories :=
           Some [ mkCategory "True" 1; mkCategory "False" 0 ];
         cf_isArchived := false |} ] in
  for_of configs
    (fun config configNameAndId =>
       upsert T_scoreConfigs "ScoreConfig" ScoreConfig_keys
         (fun r => (cf_projectId r === cf_projectId config)
                   && (cf_id r === cf_id config))
         (ret config)
         (Some (fun r =>
                  {| cf_id := cf_id config;
                     cf_projectId := cf_projectId r;
                     cf_name := cf_name r;
                     cf_dataType := cf_dataType r;
                     cf_categories := cf_categories r;
                     cf_isArchived := cf_isArchived r |})) ;;;
       ret (configNameAndId
            ++ [ {| cp_name := cf_name config;
                    cp_id := cf_id config;
                    cp_dataType := cf_dataType config;
                    cp_categories := cf_categories config |} ])%list)
    [].

Definition generateConfigsForProject (projects : list Project)
  : M (gmap string (list ConfigParam)) :=
  for_each_project projects generateConfigs.

(** *** [generateQueues] *)

Definition generateQueues (project : Project)
    (configIdsAndNames : list ConfigParam) : M (list string) :=
  u <- v4 ;;
  let queue :=
    {| aq_id := "queue-" +:+ u;
       aq_name := "Default";
       aq_description := "Default queue";
       aq_scoreConfigIds := map cp_id configIdsAndNames;
       aq_projectId := pj_id project |} in
  upsert T_annotationQueues "AnnotationQueue" AnnotationQueue_keys
    (fun r => (aq_projectId r === aq_projectId queue)
              && (aq_name r === aq_name queue))
    (ret queue)
    (Some (fun r =>
             {| aq_id := aq_id queue;
                aq_name := aq_name r;
                aq_description := aq_description r;
                aq_scoreConfigIds := aq_scoreConfigIds r;
                aq_projectId := aq_projectId r |})) ;;;
  ret [aq_id queue].

Definition generateQueuesForProject (projects : list Project)
    (configIdsAndNames : gmap string (list ConfigParam))
  : M (gmap string (list string)) :=
  for_each_project projects
    (fun project =>
       generateQueues project
         (default [] (configIdsAndNames !! pj_id project))).

(** *** [generatePrompts] *)

Record SeedPrompt := mkSeedPrompt {
  sp_id : string;
  sp_createdBy : string;
  sp_prompt : string;
  sp_name : string;
  sp_version : Z;
  sp_labels : list string;
  sp_tags : list string
}.

Definition SEED_PROMPTS : list SeedPrompt :=
  [ mkSeedPrompt "prompt-123" "user-1" "Prompt 1 content" "Prompt 1" 1
      ["production"; "latest"] [];
    mkSeedPrompt "prompt-456" "user-1" "Prompt 2 content" "Prompt 2" 1
      ["production"; "latest"] [];
    mkSeedPrompt "prompt-789" "API" "Prompt 3 content" "Prompt 3 by API" 1
      ["production"; "latest"] [];
    mkSeedPrompt "prompt-abc" "user-1" "Prompt 4 content" "Prompt 4" 1
      ["production"; "latest"] ["tag1"; "tag2"];
    mkSeedPrompt "folder-customer-prompt-1" "user-1" "Folder prompt 1 content"
      "folder/customer/prompt-1" 1 ["production"; "latest"] ["tag1"; "tag2"];
    mkSeedPrompt "folder-customer-prompt-2" "user-1" "Folder prompt 2 content"
      "folder/customer/prompt-2" 1 ["production"; "latest"] ["tag1"; "tag2"];
    mkSeedPrompt "folder-prompt-1" "user-1" "Folder prompt 1 content"
      "folder/prompt-1" 1 ["production"; "latest"] ["tag1"; "tag2"] ].

(** The [where] of the prompt upserts of [generatePrompts]: the compound key
    [projectId_name_version] together with [id]; a row matches when it
    meets all four conditions. *)
Definition prompt_where (projectId name : string) (version : Z) (id : string)
    (r : Prompt) : bool :=
  (pr_projectId r === projectId) && (pr_name r === name)
  && (pr_version r =? version) && (pr_id r === id).

(** [update: { id }] *)
Definition prompt_set_id (id : string) (r : Prompt) : Prompt :=
  {| pr_id := id;
     pr_projectId := pr_projectId r;
     pr_createdBy := pr_createdBy r;
     pr_prompt := pr_prompt r;
     pr_name := pr_name r;
     pr_version := pr_version r;
     pr_labels := pr_labels r;
     pr_tags := pr_tags r;
     pr_config := pr_config r |}.

Definition generatePrompts (project : Project) : M (list string) :=
  promptIds <-
    for_of SEED_PROMPTS
      (fun prompt promptIds =>
         upsert T_prompts "Prompt" Prompt_keys
           (prompt_where (sp_id prompt +:+ pj_id project) (sp_name prompt)
              (sp_version prompt) (sp_id prompt +:+ pj_id project))
           (ret {| pr_id := sp_id prompt +:+ pj_id project;
                   pr_projectId := pj_id project;
                   pr_createdBy := sp_createdBy prompt;
                   pr_prompt := sp_prompt prompt;
                   pr_name := sp_name prompt;
                   pr_version := sp_version prompt;
                   pr_labels := sp_labels prompt;
                   pr_tags := sp_tags prompt;
                   pr_config := [] |})
           None ;;;
         ret (promptIds ++ [sp_id prompt])%list)
      [] ;;
  u1 <- v4 ;;
  u2 <- v4 ;;
  u3 <- v4 ;;
  let promptVersionsWithVariables : list Prompt :=
    [ {| pr_id := "prompt-" +:+ u1;
         pr_projectId := pj_id project;
         pr_createdBy := "user-1";
         pr_prompt := "Prompt 4 version 1 content with {{variable}}";
         pr_name := "Prompt 4 with variable and config";
         pr_version := 1;
         pr_labels := [];
         pr_tags := [];
         pr_config := [("temperature", 7 # 10)] |};
      {| pr_id := "prompt-" +:+ u2;
         pr_projectId := pj_id project;
         pr_createdBy := "user-1";
         pr_prompt := "Prompt 4 version 2 content with {{variable}}";
         pr_name := "Prompt 4 with variable and config";
         pr_version := 2;
         pr_labels := ["production"];
         pr_tags := [];
         pr_config := [("temperature", 7 # 10); ("topP", 9 # 10)] |};
      {| pr_id := "prompt-" +:+ u3;
         pr_projectId := pj_id project;
         pr_createdBy := "user-1";
         pr_prompt := "Prompt 4 version 3 content with {{variable}}";
         pr_name := "Prompt 4 with variable and config";
         pr_version := 3;
         pr_labels := ["production"; "latest"];
         pr_tags := [];
         pr_config := [("temperature", 7 # 10); ("topP", 9 # 10);
                       ("frequencyPenalty", 5 # 10)] |} ] in
  promptIds <-
    for_of promptVersionsWithVariables
      (fun version promptIds =>
         upsert T_prompts "Prompt" Prompt_keys
           (prompt_where (pr_projectId version) (pr_name version)
              (pr_version version) (pr_id version))
           (ret version)
           (Some (prompt_set_id (pr_id version))) ;;;
         ret (promptIds ++ [pr_id version])%list)
      promptIds ;;
  let promptName := "Prompt with many versions" in
  let projectId := pj_id project in
  let createdBy := "user-1" in
  for_range 20 1
    (fun i promptIds =>
       u <- v4 ;;
       let promptId := "prompt-" +:+ u in
       upsert T_prompts "Prompt" Prompt_keys
         (prompt_where projectId promptName (Z.of_nat i) promptId)
         (ret {| pr_id := promptId;
                 pr_projectId := projectId;
                 pr_createdBy := createdBy;
                 pr_prompt := promptName +:+ " version " +:+ pretty i
                              +:+ " content";
                 pr_name := promptName;
                 pr_version := Z.of_nat i;
                 pr_labels :=
                   if (i =? 20)%nat then ["production"; "latest"] else [];
                 pr_tags := [];
                 pr_config := [] |})
         (Some (prompt_set_id promptId)) ;;;
       ret (promptIds ++ [promptId])%list)
    promptIds.

Definition generatePromptsForProject (projects : list Project)
  : M (gmap string (list string)) :=
  for_each_project projects generatePrompts.

(** *** [createDatasets] *)

(** One pass of the loop [for (let i = 0; i < 18; i++)]: a dataset item
    created from an observation picked at random, or nothing. *)
Definition createDatasetItem (projectId datasetId : string)
    (observations : list Observation)
    (i : nat) (datasetItemIds : list string) : M (list string) :=
  r <- random ;;
  sourceObservation <-
    (if rand_gt r (3 # 10) then
       r' <- random ;;
       ret (index observations
              (floor_mul r' (Z.of_nat (length observations))))
     else ret None) ;;
  match sourceObservation with
  | None => ret datasetItemIds
  | Some sourceObservation =>
      r1 <- random ;;
      r2 <- random ;;
      r3 <- random ;;
      r4 <- random ;;
      id <- cuid ;;
      datasetItem <-
        create T_datasetItems "DatasetItem" DatasetItem_keys
          {| di_id := id;
             di_projectId := projectId;
             di_datasetId := datasetId;
             di_sourceTraceId := Some (ob_traceId sourceObservation);
             di_sourceObservationId :=
               if rand_gt r1 (1 # 2)
               then Some (ob_id sourceObservation) else None;
             di_input := rand_gt r2 (3 # 10);
             di_expectedOutput := rand_gt r3 (3 # 10);
             di_metadata := rand_gt r4 (1 # 2) |} ;;
      ret (datasetItemIds ++ [di_id datasetItem])%list
  end.

(** One pass of the loop over [datasetItemIds] inside a dataset run. *)
Definition createDatasetRunItem (projectId datasetRunId : string)
    (observations : list Observation)
    (datasetItemId : string) (_ : unit) : M unit :=
  let relevantObservations :=
    List.filter (fun o => ob_projectId o === projectId) observations in
  r <- random ;;
  match index relevantObservations
          (floor_mul r (Z.of_nat (length relevantObservations))) with
  | None => ret tt
  | Some observation =>
      r' <- random ;;
      id <- cuid ;;
      create T_datasetRunItems "DatasetRunItems" DatasetRunItems_keys
        {| ri_id := id;
           ri_projectId := projectId;
           ri_datasetItemId := datasetItemId;
           ri_traceId := ob_traceId observation;
           ri_observationId :=
             if rand_gt r' (1 # 2) then Some (ob_id observation) else None;
           ri_datasetRunId := datasetRunId |} ;;;
      ret tt
  end.

Definition createDatasets (project1 project2 : Project)
    (observations : list Observation) : M unit :=
  for_range 2 0
    (fun datasetNumber _ =>
       for_of [pj_id project1; pj_id project2]
         (fun projectId _ =>
            let datasetName := "demo-dataset-" +:+ pretty datasetNumber in
            (* check if ds already exists *)
            found <- findFirst T_datasets
                       (fun r => (ds_projectId r === projectId)
                                 && (ds_name r === datasetName)) ;;
            dataset <-
              match found with
              | Some dataset => ret dataset
              | None =>
                  id <- cuid ;;
                  create T_datasets "Dataset" Dataset_keys
                    {| ds_id := id;
                       ds_name := datasetName;
                       ds_description :=
                         if (datasetNumber =? 0)%nat
                         then Some "Dataset test description" else None;
                       ds_projectId := projectId;
                       ds_metadata := (datasetNumber =? 0)%nat |}
              end ;;
            datasetItemIds <-
              for_range 18 0
                (createDatasetItem projectId (ds_id dataset) observations)
                [] ;;
            for_range 5 0
              (fun datasetRunNumber _ =>
                 let name :=
                   "demo-dataset-run-" +:+ pretty datasetRunNumber in
                 r <- random ;;
                 datasetRun <-
                   upsert T_datasetRuns "DatasetRuns" DatasetRuns_keys
                     (fun x => (dr_datasetId x === ds_id dataset)
                               && (dr_projectId x === projectId)
                               && (dr_name x === name))
                     (id <- cuid ;;
                      ret {| dr_id := id;
                             dr_projectId := projectId;
                             dr_name := name;
                             dr_description :=
                               if rand_gt r (1 # 2)
                               then "Dataset run description" else "";
                             dr_datasetId := ds_id dataset;
                             dr_metadata := datasetRunNumber mod 5 |})
                     None ;;
                 for_of datasetItemIds
                   (createDatasetRunItem projectId (dr_id datasetRun)
                      observations)
                   tt)
              tt)
         tt)
    tt.

(** *** [createDashboardsAndWidgets] *)

Definition createDashboardsAndWidgets (projects : list Project) : M unit :=
  logger "Creating dashboards and widgets" ;;;
  for_of projects
    (fun project _ =>
       widget <-
         upsert T_dashboardWidgets "DashboardWidget" DashboardWidget_keys
           (fun x => dw_id x === "cabc")
           (ret {| dw_id := "cabc";
                   dw_projectId := pj_id project;
                   dw_name := "Trace Counts";
                   dw_description := "Trace Counts by Name Over Time";
                   dw_view := "TRACES";
                   dw_chartType := "BAR_TIME_SERIES" |})
           None ;;
       widget2 <-
         upsert T_dashboardWidgets "DashboardWidget" DashboardWidget_keys
           (fun x => dw_id x === "cdef")
           (ret {| dw_id := "cdef";
                   dw_projectId := pj_id project;
                   dw_name := "Observation Latencies by Model";
                   dw_description := "p95 Observation Latencies by Model Name";
                   dw_view := "OBSERVATIONS";
                   dw_chartType := "LINE_TIME_SERIES" |})
           None ;;
       (* Create a dashboard with multiple widgets *)
       u1 <- v4 ;;
       u2 <- v4 ;;
       upsert T_dashboards "Dashboard" Dashboard_keys
         (fun x => da_id x === "seed-dashboard")
         (ret {| da_id := "seed-dashboard";
                 da_projectId := pj_id project;
                 da_name := "Performance Overview";
                 da_description := "Dashboard with various performance metrics";
                 da_widgets :=
                   [ (u1, dw_id widget, 0); (u2, dw_id widget2, 6) ] |})
         None ;;;
       ret tt)
    tt.

(** *** [uploadObjects] *)

(** [chunk] of lodash. *)
Fixpoint chunk_go {A} (fuel size : nat) (xs : list A) : list (list A) :=
  match fuel, xs with
  | _, [] => []
  | O, _ :: _ => []
  | S fuel', _ :: _ => firstn size xs :: chunk_go fuel' size (skipn size xs)
  end.

Definition chunk {A} (xs : list A) (size : nat) : list (list A) :=
  chunk_go (length xs) size xs.

(** [for (let i = 0; i < promises.length; i++) { ...; await promises[i] }]:
    a progress line at the last promise and at every
    [Math.ceil(promises.length / 10)]-th one; a query runs when it is
    awaited. *)
Fixpoint await_each (what : string) (n i : nat) (promises : list (M unit))
  : M unit :=
  match promises with
  | [] => ret tt
  | promise :: rest =>
      (if (n <=? i + 1)%nat || (i mod ((n + 9) / 10) =? 0)%nat
       then logger ("Seeding of " +:+ what +:+ " "
                    +:+ Number_toString B
                          (inject_Z (Z.of_nat (i + 1))
                           / inject_Z (Z.of_nat n) * 100)%Q
                    +:+ "% complete")
       else ret tt) ;;;
      promise ;;;
      await_each what n (S i) rest
  end.

Definition uploadObjects (sessions : list Session) (comments_ : list Comment)
    (queueItems : list QueueItem) : M unit :=
  let chunkSize := Z.to_nat 10000 in
  let promises :=
    map (fun chunk =>
           match chunk with
           | x :: _ =>
               upsert T_traceSessions "TraceSession" TraceSession_keys
                 (fun r => (se_id r === se_id x)
                           && (se_projectId r === se_projectId x))
                 (ret x) None ;;;
               ret tt
           | [] => throw (TypeError "Cannot read properties of undefined")
           end)
        (chunk sessions 1) in
  await_each "Sessions" (length promises) 0 promises ;;;
  let promises :=
    map (fun chunk =>
           data <- for_of chunk
                     (fun c data =>
                        id <- cuid ;; ret (data ++ [mkCommentRow id c])%list)
                     [] ;;
           createMany T_comments "Comment" Comment_keys data)
        (chunk comments_ chunkSize) in
  await_each "Comments" (length promises) 0 promises ;;;
  let promises :=
    map (fun chunk =>
           data <- for_of chunk
                     (fun q data =>
                        id <- cuid ;;
                        ret (data ++ [mkAnnotationQueueItemRow id q])%list)
                     [] ;;
           createMany T_annotationQueueItems "AnnotationQueueItem"
             AnnotationQueueItem_keys data)
        (chunk queueItems chunkSize) in
  await_each "Annotation Queue Items" (length promises) 0 promises.

(** ** The seed orchestrator [main] *)

Definition LOAD_TRACE_VOLUME : Z := 10000.

(** [await hash(password, rounds)] of bcryptjs: the salt is drawn anew. *)
Definition hash (password : string) (rounds : Z) : M string :=
  s <- salt ;; ret (bcrypt_hash B password rounds s).

(** The seeded API key of a project: created unless a key with this id
    is there already. *)
Definition seedApiKey (id secret public note projectId : string) : M unit :=
  found <- findFirst T_apiKeys (fun k => ak_id k === id) ;;
  match found with
  | Some _ => ret tt
  | None =>
      s <- salt ;;
      create T_apiKeys "ApiKey" ApiKey_keys
        {| ak_id := id;
           ak_note := note;
           ak_publicKey := public;
           ak_hashedSecretKey := hashSecretKey B secret s;
           ak_displaySecretKey := getDisplaySecretKey B secret;
           ak_scope := "PROJECT";
           ak_projectId := projectId |} ;;;
      ret tt
  end.

(** [prisma.organizationMembership.upsert] keyed by [orgId_userId], with
    [update: {}]. *)
Definition upsertOrganizationMembership (userId orgId : string) (role : Role)
  : M OrganizationMembership :=
  upsert T_organizationMemberships "OrganizationMembership"
    OrganizationMembership_keys
    (fun m => (om_userId m === userId) && (om_orgId m === orgId))
    (id <- cuid ;;
     ret {| om_id := id; om_orgId := orgId; om_userId := userId;
            om_role := role |})
    None.

(** The block of [main] guarded by
    [environment === "examples" || environment === "load"]. *)
Definition main_examples (environment : option string) (penv : ProcessEnv)
    (user : User) (project1 : Project) : M unit :=
  let seedOrgIdOrg2 := "demo-org-id" in
  let project2Id := "239ad00f-562f-411d-af14-831c75ddd875" in
  org2 <-
    upsert T_organizations "Organization" Organization_keys
      (fun o => og_id o === seedOrgIdOrg2)
      (ret {| og_id := seedOrgIdOrg2; og_name := "Langfuse Demo";
              og_plan := None |})
      (Some (fun o => {| og_id := og_id o; og_name := "Langfuse Demo";
                         og_plan := og_plan o |})) ;;
  project2 <-
    upsert T_projects "Project" Project_keys
      (fun p => pj_id p === project2Id)
      (ret {| pj_id := project2Id; pj_name := "demo-app";
              pj_orgId := og_id org2 |})
      (Some (fun p => {| pj_id := pj_id p; pj_name := pj_name p;
                         pj_orgId := seedOrgIdOrg2 |})) ;;
  upsertOrganizationMembership (us_id user) seedOrgIdOrg2 VIEWER ;;;
  seedApiKey "seed-api-key-2"
    (default "sk-lf-asdfghjkl" (SEED_SECRET_KEY penv))
    "pk-lf-asdfghjkl" "seeded key 2" (pj_id project2) ;;;
  configIdsAndNames <- generateConfigsForProject [project1; project2] ;;
  queueIds <- generateQueuesForProject [project1; project2]
                configIdsAndNames ;;
  promptIds <- generatePromptsForProject [project1; project2] ;;
  let envTags := [None; Some "development"; Some "staging";
                  Some "production"] in
  let colorTags := [None; Some "red"; Some "blue"; Some "yellow"] in
  let traceVolume :=
    if is_string environment "load" then LOAD_TRACE_VOLUME else 100 in
  objects <- createObjects traceVolume envTags colorTags project1 project2
               promptIds queueIds configIdsAndNames ;;
  logger ("Seeding " +:+ pretty (length (co_traces objects))
          +:+ " traces, " +:+ pretty (length (co_observations objects))
          +:+ " observations, and " +:+ pretty (length (co_scores objects))
          +:+ " scores") ;;;
  uploadObjects (co_sessions objects) (co_comments objects)
    (co_queueItems objects) ;;;
  (* If openai key is in environment, add it to the projects LLM API keys *)
  match OPENAI_API_KEY penv with
  | Some key =>
      if truthy key then
        iv <- salt ;;
        id <- cuid ;;
        create T_llmApiKeys "LlmApiKeys" LlmApiKeys_keys
          {| lk_id := id;
             lk_projectId := pj_id project1;
             lk_secretKey := encrypt B key iv;
             lk_displaySecretKey := getDisplaySecretKey B key;
             lk_provider := "openai";
             lk_adapter := "openai" |} ;;;
        ret tt
      else
        logger "No OPENAI_API_KEY found in environment. Skipping seeding LLM API key."
  | None =>
      logger "No OPENAI_API_KEY found in environment. Skipping seeding LLM API key."
  end ;;;
  (* add eval objects *)
  evalTemplate <-
    upsert T_evalTemplates "EvalTemplate" EvalTemplate_keys
      (fun t => (et_projectId t === pj_id project1)
                && (et_name t === "toxicity-template")
                && (et_version t =? 1))
      (id <- cuid ;;
       ret {| et_id := id;
              et_projectId := pj_id project1;
              et_name := "toxicity-template";
              et_version := 1;
              et_prompt :=
                "Please evaluate the toxicity of the following text {{input}} {{output}}";
              et_model := "gpt-3.5-turbo";
              et_vars := ["input"; "output"];
              et_provider := "openai" |})
      None ;;
  upsert T_jobConfigurations "JobConfiguration" JobConfiguration_keys
    (fun j => jc_id j === "toxicity-job")
    (ret {| jc_id := "toxicity-job";
            jc_evalTemplateId := et_id evalTemplate;
            jc_projectId := pj_id project1;
            jc_jobType := "EVAL";
            jc_status := "ACTIVE";
            jc_scoreName := "toxicity";
            jc_targetObject := "trace";
            jc_sampling := 1;
            jc_delay := 5000 |})
    None ;;;
  createDatasets project1 project2 (co_observations objects) ;;;
  createDashboardsAndWidgets [project1; project2] ;;;
  id1 <- cuid ;;
  id2 <- cuid ;;
  createMany T_llmSchemas "LlmSchema" LlmSchema_keys
    [ {| ls_id := id1;
         ls_projectId := pj_id project1;
         ls_name := "get_weather";
         ls_description :=
           "Fetches weather in Celsius for a given location" |};
      {| ls_id := id2;
         ls_projectId := pj_id project1;
         ls_name := "calculator";
         ls_description := "Performs basic arithmetic calculations" |} ].

Definition main (environment : option string) (penv : ProcessEnv) : M unit :=
  let seedOrgId := "seed-org-id" in
  let seedProjectId := "7a88fb47-b4e2-43b8-a06c-a5ce950dc53a" in
  let seedUserId1 := "user-1" in (* Owner of org *)
  let seedUserId2 := "user-2" in (* Member of org, admin of project *)
  updatePassword <- hash "password" 12 ;;
  createPassword <- hash "password" 12 ;;
  user <-
    upsert T_users "User" User_keys
      (fun u => us_id u === seedUserId1)
      (ret {| us_id := seedUserId1;
              us_name := Some "Demo User";
              us_email := Some "demo@langfuse.com";
              us_password := Some createPassword;
              us_image :=
                Some "https://static.langfuse.com/langfuse-dev%2Fexample-avatar.png" |})
      (Some (fun u => {| us_id := us_id u;
                         us_name := Some "Demo User";
                         us_email := Some "demo@langfuse.com";
                         us_password := Some updatePassword;
                         us_image := us_image u |})) ;;
  updatePassword2 <- hash "password" 12 ;;
  createPassword2 <- hash "password" 12 ;;
  user2 <-
    upsert T_users "User" User_keys
      (fun u => us_id u === seedUserId2)
      (ret {| us_id := seedUserId2;
              us_name := Some "Demo User 2";
              us_email := Some "member@langfuse.com";
              us_password := Some createPassword2;
              us_image := None |})
      (Some (fun u => {| us_id := us_id u;
                         us_name := Some "Demo User 2";
                         us_email := Some "member@langfuse.com";
                         us_password := Some updatePassword2;
                         us_image := us_image u |})) ;;
  upsert T_organizations "Organization" Organization_keys
    (fun o => og_id o === seedOrgId)
    (ret {| og_id := seedOrgId; og_name := "Seed Org";
            og_plan := Some "Team" |})
    (Some (fun o => {| og_id := og_id o; og_name := "Seed Org";
                       og_plan := Some "Team" |})) ;;;
  project1 <-
    upsert T_projects "Project" Project_keys
      (fun p => pj_id p === seedProjectId)
      (ret {| pj_id := seedProjectId; pj_name := "llm-app";
              pj_orgId := seedOrgId |})
      (Some (fun p => {| pj_id := pj_id p; pj_name := "llm-app";
                         pj_orgId := seedOrgId |})) ;;
  upsertOrganizationMembership (us_id user) seedOrgId OWNER ;;;
  orgMembership2 <- upsertOrganizationMembership (us_id user2) seedOrgId
                      MEMBER ;;
  upsert T_projectMemberships "ProjectMembership" ProjectMembership_keys
    (fun m => (pm_projectId m === pj_id project1)
              && (pm_userId m === us_id user2))
    (ret {| pm_projectId := pj_id project1;
            pm_userId := us_id user2;
            pm_role := ADMIN;
            pm_orgMembershipId := om_id orgMembership2 |})
    (Some (fun m => {| pm_projectId := pm_projectId m;
                       pm_userId := pm_userId m;
                       pm_role := pm_role m;
                       pm_orgMembershipId := om_id orgMembership2 |})) ;;;
  upsert T_prompts "Prompt" Prompt_keys
    (fun r => (pr_projectId r === seedProjectId)
              && (pr_name r === "summary-prompt") && (pr_version r =? 1))
    (id <- cuid ;;
     ret {| pr_id := id;
            pr_projectId := seedProjectId;
            pr_createdBy := "user-1";
            pr_prompt := "prompt {{variable}} {{anotherVariable}}";
            pr_name := "summary-prompt";
            pr_version := 1;
            pr_labels := ["production"; "latest"];
            pr_tags := [];
            pr_config := [] |})
    None ;;;
  seedApiKey "seed-api-key"
    (default "sk-lf-1234567890" (SEED_SECRET_KEY penv))
    "pk-lf-1234567890" "seeded key" (pj_id project1) ;;;
  (* Do not run the following for local docker compose setup *)
  if is_string environment "examples" || is_string environment "load"
  then main_examples environment penv user project1
  else ret tt.

End Program.

(** * The SCIM Users route *)

(** ** Requests and responses *)

#[local] Set Warnings "-register-all".

(** A JavaScript value as [JSON.parse] or the body parser delivers it. *)
Inductive json :=
| JNull
| JBool (b : bool)
| JNumber (q : Q)
| JString (s : string)
| JArray (xs : list json)
| JObject (fields : list (string * json)).

(** A value of [req.query]: [string | string[]]. *)
Inductive QueryValue :=
| QString (s : string)
| QArray (xs : list string).

Record Query := mkQuery {
  q_filter : option QueryValue;
  q_startIndex : option QueryValue;
  q_count : option QueryValue
}.

(** The parts of [NextApiRequest] the handler reads; [None] is
    [undefined]. *)
Record Request := mkRequest {
  req_method : option string;
  req_authorization : option string;
  req_query : Query;
  req_body : option json
}.

Record ScimEmail := mkScimEmail {
  em_primary : bool;
  em_value : option string;
  em_type : string
}.

(** The SCIM representation of a user; the [created] and [lastModified]
    stamps of [meta] are columns the database fills and are left out. *)
Record ScimUser := mkScimUser {
  su_schemas : list string;
  su_id : string;
  su_userName : option string;
  su_name_formatted : option string;
  su_emails : list ScimEmail;
  su_meta_resourceType : string
}.

Inductive ResponseBody :=
| ErrorBody (schemas : list string) (detail : option string) (status : Z)
| ListResponseBody (schemas : list string) (totalResults : Z)
    (startIndex : Z) (itemsPerPage : Z) (Resources : list ScimUser)
| UserBody (user : ScimUser).

(** [res.status(code).json(body)] *)
Record Response := mkResponse {
  res_status : Z;
  res_json : ResponseBody
}.

(** The result of [verifyAuthHeaderAndReturnScope]. *)
Inductive AuthCheck :=
| InvalidKey (error : option string)
| ValidKey (accessLevel : string) (orgId : option string).

(** Builtins and repository helpers the route calls and does not define. *)
Record ApiBuiltins := mkApiBuiltins {
  verifyAuthHeaderAndReturnScope : DB -> option string -> AuthCheck;
  JSON_parse : string -> option json;
  JSON_stringify : json -> string;
  toLowerCase : string -> string;
  hashPassword : string -> string -> string
}.

Definition SCIM_ERROR : string :=
  "urn:ietf:params:scim:api:messages:2.0:Error".
Definition SCIM_LIST_RESPONSE : string :=
  "urn:ietf:params:scim:api:messages:2.0:ListResponse".
Definition SCIM_USER : string :=
  "urn:ietf:params:scim:schemas:core:2.0:User".

(** ** JavaScript helpers *)

Definition is_whitespace (c : ascii) : bool :=
  let n := N_of_ascii c in
  (n =? 32)%N || ((9 <=? n)%N && (n <=? 13)%N).

Fixpoint trim_start (s : string) : string :=
  match s with
  | String c rest => if is_whitespace c then trim_start rest else s
  | EmptyString => s
  end.

Definition digit_value (c : ascii) : option Z :=
  let n := N_of_ascii c in
  if (48 <=? n)%N && (n <=? 57)%N then Some (Z.of_N (n - 48)) else None.

(** The decimal digits at the front of [s], read as a number on top of
    [acc]; [seen] tells whether a digit was read. *)
Fixpoint parse_digits (s : string) (acc : Z) (seen : bool) : option Z :=
  match s with
  | String c rest =>
      match digit_value c with
      | Some d => parse_digits rest (10 * acc + d) true
      | None => if seen then Some acc else None
      end
  | EmptyString => if seen then Some acc else None
  end.

(** [parseInt(s, 10)]; [None] is [NaN]. *)
Definition parseInt (s : string) : option Z :=
  match trim_start s with
  | String c rest =>
      if Ascii.eqb c "-" then Z.opp <$> parse_digits rest 0 false
      else if Ascii.eqb c "+" then parse_digits rest 0 false
      else parse_digits (String c rest) 0 false
  | EmptyString => None
  end.

(** [String(v)] for a query value. *)
Definition query_to_string (v : QueryValue) : string :=
  match v with
  | QString s => s
  | QArray xs => String.concat "," xs
  end.

(** [parseInt(v as string, 10) || fallback], where [v] is the query
    parameter or, when it is absent, the default [fallback] of the
    destructuring. *)
Definition parse_or (v : option QueryValue) (fallback : Z) : Z :=
  match v with
  | None => fallback
  | Some v =>
      match parseInt (query_to_string v) with
      | Some n => if n =? 0 then fallback else n
      | None => fallback
      end
  end.

Definition lower_ascii (c : ascii) : ascii :=
  let n := N_of_ascii c in
  if (65 <=? n)%N && (n <=? 90)%N then ascii_of_N (n + 32) else c.

(** Drops [p] from the front of [s], letters compared without case. *)
Fixpoint strip_prefix_ci (p s : string) : option string :=
  match p, s with
  | EmptyString, _ => Some s
  | String a p', String b s' =>
      if Ascii.eqb (lower_ascii a) (lower_ascii b)
      then strip_prefix_ci p' s' else None
  | String _ _, EmptyString => None
  end.

(** The longest prefix without a double quote, and what follows it. *)
Fixpoint span_not_quote (s : string) : string * string :=
  match s with
  | String c rest =>
      if Ascii.eqb c dquote then ("", s)
      else let p := span_not_quote rest in (String c (fst p), snd p)
  | EmptyString => ("", "")
  end.

(** The regular expression of the filter, tried at the front of [s]: the
    words [userName eq] (letters in either case), a double quote, one or
    more characters other than a double quote, and a double quote.  The
    result is the captured group. *)
Definition match_userName_eq_here (s : string) : option string :=
  rest ← strip_prefix_ci ("userName eq " +:+ String dquote "") s;
  let p := span_not_quote rest in
  match fst p, snd p with
  | String _ _, String _ _ => Some (fst p)
  | _, _ => None
  end.

(** [filter.match(...)]: the group of the leftmost match. *)
Fixpoint match_userName_eq (s : string) : option string :=
  match match_userName_eq_here s with
  | Some captured => Some captured
  | None =>
      match s with
      | String _ rest => match_userName_eq rest
      | EmptyString => None
      end
  end.

(** [body.key]; [None] is [undefined]. *)
Definition get_property (j : json) (key : string) : option json :=
  match j with
  | JObject fields => snd <$> find (fun kv => fst kv === key) fields
  | _ => None
  end.

(** A value used as a condition. *)
Definition truthy_json (v : option json) : bool :=
  match v with
  | None | Some JNull => false
  | Some (JBool b) => b
  | Some (JNumber q) => negb (Qeq_bool q 0)
  | Some (JString s) => truthy s
  | Some (JArray _) | Some (JObject _) => true
  end.

(** [z.array(z.enum(["OWNER", "ADMIN", "MEMBER", "VIEWER", "NONE"]))
    .safeParse(roles)]: [None] when the parse fails. *)
Definition parse_role (j : json) : option Role :=
  match j with
  | JString s =>
      if s === "OWNER" then Some OWNER
      else if s === "ADMIN" then Some ADMIN
      else if s === "MEMBER" then Some MEMBER
      else if s === "VIEWER" then Some VIEWER
      else if s === "NONE" then Some NONE
      else None
  | _ => None
  end.

Definition roleSchema_safeParse (roles : list json) : option (list Role) :=
  mapM parse_role roles.

(** ** The handler *)

Section Handler.

Variable orc : Oracle.
Variable A : ApiBuiltins.

Definition error_response (status : Z) (detail : option string) : Response :=
  mkResponse status (ErrorBody [SCIM_ERROR] detail status).

(** The user a membership belongs to (the relation [user]). *)
Definition membership_user (d : DB) (m : OrganizationMembership)
  : option User :=
  find (fun u => us_id u === om_userId m) (users d).

(** [where: { user: whereClause, orgId }] on [organizationMembership], with
    [whereClause] either empty or [{ email }]: the memberships of the
    organization whose user meets the clause, each with its user. *)
Definition memberships_where (d : DB) (email : option string)
    (orgId : string) : list (OrganizationMembership * User) :=
  omap (fun m =>
          if om_orgId m === orgId then
            match membership_user d m with
            | Some u =>
                match email with
                | Some e =>
                    if is_string (us_email u) e then Some (m, u) else None
                | None => Some (m, u)
                end
            | None => None
            end
          else None)
       (organizationMemberships d).

(** [skip] and [take] of [findMany]: a negative [skip] is refused, a
    negative [take] counts from the end of the result. *)
Definition skip_take {R} (skip take : Z) (xs : list R) : M (list R) :=
  if skip <? 0 then throw (ValidationError "skip")
  else if 0 <=? take then
    ret (firstn (Z.to_nat take) (skipn (Z.to_nat skip) xs))
  else
    ret (rev (firstn (Z.to_nat (- take)) (skipn (Z.to_nat skip) (rev xs)))).

Definition scim_user (user : User) : ScimUser :=
  {| su_schemas := [SCIM_USER];
     su_id := us_id user;
     su_userName := us_email user;
     su_name_formatted := us_name user;
     su_emails := [ {| em_primary := true;
                       em_value := us_email user;
                       em_type := "work" |} ];
     su_meta_resourceType := "User" |}.

(** [whereClause] as the filter leaves it: empty ([None]) or [{ email }]. *)
Definition whereClause_of (filter : option QueryValue) : option string :=
  match filter with
  | Some (QString filter) =>
      if truthy filter then
        (* Parse filter for userName eq value *)
        toLowerCase A <$> match_userName_eq filter
      else None
  | _ => None
  end.

(** The branch [req.method === "GET"]. *)
Definition handler_get (req : Request) (orgId : string) : M Response :=
  try_catch
    (let parsedStartIndex := parse_or (q_startIndex (req_query req)) 1 in
     let parsedCount := parse_or (q_count (req_query req)) 100 in
     let whereClause := whereClause_of (q_filter (req_query req)) in
     d <- get_db ;;
     (* Get total count for pagination *)
     let totalCount :=
       Z.of_nat (length (memberships_where d whereClause orgId)) in
     (* Get users with pagination *)
     userMapping <- skip_take (parsedStartIndex - 1) parsedCount
                      (memberships_where d whereClause orgId) ;;
     (* Transform to SCIM format *)
     let scimUsers := map scim_user (map snd userMapping) in
     ret (mkResponse 200
            (ListResponseBody [SCIM_LIST_RESPONSE] totalCount
               parsedStartIndex (Z.of_nat (length scimUsers)) scimUsers)))
    (fun error =>
       logger "Error retrieving SCIM users" ;;;
       ret (error_response 500 (Some "Internal server error"))).

(** What [create: { name }] and [create: { password }] accept. *)
Definition as_nullable_string (field : string) (v : option json)
  : M (option string) :=
  match v with
  | None | Some JNull => ret None
  | Some (JString s) => ret (Some s)
  | Some _ => throw (ValidationError field)
  end.

(** The branch [req.method === "POST"] from the destructuring of [body]
    on.  A [userName] that is not a string is refused by the query
    validation of the ORM or by [toLowerCase]; the model raises at the first
    of the two. *)
Definition handler_post_body (body : option json) (orgId : string)
  : M Response :=
  match body with
  | None | Some JNull =>
      throw (TypeError "Cannot destructure property 'userName'")
  | Some body =>
      let userName := get_property body "userName" in
      let name := get_property body "name" in
      let password := get_property body "password" in
      let displayName := get_property body "displayName" in
      let roles := get_property body "roles" in
      if negb (truthy_json userName) then
        logger "userName is required for SCIM user creation" ;;;
        ret (error_response 400 (Some "userName is required"))
      else
        let parsedRoles :=
          match roles with
          | Some (JArray (r :: rs)) =>
              match roleSchema_safeParse (r :: rs) with
              | Some (role :: _) => Some role
              | _ => None
              end
          | _ => Some NONE
          end in
        match parsedRoles with
        | None =>
            logger "Invalid roles provided for SCIM user creation" ;;;
            ret (error_response 400
                   (Some ("Invalid roles provided: "
                          +:+ from_option (JSON_stringify A) "" roles
                          +:+ ", must be one of OWNER, ADMIN, MEMBER, VIEWER, NONE")))
        | Some role =>
            userName <- match userName with
                        | Some (JString s) => ret s
                        | _ => throw (ValidationError "email")
                        end ;;
            (* Check if user already exists *)
            d <- get_db ;;
            let existingUser :=
              memberships_where d (Some userName) orgId in
            if (0 <? length existingUser)%nat then
              logger ("User with userName " +:+ userName
                      +:+ " already exists in organization "
                      +:+ orgId) ;;;
              ret (error_response 409
                     (Some "User with this userName already exists"))
            else
              (* Create the user *)
              let formatted :=
                match name with
                | None | Some JNull => None
                | Some n => get_property n "formatted"
                end in
              password <-
                (if truthy_json password then
                   match password with
                   | Some (JString p) =>
                       s <- salt orc ;; ret (Some (hashPassword A p s))
                   | _ => throw (TypeError "password")
                   end
                 else ret None) ;;
              name <- as_nullable_string "name"
                        (if truthy_json formatted then formatted
                         else displayName) ;;
              user <-
                upsert T_users "User" User_keys
                  (fun u => is_string (us_email u)
                              (toLowerCase A userName))
                  (id <- cuid orc ;;
                   ret {| us_id := id;
                          us_name := name;
                          us_email := Some (toLowerCase A userName);
                          us_password := password;
                          us_image := None |})
                  None ;;
              id <- cuid orc ;;
              create T_organizationMemberships "OrganizationMembership"
                OrganizationMembership_keys
                {| om_id := id;
                   om_orgId := orgId;
                   om_userId := us_id user;
                   om_role := role |} ;;;
              (* Return SCIM formatted user *)
              ret (mkResponse 201 (UserBody (scim_user user)))
        end
  end.

(** The branch [req.method === "POST"]. *)
Definition handler_post (req : Request) (orgId : string) : M Response :=
  try_catch
    (match req_body req with
     | Some (JString text) =>
         match JSON_parse A text with
         | Some body => handler_post_body (Some body) orgId
         | None =>
             logger "Failed to parse JSON body" ;;;
             ret (error_response 400 (Some "Invalid JSON body"))
         end
     | body => handler_post_body body orgId
     end)
    (fun error =>
       logger "Failed to create SCIM user" ;;;
       ret (error_response 500 (Some "Internal server error"))).

(** [handler], from the point where the CORS middleware has let the
    request through. *)
Definition handler (req : Request) : M Response :=
  let method_is (m : string) := is_string (req_method req) m in
  if negb (method_is "GET") && negb (method_is "POST") then
    logger ("Method not allowed for "
            +:+ default "undefined" (req_method req)
            +:+ " on /api/public/scim/Users") ;;;
    ret (error_response 405 (Some "Method not allowed"))
  else
    (* CHECK AUTH *)
    d <- get_db ;;
    match verifyAuthHeaderAndReturnScope A d (req_authorization req) with
    | InvalidKey error => ret (error_response 401 error)
    | ValidKey accessLevel orgId =>
        (* Check if using an organization API key *)
        if negb (accessLevel === "organization")
           || negb (from_option truthy false orgId)
        then
          ret (error_response 403
                 (Some "Invalid API key. Organization-scoped API key required for this operation."))
        else
          let orgId := default "" orgId in
          logger ("Received request for /api/public/scim/Users with method "
                  +:+ default "undefined" (req_method req)
                  +:+ " for orgId " +:+ orgId) ;;;
          if method_is "GET" then handler_get req orgId
          else handler_post req orgId
    end.

End Handler.

(** * Properties of the seed script *)

(** ** Reasoning about computations *)

(** [wp T m Q w]: run from [w], [m] returns a value and a world that
    satisfy [Q], or it raises and leaves a world that satisfies [T]. *)
Definition wp {A} (T : World -> Prop) (m : M A) (Q : A -> World -> Prop)
    (w : World) : Prop :=
  match m w with
  | (Ok a, w') => Q a w'
  | (Throw _, w') => T w'
  end.

Lemma wp_ret {A} T (a : A) Q w : Q a w -> wp T (ret a) Q w.
Proof. intros H. exact H. Qed.

Lemma wp_bind {A B} T (m : M A) (k : A -> M B) Q w :
  wp T m (fun a w' => wp T (k a) Q w') w -> wp T (bind m k) Q w.
Proof.
  unfold wp, bind. destruct (m w) as [[a|e] w']; intros H; exact H.
Qed.

Lemma wp_mono {A} T (m : M A) (Q Q' : A -> World -> Prop) w :
  (forall a w', Q a w' -> Q' a w') -> wp T m Q w -> wp T m Q' w.
Proof.
  unfold wp. intros HQ. destruct (m w) as [[a|e] w']; auto.
Qed.

Lemma wp_throw {A} T e (Q : A -> World -> Prop) w : T w -> wp T (throw e) Q w.
Proof. intros H. exact H. Qed.

Lemma wp_ok {A} T (m : M A) Q w a w' :
  wp T m Q w -> m w = (Ok a, w') -> Q a w'.
Proof. unfold wp. intros H E. rewrite E in H. exact H. Qed.

Lemma wp_returns {A} (m : M A) Q w :
  wp (fun _ => False) m Q w -> exists a w', m w = (Ok a, w') /\ Q a w'.
Proof.
  unfold wp. destruct (m w) as [[a|e] w']; intros H; [eauto | contradiction].
Qed.

(** A loop keeps what every pass keeps. *)
Lemma wp_for_range {St} T (I : nat -> St -> World -> Prop) body :
  (forall i s w, I i s w -> wp T (body i s) (I (S i)) w) ->
  forall n i s w, I i s w ->
    wp T (for_range n i body s) (I (n + i)%nat) w.
Proof.
  intros Hbody n. induction n as [|n IH]; intros i s w HI.
  - exact HI.
  - simpl for_range. apply wp_bind.
    eapply wp_mono; [|apply Hbody; exact HI].
    intros s' w' HI'. replace (S n + i)%nat with (n + S i)%nat by lia.
    apply IH. exact HI'.
Qed.

Lemma wp_for_of {X St} T (I : St -> World -> Prop) (body : X -> St -> M St) :
  forall xs,
  (forall x s w, x ∈ xs -> I s w -> wp T (body x s) I w) ->
  forall s w, I s w -> wp T (for_of xs body s) I w.
Proof.
  induction xs as [|x xs IH]; intros Hbody s w HI.
  - exact HI.
  - simpl for_of. apply wp_bind.
    eapply wp_mono; [|apply Hbody; [left | exact HI]].
    intros s' w' HI'. apply IH; [|exact HI'].
    intros y s0 w0 Hy. apply Hbody. right. exact Hy.
Qed.

Section Reasoning.

Variable orc : Oracle.

(** The oracle reads return and leave the database and the log alone. *)
Lemma wp_random T (Q : Rand01 -> World -> Prop) w :
  (forall r c, Q r (mkWorld (w_db w) c (w_log w))) -> wp T (random orc) Q w.
Proof. intros H. apply H. Qed.

Lemma wp_v4 T (Q : string -> World -> Prop) w :
  (forall u c, Q u (mkWorld (w_db w) c (w_log w))) -> wp T (v4 orc) Q w.
Proof. intros H. apply H. Qed.

Lemma wp_now T (Q : Z -> World -> Prop) w :
  (forall t c, Q t (mkWorld (w_db w) c (w_log w))) -> wp T (now orc) Q w.
Proof. intros H. apply H. Qed.

Lemma wp_cuid T (Q : string -> World -> Prop) w :
  (forall u c, Q u (mkWorld (w_db w) c (w_log w))) -> wp T (cuid orc) Q w.
Proof. intros H. apply H. Qed.

Lemma wp_salt T (Q : string -> World -> Prop) w :
  (forall u c, Q u (mkWorld (w_db w) c (w_log w))) -> wp T (salt orc) Q w.
Proof. intros H. apply H. Qed.

Lemma wp_for_random {St} T (I : St -> World -> Prop) bound body :
  (forall s w c, I s w -> I s (mkWorld (w_db w) c (w_log w))) ->
  (forall j s w, I s w -> wp T (body j s) I w) ->
  forall fuel j s w, I s w ->
    wp T (for_random orc fuel j bound body s) I w.
Proof.
  intros Hcur Hbody fuel.
  induction fuel as [|fuel IH]; intros j s w HI; simpl for_random;
    apply wp_bind, wp_random; intros r c;
    (destruct (Z.of_nat j <? bound r); [|apply wp_ret, Hcur, HI]).
  - apply wp_ret, Hcur, HI.
  - apply wp_bind. eapply wp_mono; [|apply Hbody, Hcur, HI].
    intros s' w' HI'. apply IH. exact HI'.
Qed.

End Reasoning.

(** ** Random numbers *)

Lemma rval_bounds (r : Rand01) : (0 <= rval r)%Q /\ (rval r < 1)%Q.
Proof.
  destruct r as [q Hq]. simpl. apply andb_prop in Hq as [H0 H1].
  split.
  - apply Qle_bool_iff. exact H0.
  - apply Qnot_le_lt. intros Hle. apply Qle_bool_iff in Hle.
    rewrite Hle in H1. discriminate.
Qed.

Lemma floor_mul_nonneg (r : Rand01) (n : Z) : 0 <= n -> 0 <= floor_mul r n.
Proof.
  intros Hn. unfold floor_mul. destruct (rval_bounds r) as [H0 _].
  change 0 with (Qfloor 0). apply Qfloor_resp_le.
  apply Qmult_le_0_compat; [exact H0|].
  change 0%Q with (inject_Z 0). rewrite <- Zle_Qle. exact Hn.
Qed.

Lemma floor_mul_lt (r : Rand01) (n : Z) : 0 < n -> floor_mul r n < n.
Proof.
  intros Hn. unfold floor_mul. destruct (rval_bounds r) as [H0 H1].
  rewrite Zlt_Qlt. eapply Qle_lt_trans; [apply Qfloor_le|].
  rewrite <- (Qmult_1_l (inject_Z n)) at 2.
  apply Qmult_lt_compat_r; [|exact H1].
  change 0%Q with (inject_Z 0). rewrite <- Zlt_Qlt. exact Hn.
Qed.

(** The bounds of the three random loops of [createObjects] never exceed
    the fuel their [for_random] is given: the test drawn once the fuel is
    used up is false. *)
Lemma floor_mul_bound (r : Rand01) :
  (Z.of_nat 10 <? floor_mul r 10 + 1) = false
  /\ (Z.of_nat 2 <? floor_mul r 2 + 1) = false
  /\ (Z.of_nat 1 <? floor_mul r 2) = false.
Proof.
  pose proof (floor_mul_lt r 10 ltac:(lia)).
  pose proof (floor_mul_lt r 2 ltac:(lia)).
  repeat split; apply Z.ltb_ge; lia.
Qed.

Lemma index_elem_of {X} (xs : list X) (i : Z) (x : X) :
  index xs i = Some x -> x ∈ xs.
Proof.
  unfold index. destruct (i <? 0); [discriminate|].
  intros H. eapply list_elem_of_lookup_2. exact H.
Qed.

(** ** What [createObjects] pushes *)

Section CreateObjects.

Variable B : Builtins.
Variable orc : Oracle.
Variables envTags colorTags : list (option string).
Variables project1 project2 : Project.
Variables promptIds queueIds : gmap string (list string).
Variable configParams : gmap string (list ConfigParam).

(** [[project1.id, project2.id][i % 2]] *)
Definition projectId_of (i : nat) : string :=
  nth (i mod 2) [pj_id project1; pj_id project2] "".

Definition session_shape (i : nat) (x : Session) : Prop :=
  x = mkSession ("session-" +:+ pretty (i mod 3)%nat) (projectId_of i).

Definition trace_shape (i : nat) (t : Trace) : Prop :=
  tr_projectId t = projectId_of i.

Definition queue_item_shape (t : Trace) (q : QueueItem) : Prop :=
  exists queueId,
    queueIds !! tr_projectId t ≫= head = Some queueId
    /\ q = mkQueueItem queueId (tr_id t) TRACE (tr_projectId t).

(** The annotation score of a trace: [config] is the config picked from the
    array of the project, if any. *)
Definition annotation_score_shape (t : Trace) (s : Score) : Prop :=
  exists (config : option ConfigParam) (value : Z),
    (forall c, config = Some c ->
       c ∈ default [] (configParams !! tr_projectId t))
    /\ 0 <= value < 2
    /\ sc_name s = from_option cp_name "manual-score" config
    /\ sc_dataType s = Some (from_option cp_dataType NUMERIC config)
    /\ (sc_value s, sc_stringValue s)
       = scoreNumericAndStringValue (from_option cp_dataType NUMERIC config)
           (config ≫= cp_categories) value
    /\ sc_configId s = (config ≫= fun c =>
                          if truthy (cp_id c) then Some (cp_id c) else None).

Definition sentiment_score_shape (s : Score) : Prop :=
  sc_name s = "sentiment" /\ sc_dataType s = Some NUMERIC
  /\ is_Some (sc_value s) /\ sc_stringValue s = None /\ sc_configId s = None.

Definition completeness_score_shape (s : Score) : Prop :=
  sc_name s = "Completeness" /\ sc_dataType s = Some CATEGORICAL
  /\ sc_value s = None /\ sc_configId s = None
  /\ (sc_stringValue s = Some "Fully" \/ sc_stringValue s = Some "Partially").

(** The [quality] and [conciseness] scores of a generation. *)
Definition api_score_shape (s : Score) : Prop :=
  sc_dataType s = None /\ is_Some (sc_value s) /\ sc_stringValue s = None
  /\ sc_configId s = None.

Definition score_shape (t : Trace) (s : Score) : Prop :=
  sc_traceId s = tr_id t /\ sc_projectId s = tr_projectId t
  /\ (annotation_score_shape t s \/ sentiment_score_shape s
      \/ completeness_score_shape s \/ api_score_shape s).

(** A span: its parent, when it has one, is among [existingSpanIds]. *)
Definition span_shape (t : Trace) (existingSpanIds : list string)
    (o : Observation) : Prop :=
  ob_type o = SPAN /\ ob_traceId o = tr_id t
  /\ ob_projectId o = tr_projectId t
  /\ forall p, ob_parentObservationId o = Some p -> p ∈ existingSpanIds.

(** A generation or an event: its parent is the span it is created in. *)
Definition child_shape (ty : ObservationType) (t : Trace) (spanId : string)
    (o : Observation) : Prop :=
  ob_type o = ty /\ ob_traceId o = tr_id t
  /\ ob_projectId o = tr_projectId t
  /\ ob_parentObservationId o = Some spanId.

(** The traversal: [I i] holds of the arrays before pass [i] of the outer
    loop, [K i t ids] inside the pass once the trace [t] is pushed, with
    [ids] the current [existingSpanIds].  What raises is [T]. *)
Variable T : World -> Prop.
Variable I : nat -> Arrays -> Prop.
Variable K : nat -> Trace -> list string -> Arrays -> Prop.

Hypothesis T_missing_promptIds :
  forall i, promptIds !! projectId_of i = None -> forall w, T w.
Hypothesis I_session :
  forall i a x, I i a -> session_shape i x -> I i (push_session x a).
Hypothesis I_trace :
  forall i a t, I i a -> trace_shape i t -> K i t [] (push_trace t a).
Hypothesis K_queueItems :
  forall i t ids a qs, K i t ids a -> Forall (queue_item_shape t) qs ->
    K i t ids (push_queueItems qs a).
Hypothesis K_scores :
  forall i t ids a ss, K i t ids a -> Forall (score_shape t) ss ->
    K i t ids (push_scores ss a).
Hypothesis K_comment :
  forall i t ids a c, K i t ids a -> K i t ids (push_comment c a).
Hypothesis K_span :
  forall i t ids a o, K i t ids a -> span_shape t ids o ->
    K i t (ids ++ [ob_id o]) (push_observation o a).
Hypothesis K_generation :
  forall i t ids a spanId o, K i t ids a -> spanId ∈ ids ->
    child_shape GENERATION t spanId o -> K i t ids (push_observation o a).
Hypothesis K_event :
  forall i t ids a spanId o, K i t ids a -> spanId ∈ ids ->
    child_shape EVENT t spanId o -> K i t ids (push_event o a).
Hypothesis K_exit :
  forall i t ids a, K i t ids a -> I (S i) a.

Lemma optional_parameter_wp {X} (f : Rand01 -> X)
    (Q : option X -> World -> Prop) w :
  (forall x c, Q x (mkWorld (w_db w) c (w_log w))) ->
  wp T (optional_parameter orc f) Q w.
Proof.
  intros HQ. unfold optional_parameter. apply wp_bind, wp_random. intros r c.
  destruct (rand_gt _ _); [apply wp_ret, HQ|].
  apply wp_bind, wp_random. intros r' c'. apply wp_ret, HQ.
Qed.

Lemma getGenerationInputOutput_wp (Q : GenerationIO -> World -> Prop) w :
  (forall x c, Q x (mkWorld (w_db w) c (w_log w))) ->
  wp T (getGenerationInputOutput orc) Q w.
Proof.
  intros HQ. unfold getGenerationInputOutput.
  apply wp_bind, wp_random. intros r c.
  destruct (rand_gt _ _); [apply wp_ret, HQ|].
  apply wp_bind, wp_random. intros r' c'. apply wp_ret, HQ.
Qed.

(** One step of the traversal; the world an oracle read leaves is
    forgotten, no property of this section depends on it. *)
Ltac forget_world :=
  lazymatch goal with
  | |- wp _ _ _ ?w => is_var w || (generalize w; intro)
  | _ => idtac
  end.

Ltac step :=
  lazymatch goal with
  | |- wp _ (bind (random _) _) _ _ =>
      apply wp_bind, wp_random; intros ? ?; forget_world
  | |- wp _ (bind (v4 _) _) _ _ =>
      apply wp_bind, wp_v4; intros ? ?; forget_world
  | |- wp _ (bind (now _) _) _ _ =>
      apply wp_bind, wp_now; intros ? ?; forget_world
  | |- wp _ (bind (optional_parameter _ _) _) _ _ =>
      apply wp_bind, optional_parameter_wp; intros ? ?; forget_world
  | |- wp _ (bind (getGenerationInputOutput _) _) _ _ =>
      apply wp_bind, getGenerationInputOutput_wp; intros ? ?; forget_world
  | |- wp _ (ret _) _ _ => apply wp_ret
  end.

Lemma createEvent_wp i j k t spanId s e ids l a w :
  K i t ids a -> spanId ∈ ids ->
  wp T (createEvent orc i j k t spanId s e l a)
    (fun a' _ => K i t ids a') w.
Proof.
  intros HK Hin. unfold createEvent.
  repeat step. eapply K_event; [exact HK | exact Hin |].
  repeat split.
Qed.

Ltac case_if :=
  lazymatch goal with
  | |- wp _ (if ?c then _ else _) _ _ => destruct c
  end.

Lemma createGeneration_wp i j t traceTs spanId s e ids k a w :
  tr_projectId t = projectId_of i ->
  K i t ids a -> spanId ∈ ids ->
  wp T (createGeneration B orc i j t traceTs (projectId_of i) promptIds
          spanId s e k a)
    (fun a' _ => K i t ids a') w.
Proof.
  intros Ht HK Hin. unfold createGeneration.
  repeat step. apply wp_bind.
  destruct (promptIds !! projectId_of i) as [pids|] eqn:Hp;
    [|apply wp_throw; eapply T_missing_promptIds; exact Hp].
  repeat step.
  match goal with
  | |- context [push_observation ?g a] =>
      assert (HK1 : K i t ids (push_observation g a))
        by (eapply K_generation; [exact HK | exact Hin | repeat split]);
      generalize dependent (push_observation g a)
  end.
  intros a0 HK1.
  apply wp_bind.
  eapply wp_mono with (Q := fun a' _ => K i t ids a').
  2:{ case_if; repeat step; [|exact HK1].
      apply K_scores; [exact HK1|].
      constructor; [|constructor].
      split; [reflexivity|]. split; [reflexivity|].
      right. right. right. repeat split. eexists. reflexivity. }
  intros a1 ? HK2. repeat step.
  apply wp_bind.
  eapply wp_mono with (Q := fun a' _ => K i t ids a').
  2:{ case_if; repeat step; [|exact HK2].
      apply K_scores; [exact HK2|].
      constructor; [|constructor].
      split; [reflexivity|]. split; [reflexivity|].
      right. right. right. repeat split. eexists. reflexivity. }
  intros a2 ? HK3. repeat step.
  apply wp_for_random.
  - intros ? ? ? H. exact H.
  - intros l ? ? H. apply createEvent_wp; [exact H | exact Hin].
  - lazymatch goal with
    | |- K _ _ _ (if ?c then _ else _) => destruct c
    end; [apply K_comment|]; exact HK3.
Qed.

Lemma createSpan_wp i t traceTs j ids a w :
  tr_projectId t = projectId_of i ->
  K i t ids a ->
  wp T (createSpan B orc i t traceTs (projectId_of i) promptIds j (a, ids))
    (fun s' _ => K i t (snd s') (fst s')) w.
Proof.
  intros Ht HK. unfold createSpan. cbn [fst snd].
  repeat step. apply wp_bind.
  eapply wp_mono with
    (Q := fun parent _ => forall p, parent = Some p -> p ∈ ids).
  2:{ case_if; repeat step; [discriminate|].
      case_if; repeat step; [discriminate|].
      intros p Hp. eapply index_elem_of. exact Hp. }
  intros parent ? Hparent.
  match goal with
  | |- context [push_observation ?g a] =>
      assert (HK1 : K i t (ids ++ [ob_id g]) (push_observation g a))
        by (eapply K_span; [exact HK | repeat split; exact Hparent]);
      generalize dependent (push_observation g a)
  end.
  cbn [ob_id]. intros a0 HK1.
  apply wp_bind.
  eapply wp_mono with
    (Q := fun a' _ => K i t (ids ++ ["span-" +:+ u]) a').
  2:{ apply wp_for_random.
      - intros ? ? ? H. exact H.
      - intros k ? ? H. apply createGeneration_wp; [exact Ht | exact H |].
        apply elem_of_app. right. left.
      - exact HK1. }
  intros a1 ? HK2. step. exact HK2.
Qed.

Ltac case_list_if :=
  lazymatch goal with
  | |- Forall _ (if ?c then _ else _) => destruct c
  end.

Lemma createTrace_wp i a w :
  I i a ->
  wp T (createTrace B orc envTags colorTags project1 project2 promptIds
          queueIds configParams i a)
    (fun a' _ => I (S i) a') w.
Proof.
  intros HI. unfold createTrace. fold (projectId_of i).
  repeat step.
  lazymatch goal with
  | |- context [push_trace ?t0 _] => set (trace := t0)
  end.
  lazymatch goal with
  | |- context [push_queueItems ?q (push_trace trace ?aS)] =>
      assert (HI1 : I i aS);
      [|assert (HK1 : K i trace [] (push_queueItems q (push_trace trace aS)));
        [|generalize dependent (push_queueItems q (push_trace trace aS))]]
  end.
  { lazymatch goal with
    | |- I _ (match (if ?c then _ else _) with _ => _ end) => destruct c
    end; [apply I_session; [exact HI|reflexivity]|exact HI]. }
  { apply K_queueItems; [apply I_trace; [exact HI1|reflexivity]|].
    case_list_if; [|constructor].
    destruct (queueIds !! projectId_of i ≫= head) as [queueId|] eqn:Hq;
      [|constructor].
    case_list_if; constructor; [|constructor].
    exists queueId. split; [exact Hq|reflexivity]. }
  intros a1 HK1. clear HI1.
  assert (Ht : tr_projectId trace = projectId_of i) by reflexivity.
  clearbody trace.
  apply wp_bind.
  eapply wp_mono with (Q := fun ss _ => Forall (score_shape trace) ss).
  2:{ case_if; repeat step; constructor; [|constructor].
      split; [reflexivity|]. split; [symmetry; exact Ht|].
      right. left. repeat split. eexists. reflexivity. }
  intros sentiment ? Hsentiment. step.
  apply wp_bind.
  eapply wp_mono with (Q := fun ss _ => Forall (score_shape trace) ss).
  2:{ case_if; repeat step; constructor; [|constructor].
      split; [reflexivity|]. split; [symmetry; exact Ht|].
      right. right. left. repeat split.
      destruct (floor_mul _ 2 =? 1); [left|right]; reflexivity. }
  intros completeness ? Hcompleteness. step.
  apply wp_bind.
  eapply wp_mono with (Q := fun a' _ => K i trace [] a').
  2:{ case_if; repeat step; [apply K_comment|]; exact HK1. }
  intros a2 ? HK2.
  apply wp_bind.
  eapply wp_mono with (Q := fun s _ => K i trace (snd s) (fst s)).
  2:{ apply wp_for_random.
      - intros ? ? ? H. exact H.
      - intros j [a' ids] ? H. apply createSpan_wp; [exact Ht | exact H].
      - cbn [fst snd]. apply K_scores; [exact HK2|].
        repeat apply Forall_app_2; [|exact Hsentiment|exact Hcompleteness].
        case_list_if; constructor; [|constructor].
        split; [reflexivity|]. split; [symmetry; exact Ht|]. left.
        lazymatch goal with
        | |- context [from_option cp_name _ ?config] =>
            exists config, (floor_mul r7 2)
        end.
        rewrite Ht. split; [|split].
        + intros c' Hc'. destruct (_ >=? _); [|discriminate].
          eapply index_elem_of. exact Hc'.
        + split; [apply floor_mul_nonneg | apply floor_mul_lt]; lia.
        + repeat split.
          * cbn [sc_value sc_stringValue]. symmetry. apply surjective_pairing.
          * cbn [sc_configId]. destruct (if _ >=? _ then _ else _);
              reflexivity. }
  intros [a3 ids] ? HK3. step. cbn [fst]. eapply K_exit. exact HK3.
Qed.

Lemma createObjects_loop_wp n w :
  I 0%nat (mkArrays [] [] [] [] [] [] []) ->
  wp T (for_range n 0
          (createTrace B orc envTags colorTags project1 project2 promptIds
             queueIds configParams)
          (mkArrays [] [] [] [] [] [] []))
    (fun a _ => I n a) w.
Proof.
  intros H0.
  eapply wp_mono;
    [|apply (wp_for_range T (fun i a _ => I i a)); [|exact H0]].
  - intros a' ? H. replace n with (n + 0)%nat by lia. exact H.
  - intros i a' ? H. apply createTrace_wp. exact H.
Qed.

End CreateObjects.

(** ** [JSON.parse] undoes [JSON.stringify] on sessions *)

Lemma string_app_assoc (a b c : string) : (a +:+ b) +:+ c = a +:+ (b +:+ c).
Proof.
  induction a as [|x a IH]; [reflexivity|].
  change (String x ((a +:+ b) +:+ c) = String x (a +:+ (b +:+ c))).
  f_equal. exact IH.
Qed.

Lemma strip_prefix_app (p s : string) : strip_prefix p (p +:+ s) = Some s.
Proof.
  induction p as [|x p IH]; simpl; [reflexivity|].
  rewrite Ascii.eqb_refl. exact IH.
Qed.

Lemma json_read_string_escape_char (c : ascii) (tail : string) :
  json_read_string (json_escape_char c +:+ tail)
  = match json_read_string tail with
    | Some (t, r) => Some (String c t, r)
    | None => None
    end.
Proof.
  destruct c as [[] [] [] [] [] [] [] []]; reflexivity.
Qed.

Lemma json_read_string_escape (s rest : string) :
  json_read_string (json_escape s +:+ String dquote rest) = Some (s, rest).
Proof.
  induction s as [|c s IH]; [reflexivity|].
  simpl json_escape. rewrite string_app_assoc, json_read_string_escape_char, IH.
  reflexivity.
Qed.

Lemma JSON_stringify_session_text (id projectId : string) :
  JSON_stringify_session (mkSession id projectId)
  = ("{" +:+ json_quote "id" +:+ ":" +:+ String dquote "")
    +:+ (json_escape id
         +:+ String dquote
               (("," +:+ json_quote "projectId" +:+ ":" +:+ String dquote "")
                +:+ (json_escape projectId +:+ String dquote "}"))).
Proof.
  unfold JSON_stringify_session, json_quote. cbn [se_id se_projectId].
  set (q := String dquote "").
  repeat lazymatch goal with
         | |- context [String dquote ?x] => change (String dquote x) with (q +:+ x)
         end.
  rewrite !string_app_assoc. reflexivity.
Qed.

Lemma JSON_parse_stringify_session (x : Session) :
  JSON_parse_session (JSON_stringify_session x) = Some x.
Proof.
  destruct x as [id projectId].
  rewrite JSON_stringify_session_text. unfold JSON_parse_session.
  rewrite strip_prefix_app. cbn [mbind option_bind].
  rewrite json_read_string_escape. cbn [mbind option_bind fst snd].
  rewrite strip_prefix_app. cbn [mbind option_bind].
  rewrite json_read_string_escape. reflexivity.
Qed.

Lemma JSON_stringify_session_inj (x y : Session) :
  JSON_stringify_session x = JSON_stringify_session y -> x = y.
Proof.
  intros H. apply (f_equal JSON_parse_session) in H.
  rewrite !JSON_parse_stringify_session in H. congruence.
Qed.

(** [new Set(...)] keeps one copy of every string. *)
Lemma set_from_spec (xs seen : list string) :
  NoDup seen ->
  NoDup (set_from seen xs)
  /\ (forall x, x ∈ set_from seen xs <-> x ∈ seen \/ x ∈ xs).
Proof.
  revert seen. induction xs as [|x xs IH]; intros seen Hseen; simpl.
  - split; [exact Hseen|]. intros y. rewrite elem_of_nil. tauto.
  - destruct (existsb (String.eqb x) seen) eqn:Hx.
    + destruct (IH seen Hseen) as [Hnd Hin]. split; [exact Hnd|].
      intros y. rewrite Hin, elem_of_cons.
      apply existsb_exists in Hx as (z & Hz & Hxz).
      apply String.eqb_eq in Hxz. subst z.
      apply list_elem_of_In in Hz. split; [tauto|].
      intros [?|[->|?]]; tauto.
    + assert (Hnotin : x ∉ seen).
      { intros Hin. apply list_elem_of_In in Hin.
        assert (existsb (String.eqb x) seen = true) as Hc
          by (apply existsb_exists; exists x; split;
              [exact Hin | apply String.eqb_refl]).
        congruence. }
      destruct (IH (seen ++ [x])%list) as [Hnd Hin].
      { apply NoDup_app. split; [exact Hseen|]. split.
        - intros y Hy Hy'. apply list_elem_of_singleton in Hy'. subst y.
          contradiction.
        - apply NoDup_singleton. }
      split; [exact Hnd|]. intros y.
      rewrite Hin, elem_of_app, list_elem_of_singleton, elem_of_cons. tauto.
Qed.

Lemma uniqueSessions_spec (sessions : list Session) :
  NoDup (uniqueSessions sessions)
  /\ (forall x, x ∈ uniqueSessions sessions <-> x ∈ sessions).
Proof.
  unfold uniqueSessions.
  destruct (set_from_spec (map JSON_stringify_session sessions) [])
    as [Hnd Hin]; [constructor|].
  set (texts := set_from [] (map JSON_stringify_session sessions)) in *.
  assert (Htexts : forall s, s ∈ texts ->
            exists x, x ∈ sessions /\ s = JSON_stringify_session x).
  { intros s Hs. apply Hin in Hs as [Hs|Hs]; [inversion Hs|].
    apply list_elem_of_fmap in Hs as (x & -> & Hx). eauto. }
  split.
  - clear Hin. induction texts as [|s texts IH]; [constructor|].
    apply NoDup_cons in Hnd as [Hs Hnd]. simpl.
    destruct (Htexts s) as (x & Hx & ->); [left|].
    rewrite JSON_parse_stringify_session. apply NoDup_cons. split.
    + intros Hin. apply list_elem_of_omap in Hin as (s' & Hs' & Hparse).
      destruct (Htexts s') as (y & Hy & ->); [right; exact Hs'|].
      rewrite JSON_parse_stringify_session in Hparse.
      injection Hparse as ->. contradiction.
    + apply IH; [exact Hnd|]. intros s' Hs'. apply Htexts. right. exact Hs'.
  - intros x. rewrite list_elem_of_omap. split.
    + intros (s & Hs & Hparse). destruct (Htexts s Hs) as (y & Hy & ->).
      rewrite JSON_parse_stringify_session in Hparse. congruence.
    + intros Hx. exists (JSON_stringify_session x). split.
      * apply Hin. right. apply list_elem_of_fmap. eauto.
      * apply JSON_parse_stringify_session.
Qed.

(** ** Traces, projects and sessions of [createObjects] *)

Lemma projectId_of_even (project1 project2 : Project) (i : nat) :
  projectId_of project1 project2 i
  = pj_id (if Nat.even i then project1 else project2).
Proof.
  unfold projectId_of.
  destruct (Nat.Even_or_Odd i) as [[k Hk]|[k Hk]].
  - assert (Hm : (i mod 2 = 0)%nat)
      by (rewrite Hk, Nat.mul_comm; apply Nat.Div0.mod_mul).
    assert (He : Nat.even i = true) by (apply Nat.even_spec; exists k; exact Hk).
    rewrite Hm, He. reflexivity.
  - assert (Hm : (i mod 2 = 1)%nat)
      by (rewrite Hk, Nat.add_comm, (Nat.mul_comm 2 k), Nat.Div0.mod_add;
          reflexivity).
    assert (He : Nat.odd i = true) by (apply Nat.odd_spec; exists k; exact Hk).
    rewrite <- Nat.negb_odd, Hm, He. reflexivity.
Qed.

Lemma session_id_cases (i : nat) :
  "session-" +:+ pretty (i mod 3)%nat
    ∈ ["session-0"; "session-1"; "session-2"].
Proof.
  pose proof (Nat.mod_upper_bound i 3 ltac:(lia)) as Hlt.
  destruct (i mod 3)%nat as [|[|[|k]]]; [| | |lia].
  - left.
  - right. left.
  - right. right. left.
Qed.

(** C9.  For every non-negative [traceVolume] (and maps of prompt ids that
    hold an entry for both projects, which the source asserts with its
    non-null [!]), [createObjects] returns, and it returns exactly
    [traceVolume] traces; trace number [i] (0-based) belongs to [project1]
    when [i] is even and to [project2] when [i] is odd; the returned
    sessions hold no (id, projectId) pair twice, and every session id is one
    of [session-0], [session-1], [session-2]. *)
Theorem createObjects_trace_volume
    (B : Builtins) (orc : Oracle) (envTags colorTags : list (option string))
    (project1 project2 : Project)
    (promptIds queueIds : gmap string (list string))
    (configParams : gmap string (list ConfigParam))
    (traceVolume : Z) (w : World) :
  0 <= traceVolume ->
  is_Some (promptIds !! pj_id project1) ->
  is_Some (promptIds !! pj_id project2) ->
  exists objects w',
    createObjects B orc traceVolume envTags colorTags project1 project2
      promptIds queueIds configParams w = (Ok objects, w')
    /\ Z.of_nat (length (co_traces objects)) = traceVolume
    /\ (forall i t, co_traces objects !! i = Some t ->
          tr_projectId t = pj_id (if Nat.even i then project1 else project2))
    /\ NoDup (map (fun s => (se_id s, se_projectId s)) (co_sessions objects))
    /\ (forall s, s ∈ co_sessions objects ->
          se_id s ∈ ["session-0"; "session-1"; "session-2"]).
Proof.
  intros Hn Hp1 Hp2.
  set (Inv := fun (i : nat) (a : Arrays) =>
         length (a_traces a) = i
         /\ (forall k t, a_traces a !! k = Some t ->
               tr_projectId t = projectId_of project1 project2 k)
         /\ (forall s, s ∈ a_sessions a ->
               se_id s ∈ ["session-0"; "session-1"; "session-2"])).
  apply wp_returns. unfold createObjects. apply wp_bind.
  eapply wp_mono.
  2:{ apply (createObjects_loop_wp B orc envTags colorTags project1 project2
               promptIds queueIds configParams (fun _ => False) Inv
               (fun i _ _ a => Inv (S i) a)).
      - intros i Hnone. rewrite projectId_of_even in Hnone.
        destruct (Nat.even i); [destruct Hp1 as [? Hp] | destruct Hp2 as [? Hp]];
          congruence.
      - intros i a x (Hlen & Hproj & Hses) ->. repeat split; [exact Hlen|exact Hproj|].
        intros s Hs. cbn in Hs. apply elem_of_app in Hs as [Hs|Hs].
        + apply Hses. exact Hs.
        + apply list_elem_of_singleton in Hs. subst s. apply session_id_cases.
      - intros i a t (Hlen & Hproj & Hses) Ht. repeat split; cbn.
        + rewrite length_app. cbn. lia.
        + intros k t' Hk. apply lookup_app_Some in Hk as [Hk|[Hge Hk]].
          * apply Hproj. exact Hk.
          * apply list_lookup_singleton_Some in Hk as [Hk ->].
            replace k with i by lia. exact Ht.
        + exact Hses.
      - intros i t ids a qs H _. exact H.
      - intros i t ids a ss H _. exact H.
      - intros i t ids a c H. exact H.
      - intros i t ids a o H _. exact H.
      - intros i t ids a spanId o H _ _. exact H.
      - intros i t ids a spanId o H _ _. exact H.
      - intros i t ids a H. exact H.
      - repeat split; [intros k t Hk; inversion Hk | intros s Hs; inversion Hs]. }
  intros a w' (Hlen & Hproj & Hses). apply wp_ret. cbn.
  destruct (uniqueSessions_spec (a_sessions a)) as [Hnd Hin].
  repeat split.
  - rewrite Hlen. lia.
  - intros i t Hi. rewrite <- projectId_of_even. apply Hproj. exact Hi.
  - apply NoDup_fmap_2_strong; [|exact Hnd].
    intros [] [] _ _ Heq. cbn in Heq. congruence.
  - intros s Hs. apply Hses, Hin. exact Hs.
Qed.

(** ** A concrete environment, to run the program on *)

(** A stream of hundredths in [0, 1). *)
Lemma percent_range (n : Z) :
  Qle_bool 0 (n mod 100 # 100) && negb (Qle_bool 1 (n mod 100 # 100)) = true.
Proof.
  pose proof (Z.mod_pos_bound n 100 ltac:(lia)) as Hlt.
  unfold Qle_bool. cbn [Qnum Qden]. apply andb_true_intro. split.
  - apply Z.leb_le. lia.
  - apply negb_true_iff, Z.leb_gt. lia.
Qed.

Definition percent (n : Z) : Rand01 :=
  mkRand01 (n mod 100 # 100) (percent_range n).

Definition seeded_oracle (a b c : Z) : Oracle :=
  {| Math_random :=
       fun k => percent (Z.of_nat k * Z.of_nat k * a + Z.of_nat k * b + c);
     uuid_v4 := fun k => "uuid" +:+ pretty k;
     Date_now := fun k => 1700000000000 + Z.of_nat k;
     db_cuid := fun k => "c" +:+ pretty k;
     bcrypt_salt := fun k => "salt" +:+ pretty k |}.

Definition demo_oracle : Oracle := seeded_oracle 1 37 91.

Definition demo_builtins : Builtins :=
  {| Math_pow := fun x _ => x;
     toFixed := fun _ _ => "0.50";
     Number_toString := fun q => pretty (Qfloor q);
     bcrypt_hash := fun password _ s => "$2a$" +:+ s +:+ "$" +:+ password;
     hashSecretKey := fun secret s => "$2a$" +:+ s +:+ "$" +:+ secret;
     getDisplaySecretKey := fun secret => "sk-lf-...";
     encrypt := fun text iv => iv +:+ ":" +:+ text |}.

Definition demo_world : World := mkWorld emptyDB (mkCursor 0 0 0 0 0) [].

Definition demo_project1 : Project :=
  mkProject "7a88fb47-b4e2-43b8-a06c-a5ce950dc53a" "llm-app" "seed-org-id".
Definition demo_project2 : Project :=
  mkProject "239ad00f-562f-411d-af14-831c75ddd875" "demo-app" "demo-org-id".

Definition demo_configs : list ConfigParam :=
  [ mkConfigParam "manual-score" "config-a" NUMERIC None;
    mkConfigParam "Accuracy" "config-b" CATEGORICAL
      (Some [ mkCategory "Incorrect" 0; mkCategory "Partially Correct" 1;
              mkCategory "Correct" 2 ]);
    mkConfigParam "Toxicity" "config-c" BOOLEAN
      (Some [ mkCategory "True" 1; mkCategory "False" 0 ]) ].

Definition demo_configParams : gmap string (list ConfigParam) :=
  <[pj_id demo_project1 := demo_configs]>
    (<[pj_id demo_project2 := demo_configs]> ∅).

Definition demo_promptIds : gmap string (list string) :=
  <[pj_id demo_project1 := ["prompt-123"; "prompt-456"; "prompt-789"]]>
    (<[pj_id demo_project2 := ["prompt-123"; "prompt-456"]]> ∅).

Definition demo_queueIds : gmap string (list string) :=
  <[pj_id demo_project1 := ["queue-a"]]>
    (<[pj_id demo_project2 := ["queue-b"]]> ∅).

Definition demo_tags : list (option string) := [None; Some "development"].

(** [createObjects] for three traces in the concrete environment, and
    what it returns. *)
Abbreviation demo_createObjects :=
  (createObjects demo_builtins demo_oracle 3 demo_tags demo_tags
     demo_project1 demo_project2 demo_promptIds demo_queueIds
     demo_configParams demo_world) (only parsing).

Definition demo_objects : CreatedObjects :=
  Eval vm_compute in
    match fst demo_createObjects with
    | Ok objects => objects
    | Throw _ => mkCreatedObjects [] [] [] [] [] [] [] []
    end.

Definition demo_world_after : World :=
  Eval vm_compute in snd demo_createObjects.

Lemma demo_createObjects_eq :
  demo_createObjects = (Ok demo_objects, demo_world_after).
Proof. vm_compute. reflexivity. Qed.

Lemma createObjects_trace_volume_witness :
  0 <= 3
  /\ is_Some (demo_promptIds !! pj_id demo_project1)
  /\ is_Some (demo_promptIds !! pj_id demo_project2)
  /\ exists objects w',
       demo_createObjects = (Ok objects, w')
       /\ Z.of_nat (length (co_traces objects)) = 3
       /\ (forall i t, co_traces objects !! i = Some t ->
             tr_projectId t
             = pj_id (if Nat.even i then demo_project1 else demo_project2))
       /\ NoDup (map (fun s => (se_id s, se_projectId s))
                   (co_sessions objects))
       /\ (forall s, s ∈ co_sessions objects ->
             se_id s ∈ ["session-0"; "session-1"; "session-2"]).
Proof.
  assert (H1 : is_Some (demo_promptIds !! pj_id demo_project1))
    by (eexists; reflexivity).
  assert (H2 : is_Some (demo_promptIds !! pj_id demo_project2))
    by (eexists; reflexivity).
  split; [lia|]. split; [exact H1|]. split; [exact H2|].
  apply createObjects_trace_volume; [lia | exact H1 | exact H2].
Defined.

(** ** Observations of [createObjects] *)

(** What C3 says of one observation, relative to the traces and the
    observations generated so far. *)
Definition observation_placed (traces : list Trace)
    (observations : list Observation) (o : Observation) : Prop :=
  (exists t, t ∈ traces /\ ob_traceId o = tr_id t
             /\ ob_projectId o = tr_projectId t)
  /\ (forall p, ob_parentObservationId o = Some p ->
        exists o', o' ∈ observations /\ ob_id o' = p /\ ob_type o' = SPAN
                   /\ ob_traceId o' = ob_traceId o
                   /\ ob_projectId o' = ob_projectId o).

Lemma observation_placed_mono traces traces' observations observations' o :
  traces ⊆ traces' -> observations ⊆ observations' ->
  observation_placed traces observations o ->
  observation_placed traces' observations' o.
Proof.
  intros Ht Ho [(t & Hin & Htr) Hparent]. split.
  - exists t. split; [apply Ht, Hin | exact Htr].
  - intros p Hp. destruct (Hparent p Hp) as (o' & Hin' & H').
    exists o'. split; [apply Ho, Hin' | exact H'].
Qed.

(** C3.  Every observation [createObjects] generates (the spans and
    generations of [observations] and the events of [events]) carries the
    id and the projectId of a generated trace, and when it has a
    [parentObservationId], the parent is a generated span of the same trace
    and project. *)
Theorem createObjects_observations_belong_to_trace
    (B : Builtins) (orc : Oracle) (envTags colorTags : list (option string))
    (project1 project2 : Project)
    (promptIds queueIds : gmap string (list string))
    (configParams : gmap string (list ConfigParam))
    (traceVolume : Z) (w w' : World) (objects : CreatedObjects) :
  createObjects B orc traceVolume envTags colorTags project1 project2
    promptIds queueIds configParams w = (Ok objects, w') ->
  forall o, o ∈ co_observations objects ++ co_events objects ->
    (exists t, t ∈ co_traces objects /\ ob_traceId o = tr_id t
               /\ ob_projectId o = tr_projectId t)
    /\ (forall p, ob_parentObservationId o = Some p ->
          exists o', o' ∈ co_observations objects /\ ob_id o' = p
                     /\ ob_type o' = SPAN
                     /\ ob_traceId o' = ob_traceId o
                     /\ ob_projectId o' = ob_projectId o).
Proof.
  intros Hrun.
  set (Inv := fun (a : Arrays) =>
         forall o, o ∈ a_observations a ++ a_events a ->
           observation_placed (a_traces a) (a_observations a) o).
  set (Span := fun (t : Trace) (ids : list string) (a : Arrays) =>
         t ∈ a_traces a
         /\ forall id, id ∈ ids ->
              exists o', o' ∈ a_observations a /\ ob_id o' = id
                         /\ ob_type o' = SPAN /\ ob_traceId o' = tr_id t
                         /\ ob_projectId o' = tr_projectId t).
  assert (Hwp : wp (fun _ => True)
                  (createObjects B orc traceVolume envTags colorTags project1
                     project2 promptIds queueIds configParams)
                  (fun r _ => forall o,
                     o ∈ co_observations r ++ co_events r ->
                     observation_placed (co_traces r) (co_observations r) o)
                  w).
  { unfold createObjects. apply wp_bind. eapply wp_mono.
    2:{ apply (createObjects_loop_wp B orc envTags colorTags project1 project2
                 promptIds queueIds configParams (fun _ => True)
                 (fun _ a => Inv a)
                 (fun _ t ids a => Inv a /\ Span t ids a)).
        - intros. exact Logic.I.
        - intros i a x H _. exact H.
        - intros i a t H _. split; [|split].
          + intros o Ho. eapply observation_placed_mono; [| |apply H, Ho].
            * intros x Hx. apply elem_of_app. left. exact Hx.
            * intros x Hx. exact Hx.
          + apply elem_of_app. right. left.
          + intros id Hid. inversion Hid.
        - intros i t ids a qs H _. exact H.
        - intros i t ids a ss H _. exact H.
        - intros i t ids a c H. exact H.
        - intros i t ids a o [HI [Ht Hids]] (Hty & Htr & Hpr & Hparent).
          assert (Hsub : a_observations a
                           ⊆ a_observations (push_observation o a))
            by (intros x Hx; apply elem_of_app; left; exact Hx).
          split; [|split].
          + intros x Hx. cbn in Hx.
            rewrite <- app_assoc in Hx.
            apply elem_of_app in Hx as [Hx|Hx];
              [|apply elem_of_app in Hx as [Hx|Hx]].
            * eapply observation_placed_mono; [| exact Hsub |].
              { intros y Hy. exact Hy. }
              apply HI, elem_of_app. left. exact Hx.
            * apply list_elem_of_singleton in Hx. subst x. split.
              { exists t. auto. }
              intros p Hp. destruct (Hids p (Hparent p Hp))
                as (o' & Hin & Hid & Hty' & Htr' & Hpr').
              exists o'. split; [apply Hsub, Hin|].
              repeat split; congruence.
            * eapply observation_placed_mono; [| exact Hsub |].
              { intros y Hy. exact Hy. }
              apply HI, elem_of_app. right. exact Hx.
          + exact Ht.
          + intros id Hid. apply elem_of_app in Hid as [Hid|Hid].
            * destruct (Hids id Hid) as (o' & Hin & H').
              exists o'. split; [apply Hsub, Hin | exact H'].
            * apply list_elem_of_singleton in Hid. subst id.
              exists o. split; [apply elem_of_app; right; left|].
              repeat split; assumption.
        - intros i t ids a spanId o [HI [Ht Hids]] Hin
            (Hty & Htr & Hpr & Hparent).
          assert (Hsub : a_observations a
                           ⊆ a_observations (push_observation o a))
            by (intros x Hx; apply elem_of_app; left; exact Hx).
          split; [|split].
          + intros x Hx. cbn in Hx.
            rewrite <- app_assoc in Hx.
            apply elem_of_app in Hx as [Hx|Hx];
              [|apply elem_of_app in Hx as [Hx|Hx]].
            * eapply observation_placed_mono; [| exact Hsub |].
              { intros y Hy. exact Hy. }
              apply HI, elem_of_app. left. exact Hx.
            * apply list_elem_of_singleton in Hx. subst x. split.
              { exists t. auto. }
              intros p Hp. rewrite Hparent in Hp. injection Hp as <-.
              destruct (Hids spanId Hin)
                as (o' & Hin' & Hid & Hty' & Htr' & Hpr').
              exists o'. split; [apply Hsub, Hin'|].
              repeat split; congruence.
            * eapply observation_placed_mono; [| exact Hsub |].
              { intros y Hy. exact Hy. }
              apply HI, elem_of_app. right. exact Hx.
          + exact Ht.
          + intros id Hid. destruct (Hids id Hid) as (o' & Hin' & H').
            exists o'. split; [apply Hsub, Hin' | exact H'].
        - intros i t ids a spanId o [HI [Ht Hids]] Hin
            (Hty & Htr & Hpr & Hparent).
          split; [|split; [exact Ht | exact Hids]].
          intros x Hx. cbn in Hx. rewrite app_assoc in Hx.
          apply elem_of_app in Hx as [Hx|Hx]; [apply HI, Hx|].
          apply list_elem_of_singleton in Hx. subst x. split.
          { exists t. auto. }
          intros p Hp. rewrite Hparent in Hp. injection Hp as <-.
          destruct (Hids spanId Hin) as (o' & Hin' & Hid & Hty' & Htr' & Hpr').
          exists o'. split; [exact Hin'|]. repeat split; congruence.
        - intros i t ids a [H _]. exact H.
        - intros o Ho. inversion Ho. }
    intros a ? H. apply wp_ret. exact H. }
  intros o Ho. exact (wp_ok _ _ _ _ _ _ Hwp Hrun o Ho).
Qed.

(** ** Queue items of [createObjects] *)

Lemma createObjects_queueItems
    (B : Builtins) (orc : Oracle) (envTags colorTags : list (option string))
    (project1 project2 : Project)
    (promptIds queueIds : gmap string (list string))
    (configParams : gmap string (list ConfigParam))
    (traceVolume : Z) (w w' : World) (objects : CreatedObjects) :
  createObjects B orc traceVolume envTags colorTags project1 project2
    promptIds queueIds configParams w = (Ok objects, w') ->
  forall q, q ∈ co_queueItems objects ->
    (exists t, t ∈ co_traces objects /\ qi_objectId q = tr_id t
               /\ qi_projectId q = tr_projectId t)
    /\ qi_objectType q = TRACE
    /\ (qi_projectId q = pj_id project1 \/ qi_projectId q = pj_id project2)
    /\ queueIds !! qi_projectId q ≫= head = Some (qi_queueId q).
Proof.
  intros Hrun.
  set (Item := fun (traces : list Trace) (q : QueueItem) =>
         (exists t, t ∈ traces /\ qi_objectId q = tr_id t
                    /\ qi_projectId q = tr_projectId t)
         /\ qi_objectType q = TRACE
         /\ (qi_projectId q = pj_id project1
             \/ qi_projectId q = pj_id project2)
         /\ queueIds !! qi_projectId q ≫= head = Some (qi_queueId q)).
  set (Inv := fun (a : Arrays) =>
         forall q, q ∈ a_queueItems a -> Item (a_traces a) q).
  assert (Hwp : wp (fun _ => True)
                  (createObjects B orc traceVolume envTags colorTags project1
                     project2 promptIds queueIds configParams)
                  (fun r _ => forall q, q ∈ co_queueItems r ->
                                Item (co_traces r) q) w).
  { unfold createObjects. apply wp_bind. eapply wp_mono.
    2:{ apply (createObjects_loop_wp B orc envTags colorTags project1 project2
                 promptIds queueIds configParams (fun _ => True)
                 (fun _ a => Inv a)
                 (fun i t _ a => Inv a /\ t ∈ a_traces a
                                 /\ tr_projectId t
                                    = projectId_of project1 project2 i)).
        - intros. exact Logic.I.
        - intros i a x H _. exact H.
        - intros i a t H Ht. split; [|split].
          + intros q Hq. destruct (H q Hq) as [(t' & Hin & Ht') Hrest].
            split; [|exact Hrest]. exists t'.
            split; [apply elem_of_app; left; exact Hin | exact Ht'].
          + apply elem_of_app. right. left.
          + exact Ht.
        - intros i t ids a qs (H & Ht & Hp) Hqs. split; [|split; assumption].
          intros q Hq. cbn in Hq. apply elem_of_app in Hq as [Hq|Hq].
          + apply H, Hq.
          + rewrite Forall_forall in Hqs.
            destruct (Hqs q Hq) as (queueId & Hhead & ->). cbn.
            repeat split; [exists t; auto| |exact Hhead].
            rewrite Hp, projectId_of_even. destruct (Nat.even i); auto.
        - intros i t ids a ss H _. exact H.
        - intros i t ids a c H. exact H.
        - intros i t ids a o H _. exact H.
        - intros i t ids a spanId o H _ _. exact H.
        - intros i t ids a spanId o H _ _. exact H.
        - intros i t ids a [H _]. exact H.
        - intros q Hq. inversion Hq. }
    intros a ? H. apply wp_ret. exact H. }
  intros q Hq. exact (wp_ok _ _ _ _ _ _ Hwp Hrun q Hq).
Qed.

(** ** Scores of [createObjects] *)

(** What the generator guarantees of a score, by its [dataType]. *)
Definition score_by_dataType (configParams : gmap string (list ConfigParam))
    (s : Score) : Prop :=
  match sc_dataType s with
  | Some NUMERIC => is_Some (sc_value s) /\ sc_stringValue s = None
  | Some BOOLEAN =>
      exists value,
        sc_value s = Some (inject_Z value)
        /\ sc_stringValue s = Some (if value =? 1 then "True" else "False")
  | Some CATEGORICAL =>
      (exists config value,
         config ∈ default [] (configParams !! sc_projectId s)
         /\ cp_dataType config = CATEGORICAL
         /\ sc_name s = cp_name config
         /\ sc_value s = Some (inject_Z value)
         /\ sc_stringValue s = category_label (cp_categories config) value)
      \/ (sc_name s = "Completeness" /\ sc_value s = None
          /\ sc_configId s = None
          /\ (sc_stringValue s = Some "Fully"
              \/ sc_stringValue s = Some "Partially"))
  | None => sc_stringValue s = None
  end.

Lemma score_shape_by_dataType configParams t s :
  score_shape configParams t s -> score_by_dataType configParams s.
Proof.
  intros (_ & Hp & [Ha|[Hs|[Hc|Hq]]]); unfold score_by_dataType.
  - destruct Ha as (config & value & Hin & _ & Hname & Hdt & Hvs & _).
    rewrite Hdt.
    destruct config as [c|]; cbn in *.
    + destruct (cp_dataType c) eqn:Hc; cbn in Hvs;
        injection Hvs as Hv Hsv.
      * rewrite Hv, Hsv. split; [eexists|]; reflexivity.
      * left. exists c, value. rewrite Hp. auto.
      * exists value. auto.
    + injection Hvs as Hv Hsv.
      rewrite Hv, Hsv. split; [eexists|]; reflexivity.
  - destruct Hs as (_ & -> & Hv & Hsv & _). auto.
  - destruct Hc as (Hname & -> & Hv & Hc & Hsv). right. auto.
  - destruct Hq as (-> & _ & Hsv & _). exact Hsv.
Qed.

(** C2, amended.  For every score [createObjects] produces that carries a
    [dataType]: a [NUMERIC] score carries a numeric value and no
    stringValue; a [BOOLEAN] score carries a value and the stringValue
    [True] when the value is 1 and [False] otherwise; a [CATEGORICAL] score
    is either the annotation score of a [CATEGORICAL] config of its project,
    with a value and the label the categories of that config give for the
    value (none when no category has it), or a [Completeness] score, with
    no value, no config and the stringValue [Fully] or [Partially]. *)
Theorem createObjects_score_values
    (B : Builtins) (orc : Oracle) (envTags colorTags : list (option string))
    (project1 project2 : Project)
    (promptIds queueIds : gmap string (list string))
    (configParams : gmap string (list ConfigParam))
    (traceVolume : Z) (w w' : World) (objects : CreatedObjects) :
  createObjects B orc traceVolume envTags colorTags project1 project2
    promptIds queueIds configParams w = (Ok objects, w') ->
  forall s, s ∈ co_scores objects ->
    match sc_dataType s with
    | Some NUMERIC => is_Some (sc_value s) /\ sc_stringValue s = None
    | Some BOOLEAN =>
        exists value,
          sc_value s = Some (inject_Z value)
          /\ sc_stringValue s = Some (if value =? 1 then "True" else "False")
    | Some CATEGORICAL =>
        (exists config value,
           config ∈ default [] (configParams !! sc_projectId s)
           /\ cp_dataType config = CATEGORICAL
           /\ sc_name s = cp_name config
           /\ sc_value s = Some (inject_Z value)
           /\ sc_stringValue s = category_label (cp_categories config) value)
        \/ (sc_name s = "Completeness" /\ sc_value s = None
            /\ sc_configId s = None
            /\ (sc_stringValue s = Some "Fully"
                \/ sc_stringValue s = Some "Partially"))
    | None => sc_stringValue s = None
    end.
Proof.
  intros Hrun.
  set (Inv := fun (a : Arrays) =>
         forall s, s ∈ a_scores a -> score_by_dataType configParams s).
  assert (Hwp : wp (fun _ => True)
                  (createObjects B orc traceVolume envTags colorTags project1
                     project2 promptIds queueIds configParams)
                  (fun r _ => forall s, s ∈ co_scores r ->
                                score_by_dataType configParams s) w).
  { unfold createObjects. apply wp_bind. eapply wp_mono.
    2:{ apply (createObjects_loop_wp B orc envTags colorTags project1 project2
                 promptIds queueIds configParams (fun _ => True)
                 (fun _ a => Inv a) (fun _ _ _ a => Inv a)).
        - intros. exact Logic.I.
        - intros i a x H _. exact H.
        - intros i a t H _. exact H.
        - intros i t ids a qs H _. exact H.
        - intros i t ids a ss H Hss s Hs. cbn in Hs.
          apply elem_of_app in Hs as [Hs|Hs]; [apply H, Hs|].
          rewrite Forall_forall in Hss.
          eapply score_shape_by_dataType, Hss, Hs.
        - intros i t ids a c H. exact H.
        - intros i t ids a o H _. exact H.
        - intros i t ids a spanId o H _ _. exact H.
        - intros i t ids a spanId o H _ _. exact H.
        - intros i t ids a H. exact H.
        - intros s Hs. inversion Hs. }
    intros a ? H. apply wp_ret. exact H. }
  intros s Hs. exact (wp_ok _ _ _ _ _ _ Hwp Hrun s Hs).
Qed.

(** C2, as stated, fails on the [Completeness] score:
    its [dataType] is [CATEGORICAL] and its stringValue is a literal, which
    no category of any config of the project yields. *)
Lemma createObjects_score_lookup_counterexample :
  demo_createObjects = (Ok demo_objects, demo_world_after)
  /\ ~ (forall s, s ∈ co_scores demo_objects ->
         (sc_dataType s = Some NUMERIC ->
            is_Some (sc_value s) /\ sc_stringValue s = None)
         /\ (sc_dataType s = Some CATEGORICAL
             \/ sc_dataType s = Some BOOLEAN ->
               exists config value,
                 config ∈ default [] (demo_configParams !! sc_projectId s)
                 /\ is_Some (sc_stringValue s)
                 /\ sc_stringValue s
                    = category_label (cp_categories config) value)).
Proof.
  split; [exact demo_createObjects_eq|]. intros H.
  destruct (co_scores demo_objects !! 1%nat) as [s|] eqn:Hs;
    [specialize (H s (list_elem_of_lookup_2 _ _ _ Hs))|];
    vm_compute in Hs; [|discriminate].
  injection Hs as <-.
  destruct H as [_ H].
  destruct (H (or_introl eq_refl)) as (config & value & Hin & _ & Hlabel).
  vm_compute in Hin.
  repeat (apply elem_of_cons in Hin as [-> | Hin]);
    [| | | inversion Hin]; cbn -[Z.eqb] in Hlabel;
    repeat (destruct (_ =? value); [cbn in Hlabel; discriminate|]);
    cbn in Hlabel; discriminate.
Qed.

Lemma createObjects_score_values_witness :
  demo_createObjects = (Ok demo_objects, demo_world_after)
  /\ forall s, s ∈ co_scores demo_objects ->
       match sc_dataType s with
       | Some NUMERIC => is_Some (sc_value s) /\ sc_stringValue s = None
       | Some BOOLEAN =>
           exists value,
             sc_value s = Some (inject_Z value)
             /\ sc_stringValue s
                = Some (if value =? 1 then "True" else "False")
       | Some CATEGORICAL =>
           (exists config value,
              config ∈ default [] (demo_configParams !! sc_projectId s)
              /\ cp_dataType config = CATEGORICAL
              /\ sc_name s = cp_name config
              /\ sc_value s = Some (inject_Z value)
              /\ sc_stringValue s
                 = category_label (cp_categories config) value)
           \/ (sc_name s = "Completeness" /\ sc_value s = None
               /\ sc_configId s = None
               /\ (sc_stringValue s = Some "Fully"
                   \/ sc_stringValue s = Some "Partially"))
       | None => sc_stringValue s = None
       end.
Proof.
  split; [exact demo_createObjects_eq|].
  exact (createObjects_score_values _ _ _ _ _ _ _ _ _ _ _ _ _
           demo_createObjects_eq).
Defined.

Lemma createObjects_observations_belong_to_trace_witness :
  demo_createObjects = (Ok demo_objects, demo_world_after)
  /\ forall o, o ∈ co_observations demo_objects ++ co_events demo_objects ->
       (exists t, t ∈ co_traces demo_objects /\ ob_traceId o = tr_id t
                  /\ ob_projectId o = tr_projectId t)
       /\ (forall p, ob_parentObservationId o = Some p ->
             exists o', o' ∈ co_observations demo_objects /\ ob_id o' = p
                        /\ ob_type o' = SPAN
                        /\ ob_traceId o' = ob_traceId o
                        /\ ob_projectId o' = ob_projectId o).
Proof.
  split; [exact demo_createObjects_eq|].
  exact (createObjects_observations_belong_to_trace
           _ _ _ _ _ _ _ _ _ _ _ _ _ demo_createObjects_eq).
Defined.

(** ** What a computation leaves alone *)

(** A relation between the world before and the world after that every
    step of a computation keeps: reflexive, transitive, blind to the oracle
    cursor. *)
Record Frame := mkFrame {
  kept : World -> World -> Prop;
  kept_refl : forall w, kept w w;
  kept_trans : forall w1 w2 w3, kept w1 w2 -> kept w2 w3 -> kept w1 w3;
  kept_cursor : forall w c, kept w (mkWorld (w_db w) c (w_log w))
}.

(** [F] allows log lines. *)
Definition loggable (F : Frame) : Prop :=
  forall w line,
    kept F w (mkWorld (w_db w) (w_cur w) (w_log w ++ [line])).

(** [F] allows writes to the table [Tbl]. *)
Definition writable {R} (F : Frame) (Tbl : Table R) : Prop :=
  forall w xs, kept F w (mkWorld (with_rows Tbl xs (w_db w)) (w_cur w) (w_log w)).

Definition preserves {A} (F : Frame) (m : M A) : Prop :=
  forall w, kept F w (snd (m w)).

Section Preserves.

Variable F : Frame.

Lemma preserves_ret {A} (a : A) : preserves F (ret a).
Proof. intros w. apply kept_refl. Qed.

Lemma preserves_throw {A} e : preserves F (@throw A e).
Proof. intros w. apply kept_refl. Qed.

Lemma preserves_bind {A B} (m : M A) (k : A -> M B) :
  preserves F m -> (forall a, preserves F (k a)) -> preserves F (bind m k).
Proof.
  intros Hm Hk w. unfold bind. specialize (Hm w).
  destruct (m w) as [[a|e] w1]; cbn in *; [|exact Hm].
  eapply kept_trans; [exact Hm | apply Hk].
Qed.

Lemma preserves_try_catch {A} (m : M A) (h : Exn -> M A) :
  preserves F m -> (forall e, preserves F (h e)) ->
  preserves F (try_catch m h).
Proof.
  intros Hm Hh w. unfold try_catch. specialize (Hm w).
  destruct (m w) as [[a|e] w1]; cbn in *; [exact Hm|].
  eapply kept_trans; [exact Hm | apply Hh].
Qed.

Lemma preserves_get_db : preserves F get_db.
Proof. intros w. apply kept_refl. Qed.

Lemma preserves_logger line : loggable F -> preserves F (logger line).
Proof. intros HL w. apply HL. Qed.

Lemma preserves_random orc : preserves F (random orc).
Proof. intros w. apply kept_cursor. Qed.

Lemma preserves_v4 orc : preserves F (v4 orc).
Proof. intros w. apply kept_cursor. Qed.

Lemma preserves_now orc : preserves F (now orc).
Proof. intros w. apply kept_cursor. Qed.

Lemma preserves_cuid orc : preserves F (cuid orc).
Proof. intros w. apply kept_cursor. Qed.

Lemma preserves_salt orc : preserves F (salt orc).
Proof. intros w. apply kept_cursor. Qed.

Lemma preserves_for_range {St} n i (body : nat -> St -> M St) s :
  (forall j s', preserves F (body j s')) ->
  preserves F (for_range n i body s).
Proof.
  intros Hbody. revert i s. induction n as [|n IH]; intros i s.
  - apply preserves_ret.
  - simpl. apply preserves_bind; [apply Hbody | intros s'; apply IH].
Qed.

Lemma preserves_for_of {X St} (xs : list X) (body : X -> St -> M St) s :
  (forall x s', preserves F (body x s')) ->
  preserves F (for_of xs body s).
Proof.
  intros Hbody. revert s. induction xs as [|x xs IH]; intros s.
  - apply preserves_ret.
  - simpl. apply preserves_bind; [apply Hbody | intros s'; apply IH].
Qed.

Lemma preserves_for_random {St} orc fuel j bound
    (body : nat -> St -> M St) s :
  (forall k s', preserves F (body k s')) ->
  preserves F (for_random orc fuel j bound body s).
Proof.
  intros Hbody. revert j s. induction fuel as [|fuel IH]; intros j s; simpl;
    apply preserves_bind; try apply preserves_random; intros r;
    destruct (_ <? _); try apply preserves_ret.
  apply preserves_bind; [apply Hbody | intros s'; apply IH].
Qed.

Lemma preserves_findFirst {R} (Tbl : Table R) where_ :
  preserves F (findFirst Tbl where_).
Proof. intros w. apply kept_refl. Qed.

Lemma preserves_create {R} (Tbl : Table R) model keys row :
  writable F Tbl -> preserves F (create Tbl model keys row).
Proof.
  intros HW w. unfold create, bind, get_db, put_db, throw, ret.
  destruct (existsb _ _); cbn; [apply kept_refl | apply HW].
Qed.

Lemma preserves_createMany {R} (Tbl : Table R) model keys data :
  writable F Tbl -> preserves F (createMany Tbl model keys data).
Proof.
  intros HW w. unfold createMany, bind, get_db, put_db, throw.
  destruct (_ || _); cbn; [apply kept_refl | apply HW].
Qed.

Lemma preserves_upsert {R} (Tbl : Table R) model keys where_ create_ update :
  writable F Tbl -> preserves F create_ ->
  preserves F (upsert Tbl model keys where_ create_ update).
Proof.
  intros HW Hc w. unfold upsert, bind at 1, get_db.
  destruct (find where_ (rows Tbl (w_db w))) as [r|].
  - destruct update as [f|]; [|apply kept_refl].
    destruct (existsb _ _); [apply kept_refl|]. apply HW.
  - apply (preserves_bind create_ (create Tbl model keys) Hc).
    intros row. apply preserves_create. exact HW.
Qed.

End Preserves.

Ltac preserves_step :=
  lazymatch goal with
  | |- preserves _ (ret _) => apply preserves_ret
  | |- preserves _ (throw _) => apply preserves_throw
  | |- preserves _ (logger _) => apply preserves_logger
  | |- preserves _ (random _) => apply preserves_random
  | |- preserves _ (v4 _) => apply preserves_v4
  | |- preserves _ (now _) => apply preserves_now
  | |- preserves _ (cuid _) => apply preserves_cuid
  | |- preserves _ (salt _) => apply preserves_salt
  | |- preserves _ get_db => apply preserves_get_db
  | |- preserves _ (findFirst _ _) => apply preserves_findFirst
  | |- preserves _ (bind _ _) => apply preserves_bind; [|intros ?]
  | |- preserves _ (try_catch _ _) => apply preserves_try_catch; [|intros ?]
  | |- preserves _ (upsert _ _ _ _ _ _) => apply preserves_upsert
  | |- preserves _ (create _ _ _ _) => apply preserves_create
  | |- preserves _ (createMany _ _ _ _) => apply preserves_createMany
  | |- preserves _ (for_of _ _ _) => apply preserves_for_of; intros ? ?
  | |- preserves _ (for_range _ _ _ _) => apply preserves_for_range; intros ? ?
  | |- preserves _ (for_random _ _ _ _ _ _) =>
      apply preserves_for_random; intros ? ?
  | |- preserves _ (if ?c then _ else _) => destruct c
  | |- preserves _ (match ?x with _ => _ end) => destruct x
  | |- preserves _ (let _ := _ in _) => cbv zeta
  end.

Section PreservesSeed.

Variable F : Frame.
Variable B : Builtins.
Variable orc : Oracle.

Lemma preserves_createObjects traceVolume envTags colorTags project1 project2
    promptIds queueIds configParams :
  preserves F
    (createObjects B orc traceVolume envTags colorTags project1 project2
       promptIds queueIds configParams).
Proof.
  unfold createObjects, createTrace, createSpan, createGeneration,
    createEvent, optional_parameter, getGenerationInputOutput.
  repeat preserves_step.
Qed.









End PreservesSeed.

(** ** The environment gate of [main] *)











Lemma wp_any {X} (m : M X) (Q : X -> World -> Prop) w :
  (forall a w', Q a w') -> wp (fun _ => True) m Q w.
Proof. intros H. unfold wp. destruct (m w) as [[a|e] w']; auto. Qed.



Lemma wp_logger T line (Q : unit -> World -> Prop) w :
  Q tt (mkWorld (w_db w) (w_cur w) (w_log w ++ [line])) ->
  wp T (logger line) Q w.
Proof. intros H. exact H. Qed.




(** ** What a successful write did *)

Lemma bind_ok {X Y} (m : M X) (k : X -> M Y) w y w' :
  bind m k w = (Ok y, w') ->
  exists x w1, m w = (Ok x, w1) /\ k x w1 = (Ok y, w').
Proof.
  unfold bind. destruct (m w) as [[x|e] w1]; [eauto | discriminate].
Qed.

Lemma create_ok {R} (Tbl : Table R) model keys row w r w' :
  create Tbl model keys row w = (Ok r, w') ->
  r = row
  /\ existsb (keys row) (rows Tbl (w_db w)) = false
  /\ w' = mkWorld (with_rows Tbl (rows Tbl (w_db w) ++ [row]) (w_db w))
            (w_cur w) (w_log w).
Proof.
  unfold create, bind, get_db, put_db, throw, ret.
  destruct (existsb _ _); [discriminate|].
  intros H. injection H as <- <-. auto.
Qed.

(** The three ways an [upsert] succeeds: the row is found and left alone,
    found and updated, or absent and created. *)
Lemma upsert_ok {R} (Tbl : Table R) model keys where_ create_ update w r w' :
  upsert Tbl model keys where_ create_ update w = (Ok r, w') ->
  let l := rows Tbl (w_db w) in
  (find where_ l = Some r /\ update = None /\ w' = w)
  \/ (exists r0 f,
        find where_ l = Some r0 /\ update = Some f /\ r = f r0
        /\ existsb (keys r) (remove_first where_ l) = false
        /\ w' = mkWorld (with_rows Tbl (replace_first where_ r l) (w_db w))
                  (w_cur w) (w_log w))
  \/ (exists w1,
        find where_ l = None /\ create_ w = (Ok r, w1)
        /\ existsb (keys r) (rows Tbl (w_db w1)) = false
        /\ w' = mkWorld
                  (with_rows Tbl (rows Tbl (w_db w1) ++ [r]) (w_db w1))
                  (w_cur w1) (w_log w1)).
Proof.
  intros H l. unfold upsert, bind at 1, get_db in H. fold l in H.
  destruct (find where_ l) as [r0|] eqn:Hfind.
  - destruct update as [f|].
    + right. left. exists r0, f.
      unfold bind, put_db, throw, ret in H.
      destruct (existsb _ _) eqn:Hk; [discriminate|].
      injection H as <- <-. auto.
    + left. unfold ret in H. injection H as <- <-. auto.
  - right. right. apply bind_ok in H as (row & w1 & Hc & H).
    apply create_ok in H as (-> & Hk & ->). exists w1. auto.
Qed.

Lemma find_Some_holds {R} (p : R -> bool) xs r :
  find p xs = Some r -> p r = true /\ r ∈ xs.
Proof.
  intros H. apply find_some in H as [Hin Hp].
  split; [exact Hp | apply list_elem_of_In; exact Hin].
Qed.

Lemma replace_first_elem {R} (p : R -> bool) r' xs r0 :
  find p xs = Some r0 -> r' ∈ replace_first p r' xs.
Proof.
  induction xs as [|x xs IH]; simpl; [discriminate|].
  destruct (p x); intros H.
  - left.
  - right. apply IH. exact H.
Qed.

Lemma replace_first_other {R} (p : R -> bool) r' xs x :
  x ∈ xs -> p x = false -> x ∈ replace_first p r' xs.
Proof.
  induction xs as [|y xs IH]; simpl; intros Hin Hp; [inversion Hin|].
  apply elem_of_cons in Hin as [->|Hin].
  - rewrite Hp. left.
  - destruct (p y); right; [exact Hin | apply IH; assumption].
Qed.

Lemma eqb_true (a b : string) : (a === b) = true -> a = b.
Proof. apply String.eqb_eq. Qed.

(** The same, forwards: what a lookup that finds, or misses, its row makes
    of a write. *)
Lemma existsb_false_intro {R} (p : R -> bool) (xs : list R) :
  (forall x, x ∈ xs -> p x = false) -> existsb p xs = false.
Proof.
  intros H. apply not_true_iff_false. intros E.
  apply existsb_exists in E as (x & Hin & Hp).
  rewrite (H x) in Hp; [discriminate|]. apply list_elem_of_In. exact Hin.
Qed.

Lemma find_None_all {R} (p : R -> bool) (xs : list R) :
  find p xs = None -> forall x, x ∈ xs -> p x = false.
Proof.
  intros H x Hin. apply list_elem_of_In in Hin.
  exact (find_none p xs H x Hin).
Qed.

Lemma bind_run {X Y} (m : M X) (k : X -> M Y) w a w' :
  m w = (Ok a, w') -> bind m k w = k a w'.
Proof. intros H. unfold bind. rewrite H. reflexivity. Qed.

Lemma upsert_found {R} (T : Table R) model keys where_ create_ w r :
  find where_ (rows T (w_db w)) = Some r ->
  upsert T model keys where_ create_ None w = (Ok r, w).
Proof. intros H. unfold upsert, bind, get_db. rewrite H. reflexivity. Qed.

Lemma upsert_missing {R} (T : Table R) model keys where_ create_
    (update : option (R -> R)) w :
  find where_ (rows T (w_db w)) = None ->
  upsert T model keys where_ create_ update w
  = bind create_ (create T model keys) w.
Proof.
  intros H. unfold upsert. unfold bind at 1. unfold get_db. rewrite H.
  reflexivity.
Qed.

Lemma create_fresh {R} (T : Table R) model keys (row : R) w :
  existsb (keys row) (rows T (w_db w)) = false ->
  create T model keys row w
  = (Ok row,
     mkWorld (with_rows T (rows T (w_db w) ++ [row]) (w_db w)) (w_cur w)
       (w_log w)).
Proof. intros H. unfold create, bind, get_db. rewrite H. reflexivity. Qed.

(** *** [generateQueues] *)

Lemma generateQueues_ok orc project configs w ids w' :
  generateQueues orc project configs w = (Ok ids, w') ->
  exists queue,
    ids = [aq_id queue]
    /\ queue ∈ annotationQueues (w_db w')
    /\ aq_projectId queue = pj_id project
    /\ (forall x, x ∈ annotationQueues (w_db w) ->
          aq_projectId x <> pj_id project ->
          x ∈ annotationQueues (w_db w')).
Proof.
  unfold generateQueues. intros H.
  apply bind_ok in H as (u & w1 & Hu & H).
  apply bind_ok in H as (r & w2 & Hup & H).
  unfold ret in H. injection H as <- <-.
  assert (Hother : forall x : AnnotationQueue,
            aq_projectId x <> pj_id project ->
            (aq_projectId x === pj_id project) && (aq_name x === "Default")
            = false).
  { intros x Hx. apply andb_false_intro1, String.eqb_neq. exact Hx. }
  unfold v4 in Hu. injection Hu as <- <-. cbn [w_db] in *.
  apply upsert_ok in Hup as [(Hfind & Hnone & _)
                            |[(r0 & f & Hfind & Hf & -> & _ & ->)
                             |(w3 & Hfind & Hc & _ & ->)]];
    cbn [rows with_rows T_annotationQueues w_db annotationQueues] in *.
  - discriminate.
  - injection Hf as <-.
    apply find_Some_holds in Hfind as Hr0. destruct Hr0 as [Hp _].
    apply andb_prop in Hp as [Hp _]. apply eqb_true in Hp. cbn in Hp.
    lazymatch goal with
    | |- context [replace_first _ ?r' _] => exists r'
    end.
    split; [reflexivity|]. split; [|split].
    + eapply replace_first_elem. exact Hfind.
    + exact Hp.
    + intros x Hin Hx. apply replace_first_other; [exact Hin|].
      apply Hother. exact Hx.
  - unfold ret in Hc. injection Hc as <- <-. cbn.
    lazymatch goal with
    | |- context [_ ++ [?r']] => exists r'
    end.
    split; [reflexivity|]. split; [|split].
    + apply elem_of_app. right. left.
    + reflexivity.
    + intros x Hin _. apply elem_of_app. left. exact Hin.
Qed.

Lemma generateQueuesForProject_ok orc project1 project2 configs w queueIds w' :
  generateQueuesForProject orc [project1; project2] configs w
  = (Ok queueIds, w') ->
  exists ids1 w1 ids2,
    generateQueues orc project1 (default [] (configs !! pj_id project1)) w
    = (Ok ids1, w1)
    /\ generateQueues orc project2 (default [] (configs !! pj_id project2)) w1
       = (Ok ids2, w')
    /\ queueIds = <[pj_id project2 := ids2]> (<[pj_id project1 := ids1]> ∅).
Proof.
  unfold generateQueuesForProject, for_each_project. simpl for_of.
  intros H.
  apply bind_ok in H as (m1 & w1 & H1 & H).
  apply bind_ok in H1 as (ids1 & w1' & H1 & Hr1).
  unfold ret in Hr1. injection Hr1 as <- <-.
  apply bind_ok in H as (m2 & w2 & H2 & H).
  apply bind_ok in H2 as (ids2 & w2' & H2 & Hr2).
  unfold ret in Hr2, H. injection Hr2 as <- <-. injection H as <- <-.
  exists ids1, w1', ids2. auto.
Qed.

(** C8.  Every annotation queue item [createObjects] generates, when it is
    given the queue ids [generateQueuesForProject] returned for the two
    projects, has object type [TRACE], names a generated trace of its
    project as its object, carries the queue id [generateQueues] returned
    for that project, and that queue is a row of the database for the same
    project. *)
Theorem createObjects_queue_items_reference_queue_and_trace
    (B : Builtins) (orc : Oracle) (envTags colorTags : list (option string))
    (project1 project2 : Project)
    (promptIds queueIds : gmap string (list string))
    (configIdsAndNames configParams : gmap string (list ConfigParam))
    (traceVolume : Z) (w0 w1 w2 w3 : World) (objects : CreatedObjects) :
  generateQueuesForProject orc [project1; project2] configIdsAndNames w0
  = (Ok queueIds, w1) ->
  createObjects B orc traceVolume envTags colorTags project1 project2
    promptIds queueIds configParams w2 = (Ok objects, w3) ->
  forall q, q ∈ co_queueItems objects ->
    qi_objectType q = TRACE
    /\ (exists t, t ∈ co_traces objects /\ qi_objectId q = tr_id t
                  /\ qi_projectId q = tr_projectId t)
    /\ (exists project wa wb,
          project ∈ [project1; project2]
          /\ qi_projectId q = pj_id project
          /\ generateQueues orc project
               (default [] (configIdsAndNames !! pj_id project)) wa
             = (Ok [qi_queueId q], wb))
    /\ (exists queue, queue ∈ annotationQueues (w_db w1)
                      /\ aq_id queue = qi_queueId q
                      /\ aq_projectId queue = qi_projectId q).
Proof.
  intros Hqueues Hrun q Hq.
  destruct (createObjects_queueItems _ _ _ _ _ _ _ _ _ _ _ _ _ Hrun q Hq)
    as (Htrace & Hty & Hproject & Hhead).
  split; [exact Hty|]. split; [exact Htrace|].
  apply generateQueuesForProject_ok in Hqueues
    as (ids1 & wa & ids2 & Hg1 & Hg2 & ->).
  destruct (generateQueues_ok _ _ _ _ _ _ Hg1)
    as (queue1 & -> & Hin1 & Hp1 & _).
  destruct (generateQueues_ok _ _ _ _ _ _ Hg2)
    as (queue2 & -> & Hin2 & Hp2 & Hkeep).
  destruct (decide (qi_projectId q = pj_id project2)) as [E2|N2].
  - rewrite E2, lookup_insert_eq in Hhead. cbn in Hhead.
    injection Hhead as Hid. split.
    + exists project2, wa, w1. rewrite <- Hid.
      split; [right; left|]. split; [exact E2 | exact Hg2].
    + exists queue2. rewrite E2. auto.
  - destruct Hproject as [E1|E2]; [|contradiction].
    rewrite lookup_insert_ne in Hhead by congruence.
    rewrite E1, lookup_insert_eq in Hhead. cbn in Hhead.
    injection Hhead as Hid. split.
    + exists project1, w0, wa. rewrite <- Hid.
      split; [left|]. split; [exact E1 | exact Hg1].
    + exists queue1. rewrite E1. split; [|auto].
      apply Hkeep; [exact Hin1 | congruence].
Qed.

(** A concrete run of the two steps, with an oracle under which a queue
    item is generated. *)
Definition queue_demo_oracle : Oracle := seeded_oracle 11 23 99.

Abbreviation queue_demo_generateQueues :=
  (generateQueuesForProject queue_demo_oracle [demo_project1; demo_project2]
     demo_configParams demo_world) (only parsing).

Definition queue_demo_queueIds : gmap string (list string) :=
  <[pj_id demo_project2 := ["queue-uuid1"]]>
    (<[pj_id demo_project1 := ["queue-uuid0"]]> ∅).

Definition queue_demo_world : World :=
  Eval vm_compute in snd queue_demo_generateQueues.

Lemma queue_demo_generateQueues_eq :
  queue_demo_generateQueues = (Ok queue_demo_queueIds, queue_demo_world).
Proof. vm_compute. reflexivity. Qed.

Abbreviation queue_demo_createObjects :=
  (createObjects demo_builtins queue_demo_oracle 3 demo_tags demo_tags
     demo_project1 demo_project2 demo_promptIds queue_demo_queueIds
     demo_configParams queue_demo_world) (only parsing).

Definition queue_demo_objects : CreatedObjects :=
  Eval vm_compute in
    match fst queue_demo_createObjects with
    | Ok objects => objects
    | Throw _ => mkCreatedObjects [] [] [] [] [] [] [] []
    end.

Definition queue_demo_world_after : World :=
  Eval vm_compute in snd queue_demo_createObjects.

Lemma queue_demo_createObjects_eq :
  queue_demo_createObjects = (Ok queue_demo_objects, queue_demo_world_after).
Proof. vm_compute. reflexivity. Qed.

Lemma createObjects_queue_items_reference_queue_and_trace_witness :
  queue_demo_generateQueues = (Ok queue_demo_queueIds, queue_demo_world)
  /\ queue_demo_createObjects
     = (Ok queue_demo_objects, queue_demo_world_after)
  /\ length (co_queueItems queue_demo_objects) = 1%nat
  /\ forall q, q ∈ co_queueItems queue_demo_objects ->
       qi_objectType q = TRACE
       /\ (exists t, t ∈ co_traces queue_demo_objects
                     /\ qi_objectId q = tr_id t
                     /\ qi_projectId q = tr_projectId t)
       /\ (exists project wa wb,
             project ∈ [demo_project1; demo_project2]
             /\ qi_projectId q = pj_id project
             /\ generateQueues queue_demo_oracle project
                  (default [] (demo_configParams !! pj_id project)) wa
                = (Ok [qi_queueId q], wb))
       /\ (exists queue, queue ∈ annotationQueues (w_db queue_demo_world)
                         /\ aq_id queue = qi_queueId q
                         /\ aq_projectId queue = qi_projectId q).
Proof.
  split; [exact queue_demo_generateQueues_eq|].
  split; [exact queue_demo_createObjects_eq|].
  split; [reflexivity|].
  exact (createObjects_queue_items_reference_queue_and_trace
           _ _ _ _ _ _ _ _ _ _ _ _ _ _ _ _
           queue_demo_generateQueues_eq queue_demo_createObjects_eq).
Defined.

(** ** Concrete runs of [main] on the empty database *)

Definition demo_penv : ProcessEnv := mkProcessEnv None None.

(** An oracle whose random numbers are all 0: the smallest dataset. *)
Definition quiet_oracle : Oracle := seeded_oracle 0 0 0.

Abbreviation demo_main_examples :=
  (main demo_builtins quiet_oracle (Some "examples") demo_penv demo_world)
  (only parsing).

Lemma pair_of_fst {X Y} (p : X * Y) (x : X) : fst p = x -> p = (x, snd p).
Proof. destruct p. cbn. intros ->. reflexivity. Qed.

Lemma demo_main_examples_eq :
  demo_main_examples = (Ok tt, snd demo_main_examples).
Proof. apply pair_of_fst. vm_compute. reflexivity. Qed.


(** ** Rows that are found by their key *)

Lemma find_split {R} (p : R -> bool) (l : list R) (r : R) :
  find p l = Some r ->
  exists l1 l2, l = l1 ++ r :: l2 /\ (forall x, x ∈ l1 -> p x = false)
                /\ p r = true.
Proof.
  induction l as [|y l IH]; cbn; [discriminate|].
  destruct (p y) eqn:Hy.
  - intros [= ->]. exists [], l. repeat split; [|exact Hy].
    intros x Hx. inversion Hx.
  - intros H. destruct (IH H) as (l1 & l2 & -> & Hl1 & Hr).
    exists (y :: l1), l2. repeat split; [|exact Hr].
    intros x Hx. apply elem_of_cons in Hx as [->|Hx]; auto.
Qed.

Lemma find_middle {R} (p : R -> bool) (l1 l2 : list R) (r : R) :
  (forall x, x ∈ l1 -> p x = false) -> p r = true ->
  find p (l1 ++ r :: l2) = Some r.
Proof.
  intros Hl1 Hr. induction l1 as [|y l1 IH]; cbn.
  - rewrite Hr. reflexivity.
  - rewrite (Hl1 y) by left. apply IH. intros x Hx. apply Hl1. right.
    exact Hx.
Qed.

Lemma remove_first_middle {R} (p : R -> bool) (l1 l2 : list R) (r : R) :
  (forall x, x ∈ l1 -> p x = false) -> p r = true ->
  remove_first p (l1 ++ r :: l2) = l1 ++ l2.
Proof.
  intros Hl1 Hr. induction l1 as [|y l1 IH]; cbn.
  - rewrite Hr. reflexivity.
  - rewrite (Hl1 y) by left. f_equal. apply IH. intros x Hx. apply Hl1.
    right. exact Hx.
Qed.

Lemma replace_first_middle {R} (p : R -> bool) (l1 l2 : list R) (r r' : R) :
  (forall x, x ∈ l1 -> p x = false) -> p r = true ->
  replace_first p r' (l1 ++ r :: l2) = l1 ++ r' :: l2.
Proof.
  intros Hl1 Hr. induction l1 as [|y l1 IH]; cbn.
  - rewrite Hr. reflexivity.
  - rewrite (Hl1 y) by left. f_equal. apply IH. intros x Hx. apply Hl1.
    right. exact Hx.
Qed.

Lemma replace_first_none {R} (p : R -> bool) (l : list R) (r' : R) :
  (forall x, x ∈ l -> p x = false) -> replace_first p r' l = l.
Proof.
  intros Hl. induction l as [|y l IH]; cbn; [reflexivity|].
  rewrite (Hl y) by left. f_equal. apply IH. intros x Hx. apply Hl. right.
  exact Hx.
Qed.

Lemma replace_first_same {R} (p : R -> bool) (l : list R) (r : R) :
  find p l = Some r -> replace_first p r l = l.
Proof.
  intros H. destruct (find_split p l r H) as (l1 & l2 & -> & Hl1 & Hr).
  apply replace_first_middle; assumption.
Qed.

Lemma replace_first_map {R X} (g : R -> X) (p : R -> bool) (l : list R)
    (r r' : R) :
  find p l = Some r -> g r' = g r ->
  map g (replace_first p r' l) = map g l.
Proof.
  intros H Hg. destruct (find_split p l r H) as (l1 & l2 & -> & Hl1 & Hr).
  rewrite replace_first_middle by assumption.
  rewrite !map_app. cbn. rewrite Hg. reflexivity.
Qed.

Lemma replace_first_elem_of {R} (p : R -> bool) (l : list R) (r' x : R) :
  x ∈ replace_first p r' l -> x = r' \/ x ∈ l.
Proof.
  induction l as [|y l IH]; cbn; [auto|].
  destruct (p y); intros Hx; apply elem_of_cons in Hx as [->|Hx].
  - left. reflexivity.
  - right. right. exact Hx.
  - right. left.
  - destruct (IH Hx) as [->|Hin]; [left; reflexivity | right; right; exact Hin].
Qed.

Lemma existsb_false_elem {R} (p : R -> bool) (l : list R) (x : R) :
  existsb p l = false -> x ∈ l -> p x = false.
Proof.
  intros H Hx. apply not_true_iff_false. intros Hp.
  assert (existsb p l = true) as E.
  { apply existsb_exists. exists x. split; [|exact Hp].
    apply list_elem_of_In. exact Hx. }
  congruence.
Qed.

(** [r] is the row of [l] that [where_] finds, and no other row of [l]
    shares a key with it. *)
Definition Sole {R} (where_ : R -> bool) (keys : R -> R -> bool) (r : R)
    (l : list R) : Prop :=
  where_ r = true
  /\ exists l1 l2, l = l1 ++ r :: l2
       /\ (forall x, x ∈ l1 -> where_ x = false)
       /\ (forall x, x ∈ l1 ++ l2 -> keys r x = false).

(** How a successful [upsert] that returns [r] takes the rows [l] of its
    table to [l']. *)
Definition Written {R} (keys : R -> R -> bool) (where_ : R -> bool)
    (update : option (R -> R)) (r : R) (l l' : list R) : Prop :=
  (update = None /\ find where_ l = Some r /\ l' = l)
  \/ (exists f r0, update = Some f /\ find where_ l = Some r0 /\ r = f r0
                   /\ existsb (keys r) (remove_first where_ l) = false
                   /\ l' = replace_first where_ r l)
  \/ (find where_ l = None /\ existsb (keys r) l = false /\ l' = l ++ [r]).

Section Keys.

Context {R : Type} (keys : R -> R -> bool).
Hypothesis keys_sym : forall x y, keys x y = keys y x.

Lemma Sole_find where_ r l : Sole where_ keys r l -> find where_ l = Some r.
Proof.
  intros (Hr & l1 & l2 & -> & Hl1 & _). apply find_middle; assumption.
Qed.

Lemma Sole_update where_ r r' l :
  Sole where_ keys r l -> (forall x, keys r' x = keys r x) ->
  existsb (keys r') (remove_first where_ l) = false.
Proof.
  intros (Hr & l1 & l2 & -> & Hl1 & Hk) Hkeys.
  rewrite remove_first_middle by assumption.
  apply existsb_false_intro. intros x Hx. rewrite Hkeys. apply Hk, Hx.
Qed.

Lemma Sole_replace where_ r r' l :
  Sole where_ keys r l -> where_ r' = true ->
  (forall x, keys r' x = keys r x) ->
  Sole where_ keys r' (replace_first where_ r' l).
Proof.
  intros (Hr & l1 & l2 & -> & Hl1 & Hk) Hr' Hkeys.
  split; [exact Hr'|]. exists l1, l2.
  rewrite replace_first_middle by assumption.
  repeat split; [exact Hl1|]. intros x Hx. rewrite Hkeys. apply Hk, Hx.
Qed.

Lemma Written_find where_ update r l l' :
  Written keys where_ update r l l' -> where_ r = true ->
  find where_ l' = Some r.
Proof.
  intros [(_ & Hf & ->) | [(f & r0 & _ & Hf & _ & _ & ->) | (Hf & _ & ->)]] Hr.
  - exact Hf.
  - destruct (find_split _ _ _ Hf) as (l1 & l2 & -> & Hl1 & Hr0).
    rewrite replace_first_middle by assumption.
    apply find_middle; assumption.
  - rewrite <- (app_nil_r [r]). change ([r] ++ []) with (r :: []).
    apply find_middle; [|exact Hr].
    intros x Hx. apply list_elem_of_In in Hx. exact (find_none _ _ Hf x Hx).
Qed.

Lemma Written_Sole where_ f r l l' :
  Written keys where_ (Some f) r l l' -> where_ r = true ->
  Sole where_ keys r l'.
Proof.
  intros [(Hu & _) | [(f' & r0 & _ & Hf & _ & Hk & ->) | (Hf & Hk & ->)]] Hr;
    [discriminate| |]; (split; [exact Hr|]).
  - destruct (find_split _ _ _ Hf) as (l1 & l2 & -> & Hl1 & Hr0).
    rewrite remove_first_middle in Hk by assumption.
    exists l1, l2. rewrite replace_first_middle by assumption.
    repeat split; [exact Hl1|].
    intros x Hx. exact (existsb_false_elem _ _ _ Hk Hx).
  - exists l, []. rewrite app_nil_r. repeat split.
    + intros x Hx. apply list_elem_of_In in Hx. exact (find_none _ _ Hf x Hx).
    + intros x Hx. exact (existsb_false_elem _ _ _ Hk Hx).
Qed.

(** A write through another key leaves the row where it is. *)
Lemma Sole_Written where0 r0 where_ update r l l' :
  Sole where0 keys r0 l -> Written keys where_ update r l l' ->
  (forall x, where_ x = true -> where0 x = false) ->
  where0 r = false ->
  Sole where0 keys r0 l'.
Proof.
  intros (Hr0 & l1 & l2 & -> & Hl1 & Hk0) HW Hdisj Hr.
  assert (where_ r0 = false) as Hwr0.
  { destruct (where_ r0) eqn:E; [|reflexivity].
    rewrite (Hdisj r0 E) in Hr0. discriminate. }
  destruct HW as
    [(_ & _ & ->) | [(f & x0 & _ & Hf & _ & Hk & ->) | (Hf & Hk & ->)]].
  - split; [exact Hr0|]. exists l1, l2. auto.
  - assert (keys r0 r = false) as Hkr.
    { rewrite keys_sym. apply (existsb_false_elem _ _ _ Hk).
      clear -Hf Hwr0. induction l1 as [|y l1 IH]; cbn in *.
      - rewrite Hwr0. left.
      - destruct (where_ y) eqn:Hy.
        + apply elem_of_app. right. left.
        + right. apply IH. exact Hf. }
    split; [exact Hr0|].
    destruct (find where_ l1) as [y|] eqn:Hfl1.
    + destruct (find_split _ _ _ Hfl1) as (a & b & -> & Ha & Hy).
      exists (a ++ r :: b), l2. split; [|split].
      * rewrite <- !app_assoc. cbn.
        rewrite replace_first_middle by assumption. reflexivity.
      * intros x Hx. apply elem_of_app in Hx as [Hx|Hx].
        -- apply Hl1. apply elem_of_app. left. exact Hx.
        -- apply elem_of_cons in Hx as [->|Hx]; [exact Hr|].
           apply Hl1. apply elem_of_app. right. right. exact Hx.
      * intros x Hx. rewrite !elem_of_app, elem_of_cons in Hx.
        destruct Hx as [[Hx|[->|Hx]]|Hx]; [|exact Hkr| |];
          apply Hk0; rewrite !elem_of_app, ?elem_of_cons; auto.
    + assert (forall x, x ∈ l1 -> where_ x = false) as Hnone.
      { intros x Hx. apply list_elem_of_In in Hx.
        exact (find_none _ _ Hfl1 x Hx). }
      exists l1, (replace_first where_ r l2).
      assert (replace_first where_ r (l1 ++ r0 :: l2)
              = l1 ++ r0 :: replace_first where_ r l2) as ->.
      { clear -Hnone Hwr0. induction l1 as [|y l1 IH]; cbn.
        - rewrite Hwr0. reflexivity.
        - rewrite (Hnone y) by left. f_equal. apply IH.
          intros x Hx. apply Hnone. right. exact Hx. }
      repeat split; [exact Hl1|].
      intros x Hx. apply elem_of_app in Hx as [Hx|Hx].
      * apply Hk0. apply elem_of_app. left. exact Hx.
      * apply replace_first_elem_of in Hx as [->|Hx]; [exact Hkr|].
        apply Hk0. apply elem_of_app. right. exact Hx.
  - assert (keys r0 r = false) as Hkr.
    { rewrite keys_sym. apply (existsb_false_elem _ _ _ Hk).
      apply elem_of_app. right. left. }
    split; [exact Hr0|]. exists l1, (l2 ++ [r]).
    rewrite <- app_assoc. cbn. repeat split; [exact Hl1|].
    intros x Hx. rewrite !elem_of_app, elem_of_cons, elem_of_nil in Hx.
    destruct Hx as [Hx|[Hx|[->|[]]]]; [| |exact Hkr];
      apply Hk0; rewrite elem_of_app; auto.
Qed.

Lemma find_Written where0 r0 where_ update r l l' :
  find where0 l = Some r0 -> Written keys where_ update r l l' ->
  (forall x, where_ x = true -> where0 x = false) ->
  where0 r = false ->
  find where0 l' = Some r0.
Proof.
  intros Hf0 HW Hdisj Hr.
  destruct HW as
    [(_ & _ & ->) | [(f & x0 & _ & Hf & _ & Hk & ->) | (Hf & Hk & ->)]].
  - exact Hf0.
  - clear -Hf0 Hdisj Hr. induction l as [|y l IH]; cbn in *; [discriminate|].
    destruct (where_ y) eqn:Hy.
    + rewrite (Hdisj y Hy) in Hf0. cbn. rewrite Hr. exact Hf0.
    + cbn. destruct (where0 y); [exact Hf0 | apply IH, Hf0].
  - clear -Hf0. induction l as [|y l IH]; cbn in *; [discriminate|].
    destruct (where0 y); [exact Hf0 | apply IH, Hf0].
Qed.

End Keys.

(** ** Running [main] again *)

Lemma wp_hash B orc T password rounds (Q : string -> World -> Prop) w :
  (forall h c, Q h (mkWorld (w_db w) c (w_log w))) ->
  wp T (hash B orc password rounds) Q w.
Proof. intros H. apply H. Qed.

(** What a successful [upsert] leaves: the table is [Written], nothing else
    changes, and the row is the updated row or the one [create] gave. *)
Lemma wp_upsert_written {R} (T : Table R) model keys where_ create_ update
    (C : R -> Prop) (Q : R -> World -> Prop) w :
  (forall d, with_rows T (rows T d) d = d) ->
  (forall w0 r w1, create_ w0 = (Ok r, w1) -> w_db w1 = w_db w0 /\ C r) ->
  (forall r l' w',
      Written keys where_ update r (rows T (w_db w)) l' ->
      w_db w' = with_rows T l' (w_db w) ->
      (C r \/ exists r0, where_ r0 = true
                         /\ r = from_option (fun f => f r0) r0 update) ->
      Q r w') ->
  wp (fun _ => True) (upsert T model keys where_ create_ update) Q w.
Proof.
  intros Heta Hcreate HQ. unfold wp.
  destruct (upsert T model keys where_ create_ update w) as [[r|e] w'] eqn:E;
    [|exact I].
  apply upsert_ok in E. cbv zeta in E.
  destruct E as [(Hf & -> & ->)
                | [(r0 & f & Hf & -> & -> & Hk & ->)
                  | (w1 & Hf & Hc & Hk & ->)]].
  - apply (HQ r (rows T (w_db w))).
    + left. auto.
    + symmetry. apply Heta.
    + right. exists r. split; [|reflexivity].
      apply find_Some_holds in Hf. apply Hf.
  - apply (HQ (f r0) (replace_first where_ (f r0) (rows T (w_db w)))).
    + right. left. exists f, r0. auto.
    + reflexivity.
    + right. exists r0. split; [|reflexivity].
      apply find_Some_holds in Hf. apply Hf.
  - destruct (Hcreate _ _ _ Hc) as [Hdb HC]. rewrite Hdb in Hk.
    apply (HQ r (rows T (w_db w) ++ [r])).
    + right. right. auto.
    + cbn [w_db]. rewrite Hdb. reflexivity.
    + left. exact HC.
Qed.

(** The baseline rows after a run: each is found by the key [main] looks it
    up with, and the rows [main] updates share no key with another row. *)
Record Seeded (d : DB) : Prop := mkSeeded {
  seeded_user1 :
    exists u,
      Sole (fun u => us_id u === "user-1") User_keys u (users d)
      /\ us_name u = Some "Demo User"
      /\ us_email u = Some "demo@langfuse.com";
  seeded_user2 :
    exists u,
      Sole (fun u => us_id u === "user-2") User_keys u (users d)
      /\ us_name u = Some "Demo User 2"
      /\ us_email u = Some "member@langfuse.com";
  seeded_organization :
    Sole (fun o => og_id o === "seed-org-id") Organization_keys
      {| og_id := "seed-org-id"; og_name := "Seed Org";
         og_plan := Some "Team" |}
      (organizations d);
  seeded_project :
    Sole (fun p => pj_id p === "7a88fb47-b4e2-43b8-a06c-a5ce950dc53a")
      Project_keys
      {| pj_id := "7a88fb47-b4e2-43b8-a06c-a5ce950dc53a";
         pj_name := "llm-app"; pj_orgId := "seed-org-id" |}
      (projects d);
  seeded_membership1 :
    exists m,
      find (fun m => (om_userId m === "user-1")
                     && (om_orgId m === "seed-org-id"))
        (organizationMemberships d) = Some m;
  seeded_membership2 :
    exists m pm,
      find (fun m => (om_userId m === "user-2")
                     && (om_orgId m === "seed-org-id"))
        (organizationMemberships d) = Some m
      /\ Sole (fun m => (pm_projectId m
                         === "7a88fb47-b4e2-43b8-a06c-a5ce950dc53a")
                        && (pm_userId m === "user-2"))
           ProjectMembership_keys pm (projectMemberships d)
      /\ pm_orgMembershipId pm = om_id m;
  seeded_prompt :
    exists p,
      find (fun r => (pr_projectId r
                      === "7a88fb47-b4e2-43b8-a06c-a5ce950dc53a")
                     && (pr_name r === "summary-prompt")
                     && (pr_version r =? 1))
        (prompts d) = Some p;
  seeded_apiKey :
    exists k, find (fun k => ak_id k === "seed-api-key") (apiKeys d) = Some k
}.

Lemma User_keys_sym (a b : User) : User_keys a b = User_keys b a.
Proof.
  unfold User_keys, same_nonnull. rewrite (String.eqb_sym (us_id a)).
  destruct (us_email a), (us_email b); try reflexivity.
  rewrite (String.eqb_sym s). reflexivity.
Qed.

Lemma OrganizationMembership_keys_sym (a b : OrganizationMembership) :
  OrganizationMembership_keys a b = OrganizationMembership_keys b a.
Proof.
  unfold OrganizationMembership_keys.
  rewrite (String.eqb_sym (om_id a)), (String.eqb_sym (om_orgId a)),
    (String.eqb_sym (om_userId a)). reflexivity.
Qed.

Ltac eta_db := intros []; reflexivity.

Definition baseline (environment : option string) : bool :=
  negb (is_string environment "examples" || is_string environment "load").

Ltac db_simpl_in H :=
  cbn [rows with_rows w_db w_cur w_log T_users T_organizations T_projects
       T_organizationMemberships T_projectMemberships T_prompts T_apiKeys
       users organizations projects organizationMemberships
       projectMemberships prompts apiKeys scoreConfigs annotationQueues
       traceSessions comments annotationQueueItems llmApiKeys evalTemplates
       jobConfigurations datasets datasetItems datasetRuns datasetRunItems
       dashboardWidgets dashboards llmSchemas] in H.

Ltac db_simpl :=
  cbn [rows with_rows w_db w_cur w_log T_users T_organizations T_projects
       T_organizationMemberships T_projectMemberships T_prompts T_apiKeys
       users organizations projects organizationMemberships
       projectMemberships prompts apiKeys scoreConfigs annotationQueues
       traceSessions comments annotationQueueItems llmApiKeys evalTemplates
       jobConfigurations datasets datasetItems datasetRuns datasetRunItems
       dashboardWidgets dashboards llmSchemas].

Lemma find_app_none {R} (p : R -> bool) (l l' : list R) :
  find p l = None -> find p (l ++ l') = find p l'.
Proof.
  induction l as [|x l IH]; cbn; [reflexivity|].
  destruct (p x); [discriminate | exact IH].
Qed.

(** The guarded creation of the API key leaves a key with the id. *)
Lemma wp_seedApiKey B orc id secret public note projectId
    (Q : unit -> World -> Prop) w :
  (forall l' k w',
      find (fun k => ak_id k === id) l' = Some k ->
      w_db w' = with_rows T_apiKeys l' (w_db w) ->
      Q tt w') ->
  wp (fun _ => True) (seedApiKey B orc id secret public note projectId) Q w.
Proof.
  intros HQ.
  unfold seedApiKey, findFirst, create, salt, bind, get_db, put_db, ret,
    throw, wp.
  cbn [w_db w_cur w_log].
  destruct (find (fun k => ak_id k === id) (rows T_apiKeys (w_db w)))
    as [k|] eqn:Hf.
  - apply (HQ (apiKeys (w_db w)) k); [exact Hf|].
    destruct (w_db w); reflexivity.
  - destruct (existsb _ _); [exact I|].
    eapply HQ; [|reflexivity].
    rewrite (find_app_none _ _ _ Hf). cbn. rewrite String.eqb_refl.
    reflexivity.
Qed.

Lemma main_seeds B orc environment penv w :
  baseline environment = true ->
  wp (fun _ => True) (main B orc environment penv)
     (fun _ w' => Seeded (w_db w')) w.
Proof.
  intros Henv. unfold baseline in Henv. apply negb_true_iff in Henv.
  unfold main. rewrite Henv.
  apply wp_bind, wp_hash. intros updatePassword ?.
  apply wp_bind, wp_hash. intros createPassword ?.
  (* user-1 *)
  apply wp_bind.
  eapply (wp_upsert_written T_users _ _ _ _ _
            (fun u => us_id u = "user-1" /\ us_name u = Some "Demo User"
                      /\ us_email u = Some "demo@langfuse.com"));
    [eta_db | intros ? ? ? [= <- <-]; auto |].
  intros user l1 w1 HW1 Hdb1 Huser. db_simpl_in HW1. db_simpl_in Hdb1.
  assert (us_id user = "user-1" /\ us_name user = Some "Demo User"
          /\ us_email user = Some "demo@langfuse.com") as (Hid1 & Hn1 & He1).
  { destruct Huser as [H|(r0 & Hr0 & ->)]; [exact H|].
    apply eqb_true in Hr0. cbn. auto. }
  clear Huser.
  apply wp_bind, wp_hash. intros updatePassword2 ?.
  apply wp_bind, wp_hash. intros createPassword2 ?.
  (* user-2 *)
  apply wp_bind.
  eapply (wp_upsert_written T_users _ _ _ _ _
            (fun u => us_id u = "user-2" /\ us_name u = Some "Demo User 2"
                      /\ us_email u = Some "member@langfuse.com"));
    [eta_db | intros ? ? ? [= <- <-]; auto |].
  intros user2 l2 w2 HW2 Hdb2 Huser2.
  db_simpl_in HW2. db_simpl_in Hdb2. rewrite Hdb1 in HW2, Hdb2.
  db_simpl_in HW2.
  assert (us_id user2 = "user-2" /\ us_name user2 = Some "Demo User 2"
          /\ us_email user2 = Some "member@langfuse.com")
    as (Hid2 & Hn2 & He2).
  { destruct Huser2 as [H|(r0 & Hr0 & ->)]; [exact H|].
    apply eqb_true in Hr0. cbn. auto. }
  clear Huser2.
  (* the organization *)
  apply wp_bind.
  eapply (wp_upsert_written T_organizations _ _ _ _ _
            (fun o => o = {| og_id := "seed-org-id"; og_name := "Seed Org";
                             og_plan := Some "Team" |}));
    [eta_db | intros ? ? ? [= <- <-]; auto |].
  intros org l3 w3 HW3 Hdb3 Horg.
  rewrite Hdb2 in HW3, Hdb3. db_simpl_in HW3.
  assert (org = {| og_id := "seed-org-id"; og_name := "Seed Org";
                   og_plan := Some "Team" |}) as ->.
  { destruct Horg as [H|(r0 & Hr0 & ->)]; [exact H|].
    apply eqb_true in Hr0. cbn. rewrite Hr0. reflexivity. }
  clear Horg.
  (* the project *)
  apply wp_bind.
  eapply (wp_upsert_written T_projects _ _ _ _ _
            (fun p => p = {| pj_id := "7a88fb47-b4e2-43b8-a06c-a5ce950dc53a";
                             pj_name := "llm-app";
                             pj_orgId := "seed-org-id" |}));
    [eta_db | intros ? ? ? [= <- <-]; auto |].
  intros project1 l4 w4 HW4 Hdb4 Hproject.
  rewrite Hdb3 in HW4, Hdb4. db_simpl_in HW4.
  assert (project1 = {| pj_id := "7a88fb47-b4e2-43b8-a06c-a5ce950dc53a";
                        pj_name := "llm-app";
                        pj_orgId := "seed-org-id" |}) as ->.
  { destruct Hproject as [H|(r0 & Hr0 & ->)]; [exact H|].
    apply eqb_true in Hr0. cbn. rewrite Hr0. reflexivity. }
  clear Hproject. cbn [pj_id].
  (* the memberships of the organization *)
  rewrite Hid1. apply wp_bind. unfold upsertOrganizationMembership at 1.
  eapply (wp_upsert_written T_organizationMemberships _ _ _ _ _
            (fun m => om_userId m = "user-1" /\ om_orgId m = "seed-org-id"));
    [eta_db | intros ? ? ? [= <- <-]; auto |].
  intros m1 l5 w5 HW5 Hdb5 Hm1.
  rewrite Hdb4 in HW5, Hdb5. db_simpl_in HW5.
  assert (((om_userId m1 === "user-1") && (om_orgId m1 === "seed-org-id"))
          = true) as Hwm1.
  { destruct Hm1 as [[-> ->]|(r0 & Hr0 & ->)]; [reflexivity|exact Hr0]. }
  clear Hm1.
  rewrite Hid2. apply wp_bind. unfold upsertOrganizationMembership at 1.
  eapply (wp_upsert_written T_organizationMemberships _ _ _ _ _
            (fun m => om_userId m = "user-2" /\ om_orgId m = "seed-org-id"));
    [eta_db | intros ? ? ? [= <- <-]; auto |].
  intros m2 l6 w6 HW6 Hdb6 Hm2.
  rewrite Hdb5 in HW6, Hdb6. db_simpl_in HW6.
  assert (((om_userId m2 === "user-2") && (om_orgId m2 === "seed-org-id"))
          = true) as Hwm2.
  { destruct Hm2 as [[-> ->]|(r0 & Hr0 & ->)]; [reflexivity|exact Hr0]. }
  clear Hm2.
  (* the membership of the project *)
  apply wp_bind.
  eapply (wp_upsert_written T_projectMemberships _ _ _ _ _
            (fun m => pm_projectId m = "7a88fb47-b4e2-43b8-a06c-a5ce950dc53a"
                      /\ pm_userId m = "user-2"
                      /\ pm_orgMembershipId m = om_id m2));
    [eta_db | intros ? ? ? [= <- <-]; auto |].
  intros pm l7 w7 HW7 Hdb7 Hpm.
  rewrite Hdb6 in HW7, Hdb7. db_simpl_in HW7.
  assert (((pm_projectId pm === "7a88fb47-b4e2-43b8-a06c-a5ce950dc53a")
           && (pm_userId pm === "user-2")) = true
          /\ pm_orgMembershipId pm = om_id m2) as [Hwpm Hpmid].
  { destruct Hpm as [(-> & -> & ->)|(r0 & Hr0 & ->)];
      [split; reflexivity | split; [exact Hr0 | reflexivity]]. }
  clear Hpm.
  (* the prompt *)
  apply wp_bind.
  eapply (wp_upsert_written T_prompts _ _ _ _ _
            (fun r => pr_projectId r = "7a88fb47-b4e2-43b8-a06c-a5ce950dc53a"
                      /\ pr_name r = "summary-prompt"
                      /\ pr_version r = 1));
    [eta_db | intros ? ? ? [= <- <-]; auto |].
  intros prompt l8 w8 HW8 Hdb8 Hprompt.
  rewrite Hdb7 in HW8, Hdb8. db_simpl_in HW8.
  assert (((pr_projectId prompt === "7a88fb47-b4e2-43b8-a06c-a5ce950dc53a")
           && (pr_name prompt === "summary-prompt")
           && (pr_version prompt =? 1)) = true) as Hwprompt.
  { destruct Hprompt as [(-> & -> & ->)|(r0 & Hr0 & ->)];
      [reflexivity | exact Hr0]. }
  clear Hprompt.
  (* the API key *)
  apply wp_bind, wp_seedApiKey. intros l9 key w9 Hkey Hdb9.
  rewrite Hdb8 in Hdb9.
  apply wp_ret. rewrite Hdb9. clear Hdb1 Hdb2 Hdb3 Hdb4 Hdb5 Hdb6 Hdb7 Hdb8 Hdb9.
  constructor; db_simpl.
  - exists user. split; [|auto].
    eapply (Sole_Written User_keys User_keys_sym); [|exact HW2| |].
    + eapply Written_Sole; [exact HW1|]. rewrite Hid1. reflexivity.
    + intros x Hx. apply eqb_true in Hx. rewrite Hx. reflexivity.
    + rewrite Hid2. reflexivity.
  - exists user2. split; [|auto].
    eapply Written_Sole; [exact HW2|]. rewrite Hid2. reflexivity.
  - eapply Written_Sole; [exact HW3|]. reflexivity.
  - eapply Written_Sole; [exact HW4|]. reflexivity.
  - exists m1.
    eapply (find_Written OrganizationMembership_keys); [|exact HW6| |].
    + eapply Written_find; [exact HW5|exact Hwm1].
    + intros x Hx. apply andb_true_iff in Hx as [Hx _].
      apply eqb_true in Hx. rewrite Hx. reflexivity.
    + apply andb_true_iff in Hwm2 as [Hx _].
      apply eqb_true in Hx. rewrite Hx. reflexivity.
  - exists m2, pm. split; [|split].
    + eapply Written_find; [exact HW6|exact Hwm2].
    + eapply Written_Sole; [exact HW7|exact Hwpm].
    + exact Hpmid.
  - exists prompt. eapply Written_find; [exact HW8|exact Hwprompt].
  - exists key. exact Hkey.
Qed.

Lemma wp_upsert_found {R} Tt (T : Table R) model keys where_ create_
    (Q : R -> World -> Prop) w r :
  find where_ (rows T (w_db w)) = Some r ->
  Q r w ->
  wp Tt (upsert T model keys where_ create_ None) Q w.
Proof.
  intros Hf HQ. unfold wp. rewrite (upsert_found _ _ _ _ _ _ _ Hf). exact HQ.
Qed.

Lemma wp_upsert_update {R} Tt (T : Table R) model keys where_ create_ f
    (Q : R -> World -> Prop) w r0 :
  find where_ (rows T (w_db w)) = Some r0 ->
  existsb (keys (f r0)) (remove_first where_ (rows T (w_db w))) = false ->
  Q (f r0)
    (mkWorld (with_rows T (replace_first where_ (f r0) (rows T (w_db w)))
                (w_db w))
       (w_cur w) (w_log w)) ->
  wp Tt (upsert T model keys where_ create_ (Some f)) Q w.
Proof.
  intros Hf Hk HQ. unfold wp, upsert, bind, get_db, put_db, ret.
  rewrite Hf, Hk. exact HQ.
Qed.

Lemma wp_seedApiKey_found B orc Tt id secret public note projectId
    (Q : unit -> World -> Prop) w k :
  find (fun k => ak_id k === id) (apiKeys (w_db w)) = Some k ->
  Q tt w ->
  wp Tt (seedApiKey B orc id secret public note projectId) Q w.
Proof.
  intros Hf HQ. unfold wp, seedApiKey, findFirst, bind, get_db, ret.
  cbn [rows T_apiKeys]. rewrite Hf. exact HQ.
Qed.

(** A user row of the seed without its password hash. *)
Definition forget_password (u : User) : User :=
  if (us_id u === "user-1") || (us_id u === "user-2")
  then {| us_id := us_id u; us_name := us_name u; us_email := us_email u;
          us_password := None; us_image := us_image u |}
  else u.

(** The database without the password hashes of the two seed users. *)
Definition forget_passwords (d : DB) : DB :=
  with_rows T_users (map forget_password (users d)) d.

Lemma main_reseeds B orc environment penv w :
  baseline environment = true ->
  Seeded (w_db w) ->
  wp (fun _ => False) (main B orc environment penv)
     (fun _ w' => forget_passwords (w_db w') = forget_passwords (w_db w)
                  /\ Seeded (w_db w')) w.
Proof.
  intros Henv
    [(u1 & Hu1 & Hn1 & He1) (u2 & Hu2 & Hn2 & He2) Horg Hproject
       (m1 & Hm1) (m2 & pm & Hm2 & Hpm & Hpmid) (prompt & Hprompt)
       (key & Hkey)].
  unfold baseline in Henv. apply negb_true_iff in Henv.
  assert (us_id u1 = "user-1") as Hid1 by (apply eqb_true, Hu1).
  assert (us_id u2 = "user-2") as Hid2 by (apply eqb_true, Hu2).
  destruct w as [d cur log]. cbn [w_db] in *.
  unfold main. rewrite Henv.
  apply wp_bind, wp_hash. intros updatePassword c1.
  apply wp_bind, wp_hash. intros createPassword c2.
  (* user-1 *)
  set (f1 := fun u : User => {| us_id := us_id u;
                                us_name := Some "Demo User";
                                us_email := Some "demo@langfuse.com";
                                us_password := Some updatePassword;
                                us_image := us_image u |}).
  assert (forall x, User_keys (f1 u1) x = User_keys u1 x) as Hk1.
  { intros x. unfold User_keys. cbn. rewrite He1. reflexivity. }
  apply wp_bind.
  eapply (wp_upsert_update _ T_users);
    [ exact (Sole_find _ _ _ _ Hu1) | exact (Sole_update _ _ _ _ _ Hu1 Hk1) |].
  db_simpl.
  set (l1 := replace_first (fun u => us_id u === "user-1") (f1 u1) (users d)).
  assert (Written User_keys (fun u => us_id u === "user-1") (Some f1)
            (f1 u1) (users d) l1) as HW1.
  { right. left. exists f1, u1. repeat split.
    - exact (Sole_find _ _ _ _ Hu1).
    - exact (Sole_update _ _ _ _ _ Hu1 Hk1). }
  assert (Sole (fun u => us_id u === "user-1") User_keys (f1 u1) l1) as Hu1'.
  { eapply Written_Sole; [exact HW1|]. cbn. rewrite Hid1. reflexivity. }
  assert (Sole (fun u => us_id u === "user-2") User_keys u2 l1) as Hu2'.
  { eapply (Sole_Written User_keys User_keys_sym); [exact Hu2|exact HW1| |].
    - intros x Hx. apply eqb_true in Hx. rewrite Hx. reflexivity.
    - cbn. rewrite Hid1. reflexivity. }
  apply wp_bind, wp_hash. intros updatePassword2 c3.
  apply wp_bind, wp_hash. intros createPassword2 c4.
  (* user-2 *)
  set (f2 := fun u : User => {| us_id := us_id u;
                                us_name := Some "Demo User 2";
                                us_email := Some "member@langfuse.com";
                                us_password := Some updatePassword2;
                                us_image := us_image u |}).
  assert (forall x, User_keys (f2 u2) x = User_keys u2 x) as Hk2.
  { intros x. unfold User_keys. cbn. rewrite He2. reflexivity. }
  apply wp_bind.
  eapply (wp_upsert_update _ T_users);
    [ exact (Sole_find _ _ _ _ Hu2')
    | exact (Sole_update _ _ _ _ _ Hu2' Hk2) |].
  db_simpl.
  set (l2 := replace_first (fun u => us_id u === "user-2") (f2 u2) l1).
  assert (Written User_keys (fun u => us_id u === "user-2") (Some f2)
            (f2 u2) l1 l2) as HW2.
  { right. left. exists f2, u2. repeat split.
    - exact (Sole_find _ _ _ _ Hu2').
    - exact (Sole_update _ _ _ _ _ Hu2' Hk2). }
  (* the organization *)
  apply wp_bind.
  eapply (wp_upsert_update _ T_organizations);
    [ exact (Sole_find _ _ _ _ Horg)
    | exact (Sole_update _ _ _ _ _ Horg (fun x => eq_refl)) |].
  db_simpl. cbn [og_id og_plan].
  rewrite (replace_first_same _ _ _ (Sole_find _ _ _ _ Horg)).
  (* the project *)
  apply wp_bind.
  eapply (wp_upsert_update _ T_projects);
    [ exact (Sole_find _ _ _ _ Hproject)
    | exact (Sole_update _ _ _ _ _ Hproject (fun x => eq_refl)) |].
  db_simpl. cbn [pj_id].
  rewrite (replace_first_same _ _ _ (Sole_find _ _ _ _ Hproject)).
  (* the memberships of the organization *)
  cbn [f1 f2 us_id]. rewrite Hid1, Hid2.
  apply wp_bind. unfold upsertOrganizationMembership at 1.
  eapply (wp_upsert_found _ T_organizationMemberships); [exact Hm1|].
  apply wp_bind. unfold upsertOrganizationMembership at 1.
  eapply (wp_upsert_found _ T_organizationMemberships); [exact Hm2|].
  (* the membership of the project *)
  assert ({| pm_projectId := pm_projectId pm; pm_userId := pm_userId pm;
             pm_role := pm_role pm; pm_orgMembershipId := om_id m2 |} = pm)
    as Hpm_same by (rewrite <- Hpmid; destruct pm; reflexivity).
  apply wp_bind.
  eapply (wp_upsert_update _ T_projectMemberships);
    [ exact (Sole_find _ _ _ _ Hpm)
    | rewrite Hpm_same; exact (Sole_update _ _ _ _ _ Hpm (fun x => eq_refl)) |].
  db_simpl. rewrite Hpm_same.
  rewrite (replace_first_same _ _ _ (Sole_find _ _ _ _ Hpm)).
  (* the prompt and the API key *)
  apply wp_bind.
  eapply (wp_upsert_found _ T_prompts); [exact Hprompt|].
  apply wp_bind.
  eapply wp_seedApiKey_found; [exact Hkey|].
  apply wp_ret. db_simpl. split.
  - unfold forget_passwords. db_simpl.
    assert (map forget_password l2 = map forget_password (users d)) as ->.
    { unfold l2.
      rewrite (replace_first_map forget_password _ _ u2 (f2 u2)
                 (Sole_find _ _ _ _ Hu2')).
      - unfold l1.
        apply (replace_first_map forget_password _ _ u1 (f1 u1)
                 (Sole_find _ _ _ _ Hu1)).
        unfold forget_password. cbn. rewrite Hid1, Hn1, He1. reflexivity.
      - unfold forget_password. cbn. rewrite Hid2, Hn2, He2. reflexivity. }
    destruct d; reflexivity.
  - constructor; db_simpl.
    + exists (f1 u1). split; [|auto].
      eapply (Sole_Written User_keys User_keys_sym);
        [exact Hu1'|exact HW2| |].
      * intros x Hx. apply eqb_true in Hx. rewrite Hx. reflexivity.
      * cbn. rewrite Hid2. reflexivity.
    + exists (f2 u2). split; [|auto].
      eapply Written_Sole; [exact HW2|]. cbn. rewrite Hid2. reflexivity.
    + exact Horg.
    + exact Hproject.
    + exists m1. exact Hm1.
    + exists m2, pm. auto.
    + exists prompt. exact Hprompt.
    + exists key. exact Hkey.
Qed.

(** C1 (amended).  When a run of [main] with an environment other than
    examples and load has succeeded, a further run with this environment on
    the database it left succeeds as well, whatever the random source and
    the process environment; it creates no row and changes none, except that
    the two seed users get a password hash with a new salt. *)
Theorem main_rerun_baseline (B : Builtins) (orc orc' : Oracle)
    (environment : option string) (penv penv' : ProcessEnv)
    (w0 w1 w1' : World) :
  baseline environment = true ->
  main B orc environment penv w0 = (Ok tt, w1) ->
  w_db w1' = w_db w1 ->
  exists w2,
    main B orc' environment penv' w1' = (Ok tt, w2)
    /\ forget_passwords (w_db w2) = forget_passwords (w_db w1).
Proof.
  intros Henv Hrun Hdb.
  pose proof (wp_ok _ _ _ _ _ _ (main_seeds B orc environment penv w0 Henv)
                Hrun) as Hseeded.
  cbv beta in Hseeded. rewrite <- Hdb in Hseeded.
  destruct (wp_returns _ _ _
              (main_reseeds B orc' environment penv' w1' Henv Hseeded))
    as ([] & w2 & Hrerun & Hsame & _).
  exists w2. split; [exact Hrerun|]. rewrite Hsame, Hdb. reflexivity.
Qed.

Abbreviation demo_main_baseline :=
  (main demo_builtins quiet_oracle None demo_penv demo_world)
  (only parsing).

Lemma demo_main_baseline_eq :
  demo_main_baseline = (Ok tt, snd demo_main_baseline).
Proof. apply pair_of_fst. vm_compute. reflexivity. Qed.

Lemma main_rerun_baseline_witness :
  exists w2,
    main demo_builtins quiet_oracle None demo_penv (snd demo_main_baseline)
    = (Ok tt, w2)
    /\ forget_passwords (w_db w2)
       = forget_passwords (w_db (snd demo_main_baseline)).
Proof.
  exact (main_rerun_baseline demo_builtins quiet_oracle quiet_oracle None
           demo_penv demo_penv demo_world (snd demo_main_baseline)
           (snd demo_main_baseline) eq_refl demo_main_baseline_eq eq_refl).
Defined.

(** C1, as stated, fails.  With the environment [examples] the second run
    inserts six more score configs, whose upsert is keyed by a new id, and
    then raises at the prompts.  With no environment the second run hashes
    the password of the two seed users with a new salt. *)
Lemma main_rerun_counterexample :
  demo_main_examples = (Ok tt, snd demo_main_examples)
  /\ fst (main demo_builtins quiet_oracle (Some "examples") demo_penv
            (snd demo_main_examples))
     = Throw (UniqueConstraintViolation "Prompt")
  /\ length (scoreConfigs (w_db (snd demo_main_examples))) = 6%nat
  /\ length (scoreConfigs
               (w_db (snd (main demo_builtins quiet_oracle (Some "examples")
                             demo_penv (snd demo_main_examples)))))
     = 12%nat
  /\ demo_main_baseline = (Ok tt, snd demo_main_baseline)
  /\ map us_password (users (w_db (snd demo_main_baseline)))
     = [Some "$2a$salt1$password"; Some "$2a$salt3$password"]
  /\ map us_password
       (users (w_db (snd (main demo_builtins quiet_oracle None demo_penv
                            (snd demo_main_baseline)))))
     = [Some "$2a$salt5$password"; Some "$2a$salt7$password"].
Proof.
  split; [exact demo_main_examples_eq|].
  split; [vm_compute; reflexivity|].
  split; [vm_compute; reflexivity|].
  split; [vm_compute; reflexivity|].
  split; [exact demo_main_baseline_eq|].
  split; vm_compute; reflexivity.
Qed.

(** ** Running [generatePrompts] again *)

Lemma string_length_app (a b : string) :
  String.length (a +:+ b) = (String.length a + String.length b)%nat.
Proof.
  induction a as [|c a IH]; [reflexivity|].
  change (S (String.length (a +:+ b))
          = S (String.length a + String.length b)%nat).
  rewrite IH. reflexivity.
Qed.

Lemma string_app_neq (a b : string) : a <> EmptyString -> b <> a +:+ b.
Proof.
  intros Ha E. apply (f_equal String.length) in E.
  rewrite string_length_app in E. destruct a; [congruence|]. cbn in E. lia.
Qed.

Lemma bind_throw {X Y} (m : M X) (k : X -> M Y) w e w' :
  m w = (Throw e, w') -> bind m k w = (Throw e, w').
Proof. intros H. unfold bind. rewrite H. reflexivity. Qed.

Lemma create_conflict {R} (T : Table R) model keys (row : R) w :
  existsb (keys row) (rows T (w_db w)) = true ->
  create T model keys row w = (Throw (UniqueConstraintViolation model), w).
Proof. intros H. unfold create, bind, get_db. rewrite H. reflexivity. Qed.

Lemma prompt_set_id_same (id : string) (r : Prompt) :
  pr_id r = id -> prompt_set_id id r = r.
Proof. intros <-. destruct r; reflexivity. Qed.

Lemma prompt_where_holds projectId name version id r :
  prompt_where projectId name version id r = true ->
  pr_projectId r = projectId /\ pr_id r = id.
Proof.
  unfold prompt_where. intros H.
  apply andb_true_iff in H as [H Hid].
  apply andb_true_iff in H as [H _].
  apply andb_true_iff in H as [Hp _].
  split; apply eqb_true; assumption.
Qed.

Lemma SEED_PROMPTS_first :
  SEED_PROMPTS
  = mkSeedPrompt "prompt-123" "user-1" "Prompt 1 content" "Prompt 1" 1
      ["production"; "latest"] [] :: tl SEED_PROMPTS.
Proof. reflexivity. Qed.

Lemma for_of_cons {X St} (x : X) (xs : list X) (body : X -> St -> M St)
    (s : St) :
  for_of (x :: xs) body s = (s' <- body x s ;; for_of xs body s').
Proof. reflexivity. Qed.

Section GeneratePrompts.

Variable project : Project.

(** The project id the first loop of [generatePrompts] looks its first
    prompt up with, which is also the id it gives the row it creates. *)
Definition first_prompt_key : string := "prompt-123" +:+ pj_id project.

(** A property of the prompt table that holds on when a row of the project
    is appended. *)
Definition closed_under_append (P : list Prompt -> Prop) : Prop :=
  forall l r, P l -> pr_projectId r = pj_id project -> P (l ++ [r]).

(** The upserts of [generatePrompts] append a row of the project or leave
    the table as it is. *)
Lemma wp_upsert_prompt (P : list Prompt -> Prop) projectId name version id
    row update (Q : Prompt -> World -> Prop) w :
  closed_under_append P ->
  pr_projectId row = pj_id project ->
  update = None \/ update = Some (prompt_set_id id) ->
  P (prompts (w_db w)) ->
  (forall r w', P (prompts (w_db w')) -> Q r w') ->
  wp (fun _ => True)
     (upsert T_prompts "Prompt" Prompt_keys
        (prompt_where projectId name version id) (ret row) update) Q w.
Proof.
  intros HP Hrow Hupdate HPw HQ. unfold wp.
  destruct (upsert _ _ _ _ _ _ w) as [[r|e] w'] eqn:E; [|exact I].
  apply HQ. apply upsert_ok in E. cbv zeta in E. db_simpl_in E.
  destruct E as [(_ & _ & ->)
                | [(r0 & f & Hfind & Hf & -> & _ & ->)
                  | (w1 & _ & [= <- <-] & _ & ->)]]; db_simpl.
  - exact HPw.
  - destruct Hupdate as [->| ->]; [discriminate|]. injection Hf as <-.
    apply find_Some_holds in Hfind as Hr0. destruct Hr0 as [Hwhere _].
    apply prompt_where_holds in Hwhere as [_ Hid].
    rewrite (prompt_set_id_same _ _ Hid).
    rewrite (replace_first_same _ _ _ Hfind). exact HPw.
  - apply HP; assumption.
Qed.

(** No prompt has the key of the first lookup as its project id. *)
Definition first_lookup_misses (l : list Prompt) : Prop :=
  forall r, r ∈ l -> pr_projectId r <> first_prompt_key.

(** ... and a prompt has it as its id. *)
Definition first_prompt_there (l : list Prompt) : Prop :=
  first_lookup_misses l /\ exists r, r ∈ l /\ pr_id r = first_prompt_key.

Lemma project_id_not_key : pj_id project <> first_prompt_key.
Proof. apply string_app_neq. discriminate. Qed.

Lemma first_prompt_there_closed : closed_under_append first_prompt_there.
Proof.
  intros l r [Hmiss (r0 & Hin & Hid)] Hr. split.
  - intros x Hx. apply elem_of_app in Hx as [Hx|Hx]; [apply Hmiss, Hx|].
    apply list_elem_of_singleton in Hx as ->. rewrite Hr.
    apply project_id_not_key.
  - exists r0. split; [|exact Hid]. apply elem_of_app. left. exact Hin.
Qed.

Lemma first_lookup_finds_nothing name version id l :
  first_lookup_misses l ->
  find (prompt_where first_prompt_key name version id) l = None.
Proof.
  intros Hmiss. destruct (find _ l) as [r|] eqn:Hf; [|reflexivity].
  apply find_Some_holds in Hf as [Hwhere Hin].
  apply prompt_where_holds in Hwhere as [Hp _].
  destruct (Hmiss r Hin Hp).
Qed.

(** After a run of [generatePrompts] on a table on which the first lookup
    misses, the first prompt is there and the lookup still misses. *)
Lemma generatePrompts_first_prompt_there orc w :
  first_lookup_misses (prompts (w_db w)) ->
  wp (fun _ => True) (generatePrompts orc project)
     (fun _ w' => first_prompt_there (prompts (w_db w'))) w.
Proof.
  intros Hmiss. unfold generatePrompts.
  pose proof first_prompt_there_closed as Hclosed.
  apply wp_bind. rewrite SEED_PROMPTS_first.
  generalize (tl SEED_PROMPTS) as rest. intros rest. rewrite for_of_cons.
  apply wp_bind. apply wp_bind.
  (* the first prompt is created *)
  unfold wp at 1.
  destruct (upsert _ _ _ _ _ _ w) as [[r|e] w'] eqn:E; [|exact I].
  apply upsert_ok in E. cbv zeta in E.
  cbn [sp_id sp_name sp_version rows T_prompts] in E.
  fold first_prompt_key in E.
  rewrite (first_lookup_finds_nothing _ _ _ _ Hmiss) in E.
  destruct E as [([=] & _) | [(r0 & f & [=] & _)
                              | (w1 & _ & [= <- <-] & _ & Hw')]].
  assert (first_prompt_there (prompts (w_db w'))) as Hthere.
  { rewrite Hw'. db_simpl. split.
    - intros x Hx. apply elem_of_app in Hx as [Hx|Hx]; [apply Hmiss, Hx|].
      apply list_elem_of_singleton in Hx as ->. apply project_id_not_key.
    - eexists. split; [apply elem_of_app; right; left|reflexivity]. }
  clear Hw' Hmiss w. revert w' Hthere.
  intros w Hthere.
  apply wp_ret.
  (* the other prompts of the first loop *)
  eapply wp_mono;
    [|apply (wp_for_of _ (fun _ w' => first_prompt_there (prompts (w_db w'))));
      [|exact Hthere]].
  2: { intros prompt ids w0 _ H0. apply wp_bind.
       eapply wp_upsert_prompt; [exact Hclosed|reflexivity|left; reflexivity
                                |exact H0|].
       intros r w' H'. apply wp_ret. exact H'. }
  clear w Hthere. intros ids w Hthere. cbv beta.
  apply wp_bind, wp_v4. intros u1 c1.
  apply wp_bind, wp_v4. intros u2 c2.
  apply wp_bind, wp_v4. intros u3 c3.
  (* the versions with variables *)
  apply wp_bind.
  eapply wp_mono;
    [|apply (wp_for_of _ (fun _ w' => first_prompt_there (prompts (w_db w'))));
      [|exact Hthere]].
  2: { intros version ids0 w0 Hin H0. apply wp_bind.
       eapply wp_upsert_prompt; [exact Hclosed| |right; reflexivity|exact H0|].
       - repeat (apply elem_of_cons in Hin as [->|Hin]); [reflexivity..|].
         inversion Hin.
       - intros r w' H'. apply wp_ret. exact H'. }
  clear w Hthere. intros ids1 w Hthere. cbv beta.
  (* the prompt with many versions *)
  eapply wp_mono;
    [|apply (wp_for_range _
               (fun _ _ w' => first_prompt_there (prompts (w_db w'))));
      [|exact Hthere]].
  - intros ? ? H. exact H.
  - intros i ids2 w0 H0. apply wp_bind, wp_v4. intros u c. apply wp_bind.
    eapply wp_upsert_prompt; [exact Hclosed|reflexivity|right; reflexivity
                             |exact H0|].
    intros r w' H'. apply wp_ret. exact H'.
Qed.

(** On such a table [generatePrompts] raises at its first prompt. *)
Lemma generatePrompts_raises orc w :
  first_prompt_there (prompts (w_db w)) ->
  generatePrompts orc project w
  = (Throw (UniqueConstraintViolation "Prompt"), w).
Proof.
  intros [Hmiss (r & Hin & Hid)]. unfold generatePrompts.
  apply bind_throw. rewrite SEED_PROMPTS_first.
  generalize (tl SEED_PROMPTS) as rest. intros rest. rewrite for_of_cons.
  apply bind_throw, bind_throw.
  cbn [sp_id sp_name sp_version]. fold first_prompt_key.
  rewrite upsert_missing
    by (apply first_lookup_finds_nothing; exact Hmiss).
  rewrite (bind_run (ret _) _ w _ w eq_refl).
  apply create_conflict.
  apply existsb_exists. exists r. split; [apply list_elem_of_In, Hin|].
  unfold Prompt_keys. cbn. rewrite Hid, String.eqb_refl. reflexivity.
Qed.

End GeneratePrompts.

(** C7.  The prompt upserts of [generatePrompts] are not keyed by project,
    name and version: the first loop looks a prompt up with [prompt.id +
    project.id] as the project id.  On a table where no prompt has such a
    project id the lookup misses; a run that succeeds has created the
    prompt, and a further run for the project misses again, tries to create
    the prompt a second time and raises on the unique constraint; it writes
    nothing. *)
Theorem generatePrompts_rerun_raises (orc orc' : Oracle) (project : Project)
    (w w1 w1' : World) (ids : list string) :
  (forall r, r ∈ prompts (w_db w) ->
             pr_projectId r <> "prompt-123" +:+ pj_id project) ->
  generatePrompts orc project w = (Ok ids, w1) ->
  w_db w1' = w_db w1 ->
  generatePrompts orc' project w1'
  = (Throw (UniqueConstraintViolation "Prompt"), w1').
Proof.
  intros Hmiss Hrun Hdb. apply generatePrompts_raises. rewrite Hdb.
  exact (wp_ok _ _ _ _ _ _
           (generatePrompts_first_prompt_there project orc w Hmiss) Hrun).
Qed.

Abbreviation demo_generatePrompts :=
  (generatePrompts quiet_oracle demo_project1 demo_world) (only parsing).

Definition demo_generatedPromptIds : list string :=
  Eval vm_compute in
    match fst demo_generatePrompts with
    | Ok ids => ids
    | Throw _ => []
    end.

Lemma demo_generatePrompts_eq :
  demo_generatePrompts = (Ok demo_generatedPromptIds, snd demo_generatePrompts).
Proof. apply pair_of_fst. vm_compute. reflexivity. Qed.

Lemma generatePrompts_rerun_raises_witness :
  generatePrompts quiet_oracle demo_project1 (snd demo_generatePrompts)
  = (Throw (UniqueConstraintViolation "Prompt"), snd demo_generatePrompts).
Proof.
  apply (generatePrompts_rerun_raises quiet_oracle quiet_oracle demo_project1
           demo_world (snd demo_generatePrompts) (snd demo_generatePrompts)
           demo_generatedPromptIds).
  - intros r Hin. inversion Hin.
  - exact demo_generatePrompts_eq.
  - reflexivity.
Defined.

(** * Further properties of the seed script *)

Ltac db_norm :=
  cbn [rows with_rows w_db w_cur w_log
       T_users T_organizations T_projects T_organizationMemberships
       T_projectMemberships T_prompts T_apiKeys T_scoreConfigs
       T_annotationQueues T_traceSessions T_comments T_annotationQueueItems
       T_llmApiKeys T_evalTemplates T_jobConfigurations T_datasets
       T_datasetItems T_datasetRuns T_datasetRunItems T_dashboardWidgets
       T_dashboards T_llmSchemas
       users organizations projects organizationMemberships
       projectMemberships prompts apiKeys scoreConfigs annotationQueues
       traceSessions comments annotationQueueItems llmApiKeys evalTemplates
       jobConfigurations datasets datasetItems datasetRuns datasetRunItems
       dashboardWidgets dashboards llmSchemas].

Ltac db_norm_in H :=
  cbn [rows with_rows w_db w_cur w_log
       T_users T_organizations T_projects T_organizationMemberships
       T_projectMemberships T_prompts T_apiKeys T_scoreConfigs
       T_annotationQueues T_traceSessions T_comments T_annotationQueueItems
       T_llmApiKeys T_evalTemplates T_jobConfigurations T_datasets
       T_datasetItems T_datasetRuns T_datasetRunItems T_dashboardWidgets
       T_dashboards T_llmSchemas
       users organizations projects organizationMemberships
       projectMemberships prompts apiKeys scoreConfigs annotationQueues
       traceSessions comments annotationQueueItems llmApiKeys evalTemplates
       jobConfigurations datasets datasetItems datasetRuns datasetRunItems
       dashboardWidgets dashboards llmSchemas] in H.

(** ** [createDashboardsAndWidgets] *)

Section Dashboards.

Variable orc : Oracle.

(** The pass of the loop of [createDashboardsAndWidgets] for one project. *)
Definition dashboards_found (d : DB) : Prop :=
  is_Some (find (fun x => dw_id x === "cabc") (dashboardWidgets d))
  /\ is_Some (find (fun x => dw_id x === "cdef") (dashboardWidgets d))
  /\ is_Some (find (fun x => da_id x === "seed-dashboard") (dashboards d)).

Lemma createDashboardsAndWidgets_loop_found (projects : list Project)
    (w : World) :
  dashboards_found (w_db w) ->
  wp (fun _ => False)
     (for_of projects
        (fun project (_ : unit) =>
           widget <-
             upsert T_dashboardWidgets "DashboardWidget"
               DashboardWidget_keys (fun x => dw_id x === "cabc")
               (ret {| dw_id := "cabc";
                       dw_projectId := pj_id project;
                       dw_name := "Trace Counts";
                       dw_description := "Trace Counts by Name Over Time";
                       dw_view := "TRACES";
                       dw_chartType := "BAR_TIME_SERIES" |})
               None ;;
           widget2 <-
             upsert T_dashboardWidgets "DashboardWidget"
               DashboardWidget_keys (fun x => dw_id x === "cdef")
               (ret {| dw_id := "cdef";
                       dw_projectId := pj_id project;
                       dw_name := "Observation Latencies by Model";
                       dw_description :=
                         "p95 Observation Latencies by Model Name";
                       dw_view := "OBSERVATIONS";
                       dw_chartType := "LINE_TIME_SERIES" |})
               None ;;
           u1 <- v4 orc ;;
           u2 <- v4 orc ;;
           upsert T_dashboards "Dashboard" Dashboard_keys
             (fun x => da_id x === "seed-dashboard")
             (ret {| da_id := "seed-dashboard";
                     da_projectId := pj_id project;
                     da_name := "Performance Overview";
                     da_description :=
                       "Dashboard with various performance metrics";
                     da_widgets :=
                       [ (u1, dw_id widget, 0); (u2, dw_id widget2, 6) ] |})
             None ;;;
           ret tt)
        tt)
     (fun _ w' => w_db w' = w_db w) w.
Proof.
  intros ([w1 H1] & [w2 H2] & [ds H3]).
  eapply wp_mono;
    [|apply (wp_for_of _ (fun _ w' => w_db w' = w_db w)); [|reflexivity]].
  - intros ? ? H. exact H.
  - intros project [] w0 _ Hdb.
    apply wp_bind.
    eapply wp_upsert_found; [db_norm; rewrite Hdb; exact H1|].
    apply wp_bind.
    eapply wp_upsert_found; [db_norm; rewrite Hdb; exact H2|].
    apply wp_bind, wp_v4. intros u1 c1.
    apply wp_bind, wp_v4. intros u2 c2.
    apply wp_bind.
    eapply wp_upsert_found; [db_norm; rewrite Hdb; exact H3|].
    apply wp_ret. exact Hdb.
Qed.

End Dashboards.

Lemma wp_upsert_insert {R} Tt (T : Table R) model keys where_ (row : R)
    update (Q : R -> World -> Prop) w :
  find where_ (rows T (w_db w)) = None ->
  existsb (keys row) (rows T (w_db w)) = false ->
  Q row (mkWorld (with_rows T (rows T (w_db w) ++ [row]) (w_db w)) (w_cur w)
           (w_log w)) ->
  wp Tt (upsert T model keys where_ (ret row) update) Q w.
Proof.
  intros Hf Hk HQ. unfold wp. rewrite (upsert_missing _ _ _ _ _ _ _ Hf).
  rewrite (bind_run (ret row) _ w row w eq_refl).
  rewrite (create_fresh _ _ _ _ _ Hk). exact HQ.
Qed.

Lemma find_None_eqb {R} (f : R -> string) (id : string) (l : list R) :
  find (fun x => f x === id) l = None ->
  existsb (fun x => id === f x) l = false.
Proof.
  intros H. apply existsb_false_intro. intros x Hx.
  rewrite String.eqb_sym. exact (find_None_all _ _ H x Hx).
Qed.

(** X9.  The two widgets and the dashboard have fixed ids, so they are
    created once, for the first project of the list: on a database without
    them, [createDashboardsAndWidgets] inserts the widgets [cabc] and [cdef]
    and the dashboard [seed-dashboard] of the first project, and every
    further project finds them and gets none of its own. *)
Theorem createDashboardsAndWidgets_first_project (orc : Oracle)
    (project : Project) (projects : list Project) (w : World) :
  find (fun x => dw_id x === "cabc") (dashboardWidgets (w_db w)) = None ->
  find (fun x => dw_id x === "cdef") (dashboardWidgets (w_db w)) = None ->
  find (fun x => da_id x === "seed-dashboard") (dashboards (w_db w)) = None ->
  exists (w' : World) (u1 u2 : string),
    createDashboardsAndWidgets orc (project :: projects) w = (Ok tt, w')
    /\ w_db w'
       = with_rows T_dashboards
           (dashboards (w_db w)
            ++ [ {| da_id := "seed-dashboard";
                    da_projectId := pj_id project;
                    da_name := "Performance Overview";
                    da_description :=
                      "Dashboard with various performance metrics";
                    da_widgets := [ (u1, "cabc", 0); (u2, "cdef", 6) ] |} ])
           (with_rows T_dashboardWidgets
              (dashboardWidgets (w_db w)
               ++ [ {| dw_id := "cabc";
                       dw_projectId := pj_id project;
                       dw_name := "Trace Counts";
                       dw_description := "Trace Counts by Name Over Time";
                       dw_view := "TRACES";
                       dw_chartType := "BAR_TIME_SERIES" |};
                    {| dw_id := "cdef";
                       dw_projectId := pj_id project;
                       dw_name := "Observation Latencies by Model";
                       dw_description :=
                         "p95 Observation Latencies by Model Name";
                       dw_view := "OBSERVATIONS";
                       dw_chartType := "LINE_TIME_SERIES" |} ])
              (w_db w)).
Proof.
  intros H1 H2 H3.
  set (u1 := uuid_v4 orc (c_uuid (w_cur w))).
  set (u2 := uuid_v4 orc (S (c_uuid (w_cur w)))).
  cut (wp (fun _ => False)
         (createDashboardsAndWidgets orc (project :: projects))
         (fun _ w' =>
            w_db w'
            = with_rows T_dashboards
                (dashboards (w_db w)
                 ++ [ {| da_id := "seed-dashboard";
                         da_projectId := pj_id project;
                         da_name := "Performance Overview";
                         da_description :=
                           "Dashboard with various performance metrics";
                         da_widgets :=
                           [ (u1, "cabc", 0); (u2, "cdef", 6) ] |} ])
                (with_rows T_dashboardWidgets
                   (dashboardWidgets (w_db w)
                    ++ [ {| dw_id := "cabc";
                            dw_projectId := pj_id project;
                            dw_name := "Trace Counts";
                            dw_description :=
                              "Trace Counts by Name Over Time";
                            dw_view := "TRACES";
                            dw_chartType := "BAR_TIME_SERIES" |};
                         {| dw_id := "cdef";
                            dw_projectId := pj_id project;
                            dw_name := "Observation Latencies by Model";
                            dw_description :=
                              "p95 Observation Latencies by Model Name";
                            dw_view := "OBSERVATIONS";
                            dw_chartType := "LINE_TIME_SERIES" |} ])
                   (w_db w))) w).
  { intros Hwp. destruct (wp_returns _ _ _ Hwp) as ([] & w' & Hrun & Hdb).
    exists w', u1, u2. auto. }
  unfold createDashboardsAndWidgets.
  apply wp_bind, wp_logger. rewrite for_of_cons.
  apply wp_bind. apply wp_bind.
  apply wp_upsert_insert;
    [exact H1 | exact (find_None_eqb dw_id _ _ H1) |].
  apply wp_bind.
  apply wp_upsert_insert; db_norm.
  { rewrite (find_app_none _ _ _ H2). reflexivity. }
  { rewrite existsb_app. apply orb_false_iff.
    split; [exact (find_None_eqb dw_id _ _ H2) | reflexivity]. }
  apply wp_bind. unfold wp at 1, v4. db_norm.
  apply wp_bind. unfold wp at 1, v4. db_norm. fold u1 u2.
  apply wp_bind.
  apply wp_upsert_insert; db_norm;
    [exact H3 | exact (find_None_eqb da_id _ _ H3) |].
  apply wp_ret.
  eapply wp_mono; [|apply createDashboardsAndWidgets_loop_found].
  - cbv beta. intros _ w' ->. db_norm.
    rewrite <- (app_assoc _ [_] [_]). reflexivity.
  - db_norm. unfold dashboards_found. db_norm.
    rewrite <- (app_assoc _ [_] [_]).
    rewrite (find_app_none _ _ _ H1), (find_app_none _ _ _ H2),
      (find_app_none _ _ _ H3). cbn. repeat split; eexists; reflexivity.
Qed.

Lemma createDashboardsAndWidgets_first_project_witness :
  exists (w' : World) (u1 u2 : string),
    createDashboardsAndWidgets demo_oracle [demo_project1; demo_project2]
      demo_world = (Ok tt, w')
    /\ w_db w'
       = with_rows T_dashboards
           [ {| da_id := "seed-dashboard";
                da_projectId := pj_id demo_project1;
                da_name := "Performance Overview";
                da_description :=
                  "Dashboard with various performance metrics";
                da_widgets := [ (u1, "cabc", 0); (u2, "cdef", 6) ] |} ]
           (with_rows T_dashboardWidgets
              [ {| dw_id := "cabc";
                   dw_projectId := pj_id demo_project1;
                   dw_name := "Trace Counts";
                   dw_description := "Trace Counts by Name Over Time";
                   dw_view := "TRACES";
                   dw_chartType := "BAR_TIME_SERIES" |};
                {| dw_id := "cdef";
                   dw_projectId := pj_id demo_project1;
                   dw_name := "Observation Latencies by Model";
                   dw_description :=
                     "p95 Observation Latencies by Model Name";
                   dw_view := "OBSERVATIONS";
                   dw_chartType := "LINE_TIME_SERIES" |} ]
              emptyDB).
Proof.
  exact (createDashboardsAndWidgets_first_project demo_oracle demo_project1
           [demo_project2] demo_world eq_refl eq_refl eq_refl).
Defined.

(** X10.  On a database that holds the widgets [cabc] and [cdef] and the
    dashboard [seed-dashboard], [createDashboardsAndWidgets] returns and
    writes nothing, for any list of projects. *)
Theorem createDashboardsAndWidgets_again (orc : Oracle)
    (projects : list Project) (w : World) :
  dashboards_found (w_db w) ->
  exists w' : World,
    createDashboardsAndWidgets orc projects w = (Ok tt, w')
    /\ w_db w' = w_db w.
Proof.
  intros Hfound.
  cut (wp (fun _ => False) (createDashboardsAndWidgets orc projects)
         (fun _ w' => w_db w' = w_db w) w).
  { intros Hwp. destruct (wp_returns _ _ _ Hwp) as ([] & w' & Hrun & Hdb).
    exists w'. auto. }
  unfold createDashboardsAndWidgets. apply wp_bind, wp_logger.
  eapply wp_mono; [|apply createDashboardsAndWidgets_loop_found].
  - cbv beta. intros _ w' ->. reflexivity.
  - exact Hfound.
Qed.

Lemma createDashboardsAndWidgets_again_witness :
  exists w' : World,
    createDashboardsAndWidgets demo_oracle [demo_project2]
      (snd (createDashboardsAndWidgets demo_oracle [demo_project1]
              demo_world))
    = (Ok tt, w')
    /\ w_db w'
       = w_db (snd (createDashboardsAndWidgets demo_oracle [demo_project1]
                      demo_world)).
Proof.
  apply (createDashboardsAndWidgets_again demo_oracle [demo_project2]).
  repeat split; vm_compute; eexists; reflexivity.
Defined.


(** ** [generateConfigs] and [generateQueues] *)

(** A loop that pushes one value per element: the values pushed, and a
    property of the world that each pass extends by its element. *)
Lemma wp_for_of_push {X Y R} T (act : X -> M R) (g : X -> Y)
    (P : list X -> World -> Prop) :
  forall xs,
  (forall done x w, x ∈ xs -> P done w ->
     wp T (act x) (fun _ w' => P (done ++ [x]) w') w) ->
  forall done s w, P done w ->
    wp T (for_of xs (fun x s => act x ;;; ret (s ++ [g x])) s)
       (fun s' w' => s' = s ++ map g xs /\ P (done ++ xs) w') w.
Proof.
  induction xs as [|x xs IH]; intros Hact done s w HP.
  - apply wp_ret. rewrite !app_nil_r. auto.
  - rewrite for_of_cons. apply wp_bind, wp_bind.
    eapply wp_mono; [|apply (Hact done x w); [left | exact HP]].
    intros r w' HP'. cbv beta in HP'. apply wp_ret.
    eapply wp_mono; [|apply (IH (fun d y w0 Hy => Hact d y w0
                                   (list_elem_of_further _ _ _ Hy))
                             (done ++ [x]) (s ++ [g x]) w' HP')].
    cbv beta. intros s' w'' [-> HP'']. cbn [map].
    rewrite <- !app_assoc in *. auto.
Qed.

Section GenerateConfigs.

Variable orc : Oracle.
Variable project : Project.

(** The three configs [generateConfigs] builds from the uuids it draws. *)
Definition seed_configs (u1 u2 u3 : string) : list ScoreConfig :=
  [ {| cf_id := "config-" +:+ u1;
       cf_projectId := pj_id project;
       cf_name := "manual-score";
       cf_dataType := NUMERIC;
       cf_categories := None;
       cf_isArchived := false |};
    {| cf_id := "config-" +:+ u2;
       cf_projectId := pj_id project;
       cf_name := "Accuracy";
       cf_dataType := CATEGORICAL;
       cf_categories :=
         Some [ mkCategory "Incorrect" 0;
                mkCategory "Partially Correct" 1;
                mkCategory "Correct" 2 ];
       cf_isArchived := false |};
    {| cf_id := "config-" +:+ u3;
       cf_projectId := pj_id project;
       cf_name := "Toxicity";
       cf_dataType := BOOLEAN;
       cf_categories :=
         Some [ mkCategory "True" 1; mkCategory "False" 0 ];
       cf_isArchived := false |} ].

Definition config_param (c : ScoreConfig) : ConfigParam :=
  {| cp_name := cf_name c; cp_id := cf_id c; cp_dataType := cf_dataType c;
     cp_categories := cf_categories c |}.

(** The score configs are the old ones followed by new ones of the
    project, and each config in [done] has its row. *)
Definition configs_written (d : DB) (done : list ScoreConfig) (w : World)
  : Prop :=
  exists news,
    w_db w = with_rows T_scoreConfigs (scoreConfigs d ++ news) d
    /\ (forall r, r ∈ news -> cf_projectId r = pj_id project)
    /\ (forall c, c ∈ done ->
          exists r, r ∈ scoreConfigs d ++ news
                    /\ cf_id r = cf_id c /\ cf_projectId r = cf_projectId c).

Lemma generateConfigs_upsert (d : DB) (done : list ScoreConfig)
    (config : ScoreConfig) (w : World) :
  cf_projectId config = pj_id project ->
  configs_written d done w ->
  wp (fun _ => True)
     (upsert T_scoreConfigs "ScoreConfig" ScoreConfig_keys
        (fun r => (cf_projectId r === cf_projectId config)
                  && (cf_id r === cf_id config))
        (ret config)
        (Some (fun r =>
                 {| cf_id := cf_id config;
                    cf_projectId := cf_projectId r;
                    cf_name := cf_name r;
                    cf_dataType := cf_dataType r;
                    cf_categories := cf_categories r;
                    cf_isArchived := cf_isArchived r |})))
     (fun _ w' => configs_written d (done ++ [config]) w') w.
Proof.
  intros Hproject (news & Hdb & Hnews & Hdone). unfold wp.
  destruct (upsert _ _ _ _ _ _ w) as [[r|e] w'] eqn:E; [|exact I].
  apply upsert_ok in E. cbv zeta in E. rewrite Hdb in E. db_norm_in E.
  destruct E as [(_ & [=] & _)
                | [(r0 & f & Hfind & [= <-] & -> & _ & ->)
                  | (w1 & _ & [= <- <-] & _ & ->)]].
  - apply find_Some_holds in Hfind as Hr0. destruct Hr0 as [Hwhere Hin].
    apply andb_true_iff in Hwhere as [Hp Hid].
    apply eqb_true in Hp, Hid.
    assert ({| cf_id := cf_id config;
               cf_projectId := cf_projectId r0;
               cf_name := cf_name r0;
               cf_dataType := cf_dataType r0;
               cf_categories := cf_categories r0;
               cf_isArchived := cf_isArchived r0 |} = r0) as ->
      by (rewrite <- Hid; destruct r0; reflexivity).
    rewrite (replace_first_same _ _ _ Hfind).
    exists news. db_norm. split; [reflexivity|]. split; [exact Hnews|].
    intros c Hc. apply elem_of_app in Hc as [Hc|Hc]; [apply Hdone, Hc|].
    apply list_elem_of_singleton in Hc as ->. exists r0. auto.
  - exists (news ++ [config]). rewrite Hdb. db_norm. rewrite app_assoc.
    split; [reflexivity|]. split.
    + intros x Hx. apply elem_of_app in Hx as [Hx|Hx]; [apply Hnews, Hx|].
      apply list_elem_of_singleton in Hx as ->. exact Hproject.
    + intros c Hc. apply elem_of_app in Hc as [Hc|Hc].
      * destruct (Hdone c Hc) as (x & Hx & H). exists x.
        split; [|exact H]. apply elem_of_app. left. exact Hx.
      * apply list_elem_of_singleton in Hc as ->. exists config.
        split; [|auto]. apply elem_of_app. right. left.
Qed.

Lemma generateConfigs_wp (w : World) :
  wp (fun _ => True) (generateConfigs orc project)
     (fun params w' =>
        let c := c_uuid (w_cur w) in
        let configs := seed_configs (uuid_v4 orc c) (uuid_v4 orc (S c))
                         (uuid_v4 orc (S (S c))) in
        params = map config_param configs
        /\ configs_written (w_db w) configs w') w.
Proof.
  unfold generateConfigs.
  apply wp_bind. unfold wp at 1, v4.
  apply wp_bind. unfold wp at 1, v4.
  apply wp_bind. unfold wp at 1, v4. db_norm.
  set (c := c_uuid (w_cur w)).
  fold (seed_configs (uuid_v4 orc c) (uuid_v4 orc (S c))
          (uuid_v4 orc (S (S c)))).
  set (configs := seed_configs _ _ _).
  eapply wp_mono.
  2: { refine (wp_for_of_push _
                (fun config =>
                   upsert T_scoreConfigs "ScoreConfig" ScoreConfig_keys
                     (fun r => (cf_projectId r === cf_projectId config)
                               && (cf_id r === cf_id config))
                     (ret config)
                     (Some (fun r =>
                              {| cf_id := cf_id config;
                                 cf_projectId := cf_projectId r;
                                 cf_name := cf_name r;
                                 cf_dataType := cf_dataType r;
                                 cf_categories := cf_categories r;
                                 cf_isArchived := cf_isArchived r |})))
                config_param (configs_written (w_db w)) configs
                _ [] [] _ _).
       - intros done x w0 Hx HP. apply generateConfigs_upsert; [|exact HP].
         unfold configs, seed_configs in Hx.
         repeat (apply elem_of_cons in Hx as [->|Hx]); [reflexivity..|].
         inversion Hx.
       - exists []. db_norm. rewrite app_nil_r.
         split; [destruct (w_db w); reflexivity|].
         split; intros ? H; inversion H. }
  cbv beta. intros params w' [-> H]. auto.
Qed.

End GenerateConfigs.

(** X11.  [generateConfigs] returns the same three parameters whatever the
    database holds: [manual-score] (numeric), [Accuracy] (categorical) and
    [Toxicity] (boolean), each under a new id [config-<uuid>].  After a run
    that succeeds every returned id is the id of a score config of the
    project; the run has only added score configs of the project, after
    the ones that were there. *)
Theorem generateConfigs_adds_three (orc : Oracle) (project : Project)
    (w w' : World) (params : list ConfigParam) :
  generateConfigs orc project w = (Ok params, w') ->
  let c := c_uuid (w_cur w) in
  params
  = [ {| cp_name := "manual-score";
         cp_id := "config-" +:+ uuid_v4 orc c;
         cp_dataType := NUMERIC;
         cp_categories := None |};
      {| cp_name := "Accuracy";
         cp_id := "config-" +:+ uuid_v4 orc (S c);
         cp_dataType := CATEGORICAL;
         cp_categories :=
           Some [ mkCategory "Incorrect" 0;
                  mkCategory "Partially Correct" 1;
                  mkCategory "Correct" 2 ] |};
      {| cp_name := "Toxicity";
         cp_id := "config-" +:+ uuid_v4 orc (S (S c));
         cp_dataType := BOOLEAN;
         cp_categories :=
           Some [ mkCategory "True" 1; mkCategory "False" 0 ] |} ]
  /\ (exists news,
        w_db w'
        = with_rows T_scoreConfigs (scoreConfigs (w_db w) ++ news) (w_db w)
        /\ forall r, r ∈ news -> cf_projectId r = pj_id project)
  /\ (forall p, p ∈ params ->
        exists r, r ∈ scoreConfigs (w_db w')
                  /\ cf_id r = cp_id p /\ cf_projectId r = pj_id project).
Proof.
  intros Hrun c.
  pose proof (wp_ok _ _ _ _ _ _ (generateConfigs_wp orc project w) Hrun)
    as [Hparams (news & Hdb & Hnews & Hdone)].
  fold c in Hparams, Hdone. split; [exact Hparams|]. split.
  - exists news. auto.
  - intros p Hp. rewrite Hparams in Hp.
    apply list_elem_of_fmap in Hp as (cfg & -> & Hcfg).
    destruct (Hdone cfg Hcfg) as (r & Hr & Hid & Hproj).
    exists r. rewrite Hdb. db_norm. split; [exact Hr|].
    split; [exact Hid|]. rewrite Hproj.
    unfold seed_configs in Hcfg.
    repeat (apply elem_of_cons in Hcfg as [->|Hcfg]); [reflexivity..|].
    inversion Hcfg.
Qed.

Definition demo_generatedConfigs : list ConfigParam :=
  [ mkConfigParam "manual-score" "config-uuid0" NUMERIC None;
    mkConfigParam "Accuracy" "config-uuid1" CATEGORICAL
      (Some [ mkCategory "Incorrect" 0; mkCategory "Partially Correct" 1;
              mkCategory "Correct" 2 ]);
    mkConfigParam "Toxicity" "config-uuid2" BOOLEAN
      (Some [ mkCategory "True" 1; mkCategory "False" 0 ]) ].

Lemma demo_generateConfigs_eq :
  generateConfigs demo_oracle demo_project1 demo_world
  = (Ok demo_generatedConfigs,
     snd (generateConfigs demo_oracle demo_project1 demo_world)).
Proof. apply pair_of_fst. vm_compute. reflexivity. Qed.

Lemma generateConfigs_adds_three_witness :
  generateConfigs demo_oracle demo_project1 demo_world
  = (Ok demo_generatedConfigs,
     snd (generateConfigs demo_oracle demo_project1 demo_world))
  /\ forall p, p ∈ demo_generatedConfigs ->
       exists r,
         r ∈ scoreConfigs
               (w_db (snd (generateConfigs demo_oracle demo_project1
                             demo_world)))
         /\ cf_id r = cp_id p /\ cf_projectId r = pj_id demo_project1.
Proof.
  split; [exact demo_generateConfigs_eq|].
  exact (proj2 (proj2 (generateConfigs_adds_three demo_oracle demo_project1
                         demo_world _ _ demo_generateConfigs_eq))).
Defined.


(** X12.  When the project already has a queue named [Default],
    [generateQueues] creates none: a run that succeeds has given that
    queue the new id [queue-<uuid>], which it returns, and has left the
    queue's name, description and score config ids as they were, whatever
    configs it was called with. *)
Theorem generateQueues_existing_queue (orc : Oracle) (project : Project)
    (configs : list ConfigParam) (w w' : World) (ids : list string)
    (r0 : AnnotationQueue) :
  find (fun r => (aq_projectId r === pj_id project)
                 && (aq_name r === "Default"))
    (annotationQueues (w_db w)) = Some r0 ->
  generateQueues orc project configs w = (Ok ids, w') ->
  let id := "queue-" +:+ uuid_v4 orc (c_uuid (w_cur w)) in
  ids = [id]
  /\ w_db w'
     = with_rows T_annotationQueues
         (replace_first
            (fun r => (aq_projectId r === pj_id project)
                      && (aq_name r === "Default"))
            {| aq_id := id;
               aq_name := aq_name r0;
               aq_description := aq_description r0;
               aq_scoreConfigIds := aq_scoreConfigIds r0;
               aq_projectId := aq_projectId r0 |}
            (annotationQueues (w_db w)))
         (w_db w).
Proof.
  intros Hfind Hrun id. unfold generateQueues in Hrun.
  apply bind_ok in Hrun as (u & w1 & Hu & Hrun).
  apply bind_ok in Hrun as (r & w2 & Hup & Hrun).
  unfold ret in Hrun. injection Hrun as <- <-.
  unfold v4 in Hu. injection Hu as <- <-.
  apply upsert_ok in Hup. cbv zeta in Hup. db_norm_in Hup.
  cbn [aq_projectId aq_name aq_id] in Hup. rewrite Hfind in Hup.
  destruct Hup as [(_ & [=] & _)
                  | [(r1 & f & [= <-] & [= <-] & -> & _ & ->)
                    | (w3 & [=] & _)]].
  db_norm. split; reflexivity.
Qed.

Abbreviation demo_generateQueues :=
  (generateQueues demo_oracle demo_project1 [] demo_world) (only parsing).

Lemma demo_generateQueues_eq :
  demo_generateQueues = (Ok ["queue-uuid0"], snd demo_generateQueues).
Proof. apply pair_of_fst. vm_compute. reflexivity. Qed.

Definition demo_queue : AnnotationQueue :=
  {| aq_id := "queue-uuid0";
     aq_name := "Default";
     aq_description := "Default queue";
     aq_scoreConfigIds := [];
     aq_projectId := pj_id demo_project1 |}.

Lemma demo_generateQueues_again_eq :
  generateQueues demo_oracle demo_project1 demo_configs
    (snd demo_generateQueues)
  = (Ok ["queue-uuid1"],
     snd (generateQueues demo_oracle demo_project1 demo_configs
            (snd demo_generateQueues))).
Proof. apply pair_of_fst. vm_compute. reflexivity. Qed.

Lemma generateQueues_existing_queue_witness :
  generateQueues demo_oracle demo_project1 demo_configs
    (snd demo_generateQueues)
  = (Ok ["queue-uuid1"],
     snd (generateQueues demo_oracle demo_project1 demo_configs
            (snd demo_generateQueues)))
  /\ annotationQueues
       (w_db (snd (generateQueues demo_oracle demo_project1 demo_configs
                     (snd demo_generateQueues))))
     = [ {| aq_id := "queue-uuid1";
            aq_name := "Default";
            aq_description := "Default queue";
            aq_scoreConfigIds := [];
            aq_projectId := pj_id demo_project1 |} ].
Proof.
  split; [exact demo_generateQueues_again_eq|].
  destruct (generateQueues_existing_queue demo_oracle demo_project1
              demo_configs (snd demo_generateQueues) _ _ demo_queue
              eq_refl demo_generateQueues_again_eq) as [_ ->].
  reflexivity.
Defined.

(** ** The ids [generatePrompts] returns *)

Section GeneratePromptIds.

Variable orc : Oracle.
Variable project : Project.

(** The database is [d] with prompts of the project added at the end, [k]
    uuids were drawn after the [c]-th, the seed prompts [seeds] have their
    row under [id + project.id], and each id of [ids] is the id of a prompt
    of the project. *)
Definition prompts_written (d : DB) (c k : nat) (seeds : list SeedPrompt)
    (ids : list string) (w : World) : Prop :=
  c_uuid (w_cur w) = (c + k)%nat
  /\ (exists news,
        w_db w = with_rows T_prompts (prompts d ++ news) d
        /\ forall r, r ∈ news -> pr_projectId r = pj_id project)
  /\ (forall p, p ∈ seeds ->
        exists r, r ∈ prompts (w_db w)
                  /\ pr_id r = sp_id p +:+ pj_id project
                  /\ pr_name r = sp_name p)
  /\ (forall id, id ∈ ids ->
        exists r, r ∈ prompts (w_db w)
                  /\ pr_id r = id /\ pr_projectId r = pj_id project).

Lemma prompt_where_name projectId name version id r :
  prompt_where projectId name version id r = true -> pr_name r = name.
Proof.
  unfold prompt_where. intros H.
  apply andb_true_iff in H as [H _].
  apply andb_true_iff in H as [H _].
  apply andb_true_iff in H as [_ Hn]. apply eqb_true. exact Hn.
Qed.

(** An upsert of [generatePrompts] keeps what was written and leaves a row
    that it created or found. *)
Lemma prompts_written_upsert d c k seeds ids projectId name version id row
    update w :
  pr_projectId row = pj_id project ->
  update = None \/ update = Some (prompt_set_id id) ->
  prompts_written d c k seeds ids w ->
  wp (fun _ => True)
     (upsert T_prompts "Prompt" Prompt_keys
        (prompt_where projectId name version id) (ret row) update)
     (fun _ w' =>
        prompts_written d c k seeds ids w'
        /\ exists r, r ∈ prompts (w_db w')
             /\ (r = row \/ prompt_where projectId name version id r = true))
     w.
Proof.
  intros Hrow Hupdate (Hc & (news & Hdb & Hnews) & Hseeds & Hids). unfold wp.
  destruct (upsert _ _ _ _ _ _ w) as [[r|e] w'] eqn:E; [|exact I].
  apply upsert_ok in E. cbv zeta in E. cbn [rows T_prompts] in E.
  assert (Hsame : forall r0,
            find (prompt_where projectId name version id)
              (prompts (w_db w)) = Some r0 ->
            prompts_written d c k seeds ids w
            /\ exists r, r ∈ prompts (w_db w)
                 /\ (r = row
                     \/ prompt_where projectId name version id r = true)).
  { intros r0 Hfind. split.
    - split; [exact Hc|]. split; [exists news; auto|]. auto.
    - apply find_Some_holds in Hfind as [Hw Hin]. exists r0. auto. }
  destruct E as [(Hfind & _ & ->)
                | [(r0 & f & Hfind & Hf & -> & _ & ->)
                  | (w1 & _ & [= <- <-] & _ & ->)]].
  - exact (Hsame _ Hfind).
  - destruct Hupdate as [->| ->]; [discriminate|]. injection Hf as <-.
    apply find_Some_holds in Hfind as Hr0. destruct Hr0 as [Hwhere _].
    apply prompt_where_holds in Hwhere as [_ Hid].
    rewrite (prompt_set_id_same _ _ Hid).
    rewrite (replace_first_same _ _ _ Hfind).
    destruct (Hsame _ Hfind) as [H1 H2].
    assert (with_rows T_prompts (prompts (w_db w)) (w_db w) = w_db w) as ->
      by (destruct (w_db w); reflexivity).
    split; [|exact H2]. exact H1.
  - db_norm. split.
    + split; [exact Hc|]. split; [|split].
      * exists (news ++ [row]). rewrite Hdb. db_norm. rewrite app_assoc.
        split; [reflexivity|].
        intros x Hx. apply elem_of_app in Hx as [Hx|Hx]; [apply Hnews, Hx|].
        apply list_elem_of_singleton in Hx as ->. exact Hrow.
      * intros p Hp. destruct (Hseeds p Hp) as (x & Hx & H). exists x.
        split; [|exact H]. apply elem_of_app. left. exact Hx.
      * intros i Hi. destruct (Hids i Hi) as (x & Hx & H). exists x.
        split; [|exact H]. apply elem_of_app. left. exact Hx.
    + exists row. split; [|left; reflexivity].
      apply elem_of_app. right. left.
Qed.

Lemma prompts_written_seed d c k seeds ids p w :
  prompts_written d c k seeds ids w ->
  (exists r, r ∈ prompts (w_db w)
             /\ pr_id r = sp_id p +:+ pj_id project
             /\ pr_name r = sp_name p) ->
  prompts_written d c k (seeds ++ [p]) ids w.
Proof.
  intros (Hc & Hnews & Hseeds & Hids) Hp.
  split; [exact Hc|]. split; [exact Hnews|]. split; [|exact Hids].
  intros q Hq. apply elem_of_app in Hq as [Hq|Hq]; [apply Hseeds, Hq|].
  apply list_elem_of_singleton in Hq as ->. exact Hp.
Qed.

Lemma prompts_written_id d c k seeds ids id w :
  prompts_written d c k seeds ids w ->
  (exists r, r ∈ prompts (w_db w)
             /\ pr_id r = id /\ pr_projectId r = pj_id project) ->
  prompts_written d c k seeds (ids ++ [id]) w.
Proof.
  intros (Hc & Hnews & Hseeds & Hids) Hp.
  split; [exact Hc|]. split; [exact Hnews|]. split; [exact Hseeds|].
  intros q Hq. apply elem_of_app in Hq as [Hq|Hq]; [apply Hids, Hq|].
  apply list_elem_of_singleton in Hq as ->. exact Hp.
Qed.

Lemma prompts_written_v4 d c k seeds ids w (Q : string -> World -> Prop) :
  prompts_written d c k seeds ids w ->
  (forall w', prompts_written d c (S k) seeds ids w' ->
              Q (uuid_v4 orc (c + k)) w') ->
  wp (fun _ => True) (v4 orc) Q w.
Proof.
  intros (Hc & Hnews & Hseeds & Hids) HQ. unfold wp, v4. rewrite Hc.
  apply HQ. split; [cbn [w_cur c_uuid]; lia|]. auto.
Qed.

(** The ids of the prompts made from uuids: the [k]-th uuid drawn after
    the [c]-th. *)
Definition uuid_prompt_id (c k : nat) : string :=
  "prompt-" +:+ uuid_v4 orc (c + k).

Lemma generatePrompts_wp (w : World) :
  wp (fun _ => True) (generatePrompts orc project)
     (fun ids w' =>
        let c := c_uuid (w_cur w) in
        ids = map sp_id SEED_PROMPTS ++ map (uuid_prompt_id c) (seq 0 23)
        /\ prompts_written (w_db w) c 23 SEED_PROMPTS
             (map (uuid_prompt_id c) (seq 0 23)) w') w.
Proof.
  unfold generatePrompts. set (c := c_uuid (w_cur w)). set (d := w_db w).
  assert (H0 : prompts_written d c 0 [] [] w).
  { split; [unfold c; lia|]. split.
    - exists []. rewrite app_nil_r. unfold d.
      split; [destruct (w_db w); reflexivity|]. intros ? H. inversion H.
    - split; intros ? H; inversion H. }
  (* the seed prompts *)
  apply wp_bind. eapply wp_mono.
  2: { refine (wp_for_of_push _
                 (fun prompt =>
                    upsert T_prompts "Prompt" Prompt_keys
                      (prompt_where (sp_id prompt +:+ pj_id project)
                         (sp_name prompt) (sp_version prompt)
                         (sp_id prompt +:+ pj_id project))
                      (ret {| pr_id := sp_id prompt +:+ pj_id project;
                              pr_projectId := pj_id project;
                              pr_createdBy := sp_createdBy prompt;
                              pr_prompt := sp_prompt prompt;
                              pr_name := sp_name prompt;
                              pr_version := sp_version prompt;
                              pr_labels := sp_labels prompt;
                              pr_tags := sp_tags prompt;
                              pr_config := [] |})
                      None)
                 sp_id (fun done w' => prompts_written d c 0 done [] w')
                 SEED_PROMPTS _ [] [] w H0).
       intros done p w0 _ HP. eapply wp_mono;
         [|apply prompts_written_upsert;
           [reflexivity | left; reflexivity | exact HP]].
       cbv beta. intros _ w1 [HP1 (r & Hr & Hor)].
       apply prompts_written_seed; [exact HP1|]. exists r.
       split; [exact Hr|]. destruct Hor as [->|Hwhere]; [auto|].
       split; [apply (prompt_where_holds _ _ _ _ _ Hwhere)
              |apply (prompt_where_name _ _ _ _ _ Hwhere)]. }
  cbv beta. clear H0. intros ids1 w1 [-> H1]. cbn [app] in *.
  (* the versions with variables *)
  apply wp_bind. eapply prompts_written_v4; [exact H1|]. clear w1 H1.
  intros w1 H1.
  apply wp_bind. eapply prompts_written_v4; [exact H1|]. clear w1 H1.
  intros w1 H1.
  apply wp_bind. eapply prompts_written_v4; [exact H1|]. clear w1 H1.
  intros w1 H1.
  fold (uuid_prompt_id c 0) (uuid_prompt_id c 1) (uuid_prompt_id c 2).
  apply wp_bind. eapply wp_mono.
  2: { refine (wp_for_of_push _
                 (fun version =>
                    upsert T_prompts "Prompt" Prompt_keys
                      (prompt_where (pr_projectId version) (pr_name version)
                         (pr_version version) (pr_id version))
                      (ret version)
                      (Some (prompt_set_id (pr_id version))))
                 pr_id
                 (fun done w' =>
                    prompts_written d c 3 SEED_PROMPTS (map pr_id done) w')
                 _ _ [] _ w1 H1).
       intros done v w0 Hv HP. eapply wp_mono;
         [|apply prompts_written_upsert; [|right; reflexivity | exact HP]].
       - cbv beta. intros _ w2 [HP2 (r & Hr & Hor)].
         rewrite map_app. apply prompts_written_id; [exact HP2|]. exists r.
         split; [exact Hr|]. destruct Hor as [->|Hwhere].
         + split; [reflexivity|].
           repeat (apply elem_of_cons in Hv as [->|Hv]); [reflexivity..|].
           inversion Hv.
         + apply prompt_where_holds in Hwhere as [Hp Hid].
           split; [exact Hid|]. rewrite Hp.
           repeat (apply elem_of_cons in Hv as [->|Hv]); [reflexivity..|].
           inversion Hv.
       - repeat (apply elem_of_cons in Hv as [->|Hv]); [reflexivity..|].
         inversion Hv. }
  cbv beta. clear w1 H1. intros ids2 w2 [-> H2]. cbn [app map pr_id] in H2.
  cbn [map pr_id].
  (* the prompt with many versions *)
  eapply wp_mono.
  2: { apply (wp_for_range _
                (fun i ids w' =>
                   ids = map sp_id SEED_PROMPTS
                         ++ map (uuid_prompt_id c) (seq 0 (2 + i))
                   /\ prompts_written d c (2 + i) SEED_PROMPTS
                        (map (uuid_prompt_id c) (seq 0 (2 + i))) w')).
       - intros i ids w0 [-> HP]. apply wp_bind.
         eapply prompts_written_v4; [exact HP|]. clear w0 HP. intros w0 HP.
         fold (uuid_prompt_id c (2 + i)).
         apply wp_bind. eapply wp_mono;
           [|apply prompts_written_upsert;
             [reflexivity | right; reflexivity | exact HP]].
         cbv beta. intros _ w3 [HP3 (r & Hr & Hor)]. apply wp_ret.
         change (2 + S i)%nat with (S (2 + i)).
         rewrite seq_S, map_app. cbn [map Nat.add].
         split; [rewrite <- app_assoc; reflexivity|].
         apply prompts_written_id; [exact HP3|]. exists r.
         split; [exact Hr|]. destruct Hor as [->|Hwhere]; [auto|].
         apply prompt_where_holds in Hwhere as [Hp Hid]. auto.
       - split; [reflexivity|exact H2]. }
  cbv beta. intros ids w3 H. exact H.
Qed.

End GeneratePromptIds.

(** X13.  [generatePrompts] returns thirty ids, the same whatever the
    database holds: the seven ids of [SEED_PROMPTS] as they are, then
    [prompt-<uuid>] for the next twenty-three uuids.  After a run that
    succeeds each of the twenty-three is the id of a prompt of the
    project, whereas the row of a seed prompt has the id [prompt.id +
    project.id], not the id returned.  The run has only added prompts of
    the project, after the ones that were there. *)
Theorem generatePrompts_ids (orc : Oracle) (project : Project)
    (w w' : World) (ids : list string) :
  generatePrompts orc project w = (Ok ids, w') ->
  ids = map sp_id SEED_PROMPTS
        ++ map (fun k => "prompt-" +:+ uuid_v4 orc (c_uuid (w_cur w) + k))
             (seq 0 23)
  /\ (forall k, (k < 23)%nat ->
        exists r, r ∈ prompts (w_db w')
          /\ pr_id r = "prompt-" +:+ uuid_v4 orc (c_uuid (w_cur w) + k)
          /\ pr_projectId r = pj_id project)
  /\ (forall p, p ∈ SEED_PROMPTS ->
        exists r, r ∈ prompts (w_db w')
          /\ pr_id r = sp_id p +:+ pj_id project
          /\ pr_name r = sp_name p)
  /\ (exists news,
        w_db w' = with_rows T_prompts (prompts (w_db w) ++ news) (w_db w)
        /\ forall r, r ∈ news -> pr_projectId r = pj_id project).
Proof.
  intros Hrun.
  pose proof (wp_ok _ _ _ _ _ _ (generatePrompts_wp orc project w) Hrun)
    as [Hids (_ & Hnews & Hseeds & Hrows)].
  split; [exact Hids|]. split; [|split; [|exact Hnews]].
  - intros k Hk. apply Hrows.
    apply (list_elem_of_fmap_2 (uuid_prompt_id orc (c_uuid (w_cur w)))).
    apply list_elem_of_In, in_seq. lia.
  - intros p Hp. destruct (Hseeds p Hp) as (r & Hr & Hid & Hname).
    exists r. auto.
Qed.

Lemma generatePrompts_ids_witness :
  generatePrompts quiet_oracle demo_project1 demo_world
  = (Ok demo_generatedPromptIds,
     snd (generatePrompts quiet_oracle demo_project1 demo_world))
  /\ demo_generatedPromptIds
     = map sp_id SEED_PROMPTS
       ++ map (fun k => "prompt-"
                        +:+ uuid_v4 quiet_oracle
                              (c_uuid (w_cur demo_world) + k))
            (seq 0 23).
Proof.
  split; [exact demo_generatePrompts_eq|].
  exact (proj1 (generatePrompts_ids quiet_oracle demo_project1 demo_world _
                  _ demo_generatePrompts_eq)).
Defined.


(** ** The maps of the [...ForProject] generators *)

(** [for_each_project] gives every project of the list an entry, and an
    entry has what the generator established for its key, provided the
    generators of the projects with other ids keep it. *)
Lemma for_each_project_entries {V} (generate : Project -> M V)
    (Q : string -> V -> World -> Prop) :
  (forall p v w w', generate p w = (Ok v, w') -> Q (pj_id p) v w') ->
  (forall k v w p v' w',
      Q k v w -> pj_id p <> k -> generate p w = (Ok v', w') -> Q k v w') ->
  forall projects w m w',
    for_each_project projects generate w = (Ok m, w') ->
    forall p, p ∈ projects ->
      exists v, m !! pj_id p = Some v /\ Q (pj_id p) v w'.
Proof.
  intros Hpost Hstable. unfold for_each_project.
  assert (H : forall ps (m0 : gmap string V) w m w',
            for_of ps
              (fun project m =>
                 v <- generate project ;; ret (<[pj_id project := v]> m))
              m0 w = (Ok m, w') ->
            (forall k v, m0 !! k = Some v -> Q k v w) ->
            (forall k v, m !! k = Some v -> Q k v w')
            /\ (forall k, is_Some (m0 !! k) -> is_Some (m !! k))
            /\ (forall p, p ∈ ps -> is_Some (m !! pj_id p))).
  { induction ps as [|p ps IH]; intros m0 w m w' Hrun H0.
    - cbn [for_of] in Hrun. unfold ret in Hrun. injection Hrun as <- <-.
      split; [exact H0|]. split; [auto|]. intros p Hp. inversion Hp.
    - rewrite for_of_cons in Hrun.
      apply bind_ok in Hrun as (m1 & w1 & Hbody & Hrun).
      apply bind_ok in Hbody as (v & w1' & Hgen & Hret).
      injection Hret as <- <-.
      destruct (IH _ _ _ _ Hrun) as (HQ & Hdom & Hps).
      { intros k x Hk. destruct (decide (pj_id p = k)) as [<-|Hne].
        - rewrite lookup_insert_eq in Hk. injection Hk as <-.
          exact (Hpost _ _ _ _ Hgen).
        - rewrite lookup_insert_ne in Hk by exact Hne.
          exact (Hstable _ _ _ _ _ _ (H0 _ _ Hk) Hne Hgen). }
      split; [exact HQ|]. split.
      + intros k Hk. apply Hdom.
        destruct (decide (pj_id p = k)) as [<-|Hne].
        * rewrite lookup_insert_eq. eauto.
        * rewrite lookup_insert_ne by exact Hne. exact Hk.
      + intros q Hq. apply elem_of_cons in Hq as [->|Hq]; [|apply Hps, Hq].
        apply Hdom. rewrite lookup_insert_eq. eauto. }
  intros projects w m w' Hrun p Hp.
  destruct (H _ _ _ _ _ Hrun) as (HQ & _ & Hps).
  { intros k v Hk. rewrite lookup_empty in Hk. discriminate. }
  destruct (Hps p Hp) as [v Hv]. exists v. split; [exact Hv|].
  exact (HQ _ _ Hv).
Qed.

Definition succeeds {A} (r : Res A * World) : bool :=
  match fst r with
  | Ok _ => true
  | Throw _ => false
  end.

Lemma succeeds_run {A} (r : Res A * World) :
  succeeds r = true -> exists a w', r = (Ok a, w').
Proof.
  destruct r as [[a|e] w']; [eauto | discriminate].
Qed.

(** X14.  The map [generatePromptsForProject] returns has an entry for
    every project of the list, so the lookups by project id that follow
    find one: thirty ids, the seven of [SEED_PROMPTS] first, and each of
    the other twenty-three the id of a prompt of that project. *)
Theorem generatePromptsForProject_entries (orc : Oracle)
    (projects : list Project) (w w' : World)
    (promptIds : gmap string (list string)) :
  generatePromptsForProject orc projects w = (Ok promptIds, w') ->
  forall project, project ∈ projects ->
    exists ids,
      promptIds !! pj_id project = Some ids
      /\ length ids = 30%nat
      /\ take 7 ids = map sp_id SEED_PROMPTS
      /\ forall id, id ∈ drop 7 ids ->
           exists r, r ∈ prompts (w_db w')
                     /\ pr_id r = id /\ pr_projectId r = pj_id project.
Proof.
  intros Hrun.
  refine (for_each_project_entries (generatePrompts orc)
            (fun k ids w' =>
               length ids = 30%nat
               /\ take 7 ids = map sp_id SEED_PROMPTS
               /\ forall id, id ∈ drop 7 ids ->
                    exists r, r ∈ prompts (w_db w')
                              /\ pr_id r = id /\ pr_projectId r = k)
            _ _ projects w promptIds w' Hrun).
  - intros p ids w0 w1 Hgen.
    pose proof (wp_ok _ _ _ _ _ _ (generatePrompts_wp orc p w0) Hgen)
      as [-> (_ & _ & _ & Hrows)].
    split; [reflexivity|]. split; [reflexivity|]. exact Hrows.
  - intros k ids w0 p ids' w1 (Hlen & Hseeds & Hrows) _ Hgen.
    pose proof (wp_ok _ _ _ _ _ _ (generatePrompts_wp orc p w0) Hgen)
      as [_ (_ & (news & Hdb & _) & _)].
    split; [exact Hlen|]. split; [exact Hseeds|].
    intros id Hid. destruct (Hrows id Hid) as (r & Hr & H).
    exists r. split; [|exact H]. rewrite Hdb. db_norm.
    apply elem_of_app. left. exact Hr.
Qed.

Lemma generatePromptsForProject_entries_witness :
  exists promptIds w',
    generatePromptsForProject quiet_oracle [demo_project1; demo_project2]
      demo_world = (Ok promptIds, w')
    /\ forall project, project ∈ [demo_project1; demo_project2] ->
         exists ids,
           promptIds !! pj_id project = Some ids
           /\ length ids = 30%nat
           /\ take 7 ids = map sp_id SEED_PROMPTS
           /\ forall id, id ∈ drop 7 ids ->
                exists r, r ∈ prompts (w_db w')
                          /\ pr_id r = id /\ pr_projectId r = pj_id project.
Proof.
  destruct (succeeds_run
              (generatePromptsForProject quiet_oracle
                 [demo_project1; demo_project2] demo_world))
    as (promptIds & w' & Hrun); [vm_compute; reflexivity|].
  exists promptIds, w'. split; [exact Hrun|].
  exact (generatePromptsForProject_entries _ _ _ _ _ Hrun).
Defined.

(** X15.  The map [generateConfigsForProject] returns has an entry for
    every project of the list: the three parameters [manual-score],
    [Accuracy] and [Toxicity], each with the id of a score config of that
    project. *)
Theorem generateConfigsForProject_entries (orc : Oracle)
    (projects : list Project) (w w' : World)
    (configs : gmap string (list ConfigParam)) :
  generateConfigsForProject orc projects w = (Ok configs, w') ->
  forall project, project ∈ projects ->
    exists params,
      configs !! pj_id project = Some params
      /\ map cp_name params = ["manual-score"; "Accuracy"; "Toxicity"]
      /\ map cp_dataType params = [NUMERIC; CATEGORICAL; BOOLEAN]
      /\ forall p, p ∈ params ->
           exists r, r ∈ scoreConfigs (w_db w')
                     /\ cf_id r = cp_id p /\ cf_projectId r = pj_id project.
Proof.
  intros Hrun.
  refine (for_each_project_entries (generateConfigs orc)
            (fun k params w' =>
               map cp_name params = ["manual-score"; "Accuracy"; "Toxicity"]
               /\ map cp_dataType params = [NUMERIC; CATEGORICAL; BOOLEAN]
               /\ forall p, p ∈ params ->
                    exists r, r ∈ scoreConfigs (w_db w')
                              /\ cf_id r = cp_id p /\ cf_projectId r = k)
            _ _ projects w configs w' Hrun).
  - intros project params w0 w1 Hgen.
    pose proof (wp_ok _ _ _ _ _ _ (generateConfigs_wp orc project w0) Hgen)
      as [-> (news & Hdb & Hnews & Hdone)].
    split; [reflexivity|]. split; [reflexivity|].
    intros p Hp. apply list_elem_of_fmap in Hp as (cfg & -> & Hcfg).
    destruct (Hdone cfg Hcfg) as (r & Hr & Hid & Hproj).
    exists r. rewrite Hdb. db_norm. split; [exact Hr|].
    split; [exact Hid|]. rewrite Hproj.
    unfold seed_configs in Hcfg.
    repeat (apply elem_of_cons in Hcfg as [->|Hcfg]); [reflexivity..|].
    inversion Hcfg.
  - intros k params w0 project params' w1 (Hnames & Htypes & Hrows) _ Hgen.
    pose proof (wp_ok _ _ _ _ _ _ (generateConfigs_wp orc project w0) Hgen)
      as [_ (news & Hdb & _)].
    split; [exact Hnames|]. split; [exact Htypes|].
    intros p Hp. destruct (Hrows p Hp) as (r & Hr & H).
    exists r. split; [|exact H]. rewrite Hdb. db_norm.
    apply elem_of_app. left. exact Hr.
Qed.

Lemma generateConfigsForProject_entries_witness :
  exists configs w',
    generateConfigsForProject demo_oracle [demo_project1; demo_project2]
      demo_world = (Ok configs, w')
    /\ forall project, project ∈ [demo_project1; demo_project2] ->
         exists params,
           configs !! pj_id project = Some params
           /\ map cp_name params = ["manual-score"; "Accuracy"; "Toxicity"]
           /\ map cp_dataType params = [NUMERIC; CATEGORICAL; BOOLEAN]
           /\ forall p, p ∈ params ->
                exists r, r ∈ scoreConfigs (w_db w')
                          /\ cf_id r = cp_id p
                          /\ cf_projectId r = pj_id project.
Proof.
  destruct (succeeds_run
              (generateConfigsForProject demo_oracle
                 [demo_project1; demo_project2] demo_world))
    as (configs & w' & Hrun); [vm_compute; reflexivity|].
  exists configs, w'. split; [exact Hrun|].
  exact (generateConfigsForProject_entries _ _ _ _ _ Hrun).
Defined.

(** The queue of every project of the list, after
    [generateQueuesForProject]. *)
Lemma generateQueuesForProject_queues orc projects configs w queueIds w' :
  generateQueuesForProject orc projects configs w = (Ok queueIds, w') ->
  forall project, project ∈ projects ->
    exists queue,
      queueIds !! pj_id project = Some [aq_id queue]
      /\ queue ∈ annotationQueues (w_db w')
      /\ aq_projectId queue = pj_id project.
Proof.
  intros Hrun project Hproject.
  destruct (for_each_project_entries
              (fun project =>
                 generateQueues orc project
                   (default [] (configs !! pj_id project)))
              (fun k ids w' =>
                 exists queue,
                   ids = [aq_id queue]
                   /\ queue ∈ annotationQueues (w_db w')
                   /\ aq_projectId queue = k))
    with (projects := projects) (w := w) (m := queueIds) (w' := w')
         (p := project)
    as (ids & Hids & queue & -> & Hq); [| |exact Hrun|exact Hproject|].
  - intros p ids w0 w1 Hgen.
    destruct (generateQueues_ok _ _ _ _ _ _ Hgen)
      as (queue & -> & Hin & Hp & _).
    exists queue. auto.
  - intros k ids w0 p ids' w1 (queue & -> & Hin & Hk) Hne Hgen.
    destruct (generateQueues_ok _ _ _ _ _ _ Hgen)
      as (_ & _ & _ & _ & Hkeep).
    exists queue. split; [reflexivity|]. split; [|exact Hk].
    apply Hkeep; [exact Hin|]. rewrite Hk. auto.
  - exists queue. auto.
Qed.

(** X16.  The map [generateQueuesForProject] returns has an entry for
    every project of the list: the id of one annotation queue, which is a
    queue of that project. *)
Theorem generateQueuesForProject_entries (orc : Oracle)
    (projects : list Project) (configs : gmap string (list ConfigParam))
    (w w' : World) (queueIds : gmap string (list string)) :
  generateQueuesForProject orc projects configs w = (Ok queueIds, w') ->
  forall project, project ∈ projects ->
    exists queue,
      queueIds !! pj_id project = Some [aq_id queue]
      /\ queue ∈ annotationQueues (w_db w')
      /\ aq_projectId queue = pj_id project.
Proof.
  intros Hrun.
  exact (generateQueuesForProject_queues orc projects configs w queueIds w'
           Hrun).
Qed.

Lemma generateQueuesForProject_entries_witness :
  exists queueIds w',
    generateQueuesForProject demo_oracle [demo_project1; demo_project2] ∅
      demo_world = (Ok queueIds, w')
    /\ forall project, project ∈ [demo_project1; demo_project2] ->
         exists queue,
           queueIds !! pj_id project = Some [aq_id queue]
           /\ queue ∈ annotationQueues (w_db w')
           /\ aq_projectId queue = pj_id project.
Proof.
  destruct (succeeds_run
              (generateQueuesForProject demo_oracle
                 [demo_project1; demo_project2] ∅ demo_world))
    as (queueIds & w' & Hrun); [vm_compute; reflexivity|].
  exists queueIds, w'. split; [exact Hrun|].
  exact (generateQueuesForProject_entries _ _ _ _ _ _ Hrun).
Defined.


(** ** [uploadObjects] *)

Lemma chunk_go_one {A} (fuel : nat) (xs : list A) :
  (length xs <= fuel)%nat -> chunk_go fuel 1 xs = map (fun x => [x]) xs.
Proof.
  revert xs. induction fuel as [|fuel IH]; intros [|x xs] Hlen;
    cbn in *; try reflexivity; [lia|].
  f_equal. apply IH. lia.
Qed.

Lemma chunk_go_concat {A} (size fuel : nat) (xs : list A) :
  (0 < size)%nat -> (length xs <= fuel)%nat ->
  concat (chunk_go fuel size xs) = xs.
Proof.
  intros Hsize. revert xs. induction fuel as [|fuel IH]; intros xs Hlen.
  - destruct xs; [reflexivity | cbn in Hlen; lia].
  - destruct xs as [|x xs]; [reflexivity|].
    cbn [chunk_go concat]. rewrite IH.
    + apply firstn_skipn.
    + rewrite length_skipn. cbn [length] in *. lia.
Qed.

Lemma createMany_ok {R} (Tbl : Table R) model keys data w u w' :
  createMany Tbl model keys data w = (Ok u, w') ->
  w' = mkWorld (with_rows Tbl (rows Tbl (w_db w) ++ data) (w_db w))
         (w_cur w) (w_log w).
Proof.
  unfold createMany, bind, get_db, put_db, throw.
  destruct (_ || _); [discriminate|]. intros H. injection H as _ <-.
  reflexivity.
Qed.

Section AwaitEach.

Variable B : Builtins.

(** Awaiting the promises made from [xs] one after the other: a property
    of the world that each promise extends by its element, and that a log
    line keeps. *)
Lemma wp_await_each {X} T (f : X -> M unit) (P : list X -> World -> Prop)
    (what : string) (n : nat) :
  (forall done x w, P done w -> wp T (f x) (fun _ w' => P (done ++ [x]) w') w)
  ->
  (forall done w line,
      P done w -> P done (mkWorld (w_db w) (w_cur w) (w_log w ++ [line]))) ->
  forall xs i done w, P done w ->
    wp T (await_each B what n i (map f xs))
       (fun _ w' => P (done ++ xs) w') w.
Proof.
  intros Hf Hlog. induction xs as [|x xs IH]; intros i done w HP.
  - apply wp_ret. rewrite app_nil_r. exact HP.
  - cbn [map await_each]. apply wp_bind.
    assert (Hlogged :
              wp T (if (n <=? i + 1)%nat || (i mod ((n + 9) / 10) =? 0)%nat
                    then logger ("Seeding of " +:+ what +:+ " "
                                 +:+ Number_toString B
                                       (inject_Z (Z.of_nat (i + 1))
                                        / inject_Z (Z.of_nat n) * 100)%Q
                                 +:+ "% complete")
                    else ret tt)
                (fun _ w' => P done w') w).
    { destruct (_ || _); [apply Hlog, HP | exact HP]. }
    eapply wp_mono; [|exact Hlogged]. cbv beta. intros _ w1 HP1.
    apply wp_bind. eapply wp_mono; [|apply Hf; exact HP1].
    cbv beta. intros _ w2 HP2.
    eapply wp_mono; [|apply (IH (S i) (done ++ [x]) w2 HP2)].
    cbv beta. intros _ w3 HP3. rewrite <- app_assoc in HP3. exact HP3.
Qed.

End AwaitEach.

Section UploadObjects.

Variable B : Builtins.
Variable orc : Oracle.

(** The rows made of [xs] with the cuids from the [c]-th on. *)
Definition cuid_rows {X R} (mk : string -> X -> R) (c : nat) (xs : list X)
  : list R :=
  imap (fun k x => mk (db_cuid orc (c + k)) x) xs.

Lemma cuid_rows_app {X R} (mk : string -> X -> R) c (xs ys : list X) :
  cuid_rows mk c (xs ++ ys)
  = cuid_rows mk c xs ++ cuid_rows mk (c + length xs) ys.
Proof.
  unfold cuid_rows. rewrite imap_app. f_equal. apply imap_ext.
  intros k y _. cbn. f_equal. f_equal. lia.
Qed.

(** The data of one [createMany]: a cuid for every element. *)
Lemma wp_cuid_rows {X R} T (mk : string -> X -> R) (xs : list X)
    (Q : list R -> World -> Prop) w :
  Q (cuid_rows mk (c_cuid (w_cur w)) xs)
    (mkWorld (w_db w)
       (mkCursor (c_random (w_cur w)) (c_uuid (w_cur w)) (c_now (w_cur w))
          (c_cuid (w_cur w) + length xs) (c_salt (w_cur w)))
       (w_log w)) ->
  wp T (for_of xs (fun x data => id <- cuid orc ;; ret (data ++ [mk id x]))
          []) Q w.
Proof.
  assert (H : forall xs data w (Q : list R -> World -> Prop),
            Q (data ++ cuid_rows mk (c_cuid (w_cur w)) xs)
              (mkWorld (w_db w)
                 (mkCursor (c_random (w_cur w)) (c_uuid (w_cur w))
                    (c_now (w_cur w)) (c_cuid (w_cur w) + length xs)
                    (c_salt (w_cur w)))
                 (w_log w)) ->
            wp T (for_of xs
                    (fun x data => id <- cuid orc ;; ret (data ++ [mk id x]))
                    data) Q w).
  { clear. induction xs as [|x xs IH]; intros data w Q HQ.
    - apply wp_ret. unfold cuid_rows in HQ. cbn in HQ.
      rewrite app_nil_r, Nat.add_0_r in HQ. destruct w as [d [] l].
      exact HQ.
    - rewrite for_of_cons. apply wp_bind, wp_bind. unfold wp at 1, cuid.
      apply wp_ret, IH. cbn [w_db w_cur w_log c_random c_uuid c_now c_cuid
                             c_salt].
      change (x :: xs) with ([x] ++ xs) in HQ.
      rewrite cuid_rows_app in HQ. cbn [length app] in HQ.
      rewrite <- app_assoc.
      replace (S (c_cuid (w_cur w)) + length xs)%nat
        with (c_cuid (w_cur w) + S (length xs))%nat by lia.
      replace (S (c_cuid (w_cur w))) with (c_cuid (w_cur w) + 1)%nat by lia.
      unfold cuid_rows at 1 in HQ. cbn [imap] in HQ.
      rewrite Nat.add_0_r in HQ. exact HQ. }
  intros HQ. apply H. exact HQ.
Qed.

(** The sessions of [done] are in the table, which has grown by sessions
    of [done] only. *)
Definition sessions_written (d : DB) (c : nat) (done : list Session)
    (w : World) : Prop :=
  c_cuid (w_cur w) = c
  /\ exists news,
       w_db w = with_rows T_traceSessions (traceSessions d ++ news) d
       /\ (forall s, s ∈ news -> s ∈ done)
       /\ (forall s, s ∈ done ->
             exists r, r ∈ traceSessions d ++ news
                       /\ se_id r = se_id s
                       /\ se_projectId r = se_projectId s).

Lemma sessions_written_upsert d c done x w :
  sessions_written d c done w ->
  wp (fun _ => True)
     (upsert T_traceSessions "TraceSession" TraceSession_keys
        (fun r => (se_id r === se_id x)
                  && (se_projectId r === se_projectId x))
        (ret x) None ;;;
      ret tt)
     (fun _ w' => sessions_written d c (done ++ [x]) w') w.
Proof.
  intros (Hc & news & Hdb & Hnews & Hdone). apply wp_bind. unfold wp.
  destruct (upsert _ _ _ _ _ _ w) as [[r|e] w'] eqn:E; [|exact I].
  apply upsert_ok in E. cbv zeta in E. rewrite Hdb in E. db_norm_in E.
  unfold ret.
  destruct E as [(Hfind & _ & ->)
                | [(r0 & f & _ & [=] & _)
                  | (w1 & _ & [= <- <-] & _ & ->)]].
  - apply find_Some_holds in Hfind as [Hwhere Hin].
    apply andb_true_iff in Hwhere as [Hid Hp]. apply eqb_true in Hid, Hp.
    split; [exact Hc|]. exists news. split; [exact Hdb|]. split.
    + intros s Hs. apply elem_of_app. left. apply Hnews, Hs.
    + intros s Hs. apply elem_of_app in Hs as [Hs|Hs]; [apply Hdone, Hs|].
      apply list_elem_of_singleton in Hs as ->. exists r. auto.
  - split; [exact Hc|]. exists (news ++ [x]). rewrite Hdb. db_norm.
    rewrite app_assoc. split; [reflexivity|]. split.
    + intros s Hs. apply elem_of_app in Hs as [Hs|Hs].
      * apply elem_of_app. left. apply Hnews, Hs.
      * apply elem_of_app. right. exact Hs.
    + intros s Hs. apply elem_of_app in Hs as [Hs|Hs].
      * destruct (Hdone s Hs) as (r & Hr & H). exists r.
        split; [|exact H]. apply elem_of_app. left. exact Hr.
      * apply list_elem_of_singleton in Hs as ->. exists x.
        split; [|auto]. apply elem_of_app. right. left.
Qed.

(** The table [T] of [d0] has grown by the rows of the chunks of [done],
    which took the cuids from the [c]-th on. *)
Definition rows_written {X R} (T : Table R) (mk : string -> X -> R)
    (d0 : DB) (c : nat) (done : list (list X)) (w : World) : Prop :=
  c_cuid (w_cur w) = (c + length (concat done))%nat
  /\ w_db w
     = with_rows T (rows T d0 ++ cuid_rows mk c (concat done)) d0.

Lemma rows_written_createMany {X R} (T : Table R) (mk : string -> X -> R)
    model keys d0 c done chunk w :
  (forall l l' d, with_rows T l (with_rows T l' d) = with_rows T l d) ->
  (forall l d, rows T (with_rows T l d) = l) ->
  rows_written T mk d0 c done w ->
  wp (fun _ => True)
     (data <- for_of chunk
                (fun x data => id <- cuid orc ;; ret (data ++ [mk id x]))
                [] ;;
      createMany T model keys data)
     (fun _ w' => rows_written T mk d0 c (done ++ [chunk]) w') w.
Proof.
  intros Hset Hget [Hc Hdb]. apply wp_bind, wp_cuid_rows. unfold wp.
  destruct (createMany _ _ _ _ _) as [[u|e] w'] eqn:E; [|exact I].
  apply createMany_ok in E. subst w'. unfold rows_written.
  cbn [w_db w_cur w_log c_cuid].
  rewrite concat_app, length_app, cuid_rows_app. cbn [concat].
  rewrite !app_nil_r. split; [lia|].
  rewrite Hdb, Hget, Hset, Hc, <- app_assoc. reflexivity.
Qed.

Lemma uploadObjects_wp (sessions : list Session) (comments_ : list Comment)
    (queueItems : list QueueItem) (w : World) :
  wp (fun _ => True) (uploadObjects B orc sessions comments_ queueItems)
     (fun _ w' =>
        let d := w_db w in
        let c := c_cuid (w_cur w) in
        exists news,
          w_db w'
          = with_rows T_annotationQueueItems
              (annotationQueueItems d
               ++ cuid_rows mkAnnotationQueueItemRow
                    (c + length comments_) queueItems)
              (with_rows T_comments
                 (comments d ++ cuid_rows mkCommentRow c comments_)
                 (with_rows T_traceSessions (traceSessions d ++ news) d))
          /\ (forall s, s ∈ news -> s ∈ sessions)
          /\ (forall s, s ∈ sessions ->
                exists r, r ∈ traceSessions d ++ news
                          /\ se_id r = se_id s
                          /\ se_projectId r = se_projectId s)) w.
Proof.
  unfold uploadObjects. cbv zeta.
  set (d := w_db w). set (c := c_cuid (w_cur w)).
  (* the sessions *)
  unfold chunk. rewrite !chunk_go_one by lia. rewrite !map_map.
  apply wp_bind. eapply wp_mono.
  2: { apply (wp_await_each B _
                (fun x =>
                   upsert T_traceSessions "TraceSession" TraceSession_keys
                     (fun r => (se_id r === se_id x)
                               && (se_projectId r === se_projectId x))
                     (ret x) None ;;;
                   ret tt)
                (sessions_written d c)) with (done := []).
       - intros done x w0. apply sessions_written_upsert.
       - intros done w0 line H. exact H.
       - split; [reflexivity|]. exists []. rewrite app_nil_r.
         split; [unfold d; destruct (w_db w); reflexivity|].
         split; intros ? H; inversion H. }
  cbv beta. intros _ w1 (Hc1 & news & Hdb1 & Hnews & Hsessions).
  cbn [app] in *.
  (* the comments *)
  apply wp_bind. eapply wp_mono.
  2: { apply (wp_await_each B _
                (fun chunk =>
                   data <- for_of chunk
                             (fun x data =>
                                id <- cuid orc ;;
                                ret (data ++ [mkCommentRow id x]))
                             [] ;;
                   createMany T_comments "Comment" Comment_keys data)
                (rows_written T_comments mkCommentRow (w_db w1) c))
         with (done := []).
       - intros done x w0. apply rows_written_createMany; reflexivity.
       - intros done w0 line H. exact H.
       - split; [cbn; lia|]. cbn [concat]. unfold cuid_rows. cbn [imap].
         rewrite app_nil_r. destruct (w_db w1); reflexivity. }
  cbv beta. intros _ w2 [Hc2 Hdb2]. cbn [app] in *.
  rewrite chunk_go_concat in Hc2, Hdb2 by (try (cbn; lia); lia).
  (* the queue items *)
  eapply wp_mono.
  2: { apply (wp_await_each B _
                (fun chunk =>
                   data <- for_of chunk
                             (fun x data =>
                                id <- cuid orc ;;
                                ret (data
                                     ++ [mkAnnotationQueueItemRow id x]))
                             [] ;;
                   createMany T_annotationQueueItems "AnnotationQueueItem"
                     AnnotationQueueItem_keys data)
                (rows_written T_annotationQueueItems mkAnnotationQueueItemRow
                   (w_db w2) (c + length comments_))) with (done := []).
       - intros done x w0. apply rows_written_createMany; reflexivity.
       - intros done w0 line H. exact H.
       - split; [cbn; lia|]. cbn [concat]. unfold cuid_rows. cbn [imap].
         rewrite app_nil_r. destruct (w_db w2); reflexivity. }
  cbv beta. intros _ w3 [_ Hdb3]. cbn [app] in *.
  rewrite chunk_go_concat in Hdb3 by (try (cbn; lia); lia).
  exists news. split; [|split; [exact Hnews | exact Hsessions]].
  rewrite Hdb3, Hdb2, Hdb1. db_norm. reflexivity.
Qed.

End UploadObjects.

(** X17.  A run of [uploadObjects] that succeeds has appended one comment
    row for every comment and one queue item row for every queue item, in
    the order given, each under the next cuid (the comments first); every
    session given is in the table, which has grown only by sessions that
    were given; no other table has changed. *)
Theorem uploadObjects_writes (B : Builtins) (orc : Oracle)
    (sessions : list Session) (comments_ : list Comment)
    (queueItems : list QueueItem) (w w' : World) :
  uploadObjects B orc sessions comments_ queueItems w = (Ok tt, w') ->
  exists news,
    w_db w'
    = with_rows T_annotationQueueItems
        (annotationQueueItems (w_db w)
         ++ imap (fun k q =>
                    mkAnnotationQueueItemRow
                      (db_cuid orc
                         (c_cuid (w_cur w) + length comments_ + k)) q)
              queueItems)
        (with_rows T_comments
           (comments (w_db w)
            ++ imap (fun k c =>
                       mkCommentRow (db_cuid orc (c_cuid (w_cur w) + k)) c)
                 comments_)
           (with_rows T_traceSessions (traceSessions (w_db w) ++ news)
              (w_db w)))
    /\ (forall s, s ∈ news -> s ∈ sessions)
    /\ (forall s, s ∈ sessions ->
          exists r, r ∈ traceSessions (w_db w')
                    /\ se_id r = se_id s /\ se_projectId r = se_projectId s).
Proof.
  intros Hrun.
  destruct (wp_ok _ _ _ _ _ _
              (uploadObjects_wp B orc sessions comments_ queueItems w) Hrun)
    as (news & Hdb & Hnews & Hsessions).
  exists news. split; [exact Hdb|]. split; [exact Hnews|].
  intros s Hs. destruct (Hsessions s Hs) as (r & Hr & H). exists r.
  split; [|exact H]. rewrite Hdb. db_norm. exact Hr.
Qed.

Definition demo_sessions : list Session :=
  [ mkSession "session-0" "p1"; mkSession "session-1" "p2";
    mkSession "session-0" "p1" ].

Definition demo_comments : list Comment :=
  [ mkComment "p1" "trace-a" "TRACE" "Trace comment content" None;
    mkComment "p2" "generation-b" "OBSERVATION"
      "Observation comment content" None ].

Definition demo_queueItems : list QueueItem :=
  [ mkQueueItem "queue-a" "trace-a" TRACE "p1" ].

Lemma uploadObjects_writes_witness :
  exists w' news,
    uploadObjects demo_builtins demo_oracle demo_sessions demo_comments
      demo_queueItems demo_world = (Ok tt, w')
    /\ w_db w'
       = with_rows T_annotationQueueItems
           (annotationQueueItems (w_db demo_world)
            ++ imap (fun k q =>
                       mkAnnotationQueueItemRow
                         (db_cuid demo_oracle
                            (c_cuid (w_cur demo_world)
                             + length demo_comments + k)) q)
                 demo_queueItems)
           (with_rows T_comments
              (comments (w_db demo_world)
               ++ imap (fun k c =>
                          mkCommentRow
                            (db_cuid demo_oracle
                               (c_cuid (w_cur demo_world) + k)) c)
                    demo_comments)
              (with_rows T_traceSessions
                 (traceSessions (w_db demo_world) ++ news)
                 (w_db demo_world))).
Proof.
  destruct (succeeds_run
              (uploadObjects demo_builtins demo_oracle demo_sessions
                 demo_comments demo_queueItems demo_world))
    as ([] & w' & Hrun); [vm_compute; reflexivity|].
  destruct (uploadObjects_writes _ _ _ _ _ _ _ Hrun) as (news & Hdb & _).
  exists w', news. split; [exact Hrun | exact Hdb].
Defined.


(** ** More on what [createObjects] makes *)

(** The database and the log stay. *)
Definition untouched_frame : Frame :=
  {| kept := fun w w' => w_db w' = w_db w /\ w_log w' = w_log w;
     kept_refl := fun w => conj eq_refl eq_refl;
     kept_trans := fun w1 w2 w3 H12 H23 =>
       conj (eq_trans (proj1 H23) (proj1 H12))
            (eq_trans (proj2 H23) (proj2 H12));
     kept_cursor := fun w c => conj eq_refl eq_refl |}.

(** X18.  [createObjects] only generates: whether it returns or raises, it
    leaves the database and the log as they were. *)
Theorem createObjects_writes_nothing
    (B : Builtins) (orc : Oracle) (envTags colorTags : list (option string))
    (project1 project2 : Project)
    (promptIds queueIds : gmap string (list string))
    (configParams : gmap string (list ConfigParam))
    (traceVolume : Z) (w : World) :
  w_db (snd (createObjects B orc traceVolume envTags colorTags project1
               project2 promptIds queueIds configParams w)) = w_db w
  /\ w_log (snd (createObjects B orc traceVolume envTags colorTags project1
                   project2 promptIds queueIds configParams w)) = w_log w.
Proof.
  exact (preserves_createObjects untouched_frame B orc traceVolume envTags
           colorTags project1 project2 promptIds queueIds configParams w).
Qed.

(** X19.  Every score [createObjects] generates carries the id and the
    projectId of a generated trace; when it carries a [configId], this is
    the id of a config of its project in [configParams], whose name and
    data type the score has. *)
Theorem createObjects_scores_reference
    (B : Builtins) (orc : Oracle) (envTags colorTags : list (option string))
    (project1 project2 : Project)
    (promptIds queueIds : gmap string (list string))
    (configParams : gmap string (list ConfigParam))
    (traceVolume : Z) (w w' : World) (objects : CreatedObjects) :
  createObjects B orc traceVolume envTags colorTags project1 project2
    promptIds queueIds configParams w = (Ok objects, w') ->
  forall s, s ∈ co_scores objects ->
    (exists t, t ∈ co_traces objects /\ sc_traceId s = tr_id t
               /\ sc_projectId s = tr_projectId t)
    /\ (forall id, sc_configId s = Some id ->
          exists c, c ∈ default [] (configParams !! sc_projectId s)
                    /\ cp_id c = id /\ cp_name c = sc_name s
                    /\ sc_dataType s = Some (cp_dataType c)).
Proof.
  intros Hrun.
  set (Ref := fun (traces : list Trace) (s : Score) =>
         (exists t, t ∈ traces /\ sc_traceId s = tr_id t
                    /\ sc_projectId s = tr_projectId t)
         /\ (forall id, sc_configId s = Some id ->
               exists c, c ∈ default [] (configParams !! sc_projectId s)
                         /\ cp_id c = id /\ cp_name c = sc_name s
                         /\ sc_dataType s = Some (cp_dataType c))).
  set (Inv := fun (a : Arrays) =>
         forall s, s ∈ a_scores a -> Ref (a_traces a) s).
  assert (Hwp : wp (fun _ => True)
                  (createObjects B orc traceVolume envTags colorTags project1
                     project2 promptIds queueIds configParams)
                  (fun r _ => forall s, s ∈ co_scores r ->
                                Ref (co_traces r) s) w).
  { unfold createObjects. apply wp_bind. eapply wp_mono.
    2:{ apply (createObjects_loop_wp B orc envTags colorTags project1 project2
                 promptIds queueIds configParams (fun _ => True)
                 (fun _ a => Inv a)
                 (fun _ t _ a => Inv a /\ t ∈ a_traces a)).
        - intros. exact Logic.I.
        - intros i a x H _. exact H.
        - intros i a t H _. split.
          + intros s Hs. destruct (H s Hs) as [(t0 & Hin & Ht0) Hc].
            split; [|exact Hc]. exists t0. split; [|exact Ht0].
            apply elem_of_app. left. exact Hin.
          + apply elem_of_app. right. left.
        - intros i t ids a qs H _. exact H.
        - intros i t ids a ss [HI Ht] Hss. split; [|exact Ht].
          intros s Hs. cbn in Hs. apply elem_of_app in Hs as [Hs|Hs];
            [apply HI, Hs|].
          rewrite Forall_forall in Hss.
          destruct (Hss s Hs) as (Htr & Hpr & Hshape). split.
          + exists t. auto.
          + intros id Hid.
            destruct Hshape as [(config & value & Hcfg & _ & Hname & Hdt
                                 & _ & Hcid)
                               |[(_ & _ & _ & _ & Hnone)
                                |[(_ & _ & _ & Hnone & _)
                                 |(_ & _ & _ & Hnone)]]];
              try congruence.
            rewrite Hcid in Hid. destruct config as [c|]; [|discriminate].
            cbn in Hid, Hname, Hdt. destruct (truthy (cp_id c));
              [|discriminate].
            injection Hid as <-. exists c. rewrite Hpr.
            split; [apply Hcfg; reflexivity|]. auto.
        - intros i t ids a c H. exact H.
        - intros i t ids a o H _. exact H.
        - intros i t ids a spanId o H _ _. exact H.
        - intros i t ids a spanId o H _ _. exact H.
        - intros i t ids a [H _]. exact H.
        - intros s Hs. inversion Hs. }
    intros a ? H. apply wp_ret. exact H. }
  intros s Hs. exact (wp_ok _ _ _ _ _ _ Hwp Hrun s Hs).
Qed.

Lemma createObjects_scores_reference_witness :
  demo_createObjects = (Ok demo_objects, demo_world_after)
  /\ forall s, s ∈ co_scores demo_objects ->
       (exists t, t ∈ co_traces demo_objects /\ sc_traceId s = tr_id t
                  /\ sc_projectId s = tr_projectId t)
       /\ (forall id, sc_configId s = Some id ->
             exists c, c ∈ default [] (demo_configParams !! sc_projectId s)
                       /\ cp_id c = id /\ cp_name c = sc_name s
                       /\ sc_dataType s = Some (cp_dataType c)).
Proof.
  split; [exact demo_createObjects_eq|].
  exact (createObjects_scores_reference _ _ _ _ _ _ _ _ _ _ _ _ _
           demo_createObjects_eq).
Defined.

(** X20.  Of what [createObjects] generates, [observations] holds spans
    and generations only and [events] holds events only; every generation
    and every event has a parent, only a span can be a root. *)
Theorem createObjects_observation_kinds
    (B : Builtins) (orc : Oracle) (envTags colorTags : list (option string))
    (project1 project2 : Project)
    (promptIds queueIds : gmap string (list string))
    (configParams : gmap string (list ConfigParam))
    (traceVolume : Z) (w w' : World) (objects : CreatedObjects) :
  createObjects B orc traceVolume envTags colorTags project1 project2
    promptIds queueIds configParams w = (Ok objects, w') ->
  (forall o, o ∈ co_observations objects ->
     ob_type o = SPAN
     \/ (ob_type o = GENERATION /\ is_Some (ob_parentObservationId o)))
  /\ (forall e, e ∈ co_events objects ->
        ob_type e = EVENT /\ is_Some (ob_parentObservationId e)).
Proof.
  intros Hrun.
  set (Inv := fun (a : Arrays) =>
         (forall o, o ∈ a_observations a ->
            ob_type o = SPAN
            \/ (ob_type o = GENERATION
                /\ is_Some (ob_parentObservationId o)))
         /\ (forall e, e ∈ a_events a ->
               ob_type e = EVENT /\ is_Some (ob_parentObservationId e))).
  assert (Hwp : wp (fun _ => True)
                  (createObjects B orc traceVolume envTags colorTags project1
                     project2 promptIds queueIds configParams)
                  (fun r _ =>
                     (forall o, o ∈ co_observations r ->
                        ob_type o = SPAN
                        \/ (ob_type o = GENERATION
                            /\ is_Some (ob_parentObservationId o)))
                     /\ (forall e, e ∈ co_events r ->
                           ob_type e = EVENT
                           /\ is_Some (ob_parentObservationId e))) w).
  { unfold createObjects. apply wp_bind. eapply wp_mono.
    2:{ apply (createObjects_loop_wp B orc envTags colorTags project1 project2
                 promptIds queueIds configParams (fun _ => True)
                 (fun _ a => Inv a) (fun _ _ _ a => Inv a)).
        - intros. exact Logic.I.
        - intros i a x H _. exact H.
        - intros i a t H _. exact H.
        - intros i t ids a qs H _. exact H.
        - intros i t ids a ss H _. exact H.
        - intros i t ids a c H. exact H.
        - intros i t ids a o [Ho He] (Hty & _). split; [|exact He].
          intros x Hx. cbn in Hx. apply elem_of_app in Hx as [Hx|Hx];
            [apply Ho, Hx|].
          apply list_elem_of_singleton in Hx as ->. left. exact Hty.
        - intros i t ids a spanId o [Ho He] _ (Hty & _ & _ & Hparent).
          split; [|exact He].
          intros x Hx. cbn in Hx. apply elem_of_app in Hx as [Hx|Hx];
            [apply Ho, Hx|].
          apply list_elem_of_singleton in Hx as ->. right.
          split; [exact Hty|]. rewrite Hparent. eauto.
        - intros i t ids a spanId o [Ho He] _ (Hty & _ & _ & Hparent).
          split; [exact Ho|].
          intros x Hx. cbn in Hx. apply elem_of_app in Hx as [Hx|Hx];
            [apply He, Hx|].
          apply list_elem_of_singleton in Hx as ->.
          split; [exact Hty|]. rewrite Hparent. eauto.
        - intros i t ids a H. exact H.
        - split; intros x Hx; inversion Hx. }
    intros a ? H. apply wp_ret. exact H. }
  exact (wp_ok _ _ _ _ _ _ Hwp Hrun).
Qed.

Lemma createObjects_observation_kinds_witness :
  demo_createObjects = (Ok demo_objects, demo_world_after)
  /\ (forall o, o ∈ co_observations demo_objects ->
        ob_type o = SPAN
        \/ (ob_type o = GENERATION /\ is_Some (ob_parentObservationId o)))
  /\ (forall e, e ∈ co_events demo_objects ->
        ob_type e = EVENT /\ is_Some (ob_parentObservationId e)).
Proof.
  split; [exact demo_createObjects_eq|].
  exact (createObjects_observation_kinds _ _ _ _ _ _ _ _ _ _ _ _ _
           demo_createObjects_eq).
Defined.


(** ** The references and the times of what [createObjects] makes *)

Lemma floor_mul_zero (r : Rand01) : floor_mul r 0 = 0.
Proof.
  unfold floor_mul. change (inject_Z 0) with 0%Q. rewrite Qmult_0_r.
  reflexivity.
Qed.

Lemma floor_mul_range (r : Rand01) (n : Z) :
  0 <= n -> 0 <= floor_mul r n <= n.
Proof.
  intros Hn. destruct (Z.eq_dec n 0) as [->|Hne].
  - rewrite floor_mul_zero. lia.
  - pose proof (floor_mul_nonneg r n Hn).
    pose proof (floor_mul_lt r n ltac:(lia)). lia.
Qed.

Section CreateObjectsDetail.

Variable B : Builtins.
Variable orc : Oracle.
Variables envTags colorTags : list (option string).
Variables project1 project2 : Project.
Variables promptIds queueIds : gmap string (list string).
Variable configParams : gmap string (list ConfigParam).

(** A comment is on a generated trace or on a generated generation, of its
    project. *)
Definition comment_placed (traces : list Trace)
    (observations : list Observation) (c : Comment) : Prop :=
  (cm_objectType c = "TRACE"
   /\ exists t, t ∈ traces /\ cm_objectId c = tr_id t
                /\ cm_projectId c = tr_projectId t)
  \/ (cm_objectType c = "OBSERVATION"
      /\ exists g, g ∈ observations /\ ob_type g = GENERATION
                   /\ cm_objectId c = ob_id g
                   /\ cm_projectId c = ob_projectId g).

(** A score on an observation is on a generated generation of its trace. *)
Definition score_placed (observations : list Observation) (s : Score)
  : Prop :=
  forall oid, sc_observationId s = Some oid ->
    exists g, g ∈ observations /\ ob_type g = GENERATION /\ ob_id g = oid
              /\ ob_traceId g = sc_traceId s
              /\ ob_projectId g = sc_projectId s.

(** The session of a trace is among the sessions, under its project. *)
Definition trace_in_session (sessions : list Session) (t : Trace) : Prop :=
  forall sid, tr_sessionId t = Some sid ->
    mkSession sid (tr_projectId t) ∈ sessions.

(** An observation starts when it is created, not before its trace and not
    after it ends; a generation or an event lies within its parent span. *)
Definition observation_timed (traces : list Trace)
    (observations : list Observation) (o : Observation) : Prop :=
  ob_createdAt o = ob_startTime o
  /\ (forall e, ob_endTime o = Some e -> ob_startTime o <= e)
  /\ (exists t, t ∈ traces /\ ob_traceId o = tr_id t
                /\ tr_timestamp t <= ob_startTime o)
  /\ (ob_type o <> SPAN ->
      exists span spanEnd,
        span ∈ observations /\ ob_type span = SPAN
        /\ ob_parentObservationId o = Some (ob_id span)
        /\ ob_endTime span = Some spanEnd
        /\ ob_startTime span <= ob_startTime o <= spanEnd
        /\ forall e, ob_endTime o = Some e -> e <= spanEnd).

(** The fields of a generation. *)
Definition generation_fields (o : Observation) : Prop :=
  match ob_generation o with
  | None => ob_type o <> GENERATION
  | Some gf =>
      ob_type o = GENERATION
      /\ gf_totalTokens gf = gf_promptTokens gf + gf_completionTokens gf
      /\ 300 <= gf_promptTokens gf < 1300
      /\ 100 <= gf_completionTokens gf < 600
      /\ gf_internalModel gf = gf_model gf
      /\ (exists m, m ∈ models /\ gf_model gf = Some m)
      /\ (forall cs, gf_completionStartTime gf = Some cs ->
            ob_startTime o <= cs
            /\ forall e, ob_endTime o = Some e -> cs <= e)
      /\ (forall pid, gf_promptId gf = Some pid ->
            exists ids k,
              promptIds !! ob_projectId o = Some ids
              /\ ids !! k = Some pid
              /\ Z.of_nat k < Z.max 1 (Z.of_nat (length ids) / 2))
  end.

Record detail (a : Arrays) : Prop := mkDetail {
  detail_comments :
    forall c, c ∈ a_comments a ->
      comment_placed (a_traces a) (a_observations a) c;
  detail_scores :
    forall s, s ∈ a_scores a -> score_placed (a_observations a) s;
  detail_traces :
    forall t, t ∈ a_traces a -> trace_in_session (a_sessions a) t;
  detail_observations :
    forall o, o ∈ a_observations a ++ a_events a ->
      observation_timed (a_traces a) (a_observations a) o
      /\ generation_fields o
}.

Lemma comment_placed_mono traces traces' observations observations' c :
  traces ⊆ traces' -> observations ⊆ observations' ->
  comment_placed traces observations c ->
  comment_placed traces' observations' c.
Proof.
  intros Ht Ho [(Hty & t & Hin & H)|(Hty & g & Hin & H)].
  - left. split; [exact Hty|]. exists t. split; [apply Ht, Hin | exact H].
  - right. split; [exact Hty|]. exists g. split; [apply Ho, Hin | exact H].
Qed.

Lemma score_placed_mono observations observations' s :
  observations ⊆ observations' ->
  score_placed observations s -> score_placed observations' s.
Proof.
  intros Ho H oid Hoid. destruct (H oid Hoid) as (g & Hin & Hg).
  exists g. split; [apply Ho, Hin | exact Hg].
Qed.

Lemma observation_timed_mono traces traces' observations observations' o :
  traces ⊆ traces' -> observations ⊆ observations' ->
  observation_timed traces observations o ->
  observation_timed traces' observations' o.
Proof.
  intros Ht Ho (Hc & He & (t & Hin & Htr) & Hparent).
  split; [exact Hc|]. split; [exact He|]. split.
  - exists t. split; [apply Ht, Hin | exact Htr].
  - intros Hty. destruct (Hparent Hty) as (span & se & Hspan & H).
    exists span, se. split; [apply Ho, Hspan | exact H].
Qed.

Lemma subseteq_app_l {X} (l k : list X) : l ⊆ l ++ k.
Proof. intros x Hx. apply elem_of_app. left. exact Hx. Qed.

Lemma detail_push_session x a : detail a -> detail (push_session x a).
Proof.
  intros [Hc Hs Ht Ho]. split; cbn; try assumption.
  intros t Hin sid Hsid. apply elem_of_app. left. exact (Ht t Hin sid Hsid).
Qed.

Lemma detail_push_trace t a :
  detail a -> trace_in_session (a_sessions a) t -> detail (push_trace t a).
Proof.
  intros [Hc Hs Ht Ho] Hsession. split; cbn.
  - intros c Hin. eapply comment_placed_mono; [| |apply Hc, Hin].
    + apply subseteq_app_l.
    + intros x Hx. exact Hx.
  - exact Hs.
  - intros x Hx. apply elem_of_app in Hx as [Hx|Hx]; [apply Ht, Hx|].
    apply list_elem_of_singleton in Hx as ->. exact Hsession.
  - intros o Hin. destruct (Ho o Hin) as [Htimed Hgen].
    split; [|exact Hgen].
    eapply observation_timed_mono; [| |exact Htimed].
    + apply subseteq_app_l.
    + intros x Hx. exact Hx.
Qed.

Lemma detail_push_queueItems qs a :
  detail a -> detail (push_queueItems qs a).
Proof. intros [Hc Hs Ht Ho]. split; assumption. Qed.

Lemma detail_push_scores ss a :
  detail a -> Forall (score_placed (a_observations a)) ss ->
  detail (push_scores ss a).
Proof.
  intros [Hc Hs Ht Ho] Hss. split; cbn; try assumption.
  intros s Hin. apply elem_of_app in Hin as [Hin|Hin]; [apply Hs, Hin|].
  rewrite Forall_forall in Hss. apply Hss, Hin.
Qed.

Lemma detail_push_comment c a :
  detail a -> comment_placed (a_traces a) (a_observations a) c ->
  detail (push_comment c a).
Proof.
  intros [Hc Hs Ht Ho] Hplaced. split; cbn; try assumption.
  intros x Hin. apply elem_of_app in Hin as [Hin|Hin]; [apply Hc, Hin|].
  apply list_elem_of_singleton in Hin as ->. exact Hplaced.
Qed.

Lemma detail_push_observation o a :
  detail a ->
  observation_timed (a_traces a) (a_observations a) o ->
  generation_fields o ->
  detail (push_observation o a).
Proof.
  intros [Hc Hs Ht Ho] Htimed Hgen. split; cbn.
  - intros c Hin. eapply comment_placed_mono; [| |apply Hc, Hin].
    + intros x Hx. exact Hx.
    + apply subseteq_app_l.
  - intros s Hin. eapply score_placed_mono; [|apply Hs, Hin].
    apply subseteq_app_l.
  - exact Ht.
  - intros x Hin. rewrite <- app_assoc in Hin.
    assert (Hcase : x ∈ a_observations a ++ a_events a \/ x = o).
    { apply elem_of_app in Hin as [Hin|Hin].
      - left. apply elem_of_app. left. exact Hin.
      - apply elem_of_cons in Hin as [->|Hin]; [right; reflexivity|].
        left. apply elem_of_app. right. exact Hin. }
    destruct Hcase as [Hold| ->].
    + destruct (Ho x Hold) as [Hx Hg]. split; [|exact Hg].
      eapply observation_timed_mono; [| |exact Hx].
      * intros y Hy. exact Hy.
      * apply subseteq_app_l.
    + split; [|exact Hgen].
      eapply observation_timed_mono; [| |exact Htimed].
      * intros y Hy. exact Hy.
      * apply subseteq_app_l.
Qed.

Lemma detail_push_event o a :
  detail a ->
  observation_timed (a_traces a) (a_observations a) o ->
  generation_fields o ->
  detail (push_event o a).
Proof.
  intros [Hc Hs Ht Ho] Htimed Hgen. split; cbn; try assumption.
  intros x Hin. rewrite app_assoc in Hin.
  apply elem_of_app in Hin as [Hin|Hin]; [apply Ho, Hin|].
  apply list_elem_of_singleton in Hin as ->. auto.
Qed.

(** Inside the pass of a trace: the trace is pushed. *)
Definition in_trace (t : Trace) (a : Arrays) : Prop :=
  detail a /\ t ∈ a_traces a.

(** Inside the pass of a span: the span is pushed. *)
Definition in_span (t : Trace) (span : Observation) (a : Arrays) : Prop :=
  detail a /\ t ∈ a_traces a /\ span ∈ a_observations a.

Ltac forget_world :=
  lazymatch goal with
  | |- wp _ _ _ ?w => is_var w || (generalize w; intro)
  | _ => idtac
  end.

Ltac step :=
  lazymatch goal with
  | |- wp _ (bind (random _) _) _ _ =>
      apply wp_bind, wp_random; intros ? ?; forget_world
  | |- wp _ (bind (v4 _) _) _ _ =>
      apply wp_bind, wp_v4; intros ? ?; forget_world
  | |- wp _ (bind (now _) _) _ _ =>
      apply wp_bind, wp_now; intros ? ?; forget_world
  | |- wp _ (ret _) _ _ => apply wp_ret
  end.

Ltac ob_simpl :=
  cbn [ob_type ob_id ob_startTime ob_createdAt ob_endTime ob_name
       ob_metadata_user ob_projectId ob_traceId ob_parentObservationId
       ob_generation gf_completionStartTime gf_promptId gf_io gf_model
       gf_internalModel gf_modelParameters gf_promptTokens
       gf_completionTokens gf_totalTokens].

Ltac case_if :=
  lazymatch goal with
  | |- wp _ (if ?c then _ else _) _ _ => destruct c
  end.

Lemma createEvent_detail i j k t span spanEnd l a w :
  ob_type span = SPAN -> ob_endTime span = Some spanEnd ->
  tr_timestamp t <= ob_startTime span <= spanEnd ->
  in_span t span a ->
  wp (fun _ => True)
     (createEvent orc i j k t (ob_id span) (ob_startTime span) spanEnd l a)
     (fun a' _ => in_span t span a') w.
Proof.
  intros Hty Hend Htimes (Hd & Ht & Hspan). unfold createEvent.
  repeat step.
  pose proof (floor_mul_range r (spanEnd - ob_startTime span) ltac:(lia)).
  split; [|split; [exact Ht | exact Hspan]].
  apply detail_push_event; [exact Hd | | unfold generation_fields; ob_simpl;
                                           discriminate].
  split; [reflexivity|]. split; [discriminate|]. split.
  - exists t. split; [exact Ht|]. split; [reflexivity|]. ob_simpl. lia.
  - intros _. exists span, spanEnd. ob_simpl.
    repeat split; try assumption; try lia. discriminate.
Qed.

Lemma index_lookup {X} (xs : list X) (i : Z) (x : X) :
  index xs i = Some x -> 0 <= i /\ xs !! Z.to_nat i = Some x.
Proof.
  unfold index. destruct (i <? 0) eqn:E; [discriminate|].
  apply Z.ltb_ge in E. auto.
Qed.

Lemma index_models (r : Rand01) :
  exists m, m ∈ models
            /\ index models (floor_mul r (Z.of_nat (length models))) = Some m.
Proof.
  pose proof (floor_mul_range r (Z.of_nat (length models)) ltac:(lia)) as H.
  pose proof (floor_mul_lt r (Z.of_nat (length models))
                ltac:(cbn; lia)) as Hlt.
  unfold index. destruct (_ <? 0) eqn:E; [apply Z.ltb_lt in E; lia|].
  destruct (lookup_lt_is_Some_2 models
              (Z.to_nat (floor_mul r (Z.of_nat (length models)))))
    as [m Hm]; [lia|].
  exists m. split; [|exact Hm]. eapply list_elem_of_lookup_2. exact Hm.
Qed.

Lemma createGeneration_detail i j t span spanEnd k a w :
  ob_type span = SPAN -> ob_endTime span = Some spanEnd ->
  tr_timestamp t <= ob_startTime span <= spanEnd ->
  in_span t span a ->
  wp (fun _ => True)
     (createGeneration B orc i j t (tr_timestamp t) (tr_projectId t)
        promptIds (ob_id span) (ob_startTime span) spanEnd k a)
     (fun a' _ => in_span t span a') w.
Proof.
  intros Hty Hend Htimes (Hd & Ht & Hspan). unfold createGeneration.
  repeat step. apply wp_bind.
  destruct (promptIds !! tr_projectId t) as [pids|] eqn:Hp;
    [|apply wp_throw; exact Logic.I].
  step. apply wp_bind, getGenerationInputOutput_wp. intros io ?.
  forget_world. step. step.
  apply wp_bind, optional_parameter_wp. intros temperature ?. forget_world.
  apply wp_bind, optional_parameter_wp. intros topP ?. forget_world.
  apply wp_bind, optional_parameter_wp. intros maxTokens ?. forget_world.
  step. step.
  pose proof (floor_mul_range r (spanEnd - ob_startTime span) ltac:(lia))
    as Hstart.
  set (gStart := ob_startTime span
                 + floor_mul r (spanEnd - ob_startTime span)) in *.
  assert (HgStart : ob_startTime span <= gStart <= spanEnd)
    by (unfold gStart; lia).
  clearbody gStart. clear Hstart.
  pose proof (floor_mul_range r0 (spanEnd - gStart) ltac:(lia)) as Hgend.
  set (gEnd := gStart + floor_mul r0 (spanEnd - gStart)) in *.
  assert (HgEnd : gStart <= gEnd <= spanEnd) by (unfold gEnd; lia).
  clearbody gEnd. clear Hgend.
  lazymatch goal with
  | |- context [push_observation ?g0 a] => set (g := g0)
  end.
  assert (Hg : in_span t span (push_observation g a)
               /\ g ∈ a_observations (push_observation g a)).
  { split; [|apply elem_of_app; right; left].
    split; [|split; [exact Ht | apply elem_of_app; left; exact Hspan]].
    unfold g. apply detail_push_observation; [exact Hd | |].
    - split; [reflexivity|]. split; [|split].
      + ob_simpl. intros e [= <-]. lia.
      + exists t. split; [exact Ht|]. split; [reflexivity|]. ob_simpl. lia.
      + intros _. exists span, spanEnd. ob_simpl.
        repeat split; try assumption; try lia. intros e [= <-]. lia.
    - unfold generation_fields. ob_simpl. split; [reflexivity|].
      split; [reflexivity|].
      pose proof (floor_mul_range r1 1000 ltac:(lia)).
      pose proof (floor_mul_lt r1 1000 ltac:(lia)).
      pose proof (floor_mul_range r2 500 ltac:(lia)).
      pose proof (floor_mul_lt r2 500 ltac:(lia)).
      split; [lia|]. split; [lia|]. split; [reflexivity|].
      split; [apply index_models|]. split.
      + intros cs Hcs. destruct (rand_gt _ _); [|discriminate].
        injection Hcs as <-.
        pose proof (Z.div_pos (gEnd - gStart) 3 ltac:(lia) ltac:(lia)).
        pose proof (Z.div_le_upper_bound (gEnd - gStart) 3 (gEnd - gStart)
                      ltac:(lia) ltac:(lia)).
        split; [lia|]. intros e [= <-]. lia.
      + intros pid Hpid. exists pids.
        apply index_lookup in Hpid as [Hk0 Hlookup].
        eexists. split; [exact Hp|]. split; [exact Hlookup|].
        destruct (Z.eq_dec (Z.of_nat (length pids) / 2) 0) as [E|E].
        * rewrite E in *. rewrite floor_mul_zero. lia.
        * pose proof (Z.div_pos (Z.of_nat (length pids)) 2 ltac:(lia)
                        ltac:(lia)).
          pose proof (floor_mul_lt r4 (Z.of_nat (length pids) / 2)
                        ltac:(lia)).
          lia. }
  assert (Hgty : ob_type g = GENERATION) by reflexivity.
  assert (Hgtr : ob_traceId g = tr_id t) by reflexivity.
  assert (Hgpr : ob_projectId g = tr_projectId t) by reflexivity.
  assert (Hgid : ob_id g = "generation-" +:+ u) by reflexivity.
  clearbody g. generalize dependent (push_observation g a).
  intros a0 [HK Hgin].
  assert (Hscore : forall name x a1,
            in_span t span a1 /\ g ∈ a_observations a1 ->
            in_span t span
              (push_scores
                 [ {| sc_traceId := tr_id t;
                      sc_observationId := Some ("generation-" +:+ u);
                      sc_name := name;
                      sc_timestamp := gEnd;
                      sc_createdAt := tr_timestamp t;
                      sc_source := "API";
                      sc_projectId := tr_projectId t;
                      sc_authorUserId := None;
                      sc_dataType := None;
                      sc_value := Some (rval x * 2 - 1)%Q;
                      sc_stringValue := None;
                      sc_configId := None;
                      sc_metadata := false |} ] a1)
            /\ g ∈ a_observations
                    (push_scores
                       [ {| sc_traceId := tr_id t;
                            sc_observationId := Some ("generation-" +:+ u);
                            sc_name := name;
                            sc_timestamp := gEnd;
                            sc_createdAt := tr_timestamp t;
                            sc_source := "API";
                            sc_projectId := tr_projectId t;
                            sc_authorUserId := None;
                            sc_dataType := None;
                            sc_value := Some (rval x * 2 - 1)%Q;
                            sc_stringValue := None;
                            sc_configId := None;
                            sc_metadata := false |} ] a1)).
  { intros name x a1 [(Hd1 & Ht1 & Hs1) Hg1].
    split; [|exact Hg1]. split; [|split; [exact Ht1 | exact Hs1]].
    apply detail_push_scores; [exact Hd1|].
    constructor; [|constructor].
    intros oid [= <-]. exists g. auto. }
  apply wp_bind.
  eapply wp_mono with
    (Q := fun a' _ => in_span t span a' /\ g ∈ a_observations a').
  2:{ case_if; repeat step; [|split; assumption].
      rewrite Hgid. apply Hscore. split; assumption. }
  cbv beta. clear a0 HK Hgin. intros a1 ? [HK Hgin]. step.
  apply wp_bind.
  eapply wp_mono with
    (Q := fun a' _ => in_span t span a' /\ g ∈ a_observations a').
  2:{ case_if; repeat step; [|split; assumption].
      rewrite Hgid. apply Hscore. split; assumption. }
  cbv beta. clear a1 HK Hgin. intros a2 ? [HK Hgin]. step.
  apply wp_for_random.
  - intros ? ? ? H. exact H.
  - intros l ? ? H. apply createEvent_detail; assumption.
  - destruct (rand_gt _ _); [|exact HK].
    destruct HK as (Hd2 & Ht2 & Hs2).
    split; [|split; [exact Ht2 | exact Hs2]].
    apply detail_push_comment; [exact Hd2|]. right.
    split; [reflexivity|]. exists g. cbn. rewrite Hgid, Hgpr. auto.
Qed.

Lemma createSpan_detail i t j ids a w :
  in_trace t a ->
  wp (fun _ => True)
     (createSpan B orc i t (tr_timestamp t) (tr_projectId t) promptIds j
        (a, ids))
     (fun s' _ => in_trace t (fst s')) w.
Proof.
  intros [Hd Ht]. unfold createSpan. cbn [fst snd].
  repeat step. apply wp_bind.
  eapply wp_mono with (Q := fun _ _ => True).
  2:{ apply wp_any. intros. exact Logic.I. }
  intros parent ? _.
  pose proof (floor_mul_range r 30 ltac:(lia)) as Hstart.
  pose proof (floor_mul_range r0 5000 ltac:(lia)) as Hend.
  set (spanStart := tr_timestamp t + floor_mul r 30) in *.
  set (spanEnd := spanStart + floor_mul r0 5000) in *.
  assert (Htimes : tr_timestamp t <= spanStart <= spanEnd)
    by (unfold spanEnd, spanStart; lia).
  clearbody spanEnd. clearbody spanStart. clear Hstart Hend.
  lazymatch goal with
  | |- context [push_observation ?g0 a] => set (span := g0)
  end.
  assert (HK : in_span t span (push_observation span a)).
  { split; [|split; [exact Ht | apply elem_of_app; right; left]].
    unfold span. apply detail_push_observation; [exact Hd | |].
    - split; [reflexivity|]. split; [|split].
      + ob_simpl. intros e [= <-]. lia.
      + exists t. split; [exact Ht|]. split; [reflexivity|]. ob_simpl. lia.
      + ob_simpl. intros H. destruct H. reflexivity.
    - unfold generation_fields. ob_simpl. discriminate. }
  generalize dependent (push_observation span a). intros a0 HK.
  apply wp_bind.
  eapply wp_mono with (Q := fun a' _ => in_span t span a').
  2:{ apply wp_for_random.
      - intros ? ? ? H. exact H.
      - intros k ? ? H.
        apply (createGeneration_detail i j t span spanEnd k);
          [reflexivity | reflexivity | exact Htimes | exact H].
      - exact HK. }
  intros a1 ? (Hd1 & Ht1 & _). step. split; assumption.
Qed.

Lemma createTrace_detail i a w :
  detail a ->
  wp (fun _ => True)
     (createTrace B orc envTags colorTags project1 project2 promptIds
        queueIds configParams i a)
     (fun a' _ => detail a') w.
Proof.
  intros Hd. unfold createTrace.
  repeat step.
  lazymatch goal with
  | |- context [push_trace ?t0 _] => set (trace := t0)
  end.
  lazymatch goal with
  | |- context [push_queueItems ?q (push_trace trace ?aS)] =>
      assert (HK : in_trace trace (push_queueItems q (push_trace trace aS)));
      [|generalize dependent (push_queueItems q (push_trace trace aS))]
  end.
  { split; [|apply elem_of_app; right; left].
    apply detail_push_queueItems, detail_push_trace.
    - destruct (rand_gt r2 (3 # 10)); [apply detail_push_session|];
        exact Hd.
    - intros sid Hsid. unfold trace in *.
      cbn [tr_sessionId tr_projectId] in *.
      destruct (rand_gt r2 (3 # 10)); [|discriminate]. cbn in Hsid.
      injection Hsid as <-. apply elem_of_app. right. left. }
  intros a1 HK.
  assert (Hscores : forall a' ss,
            in_trace trace a' ->
            Forall (fun s => sc_observationId s = None) ss ->
            in_trace trace (push_scores ss a')).
  { intros a' ss [Hd' Ht'] Hss. split; [|exact Ht'].
    apply detail_push_scores; [exact Hd'|].
    eapply Forall_impl; [exact Hss|]. intros s Hnone oid Hoid.
    congruence. }
  apply wp_bind.
  eapply wp_mono with
    (Q := fun ss _ => Forall (fun s => sc_observationId s = None) ss).
  2:{ case_if; repeat step; repeat constructor. }
  intros sentiment ? Hsentiment. step.
  apply wp_bind.
  eapply wp_mono with
    (Q := fun ss _ => Forall (fun s => sc_observationId s = None) ss).
  2:{ case_if; repeat step; repeat constructor. }
  intros completeness ? Hcompleteness. step.
  apply wp_bind.
  eapply wp_mono with (Q := fun a' _ => in_trace trace a').
  2:{ case_if; repeat step; [|exact HK].
      destruct HK as [Hd1 Ht1]. split; [|exact Ht1].
      apply detail_push_comment; [exact Hd1|]. left.
      split; [reflexivity|]. exists trace. auto. }
  intros a2 ? HK2.
  apply wp_bind.
  eapply wp_mono with (Q := fun s _ => in_trace trace (fst s)).
  2:{ apply wp_for_random.
      - intros ? ? ? H. exact H.
      - intros j [a' ids] ? H.
        apply (createSpan_detail i trace j ids a'). exact H.
      - cbn [fst]. apply Hscores; [exact HK2|].
        repeat apply Forall_app_2; [|exact Hsentiment|exact Hcompleteness].
        destruct (rand_gt r9 (1 # 2)); repeat constructor. }
  intros [a3 ids] ? [Hd3 _]. step. exact Hd3.
Qed.

Lemma createObjects_detail traceVolume w :
  wp (fun _ => True)
     (createObjects B orc traceVolume envTags colorTags project1 project2
        promptIds queueIds configParams)
     (fun objects _ =>
        (forall c, c ∈ co_comments objects ->
           comment_placed (co_traces objects) (co_observations objects) c)
        /\ (forall s, s ∈ co_scores objects ->
              score_placed (co_observations objects) s)
        /\ (forall t, t ∈ co_traces objects ->
              trace_in_session (co_sessions objects) t)
        /\ (forall o, o ∈ co_observations objects ++ co_events objects ->
              observation_timed (co_traces objects)
                (co_observations objects) o
              /\ generation_fields o)) w.
Proof.
  unfold createObjects. apply wp_bind. eapply wp_mono.
  2:{ apply (wp_for_range _ (fun _ a _ => detail a)).
      - intros i a w0 H. apply createTrace_detail. exact H.
      - split; cbn; intros x Hx; inversion Hx. }
  cbv beta. intros a ? [Hc Hs Ht Ho]. apply wp_ret. cbn.
  split; [exact Hc|]. split; [exact Hs|]. split; [|exact Ho].
  intros t Hin sid Hsid.
  apply (proj2 (uniqueSessions_spec (a_sessions a))).
  exact (Ht t Hin sid Hsid).
Qed.

End CreateObjectsDetail.

(** X21.  Every comment [createObjects] generates is placed: it is a
    [TRACE] comment on a generated trace or an [OBSERVATION] comment on a
    generated generation, and carries the project of its object. *)
Theorem createObjects_comments_reference
    (B : Builtins) (orc : Oracle) (envTags colorTags : list (option string))
    (project1 project2 : Project)
    (promptIds queueIds : gmap string (list string))
    (configParams : gmap string (list ConfigParam))
    (traceVolume : Z) (w w' : World) (objects : CreatedObjects) :
  createObjects B orc traceVolume envTags colorTags project1 project2
    promptIds queueIds configParams w = (Ok objects, w') ->
  forall c, c ∈ co_comments objects ->
    (cm_objectType c = "TRACE"
     /\ exists t, t ∈ co_traces objects /\ cm_objectId c = tr_id t
                  /\ cm_projectId c = tr_projectId t)
    \/ (cm_objectType c = "OBSERVATION"
        /\ exists g, g ∈ co_observations objects /\ ob_type g = GENERATION
                     /\ cm_objectId c = ob_id g
                     /\ cm_projectId c = ob_projectId g).
Proof.
  intros Hrun.
  exact (proj1 (wp_ok _ _ _ _ _ _
                  (createObjects_detail B orc envTags colorTags project1
                     project2 promptIds queueIds configParams traceVolume w)
                  Hrun)).
Qed.

Lemma createObjects_comments_reference_witness :
  demo_createObjects = (Ok demo_objects, demo_world_after)
  /\ forall c, c ∈ co_comments demo_objects ->
       (cm_objectType c = "TRACE"
        /\ exists t, t ∈ co_traces demo_objects /\ cm_objectId c = tr_id t
                     /\ cm_projectId c = tr_projectId t)
       \/ (cm_objectType c = "OBSERVATION"
           /\ exists g, g ∈ co_observations demo_objects
                        /\ ob_type g = GENERATION
                        /\ cm_objectId c = ob_id g
                        /\ cm_projectId c = ob_projectId g).
Proof.
  split; [exact demo_createObjects_eq|].
  exact (createObjects_comments_reference _ _ _ _ _ _ _ _ _ _ _ _ _
           demo_createObjects_eq).
Defined.

(** X22.  A score [createObjects] generates with an [observationId] is on
    a generated generation of the score's trace and project. *)
Theorem createObjects_observation_scores
    (B : Builtins) (orc : Oracle) (envTags colorTags : list (option string))
    (project1 project2 : Project)
    (promptIds queueIds : gmap string (list string))
    (configParams : gmap string (list ConfigParam))
    (traceVolume : Z) (w w' : World) (objects : CreatedObjects) :
  createObjects B orc traceVolume envTags colorTags project1 project2
    promptIds queueIds configParams w = (Ok objects, w') ->
  forall s oid, s ∈ co_scores objects -> sc_observationId s = Some oid ->
    exists g, g ∈ co_observations objects /\ ob_type g = GENERATION
              /\ ob_id g = oid /\ ob_traceId g = sc_traceId s
              /\ ob_projectId g = sc_projectId s.
Proof.
  intros Hrun s oid Hs.
  exact (proj1 (proj2 (wp_ok _ _ _ _ _ _
                         (createObjects_detail B orc envTags colorTags
                            project1 project2 promptIds queueIds configParams
                            traceVolume w)
                         Hrun)) s Hs oid).
Qed.

Lemma createObjects_observation_scores_witness :
  demo_createObjects = (Ok demo_objects, demo_world_after)
  /\ forall s oid, s ∈ co_scores demo_objects ->
       sc_observationId s = Some oid ->
       exists g, g ∈ co_observations demo_objects /\ ob_type g = GENERATION
                 /\ ob_id g = oid /\ ob_traceId g = sc_traceId s
                 /\ ob_projectId g = sc_projectId s.
Proof.
  split; [exact demo_createObjects_eq|].
  exact (createObjects_observation_scores _ _ _ _ _ _ _ _ _ _ _ _ _
           demo_createObjects_eq).
Defined.

(** X23.  The session of every trace [createObjects] generates is among
    the sessions it returns, under the project of the trace. *)
Theorem createObjects_trace_sessions
    (B : Builtins) (orc : Oracle) (envTags colorTags : list (option string))
    (project1 project2 : Project)
    (promptIds queueIds : gmap string (list string))
    (configParams : gmap string (list ConfigParam))
    (traceVolume : Z) (w w' : World) (objects : CreatedObjects) :
  createObjects B orc traceVolume envTags colorTags project1 project2
    promptIds queueIds configParams w = (Ok objects, w') ->
  forall t sid, t ∈ co_traces objects -> tr_sessionId t = Some sid ->
    mkSession sid (tr_projectId t) ∈ co_sessions objects.
Proof.
  intros Hrun t sid Ht.
  exact (proj1 (proj2 (proj2 (wp_ok _ _ _ _ _ _
                                (createObjects_detail B orc envTags colorTags
                                   project1 project2 promptIds queueIds
                                   configParams traceVolume w)
                                Hrun))) t Ht sid).
Qed.

Lemma createObjects_trace_sessions_witness :
  demo_createObjects = (Ok demo_objects, demo_world_after)
  /\ forall t sid, t ∈ co_traces demo_objects -> tr_sessionId t = Some sid ->
       mkSession sid (tr_projectId t) ∈ co_sessions demo_objects.
Proof.
  split; [exact demo_createObjects_eq|].
  exact (createObjects_trace_sessions _ _ _ _ _ _ _ _ _ _ _ _ _
           demo_createObjects_eq).
Defined.

(** X24.  Every observation [createObjects] generates is created when it
    starts, starts no earlier than its trace and ends no earlier than it
    starts; a generation or an event starts and ends within the span that
    is its parent. *)
Theorem createObjects_times
    (B : Builtins) (orc : Oracle) (envTags colorTags : list (option string))
    (project1 project2 : Project)
    (promptIds queueIds : gmap string (list string))
    (configParams : gmap string (list ConfigParam))
    (traceVolume : Z) (w w' : World) (objects : CreatedObjects) :
  createObjects B orc traceVolume envTags colorTags project1 project2
    promptIds queueIds configParams w = (Ok objects, w') ->
  forall o, o ∈ co_observations objects ++ co_events objects ->
    ob_createdAt o = ob_startTime o
    /\ (forall e, ob_endTime o = Some e -> ob_startTime o <= e)
    /\ (exists t, t ∈ co_traces objects /\ ob_traceId o = tr_id t
                  /\ tr_timestamp t <= ob_startTime o)
    /\ (ob_type o <> SPAN ->
        exists span spanEnd,
          span ∈ co_observations objects /\ ob_type span = SPAN
          /\ ob_parentObservationId o = Some (ob_id span)
          /\ ob_endTime span = Some spanEnd
          /\ ob_startTime span <= ob_startTime o <= spanEnd
          /\ forall e, ob_endTime o = Some e -> e <= spanEnd).
Proof.
  intros Hrun o Ho.
  exact (proj1 (proj2 (proj2 (proj2 (wp_ok _ _ _ _ _ _
                                       (createObjects_detail B orc envTags
                                          colorTags project1 project2
                                          promptIds queueIds configParams
                                          traceVolume w)
                                       Hrun))) o Ho)).
Qed.

Lemma createObjects_times_witness :
  demo_createObjects = (Ok demo_objects, demo_world_after)
  /\ forall o, o ∈ co_observations demo_objects ++ co_events demo_objects ->
       ob_createdAt o = ob_startTime o
       /\ (forall e, ob_endTime o = Some e -> ob_startTime o <= e)
       /\ (exists t, t ∈ co_traces demo_objects /\ ob_traceId o = tr_id t
                     /\ tr_timestamp t <= ob_startTime o)
       /\ (ob_type o <> SPAN ->
           exists span spanEnd,
             span ∈ co_observations demo_objects /\ ob_type span = SPAN
             /\ ob_parentObservationId o = Some (ob_id span)
             /\ ob_endTime span = Some spanEnd
             /\ ob_startTime span <= ob_startTime o <= spanEnd
             /\ forall e, ob_endTime o = Some e -> e <= spanEnd).
Proof.
  split; [exact demo_createObjects_eq|].
  exact (createObjects_times _ _ _ _ _ _ _ _ _ _ _ _ _
           demo_createObjects_eq).
Defined.

(** X25.  Of the observations [createObjects] generates, exactly the
    generations carry generation fields, and then: the total tokens are
    the prompt tokens (300 to 1299) plus the completion tokens (100 to
    599); the model is one of [models] and is also the internal model; a
    completion start time lies between start and end; a prompt id is one
    of the first half of the prompt ids of the project (the first one when
    the project has a single id). *)
Theorem createObjects_generation_fields
    (B : Builtins) (orc : Oracle) (envTags colorTags : list (option string))
    (project1 project2 : Project)
    (promptIds queueIds : gmap string (list string))
    (configParams : gmap string (list ConfigParam))
    (traceVolume : Z) (w w' : World) (objects : CreatedObjects) :
  createObjects B orc traceVolume envTags colorTags project1 project2
    promptIds queueIds configParams w = (Ok objects, w') ->
  forall o, o ∈ co_observations objects ++ co_events objects ->
    match ob_generation o with
    | None => ob_type o <> GENERATION
    | Some gf =>
        ob_type o = GENERATION
        /\ gf_totalTokens gf = gf_promptTokens gf + gf_completionTokens gf
        /\ 300 <= gf_promptTokens gf < 1300
        /\ 100 <= gf_completionTokens gf < 600
        /\ gf_internalModel gf = gf_model gf
        /\ (exists m, m ∈ models /\ gf_model gf = Some m)
        /\ (forall cs, gf_completionStartTime gf = Some cs ->
              ob_startTime o <= cs
              /\ forall e, ob_endTime o = Some e -> cs <= e)
        /\ (forall pid, gf_promptId gf = Some pid ->
              exists ids k,
                promptIds !! ob_projectId o = Some ids
                /\ ids !! k = Some pid
                /\ Z.of_nat k < Z.max 1 (Z.of_nat (length ids) / 2))
    end.
Proof.
  intros Hrun o Ho.
  exact (proj2 (proj2 (proj2 (proj2 (wp_ok _ _ _ _ _ _
                                       (createObjects_detail B orc envTags
                                          colorTags project1 project2
                                          promptIds queueIds configParams
                                          traceVolume w)
                                       Hrun))) o Ho)).
Qed.

Lemma createObjects_generation_fields_witness :
  demo_createObjects = (Ok demo_objects, demo_world_after)
  /\ forall o, o ∈ co_observations demo_objects ++ co_events demo_objects ->
       match ob_generation o with
       | None => ob_type o <> GENERATION
       | Some gf =>
           ob_type o = GENERATION
           /\ gf_totalTokens gf = gf_promptTokens gf + gf_completionTokens gf
           /\ 300 <= gf_promptTokens gf < 1300
           /\ 100 <= gf_completionTokens gf < 600
           /\ gf_internalModel gf = gf_model gf
           /\ (exists m, m ∈ models /\ gf_model gf = Some m)
           /\ (forall cs, gf_completionStartTime gf = Some cs ->
                 ob_startTime o <= cs
                 /\ forall e, ob_endTime o = Some e -> cs <= e)
           /\ (forall pid, gf_promptId gf = Some pid ->
                 exists ids k,
                   demo_promptIds !! ob_projectId o = Some ids
                   /\ ids !! k = Some pid
                   /\ Z.of_nat k < Z.max 1 (Z.of_nat (length ids) / 2))
       end.
Proof.
  split; [exact demo_createObjects_eq|].
  exact (createObjects_generation_fields _ _ _ _ _ _ _ _ _ _ _ _ _
           demo_createObjects_eq).
Defined.


(** ** [createDatasets] *)

Lemma wp_create {R} (T : Table R) model keys (row : R)
    (Q : R -> World -> Prop) w :
  Q row (mkWorld (with_rows T (rows T (w_db w) ++ [row]) (w_db w)) (w_cur w)
           (w_log w)) ->
  wp (fun _ => True) (create T model keys row) Q w.
Proof.
  intros HQ. unfold wp.
  destruct (create T model keys row w) as [[r|e] w'] eqn:E; [|exact I].
  apply create_ok in E as (-> & _ & ->). exact HQ.
Qed.

Lemma wp_findFirst {R} Tt (T : Table R) where_
    (Q : option R -> World -> Prop) w :
  Q (find where_ (rows T (w_db w))) w -> wp Tt (findFirst T where_) Q w.
Proof. intros HQ. exact HQ. Qed.

Lemma wp_upsert_none {R} (T : Table R) model keys where_ create_
    (Q : R -> World -> Prop) w :
  (forall r, find where_ (rows T (w_db w)) = Some r -> Q r w) ->
  (forall r w1,
      create_ w = (Ok r, w1) ->
      Q r (mkWorld (with_rows T (rows T (w_db w1) ++ [r]) (w_db w1))
             (w_cur w1) (w_log w1))) ->
  wp (fun _ => True) (upsert T model keys where_ create_ None) Q w.
Proof.
  intros Hfound Hcreate. unfold wp.
  destruct (upsert _ _ _ _ _ _ w) as [[r|e] w'] eqn:E; [|exact I].
  apply upsert_ok in E. cbv zeta in E.
  destruct E as [(Hfind & _ & ->)
                | [(r0 & f & _ & [=] & _)
                  | (w1 & _ & Hc & _ & ->)]].
  - apply Hfound, Hfind.
  - apply Hcreate, Hc.
Qed.

Section CreateDatasets.

Variable orc : Oracle.
Variables project1 project2 : Project.
Variable observations : list Observation.

(** A dataset item made from an observation: it carries the trace of some
    observation given, and its dataset is a dataset of its project. *)
Definition dataset_item_ok (d : DB) (i : DatasetItem) : Prop :=
  (di_projectId i = pj_id project1 \/ di_projectId i = pj_id project2)
  /\ (exists o, o ∈ observations
                /\ di_sourceTraceId i = Some (ob_traceId o)
                /\ (di_sourceObservationId i = None
                    \/ di_sourceObservationId i = Some (ob_id o)))
  /\ exists ds, ds ∈ datasets d /\ ds_id ds = di_datasetId i
                /\ ds_projectId ds = di_projectId i.

(** A dataset run item: it carries the trace of an observation of its
    project, and its item and its run are of its project and of one
    dataset. *)
Definition run_item_ok (d : DB) (r : DatasetRunItem) : Prop :=
  (exists o, o ∈ observations /\ ob_projectId o = ri_projectId r
             /\ ri_traceId r = ob_traceId o
             /\ (ri_observationId r = None
                 \/ ri_observationId r = Some (ob_id o)))
  /\ exists i run,
       i ∈ datasetItems d /\ di_id i = ri_datasetItemId r
       /\ di_projectId i = ri_projectId r
       /\ run ∈ datasetRuns d /\ dr_id run = ri_datasetRunId r
       /\ dr_projectId run = ri_projectId r
       /\ di_datasetId i = dr_datasetId run.

(** [d'] is [d] with rows added at the end of the four dataset tables, the
    items and the run items as they should be. *)
Definition grows (d d' : DB) : Prop :=
  exists nds nis nrs nris,
    d' = with_rows T_datasetRunItems (datasetRunItems d ++ nris)
           (with_rows T_datasetRuns (datasetRuns d ++ nrs)
              (with_rows T_datasetItems (datasetItems d ++ nis)
                 (with_rows T_datasets (datasets d ++ nds) d)))
    /\ (forall i, i ∈ nis -> dataset_item_ok d' i)
    /\ (forall r, r ∈ nris -> run_item_ok d' r).

(** The dataset tables of [d] are part of those of [d']. *)
Definition extends (d d' : DB) : Prop :=
  datasets d ⊆ datasets d' /\ datasetItems d ⊆ datasetItems d'
  /\ datasetRuns d ⊆ datasetRuns d'.

Lemma dataset_item_ok_mono d d' i :
  extends d d' -> dataset_item_ok d i -> dataset_item_ok d' i.
Proof.
  intros (Hds & _) (Hp & Ho & ds & Hin & H).
  split; [exact Hp|]. split; [exact Ho|]. exists ds. auto.
Qed.

Lemma run_item_ok_mono d d' r :
  extends d d' -> run_item_ok d r -> run_item_ok d' r.
Proof.
  intros (_ & Hitems & Hruns) (Ho & i & run & Hi & H1 & H2 & Hrun & H).
  split; [exact Ho|]. exists i, run. auto 10.
Qed.

Lemma grows_extends d d' : grows d d' -> extends d d'.
Proof.
  intros (a & b & c & e & -> & _). db_norm.
  repeat split; apply subseteq_app_l.
Qed.

Lemma grows_refl d : grows d d.
Proof.
  exists [], [], [], []. rewrite !app_nil_r.
  split; [destruct d; reflexivity|]. split; intros x Hx; inversion Hx.
Qed.

Lemma grows_trans d1 d2 d3 : grows d1 d2 -> grows d2 d3 -> grows d1 d3.
Proof.
  intros H12 H23. pose proof (grows_extends _ _ H23) as Hext.
  destruct H12 as (a & b & c & e & -> & Hb & He).
  destruct H23 as (a' & b' & c' & e' & -> & Hb' & He').
  exists (a ++ a'), (b ++ b'), (c ++ c'), (e ++ e').
  split; [db_norm; rewrite !app_assoc; reflexivity|]. split.
  - intros i Hi. apply elem_of_app in Hi as [Hi|Hi]; [|apply Hb', Hi].
    eapply dataset_item_ok_mono; [exact Hext | apply Hb, Hi].
  - intros r Hr. apply elem_of_app in Hr as [Hr|Hr]; [|apply He', Hr].
    eapply run_item_ok_mono; [exact Hext | apply He, Hr].
Qed.

Lemma grows_dataset d x :
  grows d (with_rows T_datasets (datasets d ++ [x]) d).
Proof.
  exists [x], [], [], []. rewrite !app_nil_r.
  split; [destruct d; reflexivity|]. split; intros y Hy; inversion Hy.
Qed.

Lemma grows_datasetRun d x :
  grows d (with_rows T_datasetRuns (datasetRuns d ++ [x]) d).
Proof.
  exists [], [], [x], []. rewrite !app_nil_r.
  split; [destruct d; reflexivity|]. split; intros y Hy; inversion Hy.
Qed.

Lemma grows_datasetItem d x :
  dataset_item_ok (with_rows T_datasetItems (datasetItems d ++ [x]) d) x ->
  grows d (with_rows T_datasetItems (datasetItems d ++ [x]) d).
Proof.
  intros Hx. exists [], [x], [], []. rewrite !app_nil_r.
  split; [destruct d; reflexivity|]. split; intros y Hy; [|inversion Hy].
  apply list_elem_of_singleton in Hy as ->. exact Hx.
Qed.

Lemma grows_datasetRunItem d x :
  run_item_ok
    (with_rows T_datasetRunItems (datasetRunItems d ++ [x]) d) x ->
  grows d (with_rows T_datasetRunItems (datasetRunItems d ++ [x]) d).
Proof.
  intros Hx. exists [], [], [], [x]. rewrite !app_nil_r.
  split; [destruct d; reflexivity|]. split; intros y Hy; [inversion Hy|].
  apply list_elem_of_singleton in Hy as ->. exact Hx.
Qed.

(** What the passes for one dataset rely on: the dataset is there, of the
    project; the ids collected are ids of items of the dataset; the run is
    there. *)
Definition dataset_there (projectId : string) (dataset : Dataset) (d : DB)
  : Prop :=
  dataset ∈ datasets d /\ ds_projectId dataset = projectId
  /\ (projectId = pj_id project1 \/ projectId = pj_id project2).

Definition items_there (projectId datasetId : string) (ids : list string)
    (d : DB) : Prop :=
  forall id, id ∈ ids ->
    exists i, i ∈ datasetItems d /\ di_id i = id
              /\ di_projectId i = projectId /\ di_datasetId i = datasetId.

Definition run_there (projectId datasetId : string) (run : DatasetRun)
    (d : DB) : Prop :=
  run ∈ datasetRuns d /\ dr_projectId run = projectId
  /\ dr_datasetId run = datasetId.

Lemma dataset_there_mono projectId dataset d d' :
  extends d d' -> dataset_there projectId dataset d ->
  dataset_there projectId dataset d'.
Proof. intros (H & _) (Hin & Hp). split; auto. Qed.

Lemma items_there_mono projectId datasetId ids d d' :
  extends d d' -> items_there projectId datasetId ids d ->
  items_there projectId datasetId ids d'.
Proof.
  intros (_ & H & _) Hids id Hid. destruct (Hids id Hid) as (i & Hi & Hrest).
  exists i. auto.
Qed.

Lemma run_there_mono projectId datasetId run d d' :
  extends d d' -> run_there projectId datasetId run d ->
  run_there projectId datasetId run d'.
Proof. intros (_ & _ & H) (Hin & Hp). split; auto. Qed.

Lemma createDatasetItem_wp projectId dataset i ids w :
  dataset_there projectId dataset (w_db w) ->
  items_there projectId (ds_id dataset) ids (w_db w) ->
  wp (fun _ => True)
     (createDatasetItem orc projectId (ds_id dataset) observations i ids)
     (fun ids' w' =>
        grows (w_db w) (w_db w')
        /\ items_there projectId (ds_id dataset) ids' (w_db w')) w.
Proof.
  intros Hds Hids. unfold createDatasetItem.
  apply wp_bind, wp_random. intros r c. apply wp_bind.
  eapply wp_mono with
    (Q := fun so w' => w_db w' = w_db w
                       /\ forall o, so = Some o -> o ∈ observations).
  2:{ destruct (rand_gt r (3 # 10)).
      - apply wp_bind, wp_random. intros r' c'. apply wp_ret.
        split; [reflexivity|]. intros o Ho.
        eapply index_elem_of. exact Ho.
      - apply wp_ret. split; [reflexivity|]. discriminate. }
  cbv beta. intros [o|] w1 [Hdb Ho].
  2:{ apply wp_ret. rewrite Hdb. split; [apply grows_refl | exact Hids]. }
  specialize (Ho o eq_refl).
  apply wp_bind, wp_random. intros r1 c1.
  apply wp_bind, wp_random. intros r2 c2.
  apply wp_bind, wp_random. intros r3 c3.
  apply wp_bind, wp_random. intros r4 c4.
  apply wp_bind, wp_cuid. intros id c5.
  apply wp_bind, wp_create. apply wp_ret. db_norm. rewrite Hdb.
  lazymatch goal with
  | |- context [datasetItems (w_db w) ++ [?x]] => set (item := x)
  end.
  assert (Hext : extends (w_db w)
                   (with_rows T_datasetItems
                      (datasetItems (w_db w) ++ [item]) (w_db w))).
  { destruct (w_db w). db_norm.
    repeat split; try apply subseteq_app_l; intros x Hx; exact Hx. }
  assert (Hg : grows (w_db w)
                 (with_rows T_datasetItems
                    (datasetItems (w_db w) ++ [item]) (w_db w))).
  { apply grows_datasetItem. destruct Hds as (Hin & Hp & Hproject).
    split; [exact Hproject|]. split.
    - exists o. split; [exact Ho|]. split; [reflexivity|]. cbn.
      destruct (rand_gt r1 (1 # 2)); auto.
    - exists dataset. split; [|auto]. apply Hext, Hin. }
  split; [exact Hg|].
  intros x Hx. apply elem_of_app in Hx as [Hx|Hx].
  - destruct (Hids x Hx) as (y & Hy & H). exists y.
    split; [apply Hext, Hy | exact H].
  - apply list_elem_of_singleton in Hx as ->. exists item.
    split; [|auto]. destruct (w_db w). db_norm.
    apply elem_of_app. right. left.
Qed.

Lemma createDatasetRunItem_wp projectId datasetId run ids id w :
  run_there projectId datasetId run (w_db w) ->
  items_there projectId datasetId ids (w_db w) ->
  id ∈ ids ->
  wp (fun _ => True)
     (createDatasetRunItem orc projectId (dr_id run) observations id tt)
     (fun _ w' => grows (w_db w) (w_db w')) w.
Proof.
  intros Hrun Hids Hid. unfold createDatasetRunItem. cbv zeta.
  apply wp_bind, wp_random. intros r c.
  destruct (index _ _) as [o|] eqn:Ho.
  2:{ apply wp_ret. db_norm. apply grows_refl. }
  apply index_elem_of in Ho. apply list_elem_of_In in Ho.
  apply filter_In in Ho as [Hobs Hproject].
  apply list_elem_of_In in Hobs. apply eqb_true in Hproject.
  apply wp_bind, wp_random. intros r' c'.
  apply wp_bind, wp_cuid. intros u c''.
  apply wp_bind, wp_create. apply wp_ret. db_norm.
  lazymatch goal with
  | |- context [datasetRunItems (w_db w) ++ [?x]] => set (item := x)
  end.
  apply grows_datasetRunItem. split.
  - exists o. split; [exact Hobs|]. split; [exact Hproject|].
    split; [reflexivity|]. cbn. destruct (rand_gt r' (1 # 2)); auto.
  - destruct (Hids id Hid) as (i & Hi & H1 & H2 & H3).
    destruct Hrun as (Hr & H4 & H5).
    exists i, run. cbn. rewrite H3, H5.
    destruct (w_db w). db_norm. db_norm_in Hi. db_norm_in Hr. auto 10.
Qed.

(** The passes of the two loops of [createDatasets] for one dataset. *)
Lemma createDatasets_pass datasetNumber projectId w :
  projectId = pj_id project1 \/ projectId = pj_id project2 ->
  wp (fun _ => True)
     (found <- findFirst T_datasets
                 (fun r => (ds_projectId r === projectId)
                           && (ds_name r
                               === "demo-dataset-" +:+ pretty datasetNumber))
      ;;
      dataset <-
        match found with
        | Some dataset => ret dataset
        | None =>
            id <- cuid orc ;;
            create T_datasets "Dataset" Dataset_keys
              {| ds_id := id;
                 ds_name := "demo-dataset-" +:+ pretty datasetNumber;
                 ds_description :=
                   if (datasetNumber =? 0)%nat
                   then Some "Dataset test description" else None;
                 ds_projectId := projectId;
                 ds_metadata := (datasetNumber =? 0)%nat |}
        end ;;
      datasetItemIds <-
        for_range 18 0
          (createDatasetItem orc projectId (ds_id dataset) observations)
          [] ;;
      for_range 5 0
        (fun datasetRunNumber _ =>
           r <- random orc ;;
           datasetRun <-
             upsert T_datasetRuns "DatasetRuns" DatasetRuns_keys
               (fun x => (dr_datasetId x === ds_id dataset)
                         && (dr_projectId x === projectId)
                         && (dr_name x
                             === "demo-dataset-run-"
                                 +:+ pretty datasetRunNumber))
               (id <- cuid orc ;;
                ret {| dr_id := id;
                       dr_projectId := projectId;
                       dr_name :=
                         "demo-dataset-run-" +:+ pretty datasetRunNumber;
                       dr_description :=
                         if rand_gt r (1 # 2)
                         then "Dataset run description" else "";
                       dr_datasetId := ds_id dataset;
                       dr_metadata := datasetRunNumber mod 5 |})
               None ;;
           for_of datasetItemIds
             (createDatasetRunItem orc projectId (dr_id datasetRun)
                observations)
             tt)
        tt)
     (fun _ w' => grows (w_db w) (w_db w')) w.
Proof.
  intros Hproject. set (d := w_db w).
  apply wp_bind, wp_findFirst. apply wp_bind.
  eapply wp_mono with
    (Q := fun dataset w' =>
            grows d (w_db w')
            /\ dataset_there projectId dataset (w_db w')).
  2:{ destruct (find _ _) as [dataset|] eqn:Hfind.
      - apply wp_ret. split; [apply grows_refl|].
        apply find_Some_holds in Hfind as [Hwhere Hin].
        apply andb_true_iff in Hwhere as [Hp _]. apply eqb_true in Hp.
        split; [exact Hin|]. auto.
      - apply wp_bind, wp_cuid. intros id c. apply wp_create. db_norm.
        split; [apply grows_dataset|].
        split; [|auto]. fold d. destruct d. db_norm.
        apply elem_of_app. right. left. }
  cbv beta. clearbody d. clear w. intros dataset w [Hg Hds].
  (* the items *)
  apply wp_bind. eapply wp_mono.
  2:{ apply (wp_for_range _
               (fun _ ids w' =>
                  grows d (w_db w')
                  /\ dataset_there projectId dataset (w_db w')
                  /\ items_there projectId (ds_id dataset) ids (w_db w'))).
      - intros i ids w0 (Hg0 & Hds0 & Hids0).
        eapply wp_mono; [|apply createDatasetItem_wp; eassumption].
        cbv beta. intros ids' w1 (Hg1 & Hids1).
        split; [eapply grows_trans; eassumption|]. split; [|exact Hids1].
        eapply dataset_there_mono; [apply grows_extends, Hg1 | exact Hds0].
      - split; [exact Hg|]. split; [exact Hds|]. intros id Hid.
        inversion Hid. }
  cbv beta. clear w Hg Hds. intros ids w (Hg & Hds & Hids).
  (* the runs *)
  eapply wp_mono.
  2:{ apply (wp_for_range _
               (fun _ _ w' =>
                  grows d (w_db w')
                  /\ items_there projectId (ds_id dataset) ids (w_db w'))).
      - intros n [] w0 (Hg0 & Hids0).
        apply wp_bind, wp_random. intros r c. apply wp_bind.
        eapply wp_mono with
          (Q := fun run w' =>
                  grows d (w_db w')
                  /\ items_there projectId (ds_id dataset) ids (w_db w')
                  /\ run_there projectId (ds_id dataset) run (w_db w')).
        2:{ apply wp_upsert_none.
            - intros run Hfind. db_norm. split; [exact Hg0|].
              split; [exact Hids0|].
              apply find_Some_holds in Hfind as [Hwhere Hin].
              apply andb_true_iff in Hwhere as [Hwhere _].
              apply andb_true_iff in Hwhere as [Hd Hp].
              apply eqb_true in Hd, Hp. split; [exact Hin|]. auto.
            - intros run w1 Hc. apply bind_ok in Hc as (id & w2 & Hid & Hc).
              unfold cuid in Hid. injection Hid as <- <-.
              unfold ret in Hc. injection Hc as <- <-. db_norm.
              lazymatch goal with
              | |- context [datasetRuns (w_db w0) ++ [?x]] => set (run := x)
              end.
              pose proof (grows_datasetRun (w_db w0) run) as Hg1.
              split; [eapply grows_trans; eassumption|]. split.
              + eapply items_there_mono; [apply grows_extends, Hg1|].
                exact Hids0.
              + split; [|auto]. destruct (w_db w0). db_norm.
                apply elem_of_app. right. left. }
        cbv beta. intros run w1 (Hg1 & Hids1 & Hrun1).
        eapply wp_mono.
        2:{ apply (wp_for_of _
                     (fun _ w' =>
                        grows d (w_db w')
                        /\ items_there projectId (ds_id dataset) ids
                             (w_db w')
                        /\ run_there projectId (ds_id dataset) run
                             (w_db w'))).
            - intros id [] w2 Hid (Hg2 & Hids2 & Hrun2).
              eapply wp_mono;
                [|apply (createDatasetRunItem_wp projectId (ds_id dataset)
                           run ids id); eassumption].
              cbv beta. intros _ w3 Hg3.
              pose proof (grows_extends _ _ Hg3) as Hext.
              split; [eapply grows_trans; eassumption|]. split.
              + eapply items_there_mono; eassumption.
              + eapply run_there_mono; eassumption.
            - auto. }
        cbv beta. intros _ w2 (Hg2 & Hids2 & _). auto.
      - auto. }
  cbv beta. intros _ w1 [H _]. exact H.
Qed.

Lemma createDatasets_wp w :
  wp (fun _ => True) (createDatasets orc project1 project2 observations)
     (fun _ w' => grows (w_db w) (w_db w')) w.
Proof.
  unfold createDatasets. set (d := w_db w).
  apply (wp_for_range _ (fun _ _ w' => grows d (w_db w')));
    [|apply grows_refl].
  intros datasetNumber [] w0 Hg0.
  apply (wp_for_of _ (fun _ w' => grows d (w_db w'))); [|exact Hg0].
  intros projectId [] w1 Hproject Hg1. cbv zeta.
  eapply wp_mono; [|apply createDatasets_pass].
  - cbv beta. intros _ w2 Hg2. eapply grows_trans; eassumption.
  - apply elem_of_cons in Hproject as [->|Hproject]; [left; reflexivity|].
    apply list_elem_of_singleton in Hproject as ->. right. reflexivity.
Qed.

End CreateDatasets.

(** X26.  A run of [createDatasets] that succeeds has only added rows, at
    the end of the four dataset tables.  Every dataset item it has added
    is of one of the two projects, belongs to a dataset of its project and
    carries the trace of one of the observations given, of whatever
    project; every run item it has added carries the trace of an
    observation of the run item's own project, and its dataset item and
    its run are of that project and of one dataset. *)
Theorem createDatasets_references (orc : Oracle)
    (project1 project2 : Project) (observations : list Observation)
    (w w' : World) :
  createDatasets orc project1 project2 observations w = (Ok tt, w') ->
  exists nds nis nrs nris,
    w_db w'
    = with_rows T_datasetRunItems (datasetRunItems (w_db w) ++ nris)
        (with_rows T_datasetRuns (datasetRuns (w_db w) ++ nrs)
           (with_rows T_datasetItems (datasetItems (w_db w) ++ nis)
              (with_rows T_datasets (datasets (w_db w) ++ nds) (w_db w))))
    /\ (forall i, i ∈ nis ->
          (di_projectId i = pj_id project1
           \/ di_projectId i = pj_id project2)
          /\ (exists o, o ∈ observations
                /\ di_sourceTraceId i = Some (ob_traceId o)
                /\ (di_sourceObservationId i = None
                    \/ di_sourceObservationId i = Some (ob_id o)))
          /\ exists ds, ds ∈ datasets (w_db w')
               /\ ds_id ds = di_datasetId i
               /\ ds_projectId ds = di_projectId i)
    /\ (forall r, r ∈ nris ->
          (exists o, o ∈ observations
             /\ ob_projectId o = ri_projectId r
             /\ ri_traceId r = ob_traceId o
             /\ (ri_observationId r = None
                 \/ ri_observationId r = Some (ob_id o)))
          /\ exists i run,
               i ∈ datasetItems (w_db w') /\ di_id i = ri_datasetItemId r
               /\ di_projectId i = ri_projectId r
               /\ run ∈ datasetRuns (w_db w')
               /\ dr_id run = ri_datasetRunId r
               /\ dr_projectId run = ri_projectId r
               /\ di_datasetId i = dr_datasetId run).
Proof.
  intros Hrun.
  exact (wp_ok _ _ _ _ _ _
           (createDatasets_wp orc project1 project2 observations w) Hrun).
Qed.

Lemma createDatasets_references_witness :
  exists w' nds nis nrs nris,
    createDatasets demo_oracle demo_project1 demo_project2
      (co_observations demo_objects) demo_world = (Ok tt, w')
    /\ w_db w'
       = with_rows T_datasetRunItems
           (datasetRunItems (w_db demo_world) ++ nris)
           (with_rows T_datasetRuns (datasetRuns (w_db demo_world) ++ nrs)
              (with_rows T_datasetItems
                 (datasetItems (w_db demo_world) ++ nis)
                 (with_rows T_datasets (datasets (w_db demo_world) ++ nds)
                    (w_db demo_world))))
    /\ forall r, r ∈ nris ->
         exists o, o ∈ co_observations demo_objects
                   /\ ob_projectId o = ri_projectId r
                   /\ ri_traceId r = ob_traceId o
                   /\ (ri_observationId r = None
                       \/ ri_observationId r = Some (ob_id o)).
Proof.
  destruct (succeeds_run
              (createDatasets demo_oracle demo_project1 demo_project2
                 (co_observations demo_objects) demo_world))
    as ([] & w' & Hrun); [vm_compute; reflexivity|].
  destruct (createDatasets_references _ _ _ _ _ _ Hrun)
    as (nds & nis & nrs & nris & Hdb & _ & Hruns).
  exists w', nds, nis, nrs, nris. split; [exact Hrun|].
  split; [exact Hdb|]. intros r Hr. exact (proj1 (Hruns r Hr)).
Defined.

(** X27.  Without observations [createDatasets] makes datasets and runs
    only: a run that succeeds has added no dataset item and no run item. *)
Theorem createDatasets_no_observations (orc : Oracle)
    (project1 project2 : Project) (w w' : World) :
  createDatasets orc project1 project2 [] w = (Ok tt, w') ->
  datasetItems (w_db w') = datasetItems (w_db w)
  /\ datasetRunItems (w_db w') = datasetRunItems (w_db w).
Proof.
  intros Hrun.
  destruct (wp_ok _ _ _ _ _ _
              (createDatasets_wp orc project1 project2 [] w) Hrun)
    as (nds & nis & nrs & nris & Hdb & Hitems & Hruns).
  assert (nis = []) as ->.
  { destruct nis as [|i nis]; [reflexivity|].
    destruct (Hitems i ltac:(left)) as (_ & (o & Ho & _) & _).
    inversion Ho. }
  assert (nris = []) as ->.
  { destruct nris as [|r nris]; [reflexivity|].
    destruct (Hruns r ltac:(left)) as ((o & Ho & _) & _).
    inversion Ho. }
  rewrite Hdb. db_norm. rewrite !app_nil_r. split; reflexivity.
Qed.

Lemma createDatasets_no_observations_witness :
  exists w',
    createDatasets demo_oracle demo_project1 demo_project2 [] demo_world
    = (Ok tt, w')
    /\ datasetItems (w_db w') = datasetItems (w_db demo_world)
    /\ datasetRunItems (w_db w') = datasetRunItems (w_db demo_world).
Proof.
  destruct (succeeds_run
              (createDatasets demo_oracle demo_project1 demo_project2 []
                 demo_world))
    as ([] & w' & Hrun); [vm_compute; reflexivity|].
  exists w'. split; [exact Hrun|].
  exact (createDatasets_no_observations _ _ _ _ _ Hrun).
Defined.


(** ** What a baseline run of [main] provisions *)

Lemma Sole_elem_of {R} (where_ : R -> bool) keys (r : R) l :
  Sole where_ keys r l -> r ∈ l /\ where_ r = true.
Proof.
  intros (Hwhere & l1 & l2 & -> & _). split; [|exact Hwhere].
  apply elem_of_app. right. left.
Qed.

(** X28.  After a run of [main] that succeeds with an environment other
    than examples and load, the database holds the two demo users with
    their names and e-mail addresses, the organization [Seed Org] with the
    plan [Team], the project [llm-app] of that organization, a membership
    of each user in the organization, the project membership of the second
    user, which refers to that user's organization membership, the first
    version of the prompt [summary-prompt] and the API key
    [seed-api-key]. *)
Theorem main_baseline_provisions (B : Builtins) (orc : Oracle)
    (environment : option string) (penv : ProcessEnv) (w w' : World) :
  baseline environment = true ->
  main B orc environment penv w = (Ok tt, w') ->
  (exists u, u ∈ users (w_db w') /\ us_id u = "user-1"
             /\ us_name u = Some "Demo User"
             /\ us_email u = Some "demo@langfuse.com")
  /\ (exists u, u ∈ users (w_db w') /\ us_id u = "user-2"
                /\ us_name u = Some "Demo User 2"
                /\ us_email u = Some "member@langfuse.com")
  /\ {| og_id := "seed-org-id"; og_name := "Seed Org";
        og_plan := Some "Team" |} ∈ organizations (w_db w')
  /\ {| pj_id := "7a88fb47-b4e2-43b8-a06c-a5ce950dc53a";
        pj_name := "llm-app"; pj_orgId := "seed-org-id" |}
     ∈ projects (w_db w')
  /\ (exists m, m ∈ organizationMemberships (w_db w')
                /\ om_userId m = "user-1" /\ om_orgId m = "seed-org-id")
  /\ (exists m pm,
        m ∈ organizationMemberships (w_db w')
        /\ om_userId m = "user-2" /\ om_orgId m = "seed-org-id"
        /\ pm ∈ projectMemberships (w_db w')
        /\ pm_projectId pm = "7a88fb47-b4e2-43b8-a06c-a5ce950dc53a"
        /\ pm_userId pm = "user-2"
        /\ pm_orgMembershipId pm = om_id m)
  /\ (exists p, p ∈ prompts (w_db w')
                /\ pr_projectId p = "7a88fb47-b4e2-43b8-a06c-a5ce950dc53a"
                /\ pr_name p = "summary-prompt" /\ pr_version p = 1)
  /\ (exists k, k ∈ apiKeys (w_db w') /\ ak_id k = "seed-api-key").
Proof.
  intros Henv Hrun.
  destruct (wp_ok _ _ _ _ _ _ (main_seeds B orc environment penv w Henv) Hrun)
    as [(u1 & Hu1 & Hn1 & He1) (u2 & Hu2 & Hn2 & He2) Horg Hproject
        (m1 & Hm1) (m2 & pm & Hm2 & Hpm & Hlink) (p & Hp) (k & Hk)].
  apply Sole_elem_of in Hu1 as [Hu1 Hid1], Hu2 as [Hu2 Hid2].
  apply eqb_true in Hid1, Hid2.
  apply Sole_elem_of in Horg as [Horg _], Hproject as [Hproject _].
  apply find_Some_holds in Hm1 as [Hw1 Hm1], Hm2 as [Hw2 Hm2].
  apply andb_true_iff in Hw1 as [Hw1a Hw1b], Hw2 as [Hw2a Hw2b].
  apply eqb_true in Hw1a, Hw1b, Hw2a, Hw2b.
  apply Sole_elem_of in Hpm as [Hpm Hwpm].
  apply andb_true_iff in Hwpm as [Hpm1 Hpm2]. apply eqb_true in Hpm1, Hpm2.
  apply find_Some_holds in Hp as [Hwp Hp], Hk as [Hwk Hk].
  apply andb_true_iff in Hwp as [Hwp Hv]. apply Z.eqb_eq in Hv.
  apply andb_true_iff in Hwp as [Hp1 Hp2]. apply eqb_true in Hp1, Hp2, Hwk.
  split; [exists u1; auto|]. split; [exists u2; auto|].
  split; [exact Horg|]. split; [exact Hproject|].
  split; [exists m1; auto|]. split; [exists m2, pm; auto 10|].
  split; [exists p; auto | exists k; auto].
Qed.

Lemma main_baseline_provisions_witness :
  main demo_builtins quiet_oracle None demo_penv demo_world
  = (Ok tt, snd (main demo_builtins quiet_oracle None demo_penv demo_world))
  /\ {| og_id := "seed-org-id"; og_name := "Seed Org";
        og_plan := Some "Team" |}
     ∈ organizations
         (w_db (snd (main demo_builtins quiet_oracle None demo_penv
                       demo_world)))
  /\ exists k,
       k ∈ apiKeys
             (w_db (snd (main demo_builtins quiet_oracle None demo_penv
                           demo_world)))
       /\ ak_id k = "seed-api-key".
Proof.
  split; [exact demo_main_baseline_eq|].
  destruct (main_baseline_provisions demo_builtins quiet_oracle None
              demo_penv demo_world _ eq_refl demo_main_baseline_eq)
    as (_ & _ & Horg & _ & _ & _ & _ & Hkey).
  split; [exact Horg | exact Hkey].
Defined.

(** ** The queue items an examples run stores *)












(** * Properties of the SCIM route *)

(** ** The SCIM route: a concrete deployment *)

Definition lower_string (s : string) : string :=
  string_of_list_ascii (map lower_ascii (list_ascii_of_string s)).

(** Builtins for the examples: a key check on the header alone, a parser
    that knows two texts, ASCII lower-casing. *)
Definition demo_api : ApiBuiltins :=
  {| verifyAuthHeaderAndReturnScope := fun _ header =>
       if is_string header "Bearer org-key"
       then ValidKey "organization" (Some "seed-org-id")
       else if is_string header "Bearer project-key"
       then ValidKey "project" (Some "seed-org-id")
       else InvalidKey (Some "Invalid credentials");
     JSON_parse := fun text =>
       if text === "null" then Some JNull
       else if text === "{}" then Some (JObject [])
       else None;
     JSON_stringify := fun _ => "[...]";
     toLowerCase := lower_string;
     hashPassword := fun password salt => "bcrypt:" +:+ salt +:+ password |}.

Definition scim_user1 : User :=
  {| us_id := "user-1"; us_name := Some "Demo User";
     us_email := Some "demo@langfuse.com"; us_password := None;
     us_image := None |}.
Definition scim_user2 : User :=
  {| us_id := "user-2"; us_name := Some "Demo User 2";
     us_email := Some "demo2@langfuse.com"; us_password := None;
     us_image := None |}.
Definition scim_user3 : User :=
  {| us_id := "user-3"; us_name := None;
     us_email := Some "other@langfuse.com"; us_password := None;
     us_image := None |}.

Definition scim_db : DB :=
  with_rows T_organizationMemberships
    [ {| om_id := "m-1"; om_orgId := "seed-org-id"; om_userId := "user-1";
         om_role := OWNER |};
      {| om_id := "m-2"; om_orgId := "seed-org-id"; om_userId := "user-2";
         om_role := VIEWER |};
      {| om_id := "m-3"; om_orgId := "other-org"; om_userId := "user-3";
         om_role := OWNER |} ]
    (with_rows T_users [scim_user1; scim_user2; scim_user3] emptyDB).

Definition scim_world : World := mkWorld scim_db (mkCursor 0 0 0 0 0) [].

Definition get_request (startIndex count : option string) : Request :=
  {| req_method := Some "GET";
     req_authorization := Some "Bearer org-key";
     req_query := mkQuery None (QString <$> startIndex) (QString <$> count);
     req_body := None |}.

Definition post_request (body : option json) : Request :=
  {| req_method := Some "POST";
     req_authorization := Some "Bearer org-key";
     req_query := mkQuery None None None;
     req_body := body |}.

(** ** The user list (GET) *)



(** The memberships the two queries of the route select: those of the
    organization whose user exists and has the e-mail asked for. *)
Lemma memberships_where_spec (d : DB) (email : option string)
    (orgId : string) (m : OrganizationMembership) (u : User) :
  (m, u) ∈ memberships_where d email orgId
  <-> m ∈ organizationMemberships d
      /\ om_orgId m = orgId
      /\ membership_user d m = Some u
      /\ (forall e, email = Some e -> us_email u = Some e).
Proof.
  unfold memberships_where. rewrite list_elem_of_omap. split.
  - intros (m' & Hin & Hm).
    destruct (om_orgId m' === orgId) eqn:Horg; [|discriminate].
    destruct (membership_user d m') as [u'|] eqn:Hu; [|discriminate].
    apply String.eqb_eq in Horg.
    destruct email as [e|].
    + destruct (is_string (us_email u') e) eqn:He; [|discriminate].
      injection Hm as <- <-. repeat split; try assumption.
      intros e' [= <-]. unfold is_string in He.
      destruct (us_email u'); [|discriminate].
      apply String.eqb_eq in He. congruence.
    + injection Hm as <- <-. repeat split; try assumption. discriminate.
  - intros (Hin & Horg & Hu & He). exists m. split; [assumption|].
    apply String.eqb_eq in Horg. rewrite Horg, Hu.
    destruct email as [e|]; [|reflexivity].
    rewrite (He e eq_refl). cbn. rewrite String.eqb_refl. reflexivity.
Qed.




(** ** The status of every answer *)

Lemma wp_try_catch {X} T (m : M X) (h : Exn -> M X) Q w :
  wp (fun w' => forall e, wp T (h e) Q w') m Q w -> wp T (try_catch m h) Q w.
Proof.
  unfold wp, try_catch. destruct (m w) as [[a|e] w']; intros H.
  - exact H.
  - apply (H e).
Qed.

(** The answers of the route: the user list, the created user, or an error
    in the SCIM error schema whose [status] field repeats the HTTP
    status. *)
Inductive scim_response : Response -> Prop :=
| scim_list total startIndex itemsPerPage resources :
    scim_response
      (mkResponse 200
         (ListResponseBody [SCIM_LIST_RESPONSE] total startIndex
            itemsPerPage resources))
| scim_created user :
    scim_response (mkResponse 201 (UserBody user))
| scim_error status detail :
    status ∈ [400; 401; 403; 405; 409; 500] ->
    scim_response
      (mkResponse status (ErrorBody [SCIM_ERROR] detail status)).

Lemma scim_error_response (status : Z) (detail : option string) :
  status ∈ [400; 401; 403; 405; 409; 500] ->
  scim_response (error_response status detail).
Proof. apply scim_error. Qed.

Ltac scim_status :=
  apply scim_error_response;
  repeat first [ apply list_elem_of_here | apply list_elem_of_further ].

Section HandlerStatus.

Variable orc : Oracle.
Variable A : ApiBuiltins.



Lemma try_catch_returns {X} (m : M X) (h : Exn -> M X)
    (Q : X -> Prop) (w : World) :
  wp (fun _ => True) m (fun a _ => Q a) w ->
  (forall e w', exists a w'', h e w' = (Ok a, w'') /\ Q a) ->
  exists a w', try_catch m h w = (Ok a, w') /\ Q a.
Proof.
  unfold wp, try_catch. intros Hm Hh.
  destruct (m w) as [[a|e] w']; [eauto | apply Hh].
Qed.

Lemma handler_get_response (req : Request) (orgId : string) (w : World) :
  exists resp w',
    handler_get A req orgId w = (Ok resp, w') /\ scim_response resp.
Proof.
  unfold handler_get. apply try_catch_returns.
  - apply wp_bind. unfold wp at 1, get_db. apply wp_bind.
    unfold skip_take.
    destruct (_ <? 0); [exact I|].
    destruct (0 <=? _); apply wp_ret, wp_ret, scim_list.
  - intros e w'. eexists _, _. split; [reflexivity|]. scim_status.
Qed.

(** The body the POST branch destructures: the request body, parsed when
    it is a string; [None] when [JSON.parse] raises. *)
Definition body_of (req : Request) : option (option json) :=
  match req_body req with
  | Some (JString text) => Some <$> JSON_parse A text
  | body => Some body
  end.

Lemma handler_post_body_of (req : Request) (orgId : string) :
  handler_post orc A req orgId
  = try_catch
      (match body_of req with
       | Some body => handler_post_body orc A body orgId
       | None =>
           logger "Failed to parse JSON body" ;;;
           ret (error_response 400 (Some "Invalid JSON body"))
       end)
      (fun error =>
         logger "Failed to create SCIM user" ;;;
         ret (error_response 500 (Some "Internal server error"))).
Proof.
  unfold handler_post, body_of.
  destruct (req_body req) as [[| | |text| |]|]; try reflexivity.
  destruct (JSON_parse A text); reflexivity.
Qed.


End HandlerStatus.

(** The method, the key and the roles of a request. *)
Definition get_or_post (req : Request) : bool :=
  is_string (req_method req) "GET" || is_string (req_method req) "POST".

Definition organization_scoped (accessLevel : string)
    (orgId : option string) : bool :=
  (accessLevel === "organization") && from_option truthy false orgId.

Definition is_role_name (j : json) : bool :=
  match j with
  | JString s => bool_decide (s ∈ ["OWNER"; "ADMIN"; "MEMBER"; "VIEWER"; "NONE"])
  | _ => false
  end.

(** Roles are invalid when they are a non-empty array with an element that
    is not one of the five role names. *)
Definition invalid_roles (roles : option json) : bool :=
  match roles with
  | Some (JArray (r :: rs)) => negb (forallb is_role_name (r :: rs))
  | _ => false
  end.

Lemma parse_role_is_role_name (j : json) :
  is_role_name j = true <-> is_Some (parse_role j).
Proof.
  destruct j as [| | |s| |]; cbn;
    try (split; [discriminate | intros [? [=]]]).
  rewrite bool_decide_eq_true.
  rewrite !elem_of_cons, elem_of_nil.
  repeat match goal with
         | |- context [if ?s0 === ?t then _ else _] =>
             destruct (String.eqb_spec s0 t)
         end; split; intros H; eauto; try (destruct H as [? [=]]); tauto.
Qed.

Lemma roleSchema_safeParse_cases (l : list json) :
  if forallb is_role_name l
  then exists roles, roleSchema_safeParse l = Some roles
                     /\ head roles = head l ≫= parse_role
                     /\ length roles = length l
  else roleSchema_safeParse l = None.
Proof.
  unfold roleSchema_safeParse. induction l as [|x l IH].
  - exists []. repeat split.
  - cbn [forallb]. destruct (is_role_name x) eqn:Hx.
    + apply parse_role_is_role_name in Hx as [role Hrole].
      cbn [andb]. destruct (forallb is_role_name l).
      * destruct IH as (roles & Hroles & _ & Hlen).
        exists (role :: roles). cbn. rewrite Hrole, Hroles. cbn.
        repeat split. rewrite Hlen. reflexivity.
      * cbn. rewrite Hrole, IH. reflexivity.
    + cbn [andb]. destruct (parse_role x) eqn:Hrole.
      * assert (is_role_name x = true) as Hx'
          by (apply parse_role_is_role_name; eauto).
        congruence.
      * cbn. rewrite Hrole. reflexivity.
Qed.

(** The role the membership gets: the first of the roles, [NONE] without
    roles. *)
Definition role_of (roles : option json) : Role :=
  match roles with
  | Some (JArray (r :: _)) => default NONE (parse_role r)
  | _ => NONE
  end.

Lemma parsedRoles_cases (roles : option json) :
  match roles with
  | Some (JArray (r :: rs)) =>
      match roleSchema_safeParse (r :: rs) with
      | Some (role :: _) => Some role
      | _ => None
      end
  | _ => Some NONE
  end
  = if invalid_roles roles then None else Some (role_of roles).
Proof.
  destruct roles as [[| | | |[|r rs]|]|]; try reflexivity.
  unfold invalid_roles, role_of.
  pose proof (roleSchema_safeParse_cases (r :: rs)) as H.
  destruct (forallb is_role_name (r :: rs)).
  - destruct H as (parsed & -> & Hhead & Hlen).
    destruct parsed as [|role parsed]; [discriminate|].
    cbn in Hhead. cbn. rewrite <- Hhead. reflexivity.
  - rewrite H. reflexivity.
Qed.

Section HandlerCases.

Variable orc : Oracle.
Variable A : ApiBuiltins.

(** The world once the request is logged. *)
Definition received (req : Request) (orgId : string) (w : World) : World :=
  mkWorld (w_db w) (w_cur w)
    (w_log w
     ++ ["Received request for /api/public/scim/Users with method "
         +:+ default "undefined" (req_method req)
         +:+ " for orgId " +:+ orgId]).


Lemma handler_invalid_key (req : Request) (w : World) error :
  get_or_post req = true ->
  verifyAuthHeaderAndReturnScope A (w_db w) (req_authorization req)
    = InvalidKey error ->
  handler orc A req w = (Ok (error_response 401 error), w).
Proof.
  unfold get_or_post, handler. intros H Hauth.
  rewrite <- negb_orb, H. cbn [negb]. unfold bind, get_db. rewrite Hauth.
  reflexivity.
Qed.

Lemma handler_not_scoped (req : Request) (w : World) accessLevel orgId :
  get_or_post req = true ->
  verifyAuthHeaderAndReturnScope A (w_db w) (req_authorization req)
    = ValidKey accessLevel orgId ->
  organization_scoped accessLevel orgId = false ->
  handler orc A req w
  = (Ok (error_response 403
           (Some "Invalid API key. Organization-scoped API key required for this operation.")),
     w).
Proof.
  unfold get_or_post, handler, organization_scoped. intros H Hauth Hscope.
  rewrite <- negb_orb, H. cbn [negb]. unfold bind, get_db. rewrite Hauth.
  rewrite <- negb_andb, Hscope. reflexivity.
Qed.

Lemma handler_scoped (req : Request) (w : World) accessLevel orgId :
  get_or_post req = true ->
  verifyAuthHeaderAndReturnScope A (w_db w) (req_authorization req)
    = ValidKey accessLevel orgId ->
  organization_scoped accessLevel orgId = true ->
  handler orc A req w
  = if is_string (req_method req) "GET"
    then handler_get A req (default "" orgId)
           (received req (default "" orgId) w)
    else handler_post orc A req (default "" orgId)
           (received req (default "" orgId) w).
Proof.
  unfold get_or_post, handler, organization_scoped. intros H Hauth Hscope.
  rewrite <- negb_orb, H. cbn [negb]. unfold bind at 1, get_db. rewrite Hauth.
  rewrite <- negb_andb, Hscope. cbn [negb]. 
  unfold bind at 1, logger.
  destruct (is_string (req_method req) "GET"); reflexivity.
Qed.





End HandlerCases.



(** ** Creating a user (POST) *)

(** The keys of the two tables the route writes: user ids are unique and
    every membership belongs to a user. *)
Definition db_keys_hold (d : DB) : Prop :=
  NoDup (map us_id (users d))
  /\ forall m, m ∈ organizationMemberships d ->
       exists u, u ∈ users d /\ us_id u = om_userId m.

(** The [n]-th generated id is in use neither as a user id nor as a
    membership id. *)
Definition fresh_cuid (orc : Oracle) (d : DB) (n : nat) : Prop :=
  (forall u, u ∈ users d -> us_id u <> db_cuid orc n)
  /\ (forall m, m ∈ organizationMemberships d -> om_id m <> db_cuid orc n).

(** [name?.formatted || displayName] *)
Definition name_of (body : json) : option json :=
  let formatted :=
    match get_property body "name" with
    | None | Some JNull => None
    | Some n => get_property n "formatted"
    end in
  if truthy_json formatted then formatted else get_property body "displayName".

(** A value that is a string, [null] or [undefined]. *)
Definition nullable_string (v : option json) : option (option string) :=
  match v with
  | None | Some JNull => Some None
  | Some (JString s) => Some (Some s)
  | Some _ => None
  end.

(** The password of the body: a string, or a value that counts as false. *)
Definition password_of (body : json) : option (option string) :=
  let password := get_property body "password" in
  if truthy_json password then
    match password with
    | Some (JString p) => Some (Some p)
    | _ => None
    end
  else Some None.

Lemma find_unique_id (us : list User) (u : User) :
  NoDup (map us_id us) -> u ∈ us ->
  find (fun u' => us_id u' === us_id u) us = Some u.
Proof.
  induction us as [|x us IH]; intros Hnd Hin.
  - inversion Hin.
  - cbn in Hnd. apply NoDup_cons in Hnd as [Hx Hnd]. cbn [find].
    destruct (String.eqb_spec (us_id x) (us_id u)) as [E|E].
    + apply elem_of_cons in Hin as [->|Hin]; [reflexivity|].
      exfalso. apply Hx. rewrite E. apply list_elem_of_fmap. eauto.
    + apply elem_of_cons in Hin as [->|Hin]; [congruence|].
      apply IH; assumption.
Qed.

Section HandlerPost.

Variable orc : Oracle.
Variable A : ApiBuiltins.

(** The user the route inserts when no user has the e-mail. *)
Definition new_user (w : World) (userName : string)
    (name password : option string) : User :=
  {| us_id := db_cuid orc (c_cuid (w_cur w));
     us_name := name;
     us_email := Some userName;
     us_password :=
       (fun p => hashPassword A p (bcrypt_salt orc (c_salt (w_cur w))))
         <$> password;
     us_image := None |}.

Lemma handler_post_body_conflict (w : World) (orgId : string) (body : json)
    (userName : string) :
  get_property body "userName" = Some (JString userName) ->
  truthy userName = true ->
  invalid_roles (get_property body "roles") = false ->
  memberships_where (w_db w) (Some userName) orgId <> [] ->
  exists w',
    handler_post_body orc A (Some body) orgId w
    = (Ok (error_response 409
             (Some "User with this userName already exists")), w')
    /\ w_db w' = w_db w.
Proof.
  intros Huser Htruthy Hroles Hexisting.
  unfold handler_post_body.
  destruct body; try discriminate.
  rewrite Huser. cbn [truthy_json]. rewrite Htruthy. cbn [negb].
  rewrite parsedRoles_cases, Hroles.
  unfold bind at 1. cbn [ret]. unfold bind at 1, get_db.
  destruct (memberships_where (w_db w) (Some userName) orgId);
    [congruence|].
  cbn [length Nat.ltb Nat.leb]. eexists. split; reflexivity.
Qed.

(** The world after the salt of the password, if there is one, is drawn. *)
Definition salted (password : option string) (w : World) : World :=
  match password with
  | Some _ =>
      mkWorld (w_db w)
        (mkCursor (c_random (w_cur w)) (c_uuid (w_cur w)) (c_now (w_cur w))
           (c_cuid (w_cur w)) (S (c_salt (w_cur w))))
        (w_log w)
  | None => w
  end.

Lemma password_run (v : option json) (password : option string) w :
  (if truthy_json v then
     match v with
     | Some (JString p) => Some (Some p)
     | _ => None
     end
   else Some None) = Some password ->
  (if truthy_json v then
     match v with
     | Some (JString p) =>
         s <- salt orc ;; ret (Some (hashPassword A p s))
     | _ => throw (TypeError "password")
     end
   else ret None) w
  = (Ok ((fun p => hashPassword A p (bcrypt_salt orc (c_salt (w_cur w))))
           <$> password),
     salted password w).
Proof.
  destruct (truthy_json v).
  - destruct v as [[| | |p| |]|]; try discriminate.
    intros [= <-]. reflexivity.
  - intros [= <-]. reflexivity.
Qed.

Lemma as_nullable_string_run field (v : option json) name w :
  nullable_string v = Some name ->
  as_nullable_string field v w = (Ok name, w).
Proof.
  destruct v as [[| | |s| |]|]; try discriminate; intros [= <-]; reflexivity.
Qed.

Lemma handler_post_body_create (w : World) (orgId : string) (body : json)
    (userName : string) (name password : option string) :
  get_property body "userName" = Some (JString userName) ->
  truthy userName = true ->
  toLowerCase A userName = userName ->
  invalid_roles (get_property body "roles") = false ->
  nullable_string (name_of body) = Some name ->
  password_of body = Some password ->
  db_keys_hold (w_db w) ->
  fresh_cuid orc (w_db w) (c_cuid (w_cur w)) ->
  fresh_cuid orc (w_db w) (S (c_cuid (w_cur w))) ->
  memberships_where (w_db w) (Some userName) orgId = [] ->
  exists (user : User) (membership : OrganizationMembership) (w' : World),
    handler_post_body orc A (Some body) orgId w
    = (Ok (mkResponse 201 (UserBody (scim_user user))), w')
    /\ us_email user = Some userName
    /\ om_orgId membership = orgId
    /\ om_userId membership = us_id user
    /\ om_role membership = role_of (get_property body "roles")
    /\ ((user ∈ users (w_db w)
         /\ w_db w'
            = with_rows T_organizationMemberships
                (organizationMemberships (w_db w) ++ [membership]) (w_db w))
        \/ ((forall u, u ∈ users (w_db w) -> us_email u <> Some userName)
            /\ user = new_user w userName name password
            /\ w_db w'
               = with_rows T_organizationMemberships
                   (organizationMemberships (w_db w) ++ [membership])
                   (with_rows T_users (users (w_db w) ++ [user]) (w_db w)))).
Proof.
  intros Huser Htruthy Hlower Hroles Hname Hpassword [Hnodup Hfk]
    [Hfresh_u Hfresh_m] [Hfresh_u' Hfresh_m'] Hexisting.
  unfold handler_post_body.
  destruct body as [| | | | |fields]; try discriminate.
  rewrite Huser. cbn [truthy_json]. rewrite Htruthy. cbn [negb].
  rewrite parsedRoles_cases, Hroles.
  unfold bind at 1. cbn [ret]. unfold bind at 1, get_db.
  rewrite Hexisting. cbn [length Nat.ltb Nat.leb].
  rewrite Hlower.
  erewrite bind_run by (apply password_run; exact Hpassword).
  erewrite bind_run by (apply as_nullable_string_run; exact Hname).
  assert (w_db (salted password w) = w_db w) as Hdb
    by (destruct password; reflexivity).
  assert (c_cuid (w_cur (salted password w)) = c_cuid (w_cur w)) as Hcuid
    by (destruct password; reflexivity).
  assert (new_user w userName name password
          = {| us_id := db_cuid orc (c_cuid (w_cur (salted password w)));
               us_name := name;
               us_email := Some userName;
               us_password :=
                 (fun p => hashPassword A p
                             (bcrypt_salt orc (c_salt (w_cur w))))
                   <$> password;
               us_image := None |}) as Hnew
    by (rewrite Hcuid; reflexivity).
  set (w1 := salted password w) in *. clearbody w1.
  set (d := w_db w) in *.
  destruct (find (fun u => is_string (us_email u) userName) (users d))
    as [u|] eqn:Hfind.
  - (* the user exists and is reused *)
    apply find_Some_holds in Hfind as Hu. destruct Hu as [Hemail Hin].
    assert (us_email u = Some userName) as Hmail.
    { unfold is_string in Hemail. destruct (us_email u); [|discriminate].
      apply String.eqb_eq in Hemail. congruence. }
    set (m := {| om_id := db_cuid orc (c_cuid (w_cur w));
                 om_orgId := orgId;
                 om_userId := us_id u;
                 om_role := role_of (get_property (JObject fields) "roles") |}).
    assert (existsb (OrganizationMembership_keys m)
              (organizationMemberships d) = false) as Hkeys.
    { apply existsb_false_intro. intros m' Hm'.
      unfold OrganizationMembership_keys. cbn [m om_id om_orgId om_userId].
      apply orb_false_iff. split.
      - apply String.eqb_neq. intros E. apply (Hfresh_m m' Hm'). congruence.
      - apply not_true_iff_false. intros E.
        apply andb_true_iff in E as [E1 E2].
        apply String.eqb_eq in E1, E2.
        assert ((m', u) ∈ memberships_where d (Some userName) orgId) as Hmem.
        { apply memberships_where_spec. repeat split; try done.
          - unfold membership_user. rewrite <- E2.
            apply find_unique_id; assumption.
          - intros e [= <-]. exact Hmail. }
        rewrite Hexisting in Hmem. inversion Hmem. }
    exists u, m. eexists. split.
    + erewrite bind_run
        by (apply upsert_found; cbn [rows T_users]; rewrite Hdb; exact Hfind).
      unfold bind at 1. cbn [cuid]. rewrite Hcuid. fold m.
      erewrite bind_run
        by (apply create_fresh; cbn [rows T_organizationMemberships w_db];
            rewrite Hdb; exact Hkeys).
      reflexivity.
    + repeat split; try done. left. split; [exact Hin|].
      cbn [w_db rows T_organizationMemberships]. rewrite Hdb. reflexivity.
  - (* no user has the e-mail: one is inserted *)
    pose proof (find_None_all _ _ Hfind) as Hnone.
    set (u := new_user w userName name password) in *.
    set (m := {| om_id := db_cuid orc (S (c_cuid (w_cur w)));
                 om_orgId := orgId;
                 om_userId := us_id u;
                 om_role := role_of (get_property (JObject fields) "roles") |}).
    assert (existsb (User_keys u) (users d) = false) as Hukeys.
    { apply existsb_false_intro. intros u' Hu'. unfold User_keys.
      cbn [u new_user us_id us_email]. apply orb_false_iff. split.
      - apply String.eqb_neq. intros E. apply (Hfresh_u u' Hu'). congruence.
      - specialize (Hnone u' Hu'). cbn in Hnone. unfold is_string in Hnone.
        unfold same_nonnull. destruct (us_email u'); [|reflexivity].
        rewrite String.eqb_sym. exact Hnone. }
    assert (existsb (OrganizationMembership_keys m)
              (organizationMemberships d) = false) as Hkeys.
    { apply existsb_false_intro. intros m' Hm'.
      unfold OrganizationMembership_keys. cbn [m om_id om_orgId om_userId].
      apply orb_false_iff. split.
      - apply String.eqb_neq. intros E. apply (Hfresh_m' m' Hm'). congruence.
      - apply andb_false_iff. right. apply String.eqb_neq. intros E.
        destruct (Hfk m' Hm') as (u' & Hu' & Hid).
        apply (Hfresh_u u' Hu'). rewrite Hid, <- E. reflexivity. }
    exists u, m. eexists. split.
    + unfold bind at 1. rewrite upsert_missing
        by (cbn [rows T_users]; rewrite Hdb; exact Hfind).
      unfold bind at 1. unfold bind at 1.
      cbn [cuid ret]. rewrite <- Hnew.
      rewrite create_fresh
        by (cbn [rows T_users w_db]; rewrite Hdb; exact Hukeys).
      unfold bind at 1. cbn [cuid w_cur c_cuid]. rewrite Hcuid. fold m.
      erewrite bind_run
        by (apply create_fresh; cbn [rows T_organizationMemberships T_users
                                       with_rows w_db organizationMemberships];
            rewrite Hdb; exact Hkeys).
      reflexivity.
    + repeat split; try done. right. repeat split.
      * intros u' Hu' E. specialize (Hnone u' Hu'). cbn in Hnone.
        rewrite E in Hnone. cbn in Hnone.
        rewrite String.eqb_refl in Hnone. discriminate.
      * cbn [w_db rows T_organizationMemberships T_users with_rows
               organizationMemberships users].
        rewrite Hdb. reflexivity.
Qed.

End HandlerPost.


Lemma scim_db_keys_hold : db_keys_hold scim_db.
Proof.
  split.
  - apply (bool_decide_unpack _). vm_compute. exact I.
  - intros m Hm. cbn in Hm.
    repeat (apply elem_of_cons in Hm as [->|Hm]);
      [exists scim_user1 | exists scim_user2 | exists scim_user3
      | inversion Hm];
      (split; [|reflexivity]); cbn;
      repeat first [ apply list_elem_of_here | apply list_elem_of_further ].
Qed.

Lemma scim_db_fresh_cuid (n : nat) : (n < 2)%nat ->
  fresh_cuid demo_oracle scim_db n.
Proof.
  intros Hn.
  assert (n = 0 \/ n = 1)%nat as [-> | ->] by lia;
    (split; [intros u Hu | intros m Hm]; cbn in *;
     repeat (match goal with
             | H : _ ∈ _ :: _ |- _ => apply elem_of_cons in H as [->|H]
             | H : _ ∈ [] |- _ => inversion H
             end);
     vm_compute; discriminate).
Qed.

Definition new_user_body : json :=
  JObject [("userName", JString "new@langfuse.com");
           ("displayName", JString "New User");
           ("password", JString "secret");
           ("roles", JArray [JString "ADMIN"])].



(** * Further properties of the SCIM route *)

(** ** What the list (GET) returns *)

(** The users a response lists. *)
Definition resources_of (resp : Response) : list ScimUser :=
  match res_json resp with
  | ListResponseBody _ _ _ _ resources => resources
  | _ => []
  end.

Lemma elem_of_rev {R} (x : R) (l : list R) : x ∈ rev l <-> x ∈ l.
Proof. rewrite !list_elem_of_In. symmetry. apply in_rev. Qed.

Lemma skip_take_ok {R} (skip take : Z) (xs page : list R) w w' :
  skip_take skip take xs w = (Ok page, w') ->
  w' = w /\ forall x, x ∈ page -> x ∈ xs.
Proof.
  unfold skip_take.
  destruct (skip <? 0); [discriminate|].
  destruct (0 <=? take); intros [= <- <-]; (split; [reflexivity|]);
    intros x Hx.
  - apply subseteq_take, subseteq_drop in Hx. exact Hx.
  - apply (proj1 (elem_of_rev _ _)) in Hx.
    apply subseteq_take, subseteq_drop in Hx.
    exact (proj1 (elem_of_rev _ _) Hx).
Qed.

Section HandlerList.

Variable orc : Oracle.
Variable A : ApiBuiltins.

(** The run of the GET branch: the list response, or the error 500 when
    the query is refused; the world is as before but for the log. *)
Lemma handler_get_ok (req : Request) (orgId : string) (w : World)
    (resp : Response) (w' : World) :
  handler_get A req orgId w = (Ok resp, w') ->
  w_db w' = w_db w
  /\ forall r, r ∈ resources_of resp ->
       exists m u,
         (m, u) ∈ memberships_where (w_db w)
                    (whereClause_of A (q_filter (req_query req))) orgId
         /\ r = scim_user u.
Proof.
  unfold handler_get, try_catch, bind, get_db.
  destruct (skip_take _ _ _ w) as [[page|e] w1] eqn:E.
  - apply skip_take_ok in E as [-> Hpage]. intros [= <- <-].
    split; [reflexivity|]. cbn. intros r Hr.
    apply list_elem_of_fmap in Hr as (u & -> & Hu).
    apply list_elem_of_fmap in Hu as ([m u'] & -> & Hmu).
    exists m, u'. split; [apply Hpage, Hmu | reflexivity].
  - unfold skip_take in E.
    destruct (_ <? 0); [|destruct (0 <=? _); discriminate].
    injection E as _ <-. intros [= <- <-]. split; [reflexivity|].
    intros r Hr. inversion Hr.
Qed.

End HandlerList.

(** X1.  The list never shows a user of another organization: every user a
    GET with an organization key returns belongs, through a membership of
    the database, to the organization of the key, and has the e-mail the
    filter asks for when there is a filter. *)
Theorem handler_get_lists_members_only (orc : Oracle) (A : ApiBuiltins)
    (req : Request) (w : World) (orgId : string) (resp : Response)
    (w' : World) :
  req_method req = Some "GET" ->
  verifyAuthHeaderAndReturnScope A (w_db w) (req_authorization req)
    = ValidKey "organization" (Some orgId) ->
  truthy orgId = true ->
  handler orc A req w = (Ok resp, w') ->
  forall r, r ∈ resources_of resp ->
    exists (m : OrganizationMembership) (u : User),
      m ∈ organizationMemberships (w_db w)
      /\ om_orgId m = orgId
      /\ om_userId m = us_id u
      /\ u ∈ users (w_db w)
      /\ r = scim_user u
      /\ (forall e, whereClause_of A (q_filter (req_query req)) = Some e ->
          us_email u = Some e).
Proof.
  intros Hmethod Hauth Horg Hrun r Hr.
  assert (get_or_post req = true) as Hgp
    by (unfold get_or_post; rewrite Hmethod; reflexivity).
  assert (organization_scoped "organization" (Some orgId) = true) as Hscope
    by (unfold organization_scoped; cbn; exact Horg).
  rewrite (handler_scoped orc A req w _ _ Hgp Hauth Hscope) in Hrun.
  rewrite Hmethod in Hrun. cbn [is_string] in Hrun.
  change ("GET" === "GET") with true in Hrun. cbv iota in Hrun.
  change (default "" (Some orgId)) with orgId in Hrun.
  apply handler_get_ok in Hrun as [_ Hres].
  destruct (Hres r Hr) as (m & u & Hmu & ->).
  apply memberships_where_spec in Hmu as (Hm & Ho & Hu & He).
  exists m, u. repeat split; try assumption.
  - unfold membership_user in Hu. apply find_Some_holds in Hu as [Hid _].
    apply eqb_true in Hid. congruence.
  - unfold membership_user in Hu. apply find_Some_holds in Hu as [_ Hin].
    exact Hin.
Qed.

Lemma handler_get_lists_members_only_witness :
  exists (m : OrganizationMembership) (u : User),
    m ∈ organizationMemberships scim_db
    /\ om_orgId m = "seed-org-id"
    /\ om_userId m = us_id u
    /\ u ∈ users scim_db
    /\ scim_user scim_user2 = scim_user u
    /\ (forall e, whereClause_of demo_api None = Some e ->
        us_email u = Some e).
Proof.
  apply (handler_get_lists_members_only demo_oracle demo_api
           (get_request None None) scim_world "seed-org-id"
           (mkResponse 200
              (ListResponseBody [SCIM_LIST_RESPONSE] 2 1 2
                 [scim_user scim_user1; scim_user scim_user2]))
           (snd (handler demo_oracle demo_api (get_request None None)
                   scim_world))
           eq_refl eq_refl eq_refl).
  - apply pair_of_fst. reflexivity.
  - right. left.
Defined.


(** ** What the route writes *)

Section HandlerWrites.

Variable orc : Oracle.
Variable A : ApiBuiltins.

Lemma handler_post_body_keeps (body : option json) (orgId : string)
    (w : World) :
  wp (fun _ => True) (handler_post_body orc A body orgId)
     (fun resp w' => res_status resp = 201 \/ w_db w' = w_db w) w.
Proof.
  unfold handler_post_body.
  destruct body as [body|]; [|exact I].
  destruct body; try exact I;
    (destruct (negb (truthy_json _));
     [apply wp_bind, wp_logger, wp_ret; right; reflexivity|]);
    (match goal with
     | |- wp _ (match ?p with Some _ => _ | None => _ end) _ _ =>
         destruct p as [role|];
         [|apply wp_bind, wp_logger, wp_ret; right; reflexivity]
     end);
    apply wp_bind;
    (match goal with
     | |- wp _ (match ?u with Some _ => _ | None => _ end) _ _ =>
         destruct u as [[| | |userName| |]|]; try exact I
     end);
    apply wp_ret; apply wp_bind; unfold wp at 1, get_db; cbn [w_db];
    (destruct (0 <? length _)%nat;
     [apply wp_bind, wp_logger, wp_ret; right; reflexivity|]);
    do 5 (apply wp_bind, wp_any; intros ? ?);
    apply wp_ret; left; reflexivity.
Qed.

Lemma handler_post_keeps (req : Request) (orgId : string) (w : World) :
  exists resp w',
    handler_post orc A req orgId w = (Ok resp, w')
    /\ (res_status resp = 201 \/ res_status resp = 500
        \/ w_db w' = w_db w).
Proof.
  rewrite handler_post_body_of. unfold try_catch.
  destruct (body_of A req) as [body|].
  - pose proof (handler_post_body_keeps body orgId w) as H. unfold wp in H.
    destruct (handler_post_body orc A body orgId w) as [[resp|e] w'].
    + exists resp, w'. split; [reflexivity|]. tauto.
    + eexists _, _. split; [reflexivity|]. right. left. reflexivity.
  - eexists _, _. split; [reflexivity|]. right. right. reflexivity.
Qed.

Lemma handler_get_keeps (req : Request) (orgId : string) (w : World) :
  exists resp w',
    handler_get A req orgId w = (Ok resp, w') /\ w_db w' = w_db w.
Proof.
  destruct (handler_get_response A req orgId w) as (resp & w' & E & _).
  exists resp, w'. split; [exact E|].
  exact (proj1 (handler_get_ok A req orgId w resp w' E)).
Qed.

End HandlerWrites.

(** X2.  The route always answers, and it writes to the database only on
    the way to a created user: unless the status is 201 (or the 500 of a
    POST that failed half-way), the database is as before; a request that is
    not a POST never writes. *)
Theorem handler_writes_only_on_create (orc : Oracle) (A : ApiBuiltins)
    (req : Request) (w : World) :
  exists (resp : Response) (w' : World),
    handler orc A req w = (Ok resp, w')
    /\ (res_status resp = 201 \/ res_status resp = 500
        \/ w_db w' = w_db w)
    /\ (is_string (req_method req) "POST" = false -> w_db w' = w_db w).
Proof.
  destruct (get_or_post req) eqn:Hmethod.
  2: { unfold handler. unfold get_or_post in Hmethod.
       apply orb_false_iff in Hmethod as [-> ->].
       eexists _, _. split; [reflexivity|]. split; [|reflexivity].
       right. right. reflexivity. }
  destruct (verifyAuthHeaderAndReturnScope A (w_db w) (req_authorization req))
    as [error|accessLevel orgId] eqn:Hauth.
  { rewrite (handler_invalid_key orc A req w error Hmethod Hauth).
    eexists _, _. split; [reflexivity|]. split; [|reflexivity].
    right. right. reflexivity. }
  destruct (organization_scoped accessLevel orgId) eqn:Hscope.
  2: { rewrite (handler_not_scoped orc A req w _ _ Hmethod Hauth Hscope).
       eexists _, _. split; [reflexivity|]. split; [|reflexivity].
       right. right. reflexivity. }
  rewrite (handler_scoped orc A req w _ _ Hmethod Hauth Hscope).
  destruct (is_string (req_method req) "GET") eqn:Hget.
  - destruct (handler_get_keeps A req (default "" orgId)
                (received req (default "" orgId) w)) as (resp & w' & E & Hdb).
    exists resp, w'. split; [exact E|]. split; [|intros _; exact Hdb].
    right. right. exact Hdb.
  - destruct (handler_post_keeps orc A req (default "" orgId)
                (received req (default "" orgId) w)) as (resp & w' & E & H).
    exists resp, w'. split; [exact E|]. split; [exact H|].
    intros Hpost. unfold get_or_post in Hmethod.
    rewrite Hget, Hpost in Hmethod. discriminate.
Qed.

(** ** Pages of the list *)

Lemma take_add {R} (n m : nat) (l : list R) :
  take (n + m) l = take n l ++ take m (drop n l).
Proof.
  revert l. induction n as [|n IH]; intros l; [reflexivity|].
  destruct l as [|x l]; cbn; [destruct m; reflexivity|].
  rewrite IH. reflexivity.
Qed.

(** The answer to a GET whose query the database accepts. *)
Lemma handler_get_page (orc : Oracle) (A : ApiBuiltins) (req : Request)
    (w : World) (orgId : string) :
  req_method req = Some "GET" ->
  verifyAuthHeaderAndReturnScope A (w_db w) (req_authorization req)
    = ValidKey "organization" (Some orgId) ->
  truthy orgId = true ->
  let startIndex := parse_or (q_startIndex (req_query req)) 1 in
  let count := parse_or (q_count (req_query req)) 100 in
  let matching :=
    memberships_where (w_db w) (whereClause_of A (q_filter (req_query req)))
      orgId in
  let page := map scim_user
                (map snd (take (Z.to_nat count)
                            (drop (Z.to_nat (startIndex - 1)) matching))) in
  1 <= startIndex -> 0 <= count ->
  handler orc A req w
  = (Ok (mkResponse 200
           (ListResponseBody [SCIM_LIST_RESPONSE]
              (Z.of_nat (length matching)) startIndex
              (Z.of_nat (length page)) page)),
     received req orgId w).
Proof.
  intros Hmethod Hauth Horg startIndex count matching page Hstart Hcount.
  assert (get_or_post req = true) as Hgp
    by (unfold get_or_post; rewrite Hmethod; reflexivity).
  assert (organization_scoped "organization" (Some orgId) = true) as Hscope
    by (unfold organization_scoped; cbn; exact Horg).
  rewrite (handler_scoped orc A req w _ _ Hgp Hauth Hscope).
  rewrite Hmethod. cbn [is_string]. change ("GET" === "GET") with true.
  cbv iota. change (default "" (Some orgId)) with orgId.
  unfold handler_get, try_catch, bind, get_db, skip_take.
  cbn [w_db received]. fold startIndex count matching.
  destruct (startIndex - 1 <? 0) eqn:Hs; [lia|].
  destruct (0 <=? count) eqn:Hc; [|lia].
  reflexivity.
Qed.

(** X3.  Consecutive pages join: for three GETs with the same key and
    filter, the page of [count1] users from [startIndex] followed by the
    page of [count2] users from [startIndex + count1] is the page of
    [count1 + count2] users from [startIndex]. *)
Theorem handler_get_pages_join (orc : Oracle) (A : ApiBuiltins)
    (req1 req2 req12 : Request) (w w1 w2 w12 : World) (orgId : string)
    (resp1 resp2 resp12 : Response) :
  req_method req1 = Some "GET" -> req_method req2 = Some "GET" ->
  req_method req12 = Some "GET" ->
  req_authorization req2 = req_authorization req1 ->
  req_authorization req12 = req_authorization req1 ->
  q_filter (req_query req2) = q_filter (req_query req1) ->
  q_filter (req_query req12) = q_filter (req_query req1) ->
  verifyAuthHeaderAndReturnScope A (w_db w) (req_authorization req1)
    = ValidKey "organization" (Some orgId) ->
  truthy orgId = true ->
  let startIndex := parse_or (q_startIndex (req_query req1)) 1 in
  let count1 := parse_or (q_count (req_query req1)) 100 in
  let count2 := parse_or (q_count (req_query req2)) 100 in
  1 <= startIndex -> 1 <= count1 -> 1 <= count2 ->
  parse_or (q_startIndex (req_query req2)) 1 = startIndex + count1 ->
  parse_or (q_startIndex (req_query req12)) 1 = startIndex ->
  parse_or (q_count (req_query req12)) 100 = count1 + count2 ->
  handler orc A req1 w = (Ok resp1, w1) ->
  handler orc A req2 w1 = (Ok resp2, w2) ->
  handler orc A req12 w = (Ok resp12, w12) ->
  resources_of resp1 ++ resources_of resp2 = resources_of resp12.
Proof.
  intros Hm1 Hm2 Hm12 Ha2 Ha12 Hf2 Hf12 Hauth Horg startIndex count1 count2
    Hs Hc1 Hc2 Hs2 Hs12 Hc12 H1 H2 H12.
  rewrite (handler_get_page orc A req1 w orgId Hm1 Hauth Horg) in H1
    by (fold startIndex count1; lia).
  injection H1 as <- <-.
  rewrite (handler_get_page orc A req2 _ orgId Hm2) in H2;
    [| cbn [w_db received]; rewrite Ha2; exact Hauth | exact Horg
     | rewrite Hs2; lia | fold count2; lia ].
  injection H2 as <- <-.
  rewrite (handler_get_page orc A req12 w orgId Hm12) in H12;
    [| rewrite Ha12; exact Hauth | exact Horg
     | rewrite Hs12; lia | rewrite Hc12; lia ].
  injection H12 as <- <-.
  cbn [resources_of res_json w_db received].
  rewrite Hs2, Hs12, Hc12, Hf2, Hf12.
  fold startIndex count1 count2.
  set (matching := memberships_where _ _ _).
  rewrite <- !map_app. do 2 f_equal.
  replace (Z.to_nat (count1 + count2))
    with (Z.to_nat count1 + Z.to_nat count2)%nat by lia.
  rewrite take_add, drop_drop. do 3 f_equal. lia.
Qed.

Lemma handler_get_pages_join_witness :
  resources_of
    (mkResponse 200
       (ListResponseBody [SCIM_LIST_RESPONSE] 2 1 1 [scim_user scim_user1]))
  ++ resources_of
       (mkResponse 200
          (ListResponseBody [SCIM_LIST_RESPONSE] 2 2 1
             [scim_user scim_user2]))
  = resources_of
      (mkResponse 200
         (ListResponseBody [SCIM_LIST_RESPONSE] 2 1 2
            [scim_user scim_user1; scim_user scim_user2])).
Proof.
  apply (handler_get_pages_join demo_oracle demo_api
           (get_request (Some "1") (Some "1"))
           (get_request (Some "2") (Some "1"))
           (get_request None (Some "2"))
           scim_world
           (snd (handler demo_oracle demo_api
                   (get_request (Some "1") (Some "1")) scim_world))
           (snd (handler demo_oracle demo_api
                   (get_request (Some "2") (Some "1"))
                   (snd (handler demo_oracle demo_api
                           (get_request (Some "1") (Some "1")) scim_world))))
           (snd (handler demo_oracle demo_api
                   (get_request None (Some "2")) scim_world))
           "seed-org-id");
    try reflexivity; try (vm_compute; discriminate);
    apply pair_of_fst; vm_compute; reflexivity.
Defined.




(** ** The filter of the list *)

Definition quote : string := String dquote "".

(** The words of the filter, up to the opening quote. *)
Definition filter_keyword : string := "userName eq " +:+ quote.

Fixpoint has_quote (s : string) : bool :=
  match s with
  | String c rest => Ascii.eqb c dquote || has_quote rest
  | EmptyString => false
  end.

(** Equal but for the case of letters. *)
Fixpoint same_ci (a b : string) : bool :=
  match a, b with
  | EmptyString, EmptyString => true
  | String x a', String y b' =>
      Ascii.eqb (lower_ascii x) (lower_ascii y) && same_ci a' b'
  | _, _ => false
  end.

Lemma strip_prefix_ci_app (p kw x : string) :
  same_ci p kw = true -> strip_prefix_ci p (kw +:+ x) = Some x.
Proof.
  revert kw. induction p as [|a p IH]; intros [|b kw] H;
    cbn [same_ci] in H; try discriminate; [reflexivity|].
  apply andb_true_iff in H as [Hab H].
  change (strip_prefix_ci (String a p) (String b (kw +:+ x)) = Some x).
  cbn [strip_prefix_ci]. rewrite Hab. apply IH, H.
Qed.

Lemma strip_prefix_ci_inv (p s x : string) :
  strip_prefix_ci p s = Some x ->
  exists kw, s = kw +:+ x /\ same_ci p kw = true.
Proof.
  revert s. induction p as [|a p IH]; intros s H;
    cbn [strip_prefix_ci] in H.
  - injection H as ->. exists "". split; reflexivity.
  - destruct s as [|b s]; [discriminate|].
    destruct (Ascii.eqb (lower_ascii a) (lower_ascii b)) eqn:E;
      [|discriminate].
    destruct (IH s H) as (kw & -> & Hkw).
    exists (String b kw). split; [reflexivity|].
    cbn [same_ci]. rewrite E. exact Hkw.
Qed.

Lemma span_not_quote_app (v rest : string) :
  has_quote v = false ->
  span_not_quote (v +:+ quote +:+ rest) = (v, quote +:+ rest).
Proof.
  induction v as [|c v IH]; intros H.
  - reflexivity.
  - cbn in H. apply orb_false_iff in H as [Hc Hv].
    change (span_not_quote (String c (v +:+ quote +:+ rest))
            = (String c v, quote +:+ rest)).
    cbn [span_not_quote]. rewrite Hc, (IH Hv). reflexivity.
Qed.

Lemma span_not_quote_inv (s : string) :
  s = fst (span_not_quote s) +:+ snd (span_not_quote s)
  /\ has_quote (fst (span_not_quote s)) = false
  /\ (snd (span_not_quote s) = ""
      \/ exists rest, snd (span_not_quote s) = quote +:+ rest).
Proof.
  induction s as [|c s (IH1 & IH2 & IH3)]; cbn [span_not_quote].
  - repeat split. left. reflexivity.
  - destruct (Ascii.eqb c dquote) eqn:E.
    + cbn [fst snd]. repeat split. right. exists s.
      apply Ascii.eqb_eq in E. subst c. reflexivity.
    + cbn [fst snd has_quote]. rewrite E, IH2. repeat split; [|exact IH3].
      change (String c s
              = String c (fst (span_not_quote s) +:+ snd (span_not_quote s))).
      rewrite <- IH1. reflexivity.
Qed.

Lemma match_userName_eq_here_app (kw v rest : string) :
  same_ci filter_keyword kw = true -> v <> "" -> has_quote v = false ->
  match_userName_eq_here (kw +:+ v +:+ quote +:+ rest) = Some v.
Proof.
  intros Hkw Hv Hq. unfold match_userName_eq_here.
  fold quote. fold filter_keyword.
  rewrite (strip_prefix_ci_app _ _ _ Hkw). cbn [mbind option_bind].
  rewrite (span_not_quote_app _ _ Hq). cbn [fst snd].
  destruct v; [congruence|]. reflexivity.
Qed.

Lemma match_userName_eq_here_inv (s v : string) :
  match_userName_eq_here s = Some v ->
  exists kw rest,
    s = kw +:+ v +:+ quote +:+ rest
    /\ same_ci filter_keyword kw = true /\ v <> "" /\ has_quote v = false.
Proof.
  unfold match_userName_eq_here. fold quote. fold filter_keyword.
  destruct (strip_prefix_ci filter_keyword s) as [x|] eqn:Hp; [|discriminate].
  cbn [mbind option_bind].
  destruct (strip_prefix_ci_inv _ _ _ Hp) as (kw & -> & Hkw).
  destruct (span_not_quote_inv x) as (Hx & Hq & Hrest).
  destruct (fst (span_not_quote x)) as [|c v'] eqn:Hfst; [discriminate|].
  destruct (snd (span_not_quote x)) as [|c' r'] eqn:Hsnd; [discriminate|].
  intros [= <-].
  destruct Hrest as [Hrest|(rest & Hrest)]; [discriminate|].
  exists kw, rest. rewrite Hx, Hrest. repeat split; try assumption.
  discriminate.
Qed.

Lemma match_userName_eq_front (s v : string) :
  match_userName_eq_here s = Some v -> match_userName_eq s = Some v.
Proof.
  intros H. destruct s; cbn [match_userName_eq]; rewrite H; reflexivity.
Qed.

Lemma match_userName_eq_inv (s v : string) :
  match_userName_eq s = Some v ->
  exists pre kw rest,
    s = pre +:+ kw +:+ v +:+ quote +:+ rest
    /\ same_ci filter_keyword kw = true /\ v <> "" /\ has_quote v = false.
Proof.
  induction s as [|c s IH]; cbn [match_userName_eq].
  - destruct (match_userName_eq_here "") eqn:E; [|discriminate].
    intros [= ->]. destruct (match_userName_eq_here_inv _ _ E)
      as (kw & rest & Hs & H). exists "", kw, rest. auto.
  - destruct (match_userName_eq_here (String c s)) eqn:E.
    + intros [= ->]. destruct (match_userName_eq_here_inv _ _ E)
        as (kw & rest & Hs & H). exists "", kw, rest. auto.
    + intros H. destruct (IH H) as (pre & kw & rest & -> & H').
      exists (String c pre), kw, rest. auto.
Qed.

(** X5.  A filter that starts with [userName eq] (in either case of the
    letters) and a value in double quotes selects the users whose e-mail is
    the value in lower case; what follows the closing quote is ignored. *)
Theorem whereClause_of_userName_eq (A : ApiBuiltins) (kw v rest : string) :
  same_ci filter_keyword kw = true -> v <> "" -> has_quote v = false ->
  whereClause_of A (Some (QString (kw +:+ v +:+ quote +:+ rest)))
  = Some (toLowerCase A v).
Proof.
  intros Hkw Hv Hq. unfold whereClause_of.
  assert (truthy (kw +:+ v +:+ quote +:+ rest) = true) as ->
    by (destruct kw; [discriminate | reflexivity]).
  rewrite (match_userName_eq_front _ _
             (match_userName_eq_here_app _ _ rest Hkw Hv Hq)).
  reflexivity.
Qed.

Lemma whereClause_of_userName_eq_witness :
  whereClause_of demo_api
    (Some (QString ("USERNAME EQ " +:+ quote +:+ "Demo@Langfuse.com"
                    +:+ quote +:+ " and active eq true")))
  = Some "demo@langfuse.com".
Proof.
  exact (whereClause_of_userName_eq demo_api ("USERNAME EQ " +:+ quote)
           "Demo@Langfuse.com" " and active eq true" eq_refl
           ltac:(discriminate) eq_refl).
Defined.

(** X6.  Nothing else is a filter: when the route restricts the e-mail, the
    filter is a single string that holds the words [userName eq] and a
    quoted value without a quote in it, and the e-mail is that value in
    lower case.  Any other filter (another attribute or operator, a filter
    given twice) restricts nothing. *)
Theorem whereClause_of_only_userName_eq (A : ApiBuiltins)
    (filter : option QueryValue) (email : string) :
  whereClause_of A filter = Some email ->
  exists pre kw v rest,
    filter = Some (QString (pre +:+ kw +:+ v +:+ quote +:+ rest))
    /\ same_ci filter_keyword kw = true
    /\ v <> "" /\ has_quote v = false
    /\ email = toLowerCase A v.
Proof.
  unfold whereClause_of.
  destruct filter as [[s|xs]|]; try discriminate.
  destruct (truthy s); [|discriminate].
  destruct (match_userName_eq s) as [v|] eqn:E; [|discriminate].
  intros [= <-].
  destruct (match_userName_eq_inv _ _ E) as (pre & kw & rest & -> & H).
  exists pre, kw, v, rest. tauto.
Qed.

Lemma whereClause_of_only_userName_eq_witness :
  exists pre kw v rest,
    Some (QString ("x and userName eq " +:+ quote +:+ "A@b.c" +:+ quote))
    = Some (QString (pre +:+ kw +:+ v +:+ quote +:+ rest))
    /\ same_ci filter_keyword kw = true
    /\ v <> "" /\ has_quote v = false
    /\ "a@b.c" = toLowerCase demo_api v.
Proof.
  exact (whereClause_of_only_userName_eq demo_api
           (Some (QString ("x and userName eq " +:+ quote +:+ "A@b.c"
                           +:+ quote)))
           "a@b.c" eq_refl).
Defined.


(** ** A created user, seen again *)

Section HandlerCreated.

Variable orc : Oracle.
Variable A : ApiBuiltins.

(** A POST that passes the checks of the key runs the body of the POST
    branch; what the body returns is the answer. *)
Lemma handler_post_returns (req : Request) (w : World) (orgId : string)
    (body : json) (resp : Response) (w' : World) :
  req_method req = Some "POST" ->
  verifyAuthHeaderAndReturnScope A (w_db w) (req_authorization req)
    = ValidKey "organization" (Some orgId) ->
  truthy orgId = true ->
  body_of A req = Some (Some body) ->
  handler_post_body orc A (Some body) orgId (received req orgId w)
  = (Ok resp, w') ->
  handler orc A req w = (Ok resp, w').
Proof.
  intros Hmethod Hauth Horg Hbody Hrun.
  assert (get_or_post req = true) as Hgp
    by (unfold get_or_post; rewrite Hmethod; reflexivity).
  assert (organization_scoped "organization" (Some orgId) = true) as Hscope
    by (unfold organization_scoped; cbn; exact Horg).
  rewrite (handler_scoped orc A req w _ _ Hgp Hauth Hscope).
  rewrite Hmethod. cbn [is_string]. change ("POST" === "GET") with false.
  change (default "" (Some orgId)) with orgId.
  cbv iota. rewrite handler_post_body_of, Hbody.
  unfold try_catch. cbv beta iota. rewrite Hrun. reflexivity.
Qed.

Lemma omap_ext_in {X Y} (f g : X -> option Y) (l : list X) :
  (forall x, x ∈ l -> f x = g x) -> omap f l = omap g l.
Proof.
  induction l as [|x l IH]; intros H; [reflexivity|].
  cbn. rewrite (H x) by left. rewrite IH; [reflexivity|].
  intros y Hy. apply H. right. exact Hy.
Qed.

(** The memberships with the e-mail once the user is created: the new
    membership, and no other. *)
Lemma memberships_where_created (d d' : DB) (orgId userName : string)
    (user : User) (membership : OrganizationMembership) :
  db_keys_hold d ->
  memberships_where d (Some userName) orgId = [] ->
  us_email user = Some userName ->
  om_orgId membership = orgId ->
  om_userId membership = us_id user ->
  (user ∈ users d
   /\ d' = with_rows T_organizationMemberships
             (organizationMemberships d ++ [membership]) d)
  \/ ((forall u, u ∈ users d -> us_id u <> us_id user)
      /\ d' = with_rows T_organizationMemberships
                (organizationMemberships d ++ [membership])
                (with_rows T_users (users d ++ [user]) d)) ->
  memberships_where d' (Some userName) orgId = [(membership, user)].
Proof.
  intros [Hnodup Hfk] Hnone Hemail Horg Hid Hd'.
  assert (forall us,
            (forall m, m ∈ organizationMemberships d ->
                       find (fun u => us_id u === om_userId m) us
                       = find (fun u => us_id u === om_userId m) (users d)) ->
            find (fun u => us_id u === us_id user) us = Some user ->
            users d' = us ->
            organizationMemberships d'
            = organizationMemberships d ++ [membership] ->
            memberships_where d' (Some userName) orgId
            = [(membership, user)]) as Hgen.
  { intros us Hold Hnew Hus Hms. unfold memberships_where in *.
    rewrite Hms, omap_app. unfold membership_user in *. rewrite Hus.
    rewrite (omap_ext_in _
               (fun m =>
                  if om_orgId m === orgId
                  then match find (fun u => us_id u === om_userId m) (users d)
                       with
                       | Some u =>
                           if is_string (us_email u) userName
                           then Some (m, u) else None
                       | None => None
                       end
                  else None) (organizationMemberships d))
      by (intros m Hm; rewrite (Hold m Hm); reflexivity).
    rewrite Hnone. cbn. rewrite Horg, String.eqb_refl, Hid, Hnew, Hemail.
    cbn. rewrite String.eqb_refl. reflexivity. }
  destruct Hd' as [[Hin ->] | [Hfresh ->]].
  - apply (Hgen (users d)); try reflexivity.
    apply find_unique_id; assumption.
  - apply (Hgen (users d ++ [user])); try reflexivity.
    + intros m Hm. destruct (Hfk m Hm) as (u & Hu & Huid).
      rewrite <- Huid.
      rewrite (find_unique_id _ _ Hnodup Hu).
      destruct (find_split _ _ _ (find_unique_id _ _ Hnodup Hu))
        as (l1 & l2 & Hl & Hl1 & Hr).
      rewrite Hl, <- app_assoc. cbn. apply find_middle; assumption.
    + rewrite find_app_none.
      * cbn. rewrite String.eqb_refl. reflexivity.
      * destruct (find _ (users d)) as [u|] eqn:Hf; [|reflexivity].
        apply find_Some_holds in Hf as [Hu Hin]. apply eqb_true in Hu.
        destruct (Hfresh u Hin Hu).
Qed.

(** A POST that creates the membership, with what it leaves. *)
Lemma handler_post_creates (req : Request) (w : World) (orgId : string)
    (body : json) (userName : string) (name password : option string) :
  req_method req = Some "POST" ->
  verifyAuthHeaderAndReturnScope A (w_db w) (req_authorization req)
    = ValidKey "organization" (Some orgId) ->
  truthy orgId = true ->
  body_of A req = Some (Some body) ->
  get_property body "userName" = Some (JString userName) ->
  truthy userName = true ->
  toLowerCase A userName = userName ->
  invalid_roles (get_property body "roles") = false ->
  nullable_string (name_of body) = Some name ->
  password_of body = Some password ->
  db_keys_hold (w_db w) ->
  fresh_cuid orc (w_db w) (c_cuid (w_cur w)) ->
  fresh_cuid orc (w_db w) (S (c_cuid (w_cur w))) ->
  memberships_where (w_db w) (Some userName) orgId = [] ->
  exists (user : User) (membership : OrganizationMembership) (w' : World),
    handler orc A req w
    = (Ok (mkResponse 201 (UserBody (scim_user user))), w')
    /\ us_email user = Some userName
    /\ memberships_where (w_db w') (Some userName) orgId
       = [(membership, user)].
Proof.
  intros Hmethod Hauth Horg Hbody Huser Htruthy Hlower Hroles Hname
    Hpassword Hkeys Hfresh Hfresh' Hnone.
  destruct (handler_post_body_create orc A (received req orgId w) orgId body
              userName name password Huser Htruthy Hlower Hroles Hname
              Hpassword Hkeys Hfresh Hfresh' Hnone)
    as (user & membership & w' & Hrun & Hemail & Hmo & Hmu & _ & Hdb).
  exists user, membership, w'. split; [|split; [exact Hemail|]].
  - exact (handler_post_returns req w orgId body _ _ Hmethod Hauth Horg
             Hbody Hrun).
  - apply (memberships_where_created (w_db w)); try assumption.
    cbn [w_db received] in Hdb.
    destruct Hdb as [Hdb | (_ & Hnew & Hdb)]; [left; exact Hdb|].
    right. split; [|exact Hdb].
    intros u Hu. rewrite Hnew. cbn [new_user us_id received w_cur].
    apply (proj1 Hfresh u Hu).
Qed.

End HandlerCreated.

(** The conditions under which a POST can create: the request carries an
    organization key and a body whose [userName] is a string in lower case,
    whose roles are absent or valid and whose name and password are strings
    when given. *)
Definition creating_post (A : ApiBuiltins) (req : Request) (d : DB)
    (orgId userName : string) : Prop :=
  req_method req = Some "POST"
  /\ verifyAuthHeaderAndReturnScope A d (req_authorization req)
     = ValidKey "organization" (Some orgId)
  /\ truthy orgId = true
  /\ exists body name password,
       body_of A req = Some (Some body)
       /\ get_property body "userName" = Some (JString userName)
       /\ truthy userName = true
       /\ toLowerCase A userName = userName
       /\ invalid_roles (get_property body "roles") = false
       /\ nullable_string (name_of body) = Some name
       /\ password_of body = Some password.

(** X7.  A created user is listed.  On a database whose keys hold and
    with fresh ids, a POST with an organization key for a [userName] in
    lower case that has no membership in the organization is answered with
    201; a GET of the same organization that follows and filters by the
    [userName], with the default paging, returns exactly this user, the one
    of the 201 answer. *)
Theorem handler_post_then_get (orc : Oracle) (A : ApiBuiltins)
    (post get : Request) (w w' : World) (orgId userName : string)
    (resp : Response) :
  creating_post A post (w_db w) orgId userName ->
  db_keys_hold (w_db w) ->
  fresh_cuid orc (w_db w) (c_cuid (w_cur w)) ->
  fresh_cuid orc (w_db w) (S (c_cuid (w_cur w))) ->
  memberships_where (w_db w) (Some userName) orgId = [] ->
  handler orc A post w = (Ok resp, w') ->
  req_method get = Some "GET" ->
  verifyAuthHeaderAndReturnScope A (w_db w') (req_authorization get)
    = ValidKey "organization" (Some orgId) ->
  whereClause_of A (q_filter (req_query get)) = Some userName ->
  q_startIndex (req_query get) = None ->
  q_count (req_query get) = None ->
  exists user : ScimUser,
    resp = mkResponse 201 (UserBody user)
    /\ su_userName user = Some userName
    /\ fst (handler orc A get w')
       = Ok (mkResponse 200
               (ListResponseBody [SCIM_LIST_RESPONSE] 1 1 1 [user])).
Proof.
  intros (Hmethod & Hauth & Horg & body & name & password & Hbody & Huser
          & Htruthy & Hlower & Hroles & Hname & Hpassword)
    Hkeys Hfresh Hfresh' Hnone Hpost Hget Hauth' Hfilter Hstart Hcount.
  destruct (handler_post_creates orc A post w orgId body userName name
              password Hmethod Hauth Horg Hbody Huser Htruthy Hlower Hroles
              Hname Hpassword Hkeys Hfresh Hfresh' Hnone)
    as (user & membership & w1 & Hrun & Hemail & Hlist).
  rewrite Hrun in Hpost. injection Hpost as <- <-.
  exists (scim_user user). split; [reflexivity|]. split; [exact Hemail|].
  rewrite (handler_get_page orc A get w1 orgId Hget Hauth' Horg)
    by (rewrite ?Hstart, ?Hcount; cbn; lia).
  rewrite Hfilter, Hlist, Hstart, Hcount. reflexivity.
Qed.

(** X8.  A created user cannot be created twice.  Under the conditions
    of X7 the POST is answered with 201, and a further POST of the same
    organization for the same [userName] in lower case is answered with 409
    and writes nothing. *)
Theorem handler_post_twice (orc : Oracle) (A : ApiBuiltins)
    (post post' : Request) (w w' : World) (orgId userName : string)
    (resp : Response) :
  creating_post A post (w_db w) orgId userName ->
  db_keys_hold (w_db w) ->
  fresh_cuid orc (w_db w) (c_cuid (w_cur w)) ->
  fresh_cuid orc (w_db w) (S (c_cuid (w_cur w))) ->
  memberships_where (w_db w) (Some userName) orgId = [] ->
  handler orc A post w = (Ok resp, w') ->
  creating_post A post' (w_db w') orgId userName ->
  res_status resp = 201
  /\ exists w'' : World,
       handler orc A post' w'
       = (Ok (error_response 409
                (Some "User with this userName already exists")), w'')
       /\ w_db w'' = w_db w'.
Proof.
  intros (Hmethod & Hauth & Horg & body & name & password & Hbody & Huser
          & Htruthy & Hlower & Hroles & Hname & Hpassword)
    Hkeys Hfresh Hfresh' Hnone Hpost
    (Hmethod' & Hauth' & _ & body' & name' & password' & Hbody' & Huser'
     & _ & _ & Hroles' & _).
  destruct (handler_post_creates orc A post w orgId body userName name
              password Hmethod Hauth Horg Hbody Huser Htruthy Hlower Hroles
              Hname Hpassword Hkeys Hfresh Hfresh' Hnone)
    as (user & membership & w1 & Hrun & _ & Hlist).
  rewrite Hrun in Hpost. injection Hpost as <- <-.
  split; [reflexivity|].
  destruct (handler_post_body_conflict orc A (received post' orgId w1) orgId
              body' userName Huser' Htruthy Hroles')
    as (w'' & Hrun' & Hdb'').
  { cbn [w_db received]. rewrite Hlist. discriminate. }
  exists w''. split; [|exact Hdb''].
  exact (handler_post_returns orc A post' w1 orgId body' _ _ Hmethod'
           Hauth' Horg Hbody' Hrun').
Qed.

Lemma new_user_creating_post (d : DB) :
  creating_post demo_api (post_request (Some new_user_body)) d "seed-org-id"
    "new@langfuse.com".
Proof.
  repeat split.
  exists new_user_body, (Some "New User"), (Some "secret").
  repeat split; vm_compute; reflexivity.
Qed.

Definition filter_request (filter : string) : Request :=
  {| req_method := Some "GET";
     req_authorization := Some "Bearer org-key";
     req_query := mkQuery (Some (QString filter)) None None;
     req_body := None |}.

Abbreviation demo_post :=
  (handler demo_oracle demo_api (post_request (Some new_user_body))
     scim_world) (only parsing).

Definition demo_created : Response :=
  Eval vm_compute in
    match fst demo_post with
    | Ok resp => resp
    | Throw _ => mkResponse 0 (ErrorBody [] None 0)
    end.

Lemma demo_post_eq : demo_post = (Ok demo_created, snd demo_post).
Proof. apply pair_of_fst. vm_compute. reflexivity. Qed.

Lemma handler_post_then_get_witness :
  exists user : ScimUser,
    demo_created = mkResponse 201 (UserBody user)
    /\ su_userName user = Some "new@langfuse.com"
    /\ fst (handler demo_oracle demo_api
              (filter_request ("userName eq " +:+ quote +:+ "new@langfuse.com"
                               +:+ quote))
              (snd demo_post))
       = Ok (mkResponse 200
               (ListResponseBody [SCIM_LIST_RESPONSE] 1 1 1 [user])).
Proof.
  apply (handler_post_then_get demo_oracle demo_api
           (post_request (Some new_user_body)) _ scim_world (snd demo_post)
           "seed-org-id" "new@langfuse.com" demo_created
           (new_user_creating_post _) scim_db_keys_hold
           (scim_db_fresh_cuid 0 ltac:(lia))
           (scim_db_fresh_cuid 1 ltac:(lia)));
    first [exact demo_post_eq | reflexivity].
Defined.

Lemma handler_post_twice_witness :
  res_status demo_created = 201
  /\ exists w'' : World,
       handler demo_oracle demo_api (post_request (Some new_user_body))
         (snd demo_post)
       = (Ok (error_response 409
                (Some "User with this userName already exists")), w'')
       /\ w_db w'' = w_db (snd demo_post).
Proof.
  apply (handler_post_twice demo_oracle demo_api
           (post_request (Some new_user_body))
           (post_request (Some new_user_body)) scim_world (snd demo_post)
           "seed-org-id" "new@langfuse.com" demo_created
           (new_user_creating_post _) scim_db_keys_hold
           (scim_db_fresh_cuid 0 ltac:(lia))
           (scim_db_fresh_cuid 1 ltac:(lia))).
  - reflexivity.
  - exact demo_post_eq.
  - apply new_user_creating_post.
Defined.
